(** * Xenia shader microcode analysis and translation driver

    A shallow embedding of [src/xenia/gpu/shader_translator.cc]:
    the analysis pass [Shader::AnalyzeUcode] with its [Gather*] helpers,
    the instruction parsers, the nop predicates of [ParsedAluInstruction]
    and the entry of [ShaderTranslator::TranslateAnalyzedShader].

    Conventions.
    - A [uint32_t] is a [Z]; arithmetic that can leave the 32-bit range is
      wrapped with [u32].  Shifts are [Z.shiftl]/[Z.shiftr], masks [Z.land].
    - A C++ [enum class] is an inductive type inside a module of the same
      name, so that [InstructionStorageTarget.kRegister] reads as in the
      source.  The two ALU opcode enums stay numeric, because the source
      indexes its opcode tables with them.
    - A fixed-size C array is a list, read with [arr_get] and written with
      stdpp's [<[i:=x]>].  An access out of range is undefined behaviour in
      C++; here a read yields the given default and a write does nothing.
    - [std::set<uint32_t>] is [gset Z].
    - Output parameters ([instr], [result], [out_op]) are passed in and
      returned: a parser only assigns some fields, the others keep what the
      caller's default-constructed object had.
    - The declarations of [ucode.h], [shader.h] and [xenos.h] (bit-field
      accessors, enum numbering, small inline helpers) are not part of the
      translated file.  They are taken as parameters, bundled in the
      classes named [...Decl]; module [Xenos] gives one instance, used to
      run the definitions on concrete microcode (modules [Sample...]).
    - The assertion macros ([assert_true], [assert_always], ...) compile to
      nothing in the build that is modelled. *)

From Stdlib Require Import ZArith Lia String.
From stdpp Require Import base decidable option list gmap sets.

Local Open Scope Z_scope.

(** ** Machine integers and arrays *)

Definition u32 (x : Z) : Z := x mod 2 ^ 32.

Definition UINT32_MAX : Z := 2 ^ 32 - 1.

(** [arr[i]] for a C array held as a list. *)
Definition arr_get {A : Type} (d : A) (arr : list A) (i : Z) : A :=
  if i <? 0 then d else default d (arr !! Z.to_nat i).

(** [arr[i] = f(arr[i])]. *)
Definition arr_upd {A : Type} (d : A) (arr : list A) (i : Z) (f : A -> A) : list A :=
  if i <? 0 then arr else <[Z.to_nat i := f (arr_get d arr i)]> arr.

(** A C++ truth test of an integer. *)
Definition nonzero (x : Z) : bool := negb (x =? 0).

Lemma u32_range (x : Z) : 0 <= u32 x < 2 ^ 32.
Proof. unfold u32. apply Z.mod_pos_bound. lia. Qed.

Lemma u32_small (x : Z) : 0 <= x < 2 ^ 32 -> u32 x = x.
Proof. intros H. unfold u32. apply Z.mod_small. exact H. Qed.

(** ** Enumerations *)

Module ShaderType.
Inductive t := kVertex | kPixel.
#[global] Instance eq_dec : EqDecision t.
Proof. solve_decision. Defined.
End ShaderType.

Module ControlFlowOpcode.
Inductive t :=
  | kNop | kExec | kExecEnd | kCondExec | kCondExecEnd | kCondExecPred
  | kCondExecPredEnd | kLoopStart | kLoopEnd | kCondCall | kReturn | kCondJmp
  | kAlloc | kCondExecPredClean | kCondExecPredCleanEnd | kMarkVsFetchDone.
#[global] Instance eq_dec : EqDecision t.
Proof. solve_decision. Defined.
End ControlFlowOpcode.

Module AllocType.
(** The source tests only for [kMemory]. *)
Inductive t := kNone | kVsPosition | kVsInterpolators | kMemory.
#[global] Instance eq_dec : EqDecision t.
Proof. solve_decision. Defined.
End AllocType.

Module FetchOpcode.
(** The enumerators the source names.  The opcode field is five bits wide,
    so a word can hold a value that names none of them: [kOther]. *)
Inductive t :=
  | kVertexFetch | kTextureFetch | kGetTextureBorderColorFrac
  | kGetTextureComputedLod | kGetTextureGradients | kGetTextureWeights
  | kSetTextureLod | kSetTextureGradientsHorz | kSetTextureGradientsVert
  | kOther (raw : Z).
#[global] Instance eq_dec : EqDecision t.
Proof. solve_decision. Defined.
End FetchOpcode.

Module FetchOpDimension.
Inductive t := k1D | k2D | k3DOrStacked | kCube.
#[global] Instance eq_dec : EqDecision t.
Proof. solve_decision. Defined.
End FetchOpDimension.

Module SwizzleSource.
Inductive t := kX | kY | kZ | kW | k0 | k1.
#[global] Instance eq_dec : EqDecision t.
Proof. solve_decision. Defined.
End SwizzleSource.

Module InstructionStorageTarget.
Inductive t :=
  | kNone | kRegister | kInterpolator | kPosition
  | kPointSizeEdgeFlagKillVertex | kExportAddress | kExportData | kColor
  | kDepth.
#[global] Instance eq_dec : EqDecision t.
Proof. solve_decision. Defined.
End InstructionStorageTarget.

Module InstructionStorageSource.
Inductive t := kRegister | kConstantFloat | kVertexFetchConstant | kTextureFetchConstant.
#[global] Instance eq_dec : EqDecision t.
Proof. solve_decision. Defined.
End InstructionStorageSource.

Module InstructionStorageAddressingMode.
Inductive t := kStatic | kAddressAbsolute | kAddressRelative.
#[global] Instance eq_dec : EqDecision t.
Proof. solve_decision. Defined.
End InstructionStorageAddressingMode.

(** The type discriminator of parsed exec, call and jump instructions. *)
Module CfType.
Inductive t := kUnconditional | kPredicated | kConditional.
#[global] Instance eq_dec : EqDecision t.
Proof. solve_decision. Defined.
End CfType.

(** [ucode::AluVectorOpcode] and [ucode::AluScalarOpcode], by value.  The
    numbers are the positions in the opcode tables of the source. *)
Module AluVectorOpcode.
Definition kMax : Z := 2.
Definition kMad : Z := 11.
End AluVectorOpcode.

Module AluScalarOpcode.
Definition kRetainPrev : Z := 50.
End AluScalarOpcode.

(** [GetSwizzleFromComponentIndex]: component index 0..3 to x, y, z, w. *)
Definition GetSwizzleFromComponentIndex (i : Z) : SwizzleSource.t :=
  if i =? 0 then SwizzleSource.kX
  else if i =? 1 then SwizzleSource.kY
  else if i =? 2 then SwizzleSource.kZ
  else SwizzleSource.kW.

(** ** Operands and results *)

Module InstructionOperand.
Record t := mk {
  storage_source : InstructionStorageSource.t;
  storage_index : Z;
  storage_addressing_mode : InstructionStorageAddressingMode.t;
  is_negated : bool;
  is_absolute_value : bool;
  component_count : Z;
  components : list SwizzleSource.t
}.
(** A default-constructed operand. *)
Definition init : t :=
  mk InstructionStorageSource.kRegister 0 InstructionStorageAddressingMode.kStatic
     false false 4
     [SwizzleSource.kX; SwizzleSource.kY; SwizzleSource.kZ; SwizzleSource.kW].
Definition set_storage_source v (o : t) : t :=
  mk v (storage_index o) (storage_addressing_mode o) (is_negated o)
     (is_absolute_value o) (component_count o) (components o).
Definition set_storage_index v (o : t) : t :=
  mk (storage_source o) v (storage_addressing_mode o) (is_negated o)
     (is_absolute_value o) (component_count o) (components o).
Definition set_storage_addressing_mode v (o : t) : t :=
  mk (storage_source o) (storage_index o) v (is_negated o)
     (is_absolute_value o) (component_count o) (components o).
Definition set_is_negated v (o : t) : t :=
  mk (storage_source o) (storage_index o) (storage_addressing_mode o) v
     (is_absolute_value o) (component_count o) (components o).
Definition set_is_absolute_value v (o : t) : t :=
  mk (storage_source o) (storage_index o) (storage_addressing_mode o)
     (is_negated o) v (component_count o) (components o).
Definition set_component_count v (o : t) : t :=
  mk (storage_source o) (storage_index o) (storage_addressing_mode o)
     (is_negated o) (is_absolute_value o) v (components o).
(** [components[j] = v] *)
Definition set_component (j : Z) v (o : t) : t :=
  mk (storage_source o) (storage_index o) (storage_addressing_mode o)
     (is_negated o) (is_absolute_value o) (component_count o)
     (arr_upd SwizzleSource.kX (components o) j (fun _ => v)).
End InstructionOperand.

Module InstructionResult.
Record t := mk {
  storage_target : InstructionStorageTarget.t;
  storage_index : Z;
  storage_addressing_mode : InstructionStorageAddressingMode.t;
  is_clamped : bool;
  original_write_mask : Z;
  components : list SwizzleSource.t
}.
(** A default-constructed result. *)
Definition init : t :=
  mk InstructionStorageTarget.kNone 0 InstructionStorageAddressingMode.kStatic
     false 0
     [SwizzleSource.kX; SwizzleSource.kY; SwizzleSource.kZ; SwizzleSource.kW].
Definition set_storage_target v (r : t) : t :=
  mk v (storage_index r) (storage_addressing_mode r) (is_clamped r)
     (original_write_mask r) (components r).
Definition set_storage_index v (r : t) : t :=
  mk (storage_target r) v (storage_addressing_mode r) (is_clamped r)
     (original_write_mask r) (components r).
Definition set_storage_addressing_mode v (r : t) : t :=
  mk (storage_target r) (storage_index r) v (is_clamped r)
     (original_write_mask r) (components r).
Definition set_is_clamped v (r : t) : t :=
  mk (storage_target r) (storage_index r) (storage_addressing_mode r) v
     (original_write_mask r) (components r).
Definition set_original_write_mask v (r : t) : t :=
  mk (storage_target r) (storage_index r) (storage_addressing_mode r)
     (is_clamped r) v (components r).
Definition set_component (j : Z) v (r : t) : t :=
  mk (storage_target r) (storage_index r) (storage_addressing_mode r)
     (is_clamped r) (original_write_mask r)
     (arr_upd SwizzleSource.kX (components r) j (fun _ => v)).
End InstructionResult.

(** Three consecutive microcode words, the storage of one fetch or ALU
    instruction and of one pair of control-flow instructions. *)
Definition Dwords3 : Type := Z * Z * Z.

(** [ucode_data_.data() + index * 3], reinterpreted; [index] is a
    [uint32_t], so is the product. *)
Definition dwords_at (ucode : list Z) (index : Z) : Dwords3 :=
  let base := u32 (index * 3) in
  (arr_get 0 ucode base, arr_get 0 ucode (base + 1), arr_get 0 ucode (base + 2)).

(** Members of [InstructionResult] and [InstructionOperand] and the
    constants of [shader.h] that the translated functions call.
    [GetUsedWriteMask] restricts the original write mask to the components
    the storage target has; the law records that it reads nothing else. *)
Class ShaderDecl := {
  kMaxMemExports : Z;
  kMaxMemExports_range : 0 < kMaxMemExports <= 32;
  GetUsedWriteMask : InstructionResult.t -> Z;
  GetUsedWriteMask_reads : forall r r',
    InstructionResult.storage_target r = InstructionResult.storage_target r' ->
    InstructionResult.original_write_mask r = InstructionResult.original_write_mask r' ->
    GetUsedWriteMask r = GetUsedWriteMask r';
  GetUsedResultComponents : InstructionResult.t -> Z;
  IsStandardSwizzle : InstructionOperand.t -> bool;
  AluVectorOpcodeIsKill : Z -> bool;
  AluScalarOpcodeIsKill : Z -> bool;
  AluVectorOpHasSideEffects : Z -> bool;
  GetFetchOpDimensionComponentCount : FetchOpDimension.t -> Z;
  bit_count : Z -> Z
}.

(** ** Raw instructions: the accessors of [ucode.h] *)

(** The enumerators of [ucode::ExportRegister] that [ParseAluInstruction]
    compares the vector destination with. *)
Class ExportRegisterDecl := {
  kExportAddress : Z;
  kExportData0 : Z;
  kExportData4 : Z;
  kVSInterpolator0 : Z;
  kVSInterpolator15 : Z;
  kVSPosition : Z;
  kVSPointSizeEdgeFlagKillVertex : Z;
  kPSColor0 : Z;
  kPSColor3 : Z;
  kPSDepth : Z
}.

(** [ucode::AluInstruction], read from three words. *)
Class AluInstructionDecl := {
  alu_is_predicated : Dwords3 -> bool;
  alu_predicate_condition : Dwords3 -> bool;
  alu_is_export : Dwords3 -> bool;
  alu_vector_opcode : Dwords3 -> Z;
  alu_vector_dest : Dwords3 -> Z;
  alu_is_vector_dest_relative : Dwords3 -> bool;
  alu_vector_clamp : Dwords3 -> bool;
  alu_scalar_opcode : Dwords3 -> Z;
  alu_scalar_dest : Dwords3 -> Z;
  alu_is_scalar_dest_relative : Dwords3 -> bool;
  alu_scalar_clamp : Dwords3 -> bool;
  alu_GetVectorOpResultWriteMask : Dwords3 -> Z;
  alu_GetScalarOpResultWriteMask : Dwords3 -> Z;
  alu_GetConstant0WriteMask : Dwords3 -> Z;
  alu_GetConstant1WriteMask : Dwords3 -> Z;
  alu_src_reg : Dwords3 -> Z -> Z;
  alu_src_swizzle : Dwords3 -> Z -> Z;
  alu_src_is_temp : Dwords3 -> Z -> bool;
  alu_src_negate : Dwords3 -> Z -> bool;
  alu_is_const_0_addressed : Dwords3 -> bool;
  alu_is_const_1_addressed : Dwords3 -> bool;
  alu_is_address_relative : Dwords3 -> bool;
  alu_abs_constants : Dwords3 -> bool
}.

(** [ucode::VertexFetchInstruction]. *)
Class VertexFetchInstructionDecl := {
  vf_is_mini_fetch : Dwords3 -> bool;
  vf_is_predicated : Dwords3 -> bool;
  vf_predicate_condition : Dwords3 -> bool;
  vf_dest : Dwords3 -> Z;
  vf_dest_swizzle : Dwords3 -> Z;
  vf_is_dest_relative : Dwords3 -> bool;
  vf_src : Dwords3 -> Z;
  vf_is_src_relative : Dwords3 -> bool;
  vf_src_swizzle : Dwords3 -> Z;
  vf_fetch_constant_index : Dwords3 -> Z;
  vf_data_format : Dwords3 -> Z;
  vf_offset : Dwords3 -> Z;
  vf_stride : Dwords3 -> Z;
  vf_exp_adjust : Dwords3 -> Z;
  vf_prefetch_count : Dwords3 -> Z;
  vf_is_index_rounded : Dwords3 -> bool;
  vf_is_signed : Dwords3 -> bool;
  vf_is_normalized : Dwords3 -> bool;
  vf_signed_rf_mode : Dwords3 -> Z
}.

(** [ucode::TextureFetchInstruction].  The fetch-constant field is five
    bits wide, which the range law records. *)
Class TextureFetchInstructionDecl := {
  tf_opcode : Dwords3 -> FetchOpcode.t;
  tf_dimension : Dwords3 -> FetchOpDimension.t;
  tf_is_predicated : Dwords3 -> bool;
  tf_predicate_condition : Dwords3 -> bool;
  tf_dest : Dwords3 -> Z;
  tf_dest_swizzle : Dwords3 -> Z;
  tf_is_dest_relative : Dwords3 -> bool;
  tf_src : Dwords3 -> Z;
  tf_is_src_relative : Dwords3 -> bool;
  tf_src_swizzle : Dwords3 -> Z;
  tf_fetch_constant_index : Dwords3 -> Z;
  tf_fetch_constant_index_range : forall op, 0 <= tf_fetch_constant_index op < 32;
  tf_fetch_valid_only : Dwords3 -> bool;
  tf_unnormalized_coordinates : Dwords3 -> bool;
  tf_mag_filter : Dwords3 -> Z;
  tf_min_filter : Dwords3 -> Z;
  tf_mip_filter : Dwords3 -> Z;
  tf_aniso_filter : Dwords3 -> Z;
  tf_vol_mag_filter : Dwords3 -> Z;
  tf_vol_min_filter : Dwords3 -> Z;
  tf_use_computed_lod : Dwords3 -> bool;
  tf_use_register_lod : Dwords3 -> bool;
  tf_use_register_gradients : Dwords3 -> bool;
  tf_lod_bias : Dwords3 -> Z;
  tf_offset_x : Dwords3 -> Z;
  tf_offset_y : Dwords3 -> Z;
  tf_offset_z : Dwords3 -> Z
}.

(** [ucode::ControlFlowInstruction]: the union of the per-opcode views
    ([cf.exec], [cf.cond_exec], ...), each with its accessors, and
    [UnpackControlFlowInstructions], which splits three words into the two
    instructions of a pair.  [FetchOpcode_of] is the numbering of
    [ucode::FetchOpcode], used where the source casts the low five bits of
    a word to the enum. *)
Class ControlFlowInstructionDecl := {
  ControlFlowInstruction : Type;
  UnpackControlFlowInstructions : Dwords3 -> ControlFlowInstruction * ControlFlowInstruction;
  cf_opcode : ControlFlowInstruction -> ControlFlowOpcode.t;
  exec_address : ControlFlowInstruction -> Z;
  exec_count : ControlFlowInstruction -> Z;
  exec_sequence : ControlFlowInstruction -> Z;
  exec_is_yield : ControlFlowInstruction -> bool;
  exec_clean : ControlFlowInstruction -> bool;
  cond_exec_address : ControlFlowInstruction -> Z;
  cond_exec_count : ControlFlowInstruction -> Z;
  cond_exec_sequence : ControlFlowInstruction -> Z;
  cond_exec_bool_address : ControlFlowInstruction -> Z;
  cond_exec_condition : ControlFlowInstruction -> bool;
  cond_exec_is_yield : ControlFlowInstruction -> bool;
  cond_exec_pred_address : ControlFlowInstruction -> Z;
  cond_exec_pred_count : ControlFlowInstruction -> Z;
  cond_exec_pred_sequence : ControlFlowInstruction -> Z;
  cond_exec_pred_condition : ControlFlowInstruction -> bool;
  cond_exec_pred_clean : ControlFlowInstruction -> bool;
  cond_exec_pred_is_yield : ControlFlowInstruction -> bool;
  loop_start_address : ControlFlowInstruction -> Z;
  loop_start_loop_id : ControlFlowInstruction -> Z;
  loop_start_is_repeat : ControlFlowInstruction -> bool;
  loop_end_address : ControlFlowInstruction -> Z;
  loop_end_loop_id : ControlFlowInstruction -> Z;
  loop_end_is_predicated_break : ControlFlowInstruction -> bool;
  loop_end_condition : ControlFlowInstruction -> bool;
  cond_call_address : ControlFlowInstruction -> Z;
  cond_call_is_unconditional : ControlFlowInstruction -> bool;
  cond_call_is_predicated : ControlFlowInstruction -> bool;
  cond_call_bool_address : ControlFlowInstruction -> Z;
  cond_call_condition : ControlFlowInstruction -> bool;
  cond_jmp_address : ControlFlowInstruction -> Z;
  cond_jmp_is_unconditional : ControlFlowInstruction -> bool;
  cond_jmp_is_predicated : ControlFlowInstruction -> bool;
  cond_jmp_bool_address : ControlFlowInstruction -> Z;
  cond_jmp_condition : ControlFlowInstruction -> bool;
  alloc_alloc_type : ControlFlowInstruction -> AllocType.t;
  alloc_size : ControlFlowInstruction -> Z;
  IsControlFlowOpcodeExec : ControlFlowOpcode.t -> bool;
  FetchOpcode_of : Z -> FetchOpcode.t
}.

(** ** Parsed control-flow instructions *)

Module ParsedExecInstruction.
Record t := mk {
  dword_index : Z;
  opcode : ControlFlowOpcode.t;
  opcode_name : option string;
  instruction_address : Z;
  instruction_count : Z;
  type : CfType.t;
  bool_constant_index : Z;
  condition : bool;
  is_end : bool;
  clean : bool;
  is_yield : bool;
  sequence : Z
}.
(** Default-constructed; [opcode] has no initialiser in C++ and is assigned
    by every parser. *)
Definition init : t :=
  mk 0 ControlFlowOpcode.kNop None 0 0 CfType.kUnconditional 0 false false true false 0.
End ParsedExecInstruction.

Module ParsedLoopStartInstruction.
Record t := mk {
  dword_index : Z;
  loop_constant_index : Z;
  is_repeat : bool;
  loop_skip_address : Z
}.
Definition init : t := mk 0 0 false 0.
End ParsedLoopStartInstruction.

Module ParsedLoopEndInstruction.
Record t := mk {
  dword_index : Z;
  is_predicated_break : bool;
  predicate_condition : bool;
  loop_constant_index : Z;
  loop_body_address : Z
}.
Definition init : t := mk 0 false false 0 0.
End ParsedLoopEndInstruction.

Module ParsedCallInstruction.
Record t := mk {
  dword_index : Z;
  target_address : Z;
  type : CfType.t;
  bool_constant_index : Z;
  condition : bool
}.
Definition init : t := mk 0 0 CfType.kUnconditional 0 false.
End ParsedCallInstruction.

Module ParsedReturnInstruction.
Record t := mk { dword_index : Z }.
Definition init : t := mk 0.
End ParsedReturnInstruction.

Module ParsedJumpInstruction.
Record t := mk {
  dword_index : Z;
  target_address : Z;
  type : CfType.t;
  bool_constant_index : Z;
  condition : bool
}.
Definition init : t := mk 0 0 CfType.kUnconditional 0 false.
End ParsedJumpInstruction.

Module ParsedAllocInstruction.
Record t := mk {
  dword_index : Z;
  type : AllocType.t;
  count : Z;
  is_vertex_shader : bool
}.
Definition init : t := mk 0 AllocType.kNone 0 false.
End ParsedAllocInstruction.

Section ControlFlowParsers.
Context `{CF : ControlFlowInstructionDecl}.

Definition ParseControlFlowExec (cf : ControlFlowInstruction) (cf_index : Z)
    (instr : ParsedExecInstruction.t) : ParsedExecInstruction.t :=
  let is_exec_end := bool_decide (cf_opcode cf = ControlFlowOpcode.kExecEnd) in
  {| ParsedExecInstruction.dword_index := cf_index;
     ParsedExecInstruction.opcode := cf_opcode cf;
     ParsedExecInstruction.opcode_name :=
       Some (if is_exec_end then "exece" else "exec")%string;
     ParsedExecInstruction.instruction_address := exec_address cf;
     ParsedExecInstruction.instruction_count := exec_count cf;
     ParsedExecInstruction.type := CfType.kUnconditional;
     ParsedExecInstruction.bool_constant_index :=
       ParsedExecInstruction.bool_constant_index instr;
     ParsedExecInstruction.condition := ParsedExecInstruction.condition instr;
     ParsedExecInstruction.is_end := is_exec_end;
     ParsedExecInstruction.clean := exec_clean cf;
     ParsedExecInstruction.is_yield := exec_is_yield cf;
     ParsedExecInstruction.sequence := exec_sequence cf |}.

Definition ParseControlFlowCondExec (cf : ControlFlowInstruction) (cf_index : Z)
    (instr : ParsedExecInstruction.t) : ParsedExecInstruction.t :=
  let ends :=
    bool_decide (cf_opcode cf = ControlFlowOpcode.kCondExecEnd)
    || bool_decide (cf_opcode cf = ControlFlowOpcode.kCondExecPredCleanEnd) in
  let not_clean :=
    bool_decide (cf_opcode cf = ControlFlowOpcode.kCondExec)
    || bool_decide (cf_opcode cf = ControlFlowOpcode.kCondExecEnd) in
  {| ParsedExecInstruction.dword_index := cf_index;
     ParsedExecInstruction.opcode := cf_opcode cf;
     ParsedExecInstruction.opcode_name :=
       Some (if ends then "cexece" else "cexec")%string;
     ParsedExecInstruction.instruction_address := cond_exec_address cf;
     ParsedExecInstruction.instruction_count := cond_exec_count cf;
     ParsedExecInstruction.type := CfType.kConditional;
     ParsedExecInstruction.bool_constant_index := cond_exec_bool_address cf;
     ParsedExecInstruction.condition := cond_exec_condition cf;
     ParsedExecInstruction.is_end :=
       if ends then true else ParsedExecInstruction.is_end instr;
     ParsedExecInstruction.clean :=
       if not_clean then false else ParsedExecInstruction.clean instr;
     ParsedExecInstruction.is_yield := cond_exec_is_yield cf;
     ParsedExecInstruction.sequence := cond_exec_sequence cf |}.

Definition ParseControlFlowCondExecPred (cf : ControlFlowInstruction) (cf_index : Z)
    (instr : ParsedExecInstruction.t) : ParsedExecInstruction.t :=
  let is_end := bool_decide (cf_opcode cf = ControlFlowOpcode.kCondExecPredEnd) in
  {| ParsedExecInstruction.dword_index := cf_index;
     ParsedExecInstruction.opcode := cf_opcode cf;
     ParsedExecInstruction.opcode_name :=
       Some (if is_end then "exece" else "exec")%string;
     ParsedExecInstruction.instruction_address := cond_exec_pred_address cf;
     ParsedExecInstruction.instruction_count := cond_exec_pred_count cf;
     ParsedExecInstruction.type := CfType.kPredicated;
     ParsedExecInstruction.bool_constant_index :=
       ParsedExecInstruction.bool_constant_index instr;
     ParsedExecInstruction.condition := cond_exec_pred_condition cf;
     ParsedExecInstruction.is_end := is_end;
     ParsedExecInstruction.clean := cond_exec_pred_clean cf;
     ParsedExecInstruction.is_yield := cond_exec_pred_is_yield cf;
     ParsedExecInstruction.sequence := cond_exec_pred_sequence cf |}.

Definition ParseControlFlowLoopStart (cf : ControlFlowInstruction) (cf_index : Z)
    (instr : ParsedLoopStartInstruction.t) : ParsedLoopStartInstruction.t :=
  {| ParsedLoopStartInstruction.dword_index := cf_index;
     ParsedLoopStartInstruction.loop_constant_index := loop_start_loop_id cf;
     ParsedLoopStartInstruction.is_repeat := loop_start_is_repeat cf;
     ParsedLoopStartInstruction.loop_skip_address := loop_start_address cf |}.

Definition ParseControlFlowLoopEnd (cf : ControlFlowInstruction) (cf_index : Z)
    (instr : ParsedLoopEndInstruction.t) : ParsedLoopEndInstruction.t :=
  {| ParsedLoopEndInstruction.dword_index := cf_index;
     ParsedLoopEndInstruction.is_predicated_break := loop_end_is_predicated_break cf;
     ParsedLoopEndInstruction.predicate_condition := loop_end_condition cf;
     ParsedLoopEndInstruction.loop_constant_index := loop_end_loop_id cf;
     ParsedLoopEndInstruction.loop_body_address := loop_end_address cf |}.

Definition ParseControlFlowCondCall (cf : ControlFlowInstruction) (cf_index : Z)
    (instr : ParsedCallInstruction.t) : ParsedCallInstruction.t :=
  if cond_call_is_unconditional cf then
    {| ParsedCallInstruction.dword_index := cf_index;
       ParsedCallInstruction.target_address := cond_call_address cf;
       ParsedCallInstruction.type := CfType.kUnconditional;
       ParsedCallInstruction.bool_constant_index :=
         ParsedCallInstruction.bool_constant_index instr;
       ParsedCallInstruction.condition := ParsedCallInstruction.condition instr |}
  else if cond_call_is_predicated cf then
    {| ParsedCallInstruction.dword_index := cf_index;
       ParsedCallInstruction.target_address := cond_call_address cf;
       ParsedCallInstruction.type := CfType.kPredicated;
       ParsedCallInstruction.bool_constant_index :=
         ParsedCallInstruction.bool_constant_index instr;
       ParsedCallInstruction.condition := cond_call_condition cf |}
  else
    {| ParsedCallInstruction.dword_index := cf_index;
       ParsedCallInstruction.target_address := cond_call_address cf;
       ParsedCallInstruction.type := CfType.kConditional;
       ParsedCallInstruction.bool_constant_index := cond_call_bool_address cf;
       ParsedCallInstruction.condition := cond_call_condition cf |}.

Definition ParseControlFlowReturn (cf : ControlFlowInstruction) (cf_index : Z)
    (instr : ParsedReturnInstruction.t) : ParsedReturnInstruction.t :=
  {| ParsedReturnInstruction.dword_index := cf_index |}.

Definition ParseControlFlowCondJmp (cf : ControlFlowInstruction) (cf_index : Z)
    (instr : ParsedJumpInstruction.t) : ParsedJumpInstruction.t :=
  if cond_jmp_is_unconditional cf then
    {| ParsedJumpInstruction.dword_index := cf_index;
       ParsedJumpInstruction.target_address := cond_jmp_address cf;
       ParsedJumpInstruction.type := CfType.kUnconditional;
       ParsedJumpInstruction.bool_constant_index :=
         ParsedJumpInstruction.bool_constant_index instr;
       ParsedJumpInstruction.condition := ParsedJumpInstruction.condition instr |}
  else if cond_jmp_is_predicated cf then
    {| ParsedJumpInstruction.dword_index := cf_index;
       ParsedJumpInstruction.target_address := cond_jmp_address cf;
       ParsedJumpInstruction.type := CfType.kPredicated;
       ParsedJumpInstruction.bool_constant_index :=
         ParsedJumpInstruction.bool_constant_index instr;
       ParsedJumpInstruction.condition := cond_jmp_condition cf |}
  else
    {| ParsedJumpInstruction.dword_index := cf_index;
       ParsedJumpInstruction.target_address := cond_jmp_address cf;
       ParsedJumpInstruction.type := CfType.kConditional;
       ParsedJumpInstruction.bool_constant_index := cond_jmp_bool_address cf;
       ParsedJumpInstruction.condition := cond_jmp_condition cf |}.

Definition ParseControlFlowAlloc (cf : ControlFlowInstruction) (cf_index : Z)
    (is_vertex_shader : bool) (instr : ParsedAllocInstruction.t)
    : ParsedAllocInstruction.t :=
  {| ParsedAllocInstruction.dword_index := cf_index;
     ParsedAllocInstruction.type := alloc_alloc_type cf;
     ParsedAllocInstruction.count := alloc_size cf;
     ParsedAllocInstruction.is_vertex_shader := is_vertex_shader |}.

End ControlFlowParsers.

(** ** Parsed fetch instructions *)

Module VertexFetchAttributes.
Record t := mk {
  data_format : Z;
  offset : Z;
  stride : Z;
  exp_adjust : Z;
  prefetch_count : Z;
  is_index_rounded : bool;
  is_signed : bool;
  is_integer : bool;
  signed_rf_mode : Z
}.
Definition init : t := mk 0 0 0 0 0 false false false 0.
End VertexFetchAttributes.

Module ParsedVertexFetchInstruction.
Record t := mk {
  opcode : FetchOpcode.t;
  opcode_name : option string;
  is_mini_fetch : bool;
  is_predicated : bool;
  predicate_condition : bool;
  result : InstructionResult.t;
  operand_count : Z;
  operands : list InstructionOperand.t;
  attributes : VertexFetchAttributes.t
}.
Definition init : t :=
  mk FetchOpcode.kVertexFetch None false false false InstructionResult.init 0
     [InstructionOperand.init; InstructionOperand.init] VertexFetchAttributes.init.
End ParsedVertexFetchInstruction.

Module TextureFetchAttributes.
(** [lod_bias] and the three offsets are fixed-point fields; they are held
    as the numbers the accessors deliver. *)
Record t := mk {
  fetch_valid_only : bool;
  unnormalized_coordinates : bool;
  mag_filter : Z;
  min_filter : Z;
  mip_filter : Z;
  aniso_filter : Z;
  vol_mag_filter : Z;
  vol_min_filter : Z;
  use_computed_lod : bool;
  use_register_lod : bool;
  use_register_gradients : bool;
  lod_bias : Z;
  offset_x : Z;
  offset_y : Z;
  offset_z : Z
}.
Definition init : t := mk true false 0 0 0 0 0 0 true false false 0 0 0 0.
End TextureFetchAttributes.

Module ParsedTextureFetchInstruction.
Record t := mk {
  opcode : FetchOpcode.t;
  opcode_name : option string;
  dimension : FetchOpDimension.t;
  is_predicated : bool;
  predicate_condition : bool;
  result : InstructionResult.t;
  operand_count : Z;
  operands : list InstructionOperand.t;
  attributes : TextureFetchAttributes.t
}.
(** [opcode] and [dimension] have no initialiser in C++; [init] gives them
    the first enumerator. *)
Definition init : t :=
  mk FetchOpcode.kVertexFetch None FetchOpDimension.k1D false false
     InstructionResult.init 0
     [InstructionOperand.init; InstructionOperand.init] TextureFetchAttributes.init.
End ParsedTextureFetchInstruction.

(** One round of the loop of [ParseFetchInstructionResult]: component [i]
    is decoded from the low three bits of [swizzle], which is then shifted. *)
Definition fetch_result_component (acc : Z * InstructionResult.t) (i : Z)
    : Z * InstructionResult.t :=
  let '(swizzle, result) := acc in
  let sel := Z.land swizzle 7 in
  let result :=
    if (sel =? 4) || (sel =? 6) then
      InstructionResult.set_component i SwizzleSource.k0 result
    else if sel =? 5 then
      InstructionResult.set_component i SwizzleSource.k1 result
    else if sel =? 7 then
      InstructionResult.set_original_write_mask
        (Z.land (InstructionResult.original_write_mask result)
                (u32 (Z.lnot (u32 (Z.shiftl 1 i))))) result
    else
      InstructionResult.set_component i
        (GetSwizzleFromComponentIndex (Z.land swizzle 3)) result in
  (Z.shiftr swizzle 3, result).

Definition ParseFetchInstructionResult (dest swizzle : Z) (is_relative : bool)
    (result : InstructionResult.t) : InstructionResult.t :=
  let result := InstructionResult.set_storage_target InstructionStorageTarget.kRegister result in
  let result := InstructionResult.set_storage_index dest result in
  let result := InstructionResult.set_is_clamped false result in
  let result :=
    InstructionResult.set_storage_addressing_mode
      (if is_relative then InstructionStorageAddressingMode.kAddressRelative
       else InstructionStorageAddressingMode.kStatic) result in
  let result := InstructionResult.set_original_write_mask 15 result in
  snd (foldl fetch_result_component (swizzle, result) [0; 1; 2; 3]).

(** [for (j = 0; j < component_count; ++j, swizzle >>= 2)
       components[j] = GetSwizzleFromComponentIndex(swizzle & 0x3)],
    with [n] rounds left. *)
Fixpoint parse_src_swizzle (n : nat) (j swizzle : Z) (o : InstructionOperand.t)
    : InstructionOperand.t :=
  match n with
  | O => o
  | S n' =>
      parse_src_swizzle n' (j + 1) (Z.shiftr swizzle 2)
        (InstructionOperand.set_component j
           (GetSwizzleFromComponentIndex (Z.land swizzle 3)) o)
  end.

(** The register operand that both fetch parsers build in place. *)
Definition parse_fetch_src_operand (src : Z) (is_src_relative : bool)
    (component_count swizzle : Z) (src_op : InstructionOperand.t)
    : InstructionOperand.t :=
  let src_op := InstructionOperand.set_storage_source InstructionStorageSource.kRegister src_op in
  let src_op := InstructionOperand.set_storage_index src src_op in
  let src_op :=
    InstructionOperand.set_storage_addressing_mode
      (if is_src_relative then InstructionStorageAddressingMode.kAddressRelative
       else InstructionStorageAddressingMode.kStatic) src_op in
  let src_op := InstructionOperand.set_is_negated false src_op in
  let src_op := InstructionOperand.set_is_absolute_value false src_op in
  let src_op := InstructionOperand.set_component_count component_count src_op in
  parse_src_swizzle (Z.to_nat component_count) 0 swizzle src_op.

Section FetchParsers.
Context `{SD : ShaderDecl} `{VF : VertexFetchInstructionDecl}
        `{TF : TextureFetchInstructionDecl}.

(** Returns the flag and the filled instruction. *)
Definition ParseVertexFetchInstruction (op previous_full_op : Dwords3)
    (instr : ParsedVertexFetchInstruction.t)
    : bool * ParsedVertexFetchInstruction.t :=
  let result :=
    ParseFetchInstructionResult (vf_dest op) (vf_dest_swizzle op)
      (vf_is_dest_relative op) (ParsedVertexFetchInstruction.result instr) in
  (* Reuse previous vfetch_full if this is a mini. *)
  let full_op := if vf_is_mini_fetch op then previous_full_op else op in
  let n0 := ParsedVertexFetchInstruction.operand_count instr in
  let operands := ParsedVertexFetchInstruction.operands instr in
  let operands :=
    arr_upd InstructionOperand.init operands n0
      (parse_fetch_src_operand (vf_src full_op) (vf_is_src_relative full_op) 1
         (vf_src_swizzle full_op)) in
  let n1 := n0 + 1 in
  let operands :=
    arr_upd InstructionOperand.init operands n1
      (fun const_op =>
         InstructionOperand.set_storage_index (vf_fetch_constant_index full_op)
           (InstructionOperand.set_storage_source
              InstructionStorageSource.kVertexFetchConstant const_op)) in
  (negb (vf_is_mini_fetch op),
   {| ParsedVertexFetchInstruction.opcode := FetchOpcode.kVertexFetch;
      ParsedVertexFetchInstruction.opcode_name :=
        Some (if vf_is_mini_fetch op then "vfetch_mini" else "vfetch_full")%string;
      ParsedVertexFetchInstruction.is_mini_fetch := vf_is_mini_fetch op;
      ParsedVertexFetchInstruction.is_predicated := vf_is_predicated op;
      ParsedVertexFetchInstruction.predicate_condition := vf_predicate_condition op;
      ParsedVertexFetchInstruction.result := result;
      ParsedVertexFetchInstruction.operand_count := n1 + 1;
      ParsedVertexFetchInstruction.operands := operands;
      ParsedVertexFetchInstruction.attributes :=
        {| VertexFetchAttributes.data_format := vf_data_format op;
           VertexFetchAttributes.offset := vf_offset op;
           VertexFetchAttributes.stride := vf_stride full_op;
           VertexFetchAttributes.exp_adjust := vf_exp_adjust op;
           VertexFetchAttributes.prefetch_count := vf_prefetch_count op;
           VertexFetchAttributes.is_index_rounded := vf_is_index_rounded op;
           VertexFetchAttributes.is_signed := vf_is_signed op;
           VertexFetchAttributes.is_integer := negb (vf_is_normalized op);
           VertexFetchAttributes.signed_rf_mode := vf_signed_rf_mode op |} |}).

(** The local [TextureFetchOpcodeInfo] of [ParseTextureFetchInstruction]. *)
Record TextureFetchOpcodeInfo := mkTextureFetchOpcodeInfo {
  tfi_name : string;
  tfi_has_dest : bool;
  tfi_has_const : bool;
  tfi_has_attributes : bool;
  tfi_override_component_count : Z
}.

Definition dimension_name (names : string * string * string * string)
    (d : FetchOpDimension.t) : string :=
  let '(n1D, n2D, n3D, nCube) := names in
  match d with
  | FetchOpDimension.k1D => n1D
  | FetchOpDimension.k2D => n2D
  | FetchOpDimension.k3DOrStacked => n3D
  | FetchOpDimension.kCube => nCube
  end.

(** The [switch] over the opcode; [None] is its [default:] branch, where
    the parser returns without touching [instr]. *)
Definition texture_fetch_opcode_info (opcode : FetchOpcode.t) (d : FetchOpDimension.t)
    : option TextureFetchOpcodeInfo :=
  match opcode with
  | FetchOpcode.kTextureFetch =>
      Some (mkTextureFetchOpcodeInfo
              (dimension_name ("tfetch1D", "tfetch2D", "tfetch3D", "tfetchCube")%string d)
              true true true 0)
  | FetchOpcode.kGetTextureBorderColorFrac =>
      Some (mkTextureFetchOpcodeInfo
              (dimension_name ("getBCF1D", "getBCF2D", "getBCF3D", "getBCFCube")%string d)
              true true true 0)
  | FetchOpcode.kGetTextureComputedLod =>
      Some (mkTextureFetchOpcodeInfo
              (dimension_name ("getCompTexLOD1D", "getCompTexLOD2D",
                               "getCompTexLOD3D", "getCompTexLODCube")%string d)
              true true true 0)
  | FetchOpcode.kGetTextureGradients =>
      Some (mkTextureFetchOpcodeInfo "getGradients" true true true 2)
  | FetchOpcode.kGetTextureWeights =>
      Some (mkTextureFetchOpcodeInfo
              (dimension_name ("getWeights1D", "getWeights2D", "getWeights3D",
                               "getWeightsCube")%string d)
              true true true 0)
  | FetchOpcode.kSetTextureLod =>
      Some (mkTextureFetchOpcodeInfo "setTexLOD" false false false 1)
  | FetchOpcode.kSetTextureGradientsHorz =>
      Some (mkTextureFetchOpcodeInfo "setGradientH" false false false 3)
  | FetchOpcode.kSetTextureGradientsVert =>
      Some (mkTextureFetchOpcodeInfo "setGradientV" false false false 3)
  | _ => None
  end.

Definition ParseTextureFetchInstruction (op : Dwords3)
    (instr : ParsedTextureFetchInstruction.t) : ParsedTextureFetchInstruction.t :=
  match texture_fetch_opcode_info (tf_opcode op) (tf_dimension op) with
  | None => instr
  | Some opcode_info =>
      let result :=
        if tfi_has_dest opcode_info then
          ParseFetchInstructionResult (tf_dest op) (tf_dest_swizzle op)
            (tf_is_dest_relative op) (ParsedTextureFetchInstruction.result instr)
        else
          InstructionResult.set_storage_target InstructionStorageTarget.kNone
            (ParsedTextureFetchInstruction.result instr) in
      let n0 := ParsedTextureFetchInstruction.operand_count instr in
      let operands := ParsedTextureFetchInstruction.operands instr in
      let component_count :=
        if nonzero (tfi_override_component_count opcode_info)
        then tfi_override_component_count opcode_info
        else GetFetchOpDimensionComponentCount (tf_dimension op) in
      let operands :=
        arr_upd InstructionOperand.init operands n0
          (parse_fetch_src_operand (tf_src op) (tf_is_src_relative op)
             component_count (tf_src_swizzle op)) in
      let n1 := n0 + 1 in
      let operands :=
        if tfi_has_const opcode_info then
          arr_upd InstructionOperand.init operands n1
            (fun const_op =>
               InstructionOperand.set_storage_index (tf_fetch_constant_index op)
                 (InstructionOperand.set_storage_source
                    InstructionStorageSource.kTextureFetchConstant const_op))
        else operands in
      let n2 := if tfi_has_const opcode_info then n1 + 1 else n1 in
      {| ParsedTextureFetchInstruction.opcode := tf_opcode op;
         ParsedTextureFetchInstruction.opcode_name := Some (tfi_name opcode_info);
         ParsedTextureFetchInstruction.dimension := tf_dimension op;
         ParsedTextureFetchInstruction.is_predicated := tf_is_predicated op;
         ParsedTextureFetchInstruction.predicate_condition := tf_predicate_condition op;
         ParsedTextureFetchInstruction.result := result;
         ParsedTextureFetchInstruction.operand_count := n2;
         ParsedTextureFetchInstruction.operands := operands;
         ParsedTextureFetchInstruction.attributes :=
           if tfi_has_attributes opcode_info then
             {| TextureFetchAttributes.fetch_valid_only := tf_fetch_valid_only op;
                TextureFetchAttributes.unnormalized_coordinates :=
                  tf_unnormalized_coordinates op;
                TextureFetchAttributes.mag_filter := tf_mag_filter op;
                TextureFetchAttributes.min_filter := tf_min_filter op;
                TextureFetchAttributes.mip_filter := tf_mip_filter op;
                TextureFetchAttributes.aniso_filter := tf_aniso_filter op;
                TextureFetchAttributes.vol_mag_filter := tf_vol_mag_filter op;
                TextureFetchAttributes.vol_min_filter := tf_vol_min_filter op;
                TextureFetchAttributes.use_computed_lod := tf_use_computed_lod op;
                TextureFetchAttributes.use_register_lod := tf_use_register_lod op;
                TextureFetchAttributes.use_register_gradients :=
                  tf_use_register_gradients op;
                TextureFetchAttributes.lod_bias := tf_lod_bias op;
                TextureFetchAttributes.offset_x := tf_offset_x op;
                TextureFetchAttributes.offset_y := tf_offset_y op;
                TextureFetchAttributes.offset_z := tf_offset_z op |}
           else ParsedTextureFetchInstruction.attributes instr |}
  end.

End FetchParsers.

(** The enumerators of [xenos::TextureFilter] that
    [GetNonZeroResultComponents] compares the mip filter with. *)
Module TextureFilter.
Class Decl := {
  kBaseMap : Z;
  kPoint : Z
}.
End TextureFilter.

Section TextureFetchResult.
Context `{SD : ShaderDecl} `{TFL : TextureFilter.Decl}.

(** [ParsedTextureFetchInstruction::GetNonZeroResultComponents].  The
    [default:] branch of the outer [switch] leaves [components] at its
    initial [0b0000]. *)
Definition GetNonZeroResultComponents (instr : ParsedTextureFetchInstruction.t) : Z :=
  let components :=
    match ParsedTextureFetchInstruction.opcode instr with
    | FetchOpcode.kTextureFetch | FetchOpcode.kGetTextureGradients => 15
    | FetchOpcode.kGetTextureBorderColorFrac => 1
    | FetchOpcode.kGetTextureComputedLod => 1
    | FetchOpcode.kGetTextureWeights =>
        let components :=
          match ParsedTextureFetchInstruction.dimension instr with
          | FetchOpDimension.k1D => 9
          | FetchOpDimension.k2D | FetchOpDimension.kCube => 11
          | FetchOpDimension.k3DOrStacked => 15
          end in
        let mip_filter :=
          TextureFetchAttributes.mip_filter
            (ParsedTextureFetchInstruction.attributes instr) in
        if (mip_filter =? TextureFilter.kBaseMap) || (mip_filter =? TextureFilter.kPoint)
        then Z.land components (u32 (Z.lnot 8))
        else components
    | FetchOpcode.kSetTextureLod
    | FetchOpcode.kSetTextureGradientsHorz
    | FetchOpcode.kSetTextureGradientsVert => 0
    | _ => 0
    end in
  Z.land (GetUsedResultComponents (ParsedTextureFetchInstruction.result instr))
    components.

End TextureFetchResult.

(** ** Parsed ALU instructions *)

Record AluOpcodeInfo := mkAluOpcodeInfo {
  name : option string;
  argument_count : Z;
  src_swizzle_component_count : Z
}.

Definition alu_info (n : string) (argc swz : Z) : AluOpcodeInfo :=
  mkAluOpcodeInfo (Some n) argc swz.

(** An entry of a table past its initialisers: zero-initialised. *)
Definition alu_info_zero : AluOpcodeInfo := mkAluOpcodeInfo None 0 0.

Definition alu_vector_opcode_infos : list AluOpcodeInfo :=
  [ alu_info "add" 2 4; alu_info "mul" 2 4; alu_info "max" 2 4;
    alu_info "min" 2 4; alu_info "seq" 2 4; alu_info "sgt" 2 4;
    alu_info "sge" 2 4; alu_info "sne" 2 4; alu_info "frc" 1 4;
    alu_info "trunc" 1 4; alu_info "floor" 1 4; alu_info "mad" 3 4;
    alu_info "cndeq" 3 4; alu_info "cndge" 3 4; alu_info "cndgt" 3 4;
    alu_info "dp4" 2 4; alu_info "dp3" 2 4; alu_info "dp2add" 3 4;
    alu_info "cube" 2 4; alu_info "max4" 1 4; alu_info "setp_eq_push" 2 4;
    alu_info "setp_ne_push" 2 4; alu_info "setp_gt_push" 2 4;
    alu_info "setp_ge_push" 2 4; alu_info "kill_eq" 2 4;
    alu_info "kill_gt" 2 4; alu_info "kill_ge" 2 4; alu_info "kill_ne" 2 4;
    alu_info "dst" 2 4; alu_info "maxa" 2 4 ].

Definition alu_scalar_opcode_infos : list AluOpcodeInfo :=
  [ alu_info "adds" 1 2; alu_info "adds_prev" 1 1; alu_info "muls" 1 2;
    alu_info "muls_prev" 1 1; alu_info "muls_prev2" 1 2; alu_info "maxs" 1 2;
    alu_info "mins" 1 2; alu_info "seqs" 1 1; alu_info "sgts" 1 1;
    alu_info "sges" 1 1; alu_info "snes" 1 1; alu_info "frcs" 1 1;
    alu_info "truncs" 1 1; alu_info "floors" 1 1; alu_info "exp" 1 1;
    alu_info "logc" 1 1; alu_info "log" 1 1; alu_info "rcpc" 1 1;
    alu_info "rcpf" 1 1; alu_info "rcp" 1 1; alu_info "rsqc" 1 1;
    alu_info "rsqf" 1 1; alu_info "rsq" 1 1; alu_info "maxas" 1 2;
    alu_info "maxasf" 1 2; alu_info "subs" 1 2; alu_info "subs_prev" 1 1;
    alu_info "setp_eq" 1 1; alu_info "setp_ne" 1 1; alu_info "setp_gt" 1 1;
    alu_info "setp_ge" 1 1; alu_info "setp_inv" 1 1; alu_info "setp_pop" 1 1;
    alu_info "setp_clr" 0 0; alu_info "setp_rstr" 1 1; alu_info "kills_eq" 1 1;
    alu_info "kills_gt" 1 1; alu_info "kills_ge" 1 1; alu_info "kills_ne" 1 1;
    alu_info "kills_one" 1 1; alu_info "sqrt" 1 1; alu_info "UNKNOWN" 0 0;
    alu_info "mulsc" 2 1; alu_info "mulsc" 2 1; alu_info "addsc" 2 1;
    alu_info "addsc" 2 1; alu_info "subsc" 2 1; alu_info "subsc" 2 1;
    alu_info "sin" 1 1; alu_info "cos" 1 1; alu_info "retain_prev" 0 0 ].

Module ParsedAluInstruction.
Record t := mk {
  is_predicated : bool;
  predicate_condition : bool;
  vector_opcode : Z;
  vector_opcode_name : option string;
  vector_and_constant_result : InstructionResult.t;
  vector_operand_count : Z;
  vector_operands : list InstructionOperand.t;
  scalar_opcode : Z;
  scalar_opcode_name : option string;
  scalar_result : InstructionResult.t;
  scalar_operand_count : Z;
  scalar_operands : list InstructionOperand.t
}.
(** The opcodes have no initialiser in C++ and are assigned by the parser. *)
Definition init : t :=
  mk false false 0 None InstructionResult.init 0
     [InstructionOperand.init; InstructionOperand.init; InstructionOperand.init]
     0 None InstructionResult.init 0
     [InstructionOperand.init; InstructionOperand.init].
End ParsedAluInstruction.

(** What the functions send to the log and to the file system. *)
Inductive FormatArg :=
  | ArgInt (z : Z)
  | ArgStr (s : string).

Inductive Event :=
  | XELOGE (fmt : string) (args : list FormatArg)
  | DumpUcode (base_path : string).

Definition mode_of_const_slot (addressed address_relative : bool)
    : InstructionStorageAddressingMode.t :=
  if addressed then
    if address_relative then InstructionStorageAddressingMode.kAddressAbsolute
    else InstructionStorageAddressingMode.kAddressRelative
  else InstructionStorageAddressingMode.kStatic.

Section AluParser.
Context `{SD : ShaderDecl} `{ER : ExportRegisterDecl} `{ALU : AluInstructionDecl}.

(** [(const_slot == 0 && op.is_const_0_addressed()) ||
     (const_slot == 1 && op.is_const_1_addressed())] *)
Definition const_slot_addressed (op : Dwords3) (const_slot : Z) : bool :=
  ((const_slot =? 0) && alu_is_const_0_addressed op)
  || ((const_slot =? 1) && alu_is_const_1_addressed op).

(** The [for] loop of the four-component case: [components[j]] is taken
    from [(swizzle + j) & 0x3], then [swizzle >>= 2]. *)
Fixpoint parse_alu_swizzle4 (n : nat) (j swizzle : Z) (o : InstructionOperand.t)
    : InstructionOperand.t :=
  match n with
  | O => o
  | S n' =>
      parse_alu_swizzle4 n' (j + 1) (Z.shiftr swizzle 2)
        (InstructionOperand.set_component j
           (GetSwizzleFromComponentIndex (Z.land (swizzle + j) 3)) o)
  end.

Definition ParseAluInstructionOperand (op : Dwords3) (i swizzle_component_count : Z)
    (out_op : InstructionOperand.t) : InstructionOperand.t :=
  let const_slot :=
    if i =? 2 then (if alu_src_is_temp op 1 then 0 else 1)
    else if i =? 3 then
      (if alu_src_is_temp op 1 && alu_src_is_temp op 2 then 0 else 1)
    else 0 in
  let out_op := InstructionOperand.set_is_negated (alu_src_negate op i) out_op in
  let reg := alu_src_reg op i in
  let out_op :=
    if alu_src_is_temp op i then
      let out_op := InstructionOperand.set_storage_source InstructionStorageSource.kRegister out_op in
      let out_op := InstructionOperand.set_storage_index (Z.land reg 31) out_op in
      let out_op := InstructionOperand.set_is_absolute_value (Z.land reg 128 =? 128) out_op in
      InstructionOperand.set_storage_addressing_mode
        (if nonzero (Z.land reg 64)
         then InstructionStorageAddressingMode.kAddressRelative
         else InstructionStorageAddressingMode.kStatic) out_op
    else
      let out_op := InstructionOperand.set_storage_source InstructionStorageSource.kConstantFloat out_op in
      let out_op := InstructionOperand.set_storage_index reg out_op in
      let out_op :=
        InstructionOperand.set_storage_addressing_mode
          (mode_of_const_slot (const_slot_addressed op const_slot)
             (alu_is_address_relative op)) out_op in
      InstructionOperand.set_is_absolute_value (alu_abs_constants op) out_op in
  let out_op := InstructionOperand.set_component_count swizzle_component_count out_op in
  let swizzle := alu_src_swizzle op i in
  if swizzle_component_count =? 1 then
    let a := Z.land (Z.shiftr swizzle 6 + 3) 3 in
    InstructionOperand.set_component 0 (GetSwizzleFromComponentIndex a) out_op
  else if swizzle_component_count =? 2 then
    let a := Z.land (Z.shiftr swizzle 6 + 3) 3 in
    let b := Z.land (Z.shiftr swizzle 0 + 0) 3 in
    InstructionOperand.set_component 1 (GetSwizzleFromComponentIndex b)
      (InstructionOperand.set_component 0 (GetSwizzleFromComponentIndex a) out_op)
  else if swizzle_component_count =? 3 then
    out_op
  else if swizzle_component_count =? 4 then
    parse_alu_swizzle4 4 0 swizzle out_op
  else out_op.

Definition ParseAluInstructionOperandSpecial (op : Dwords3)
    (storage_source : InstructionStorageSource.t) (reg : Z) (negate : bool)
    (const_slot component_index : Z) (out_op : InstructionOperand.t)
    : InstructionOperand.t :=
  let out_op := InstructionOperand.set_is_negated negate out_op in
  let out_op := InstructionOperand.set_is_absolute_value (alu_abs_constants op) out_op in
  let out_op := InstructionOperand.set_storage_source storage_source out_op in
  let out_op :=
    if bool_decide (storage_source = InstructionStorageSource.kRegister) then
      InstructionOperand.set_storage_addressing_mode
        InstructionStorageAddressingMode.kStatic
        (InstructionOperand.set_storage_index (Z.land reg 127) out_op)
    else
      InstructionOperand.set_storage_addressing_mode
        (mode_of_const_slot (const_slot_addressed op const_slot)
           (alu_is_address_relative op))
        (InstructionOperand.set_storage_index reg out_op) in
  let out_op := InstructionOperand.set_component_count 1 out_op in
  InstructionOperand.set_component 0 (GetSwizzleFromComponentIndex component_index) out_op.

(** The export destination: storage target and export storage index, from
    the vector destination field and the shader type. *)
Definition parse_export_target (export_register : Z) (shader_type : ShaderType.t)
    : InstructionStorageTarget.t * Z :=
  if export_register =? kExportAddress then
    (InstructionStorageTarget.kExportAddress, 0)
  else if (kExportData0 <=? export_register) && (export_register <=? kExportData4) then
    (InstructionStorageTarget.kExportData, u32 (export_register - kExportData0))
  else if bool_decide (shader_type = ShaderType.kVertex) then
    if (kVSInterpolator0 <=? export_register) && (export_register <=? kVSInterpolator15) then
      (InstructionStorageTarget.kInterpolator, u32 (export_register - kVSInterpolator0))
    else if export_register =? kVSPosition then
      (InstructionStorageTarget.kPosition, 0)
    else if export_register =? kVSPointSizeEdgeFlagKillVertex then
      (InstructionStorageTarget.kPointSizeEdgeFlagKillVertex, 0)
    else (InstructionStorageTarget.kNone, 0)
  else if bool_decide (shader_type = ShaderType.kPixel) then
    if (kPSColor0 <=? export_register) && (export_register <=? kPSColor3) then
      (InstructionStorageTarget.kColor, u32 (export_register - kPSColor0))
    else if export_register =? kPSDepth then
      (InstructionStorageTarget.kDepth, 0)
    else (InstructionStorageTarget.kNone, 0)
  else (InstructionStorageTarget.kNone, 0).

(** Components of the vector result: constant 0 or 1 where the constant
    masks say so, the identity otherwise. *)
Definition vector_result_component (constant_0_mask constant_1_mask : Z)
    (result : InstructionResult.t) (i : Z) : InstructionResult.t :=
  let component :=
    if nonzero (Z.land constant_0_mask (Z.shiftl 1 i)) then SwizzleSource.k0
    else if nonzero (Z.land constant_1_mask (Z.shiftl 1 i)) then SwizzleSource.k1
    else GetSwizzleFromComponentIndex i in
  InstructionResult.set_component i component result.

(** [for (i = 0; i < instr.vector_operand_count; ++i)
       ParseAluInstructionOperand(op, i + 1, count, instr.vector_operands[i])] *)
Fixpoint parse_vector_operands (n : nat) (i : Z) (op : Dwords3) (swz : Z)
    (operands : list InstructionOperand.t) : list InstructionOperand.t :=
  match n with
  | O => operands
  | S n' =>
      parse_vector_operands n' (i + 1) op swz
        (arr_upd InstructionOperand.init operands i
           (ParseAluInstructionOperand op (i + 1) swz))
  end.

(** Returns the filled instruction and what the parser logged. *)
Definition ParseAluInstruction (op : Dwords3) (shader_type : ShaderType.t)
    (instr : ParsedAluInstruction.t) : ParsedAluInstruction.t * list Event :=
  let is_export := alu_is_export op in
  let export_register := alu_vector_dest op in
  let '(storage_target, storage_index_export) :=
    if is_export then parse_export_target export_register shader_type
    else (InstructionStorageTarget.kRegister, 0) in
  let logged :=
    if is_export && bool_decide (storage_target = InstructionStorageTarget.kNone)
    then [XELOGE "ShaderTranslator::ParseAluInstruction: Unsupported write to export {}"
                 [ArgInt export_register]]
    else [] in
  (* Vector operation and constant 0/1 writes. *)
  let vector_opcode := alu_vector_opcode op in
  let vector_opcode_info := arr_get alu_info_zero alu_vector_opcode_infos vector_opcode in
  let vresult := ParsedAluInstruction.vector_and_constant_result instr in
  let vresult := InstructionResult.set_storage_target storage_target vresult in
  let vresult :=
    InstructionResult.set_storage_addressing_mode
      InstructionStorageAddressingMode.kStatic vresult in
  let vresult :=
    if is_export then InstructionResult.set_storage_index storage_index_export vresult
    else
      let vresult := InstructionResult.set_storage_index (alu_vector_dest op) vresult in
      if alu_is_vector_dest_relative op then
        InstructionResult.set_storage_addressing_mode
          InstructionStorageAddressingMode.kAddressRelative vresult
      else vresult in
  let vresult := InstructionResult.set_is_clamped (alu_vector_clamp op) vresult in
  let constant_0_mask := alu_GetConstant0WriteMask op in
  let constant_1_mask := alu_GetConstant1WriteMask op in
  let vresult :=
    InstructionResult.set_original_write_mask
      (Z.lor (Z.lor (alu_GetVectorOpResultWriteMask op) constant_0_mask)
             constant_1_mask) vresult in
  let vresult :=
    foldl (vector_result_component constant_0_mask constant_1_mask) vresult
      [0; 1; 2; 3] in
  let vector_operand_count := argument_count vector_opcode_info in
  let vector_operands :=
    parse_vector_operands (Z.to_nat vector_operand_count) 0 op
      (src_swizzle_component_count vector_opcode_info)
      (ParsedAluInstruction.vector_operands instr) in
  (* Scalar operation. *)
  let scalar_opcode := alu_scalar_opcode op in
  let scalar_opcode_info := arr_get alu_info_zero alu_scalar_opcode_infos scalar_opcode in
  let sresult := ParsedAluInstruction.scalar_result instr in
  let sresult := InstructionResult.set_storage_target storage_target sresult in
  let sresult :=
    InstructionResult.set_storage_addressing_mode
      InstructionStorageAddressingMode.kStatic sresult in
  let sresult :=
    if is_export then InstructionResult.set_storage_index storage_index_export sresult
    else
      let sresult := InstructionResult.set_storage_index (alu_scalar_dest op) sresult in
      if alu_is_scalar_dest_relative op then
        InstructionResult.set_storage_addressing_mode
          InstructionStorageAddressingMode.kAddressRelative sresult
      else sresult in
  let sresult := InstructionResult.set_is_clamped (alu_scalar_clamp op) sresult in
  let sresult :=
    InstructionResult.set_original_write_mask (alu_GetScalarOpResultWriteMask op)
      sresult in
  let sresult :=
    foldl (fun r i => InstructionResult.set_component i (GetSwizzleFromComponentIndex i) r)
      sresult [0; 1; 2; 3] in
  let scalar_operand_count := argument_count scalar_opcode_info in
  let scalar_operands := ParsedAluInstruction.scalar_operands instr in
  let scalar_operands :=
    if nonzero scalar_operand_count then
      if scalar_operand_count =? 1 then
        arr_upd InstructionOperand.init scalar_operands 0
          (ParseAluInstructionOperand op 3
             (src_swizzle_component_count scalar_opcode_info))
      else
        let src3_swizzle := alu_src_swizzle op 3 in
        let component_a := Z.land (Z.shiftr src3_swizzle 6 + 3) 3 in
        let component_b := Z.land (Z.shiftr src3_swizzle 0 + 0) 3 in
        let reg2 :=
          Z.lor (Z.lor (Z.land src3_swizzle 60)
                       (Z.shiftl (Z.b2z (alu_src_is_temp op 3)) 1))
                (Z.land (alu_scalar_opcode op) 1) in
        let const_slot :=
          if alu_src_is_temp op 1 || alu_src_is_temp op 2 then 1 else 0 in
        let scalar_operands :=
          arr_upd InstructionOperand.init scalar_operands 0
            (ParseAluInstructionOperandSpecial op
               InstructionStorageSource.kConstantFloat (alu_src_reg op 3)
               (alu_src_negate op 3) 0 component_a) in
        arr_upd InstructionOperand.init scalar_operands 1
          (ParseAluInstructionOperandSpecial op InstructionStorageSource.kRegister
             reg2 (alu_src_negate op 3) const_slot component_b)
    else scalar_operands in
  ({| ParsedAluInstruction.is_predicated := alu_is_predicated op;
      ParsedAluInstruction.predicate_condition := alu_predicate_condition op;
      ParsedAluInstruction.vector_opcode := vector_opcode;
      ParsedAluInstruction.vector_opcode_name := name vector_opcode_info;
      ParsedAluInstruction.vector_and_constant_result := vresult;
      ParsedAluInstruction.vector_operand_count := vector_operand_count;
      ParsedAluInstruction.vector_operands := vector_operands;
      ParsedAluInstruction.scalar_opcode := scalar_opcode;
      ParsedAluInstruction.scalar_opcode_name := name scalar_opcode_info;
      ParsedAluInstruction.scalar_result := sresult;
      ParsedAluInstruction.scalar_operand_count := scalar_operand_count;
      ParsedAluInstruction.scalar_operands := scalar_operands |},
   logged).

(** *** The nop predicates and the memexport stream constant *)

(** What the first condition of [IsVectorOpDefaultNop] asks of each of the
    first two vector operands. *)
Definition operand_is_plain_r0 (o : InstructionOperand.t) : bool :=
  bool_decide (InstructionOperand.storage_source o = InstructionStorageSource.kRegister)
  && (InstructionOperand.storage_index o =? 0)
  && bool_decide (InstructionOperand.storage_addressing_mode o
                  = InstructionStorageAddressingMode.kStatic)
  && negb (InstructionOperand.is_negated o)
  && negb (InstructionOperand.is_absolute_value o)
  && IsStandardSwizzle o.

Definition IsScalarOpDefaultNop (instr : ParsedAluInstruction.t) : bool :=
  let scalar_result := ParsedAluInstruction.scalar_result instr in
  if negb (ParsedAluInstruction.scalar_opcode instr =? AluScalarOpcode.kRetainPrev)
     || nonzero (InstructionResult.original_write_mask scalar_result)
     || InstructionResult.is_clamped scalar_result
  then false
  else if bool_decide (InstructionResult.storage_target scalar_result
                       = InstructionStorageTarget.kRegister)
          && (negb (InstructionResult.storage_index scalar_result =? 0)
              || negb (bool_decide
                         (InstructionResult.storage_addressing_mode scalar_result
                          = InstructionStorageAddressingMode.kStatic)))
  then false
  else true.

Definition IsVectorOpDefaultNop (instr : ParsedAluInstruction.t) : bool :=
  let vresult := ParsedAluInstruction.vector_and_constant_result instr in
  let vector_operands := ParsedAluInstruction.vector_operands instr in
  if negb (ParsedAluInstruction.vector_opcode instr =? AluVectorOpcode.kMax)
     || nonzero (InstructionResult.original_write_mask vresult)
     || InstructionResult.is_clamped vresult
     || negb (operand_is_plain_r0 (arr_get InstructionOperand.init vector_operands 0))
     || negb (operand_is_plain_r0 (arr_get InstructionOperand.init vector_operands 1))
  then false
  else if bool_decide (InstructionResult.storage_target vresult
                       = InstructionStorageTarget.kRegister)
  then
    if negb (InstructionResult.storage_index vresult =? 0)
       || negb (bool_decide (InstructionResult.storage_addressing_mode vresult
                             = InstructionStorageAddressingMode.kStatic))
    then false
    else true
  else
    if IsScalarOpDefaultNop instr then false else true.

Definition IsNop (instr : ParsedAluInstruction.t) : bool :=
  (ParsedAluInstruction.scalar_opcode instr =? AluScalarOpcode.kRetainPrev)
  && negb (nonzero (GetUsedWriteMask (ParsedAluInstruction.scalar_result instr)))
  && negb (nonzero (GetUsedWriteMask
                      (ParsedAluInstruction.vector_and_constant_result instr)))
  && negb (AluVectorOpHasSideEffects (ParsedAluInstruction.vector_opcode instr)).

Definition GetMemExportStreamConstant (instr : ParsedAluInstruction.t) : Z :=
  let vresult := ParsedAluInstruction.vector_and_constant_result instr in
  let operand2 :=
    arr_get InstructionOperand.init (ParsedAluInstruction.vector_operands instr) 2 in
  if bool_decide (InstructionResult.storage_target vresult
                  = InstructionStorageTarget.kExportAddress)
     && (ParsedAluInstruction.vector_opcode instr =? AluVectorOpcode.kMad)
     && (GetUsedResultComponents vresult =? 15)
     && negb (InstructionResult.is_clamped vresult)
     && bool_decide (InstructionOperand.storage_source operand2
                     = InstructionStorageSource.kConstantFloat)
     && bool_decide (InstructionOperand.storage_addressing_mode operand2
                     = InstructionStorageAddressingMode.kStatic)
     && IsStandardSwizzle operand2
     && negb (InstructionOperand.is_negated operand2)
     && negb (InstructionOperand.is_absolute_value operand2)
  then InstructionOperand.storage_index operand2
  else UINT32_MAX.

End AluParser.

(** ** The shader object *)

(** The disassembly text, kept as the sequence of calls that build it:
    the rendering of parsed instructions ([Disassemble]) and of format
    arguments is done by code outside this file.  Format strings are kept
    as the source writes them. *)
Inductive ParsedInstruction :=
  | PExec (i : ParsedExecInstruction.t)
  | PLoopStart (i : ParsedLoopStartInstruction.t)
  | PLoopEnd (i : ParsedLoopEndInstruction.t)
  | PCall (i : ParsedCallInstruction.t)
  | PReturn (i : ParsedReturnInstruction.t)
  | PJump (i : ParsedJumpInstruction.t)
  | PAlloc (i : ParsedAllocInstruction.t)
  | PVertexFetch (i : ParsedVertexFetchInstruction.t)
  | PTextureFetch (i : ParsedTextureFetchInstruction.t)
  | PAlu (i : ParsedAluInstruction.t).

Inductive Chunk :=
  | Append (s : string)
  | AppendFormat (fmt : string) (args : list Z)
  | Disassemble (i : ParsedInstruction).

(** [xe::StringBuffer]: [Reset] gives [[]], [to_string] gives the list. *)
Definition StringBuffer : Type := list Chunk.

Definition fmt_label : string := "                label L{}\n".
Definition fmt_cf_index : string := "/* {:4d}.{} */ ".
Definition fmt_instr_offset : string := "/* {:4d}   */ ".

Module VertexBinding.
Record Attribute := mkAttribute { fetch_instr : ParsedVertexFetchInstruction.t }.
Record t := mk {
  binding_index : Z;
  fetch_constant : Z;
  stride_words : Z;
  attributes : list Attribute
}.
End VertexBinding.

Module TextureBinding.
Record t := mk {
  binding_index : Z;
  fetch_constant : Z;
  fetch_instr : ParsedTextureFetchInstruction.t
}.
End TextureBinding.

Module ConstantRegisterMap.
Record t := mk {
  float_bitmap : list Z;             (* uint64_t[4] *)
  float_count : Z;
  float_dynamic_addressing : bool;
  bool_bitmap : list Z;              (* uint32_t[8] *)
  loop_bitmap : Z
}.
Definition init : t := mk [0; 0; 0; 0] 0 false [0; 0; 0; 0; 0; 0; 0; 0] 0.
Definition set_float_bitmap v (m : t) : t :=
  mk v (float_count m) (float_dynamic_addressing m) (bool_bitmap m) (loop_bitmap m).
Definition set_float_count v (m : t) : t :=
  mk (float_bitmap m) v (float_dynamic_addressing m) (bool_bitmap m) (loop_bitmap m).
Definition set_float_dynamic_addressing v (m : t) : t :=
  mk (float_bitmap m) (float_count m) v (bool_bitmap m) (loop_bitmap m).
Definition set_bool_bitmap v (m : t) : t :=
  mk (float_bitmap m) (float_count m) (float_dynamic_addressing m) v (loop_bitmap m).
Definition set_loop_bitmap v (m : t) : t :=
  mk (float_bitmap m) (float_count m) (float_dynamic_addressing m) (bool_bitmap m) v.
End ConstantRegisterMap.

(** The members of [Shader] that the translated functions read or write. *)
#[projections(primitive)]
Record Shader := mkShader {
  ucode_data_ : list Z;
  type_ : ShaderType.t;
  is_ucode_analyzed_ : bool;
  cf_pair_index_bound_ : Z;
  label_addresses_ : gset Z;
  ucode_disassembly_ : list Chunk;
  constant_register_map_ : ConstantRegisterMap.t;
  vertex_bindings_ : list VertexBinding.t;
  texture_bindings_ : list TextureBinding.t;
  kills_pixels_ : bool;
  writes_color_targets_ : Z;
  writes_depth_ : bool;
  register_static_address_bound_ : Z;
  uses_register_dynamic_addressing_ : bool;
  memexport_eM_written_ : list Z;
  memexport_stream_constants_ : gset Z
}.

Definition set_is_ucode_analyzed_ (v : bool) (s : Shader) : Shader :=
  let '(mkShader a b _ d e f g h i j k l m n o p) := s in
  mkShader a b v d e f g h i j k l m n o p.
Definition set_cf_pair_index_bound_ (v : Z) (s : Shader) : Shader :=
  let '(mkShader a b c _ e f g h i j k l m n o p) := s in
  mkShader a b c v e f g h i j k l m n o p.
Definition set_label_addresses_ (v : gset Z) (s : Shader) : Shader :=
  let '(mkShader a b c d _ f g h i j k l m n o p) := s in
  mkShader a b c d v f g h i j k l m n o p.
Definition set_ucode_disassembly_ (v : list Chunk) (s : Shader) : Shader :=
  let '(mkShader a b c d e _ g h i j k l m n o p) := s in
  mkShader a b c d e v g h i j k l m n o p.
Definition set_constant_register_map_ (v : ConstantRegisterMap.t) (s : Shader) : Shader :=
  let '(mkShader a b c d e f _ h i j k l m n o p) := s in
  mkShader a b c d e f v h i j k l m n o p.
Definition set_vertex_bindings_ (v : list VertexBinding.t) (s : Shader) : Shader :=
  let '(mkShader a b c d e f g _ i j k l m n o p) := s in
  mkShader a b c d e f g v i j k l m n o p.
Definition set_texture_bindings_ (v : list TextureBinding.t) (s : Shader) : Shader :=
  let '(mkShader a b c d e f g h _ j k l m n o p) := s in
  mkShader a b c d e f g h v j k l m n o p.
Definition set_kills_pixels_ (v : bool) (s : Shader) : Shader :=
  let '(mkShader a b c d e f g h i _ k l m n o p) := s in
  mkShader a b c d e f g h i v k l m n o p.
Definition set_writes_color_targets_ (v : Z) (s : Shader) : Shader :=
  let '(mkShader a b c d e f g h i j _ l m n o p) := s in
  mkShader a b c d e f g h i j v l m n o p.
Definition set_writes_depth_ (v : bool) (s : Shader) : Shader :=
  let '(mkShader a b c d e f g h i j k _ m n o p) := s in
  mkShader a b c d e f g h i j k v m n o p.
Definition set_register_static_address_bound_ (v : Z) (s : Shader) : Shader :=
  let '(mkShader a b c d e f g h i j k l _ n o p) := s in
  mkShader a b c d e f g h i j k l v n o p.
Definition set_uses_register_dynamic_addressing_ (v : bool) (s : Shader) : Shader :=
  let '(mkShader a b c d e f g h i j k l m _ o p) := s in
  mkShader a b c d e f g h i j k l m v o p.
Definition set_memexport_eM_written_ (v : list Z) (s : Shader) : Shader :=
  let '(mkShader a b c d e f g h i j k l m n _ p) := s in
  mkShader a b c d e f g h i j k l m n v p.
Definition set_memexport_stream_constants_ (v : gset Z) (s : Shader) : Shader :=
  let '(mkShader a b c d e f g h i j k l m n o _) := s in
  mkShader a b c d e f g h i j k l m n o v.

(** The shader together with the locals of [AnalyzeUcode] that the
    [Gather*] functions receive by reference, the caller's disassembly
    buffer, and the events emitted so far. *)
#[projections(primitive)]
Record AnalysisState := mkAnalysisState {
  shader : Shader;
  previous_vfetch_full : Dwords3;
  unique_texture_bindings : Z;
  memexport_alloc_count : Z;
  memexport_eA_written : Z;
  ucode_disasm_buffer : StringBuffer;
  events : list Event
}.

Definition on_shader (f : Shader -> Shader) (st : AnalysisState) : AnalysisState :=
  let '(mkAnalysisState s a b c d e g) := st in mkAnalysisState (f s) a b c d e g.
Definition set_previous_vfetch_full (v : Dwords3) (st : AnalysisState) : AnalysisState :=
  let '(mkAnalysisState s _ b c d e g) := st in mkAnalysisState s v b c d e g.
Definition set_unique_texture_bindings (v : Z) (st : AnalysisState) : AnalysisState :=
  let '(mkAnalysisState s a _ c d e g) := st in mkAnalysisState s a v c d e g.
Definition set_memexport_alloc_count (v : Z) (st : AnalysisState) : AnalysisState :=
  let '(mkAnalysisState s a b _ d e g) := st in mkAnalysisState s a b v d e g.
Definition set_memexport_eA_written (v : Z) (st : AnalysisState) : AnalysisState :=
  let '(mkAnalysisState s a b c _ e g) := st in mkAnalysisState s a b c v e g.
Definition emit (chunk : Chunk) (st : AnalysisState) : AnalysisState :=
  let '(mkAnalysisState s a b c d e g) := st in mkAnalysisState s a b c d (e ++ [chunk]) g.
Definition log_events (evs : list Event) (st : AnalysisState) : AnalysisState :=
  let '(mkAnalysisState s a b c d e g) := st in mkAnalysisState s a b c d e (g ++ evs).

(** ** The analysis pass *)

Section Analysis.
Context `{SD : ShaderDecl} `{ER : ExportRegisterDecl} `{ALU : AluInstructionDecl}
        `{VF : VertexFetchInstructionDecl} `{TF : TextureFetchInstructionDecl}
        `{CF : ControlFlowInstructionDecl}.

(** [cvars::dump_shaders]. *)
Variable cvars_dump_shaders : string.

(** [register_static_address_bound_ = max(bound, index + 1)] when the
    addressing is static, the dynamic-addressing flag otherwise. *)
Definition gather_register_use (mode : InstructionStorageAddressingMode.t)
    (storage_index : Z) (s : Shader) : Shader :=
  if bool_decide (mode = InstructionStorageAddressingMode.kStatic) then
    set_register_static_address_bound_
      (Z.max (register_static_address_bound_ s) (u32 (storage_index + 1))) s
  else set_uses_register_dynamic_addressing_ true s.

Definition GatherOperandInformation (operand : InstructionOperand.t) (s : Shader)
    : Shader :=
  match InstructionOperand.storage_source operand with
  | InstructionStorageSource.kRegister =>
      gather_register_use (InstructionOperand.storage_addressing_mode operand)
        (InstructionOperand.storage_index operand) s
  | InstructionStorageSource.kConstantFloat =>
      let map := constant_register_map_ s in
      if bool_decide (InstructionOperand.storage_addressing_mode operand
                      = InstructionStorageAddressingMode.kStatic) then
        let index := InstructionOperand.storage_index operand in
        set_constant_register_map_
          (ConstantRegisterMap.set_float_bitmap
             (arr_upd 0 (ConstantRegisterMap.float_bitmap map) (Z.shiftr index 6)
                (fun w => Z.lor w (Z.shiftl 1 (Z.land index 63))))
             map) s
      else
        set_constant_register_map_
          (ConstantRegisterMap.set_float_dynamic_addressing true map) s
  | _ => s
  end.

Definition GatherFetchResultInformation (result : InstructionResult.t) (s : Shader)
    : Shader :=
  if negb (nonzero (GetUsedWriteMask result)) then s
  else
    gather_register_use (InstructionResult.storage_addressing_mode result)
      (InstructionResult.storage_index result) s.

Definition memexport_count_valid (memexport_alloc_current_count : Z) : bool :=
  (0 <? memexport_alloc_current_count)
  && (memexport_alloc_current_count <=? kMaxMemExports).

Definition GatherAluResultInformation (result : InstructionResult.t)
    (memexport_alloc_current_count : Z) (s : Shader) : Shader :=
  if negb (nonzero (GetUsedWriteMask result)) then s
  else
    match InstructionResult.storage_target result with
    | InstructionStorageTarget.kRegister =>
        gather_register_use (InstructionResult.storage_addressing_mode result)
          (InstructionResult.storage_index result) s
    | InstructionStorageTarget.kExportData =>
        if memexport_count_valid memexport_alloc_current_count then
          set_memexport_eM_written_
            (arr_upd 0 (memexport_eM_written_ s) (memexport_alloc_current_count - 1)
               (fun w => Z.lor w (u32 (Z.shiftl 1 (InstructionResult.storage_index result)))))
            s
        else s
    | InstructionStorageTarget.kColor =>
        set_writes_color_targets_
          (Z.lor (writes_color_targets_ s)
                 (u32 (Z.shiftl 1 (InstructionResult.storage_index result)))) s
    | InstructionStorageTarget.kDepth => set_writes_depth_ true s
    | _ => s
    end.

(** [for (i = 0; i < operand_count; ++i) GatherOperandInformation(operands[i])] *)
Definition gather_operands (operand_count : Z) (operands : list InstructionOperand.t)
    (s : Shader) : Shader :=
  foldl (fun s i => GatherOperandInformation (arr_get InstructionOperand.init operands i) s)
    s (seqZ 0 operand_count).

(** The search for a binding of the fetch slot; on a hit the binding gets
    one more attribute and the search stops.  [None]: no binding found. *)
Fixpoint add_vertex_attribute (fetch_constant : Z) (attrib : VertexBinding.Attribute)
    (bindings : list VertexBinding.t) : option (list VertexBinding.t) :=
  match bindings with
  | [] => None
  | vertex_binding :: rest =>
      if VertexBinding.fetch_constant vertex_binding =? fetch_constant then
        Some (VertexBinding.mk (VertexBinding.binding_index vertex_binding)
                (VertexBinding.fetch_constant vertex_binding)
                (VertexBinding.stride_words vertex_binding)
                (VertexBinding.attributes vertex_binding ++ [attrib]) :: rest)
      else
        match add_vertex_attribute fetch_constant attrib rest with
        | Some rest' => Some (vertex_binding :: rest')
        | None => None
        end
  end.

Definition GatherVertexFetchInformation (op : Dwords3) (st : AnalysisState)
    : AnalysisState :=
  let '(update, fetch_instr) :=
    ParseVertexFetchInstruction op (previous_vfetch_full st)
      ParsedVertexFetchInstruction.init in
  let st := if update then set_previous_vfetch_full op st else st in
  let st := emit (Disassemble (PVertexFetch fetch_instr)) st in
  let st :=
    on_shader (GatherFetchResultInformation
                 (ParsedVertexFetchInstruction.result fetch_instr)) st in
  (* Don't bother setting up a binding for an instruction that fetches nothing. *)
  if negb (nonzero (GetUsedResultComponents
                      (ParsedVertexFetchInstruction.result fetch_instr)))
  then st
  else
    let st :=
      on_shader (gather_operands
                   (ParsedVertexFetchInstruction.operand_count fetch_instr)
                   (ParsedVertexFetchInstruction.operands fetch_instr)) st in
    let attrib := VertexBinding.mkAttribute fetch_instr in
    on_shader
      (fun s =>
         match add_vertex_attribute (vf_fetch_constant_index op) attrib
                 (vertex_bindings_ s) with
         | Some bindings => set_vertex_bindings_ bindings s
         | None =>
             set_vertex_bindings_
               (vertex_bindings_ s ++
                  [VertexBinding.mk (Z.of_nat (length (vertex_bindings_ s)))
                     (vf_fetch_constant_index op)
                     (VertexFetchAttributes.stride
                        (ParsedVertexFetchInstruction.attributes fetch_instr))
                     [attrib]]) s
         end) st.

(** The search for an earlier use of the fetch constant: the binding index
    of the first binding with that slot, or the index passed in. *)
Fixpoint find_texture_binding_index (fetch_constant binding_index : Z)
    (bindings : list TextureBinding.t) : Z :=
  match bindings with
  | [] => binding_index
  | tex_binding :: rest =>
      if TextureBinding.fetch_constant tex_binding =? fetch_constant
      then TextureBinding.binding_index tex_binding
      else find_texture_binding_index fetch_constant binding_index rest
  end.

(** The opcodes of the first [switch] case: they do not use bindings. *)
Definition texture_opcode_sets_state (opcode : FetchOpcode.t) : bool :=
  match opcode with
  | FetchOpcode.kSetTextureLod
  | FetchOpcode.kSetTextureGradientsHorz
  | FetchOpcode.kSetTextureGradientsVert => true
  | _ => false
  end.

Definition GatherTextureFetchInformation (op : Dwords3) (st : AnalysisState)
    : AnalysisState :=
  let fetch_instr := ParseTextureFetchInstruction op ParsedTextureFetchInstruction.init in
  let st := emit (Disassemble (PTextureFetch fetch_instr)) st in
  let st :=
    on_shader (GatherFetchResultInformation
                 (ParsedTextureFetchInstruction.result fetch_instr)) st in
  let st :=
    on_shader (gather_operands
                 (ParsedTextureFetchInstruction.operand_count fetch_instr)
                 (ParsedTextureFetchInstruction.operands fetch_instr)) st in
  if texture_opcode_sets_state (tf_opcode op) then st
  else
    let fetch_constant :=
      InstructionOperand.storage_index
        (arr_get InstructionOperand.init
           (ParsedTextureFetchInstruction.operands fetch_instr) 1) in
    (* Check and see if this fetch constant was previously used... *)
    let binding_index :=
      find_texture_binding_index fetch_constant (-1) (texture_bindings_ (shader st)) in
    let '(binding_index, st) :=
      if binding_index =? -1 then
        (* Assign a unique binding index. *)
        (unique_texture_bindings st,
         set_unique_texture_bindings (u32 (unique_texture_bindings st + 1)) st)
      else (binding_index, st) in
    on_shader
      (fun s =>
         set_texture_bindings_
           (texture_bindings_ s ++
              [TextureBinding.mk binding_index fetch_constant fetch_instr]) s) st.

Definition fmt_no_stream_constant : string :=
  "ShaderTranslator::GatherAluInstructionInformation: Couldn't extract memexport stream constant index".

Definition GatherAluInstructionInformation (op : Dwords3)
    (memexport_alloc_current_count : Z) (st : AnalysisState) : AnalysisState :=
  let '(instr, logged) :=
    ParseAluInstruction op (type_ (shader st)) ParsedAluInstruction.init in
  let st := log_events logged st in
  let st := emit (Disassemble (PAlu instr)) st in
  let st :=
    on_shader
      (fun s =>
         set_kills_pixels_
           (kills_pixels_ s
            || AluVectorOpcodeIsKill (alu_vector_opcode op)
            || AluScalarOpcodeIsKill (alu_scalar_opcode op)) s) st in
  let st :=
    on_shader (GatherAluResultInformation
                 (ParsedAluInstruction.vector_and_constant_result instr)
                 memexport_alloc_current_count) st in
  let st :=
    on_shader (GatherAluResultInformation (ParsedAluInstruction.scalar_result instr)
                 memexport_alloc_current_count) st in
  let st :=
    on_shader (gather_operands (ParsedAluInstruction.vector_operand_count instr)
                 (ParsedAluInstruction.vector_operands instr)) st in
  let st :=
    on_shader (gather_operands (ParsedAluInstruction.scalar_operand_count instr)
                 (ParsedAluInstruction.scalar_operands instr)) st in
  if bool_decide (InstructionResult.storage_target
                    (ParsedAluInstruction.vector_and_constant_result instr)
                  = InstructionStorageTarget.kExportAddress)
     && memexport_count_valid memexport_alloc_current_count
  then
    let memexport_stream_constant := GetMemExportStreamConstant instr in
    if negb (memexport_stream_constant =? UINT32_MAX) then
      let st :=
        set_memexport_eA_written
          (Z.lor (memexport_eA_written st)
                 (u32 (Z.shiftl 1 (memexport_alloc_current_count - 1)))) st in
      on_shader
        (fun s =>
           set_memexport_stream_constants_
             ({[memexport_stream_constant]} ∪ memexport_stream_constants_ s) s) st
    else log_events [XELOGE fmt_no_stream_constant []] st
  else st.

(** One instruction of an exec block. *)
Definition gather_exec_slot (memexport_alloc_current_count instr_offset sequence : Z)
    (st : AnalysisState) : AnalysisState :=
  let st := emit (AppendFormat fmt_instr_offset [instr_offset]) st in
  let st :=
    if nonzero (Z.land sequence 2)
    then emit (Append "         serialize\n             ") st
    else st in
  let op := dwords_at (ucode_data_ (shader st)) instr_offset in
  if nonzero (Z.land sequence 1) then
    let fetch_opcode :=
      FetchOpcode_of
        (Z.land (arr_get 0 (ucode_data_ (shader st)) (u32 (instr_offset * 3))) 31) in
    if bool_decide (fetch_opcode = FetchOpcode.kVertexFetch)
    then GatherVertexFetchInformation op st
    else GatherTextureFetchInformation op st
  else GatherAluInstructionInformation op memexport_alloc_current_count st.

(** The loop of [GatherExecInformation]:
    [for (; instr_offset < address + count; ++instr_offset, sequence >>= 2)].
    It runs at most [count] rounds, which is the fuel. *)
Fixpoint gather_exec_loop (fuel : nat) (bound memexport_alloc_current_count : Z)
    (instr_offset sequence : Z) (st : AnalysisState) : AnalysisState :=
  match fuel with
  | O => st
  | S fuel' =>
      if instr_offset <? bound then
        gather_exec_loop fuel' bound memexport_alloc_current_count
          (u32 (instr_offset + 1)) (Z.shiftr sequence 2)
          (gather_exec_slot memexport_alloc_current_count instr_offset sequence st)
      else st
  end.

Definition GatherExecInformation (instr : ParsedExecInstruction.t)
    (memexport_alloc_current_count : Z) (st : AnalysisState) : AnalysisState :=
  let st := emit (Disassemble (PExec instr)) st in
  gather_exec_loop (Z.to_nat (ParsedExecInstruction.instruction_count instr))
    (u32 (ParsedExecInstruction.instruction_address instr
          + ParsedExecInstruction.instruction_count instr))
    memexport_alloc_current_count
    (ParsedExecInstruction.instruction_address instr)
    (ParsedExecInstruction.sequence instr) st.

(** *** Program bound and labels *)

(** The body of the inner loop of the first pass, for one instruction. *)
Definition scan_cf (cf : ControlFlowInstruction) (s : Shader) : Shader :=
  let s :=
    if IsControlFlowOpcodeExec (cf_opcode cf)
    then set_cf_pair_index_bound_ (Z.min (cf_pair_index_bound_ s) (exec_address cf)) s
    else s in
  match cf_opcode cf with
  | ControlFlowOpcode.kCondCall =>
      set_label_addresses_ ({[cond_call_address cf]} ∪ label_addresses_ s) s
  | ControlFlowOpcode.kCondJmp =>
      set_label_addresses_ ({[cond_jmp_address cf]} ∪ label_addresses_ s) s
  | ControlFlowOpcode.kLoopStart =>
      set_label_addresses_ ({[loop_start_address cf]} ∪ label_addresses_ s) s
  | ControlFlowOpcode.kLoopEnd =>
      set_label_addresses_ ({[loop_end_address cf]} ∪ label_addresses_ s) s
  | _ => s
  end.

Definition scan_pair (i : Z) (s : Shader) : Shader :=
  let '(cf_a, cf_b) := UnpackControlFlowInstructions (dwords_at (ucode_data_ s) i) in
  scan_cf cf_b (scan_cf cf_a s).

(** The first loop, [for (i = 0; i < cf_pair_index_bound_; ++i)]: the
    condition reads the member that the body lowers.  Besides the shader
    the function returns the indices [i] for which the body ran, in
    order.  The bound never grows, so the initial bound is fuel enough. *)
Fixpoint scan_loop (fuel : nat) (i : Z) (s : Shader) (unpacked : list Z)
    : Shader * list Z :=
  match fuel with
  | O => (s, unpacked)
  | S fuel' =>
      if i <? cf_pair_index_bound_ s
      then scan_loop fuel' (u32 (i + 1)) (scan_pair i s) (unpacked ++ [i])
      else (s, unpacked)
  end.

Definition scan_control_flow (s : Shader) : Shader * list Z :=
  let s := set_cf_pair_index_bound_ (u32 (Z.of_nat (length (ucode_data_ s)) / 3)) s in
  scan_loop (Z.to_nat (cf_pair_index_bound_ s)) 0 s [].

(** *** Disassemble and gather information *)

Definition mark_bool_constant (bool_constant_index : Z) (s : Shader) : Shader :=
  if negb (bool_constant_index =? UINT32_MAX) then
    let map := constant_register_map_ s in
    set_constant_register_map_
      (ConstantRegisterMap.set_bool_bitmap
         (arr_upd 0 (ConstantRegisterMap.bool_bitmap map) (bool_constant_index / 32)
            (fun w => Z.lor w (u32 (Z.shiftl 1 (bool_constant_index mod 32)))))
         map) s
  else s.

Definition mark_loop_constant (loop_constant_index : Z) (s : Shader) : Shader :=
  let map := constant_register_map_ s in
  set_constant_register_map_
    (ConstantRegisterMap.set_loop_bitmap
       (Z.lor (ConstantRegisterMap.loop_bitmap map)
              (u32 (Z.shiftl 1 loop_constant_index))) map) s.

(** The body of the inner loop of the second pass. *)
Definition analyze_cf (i j : Z) (cf : ControlFlowInstruction) (st : AnalysisState)
    : AnalysisState :=
  let cf_index := u32 (i * 2 + j) in
  let st :=
    if bool_decide (cf_index ∈ label_addresses_ (shader st))
    then emit (AppendFormat fmt_label [cf_index]) st
    else st in
  let st := emit (AppendFormat fmt_cf_index [i; j]) st in
  let '(bool_constant_index, st) :=
    match cf_opcode cf with
    | ControlFlowOpcode.kNop => (UINT32_MAX, emit (Append "      cnop\n") st)
    | ControlFlowOpcode.kExec | ControlFlowOpcode.kExecEnd =>
        let instr := ParseControlFlowExec cf cf_index ParsedExecInstruction.init in
        (UINT32_MAX, GatherExecInformation instr (memexport_alloc_count st) st)
    | ControlFlowOpcode.kCondExec | ControlFlowOpcode.kCondExecEnd
    | ControlFlowOpcode.kCondExecPredClean | ControlFlowOpcode.kCondExecPredCleanEnd =>
        let instr := ParseControlFlowCondExec cf cf_index ParsedExecInstruction.init in
        (cond_exec_bool_address cf,
         GatherExecInformation instr (memexport_alloc_count st) st)
    | ControlFlowOpcode.kCondExecPred | ControlFlowOpcode.kCondExecPredEnd =>
        let instr := ParseControlFlowCondExecPred cf cf_index ParsedExecInstruction.init in
        (UINT32_MAX, GatherExecInformation instr (memexport_alloc_count st) st)
    | ControlFlowOpcode.kLoopStart =>
        let instr := ParseControlFlowLoopStart cf cf_index ParsedLoopStartInstruction.init in
        (UINT32_MAX,
         on_shader (mark_loop_constant
                      (ParsedLoopStartInstruction.loop_constant_index instr))
           (emit (Disassemble (PLoopStart instr)) st))
    | ControlFlowOpcode.kLoopEnd =>
        let instr := ParseControlFlowLoopEnd cf cf_index ParsedLoopEndInstruction.init in
        (UINT32_MAX,
         on_shader (mark_loop_constant
                      (ParsedLoopEndInstruction.loop_constant_index instr))
           (emit (Disassemble (PLoopEnd instr)) st))
    | ControlFlowOpcode.kCondCall =>
        let instr := ParseControlFlowCondCall cf cf_index ParsedCallInstruction.init in
        (if bool_decide (ParsedCallInstruction.type instr = CfType.kConditional)
         then ParsedCallInstruction.bool_constant_index instr else UINT32_MAX,
         emit (Disassemble (PCall instr)) st)
    | ControlFlowOpcode.kReturn =>
        let instr := ParseControlFlowReturn cf cf_index ParsedReturnInstruction.init in
        (UINT32_MAX, emit (Disassemble (PReturn instr)) st)
    | ControlFlowOpcode.kCondJmp =>
        let instr := ParseControlFlowCondJmp cf cf_index ParsedJumpInstruction.init in
        (if bool_decide (ParsedJumpInstruction.type instr = CfType.kConditional)
         then ParsedJumpInstruction.bool_constant_index instr else UINT32_MAX,
         emit (Disassemble (PJump instr)) st)
    | ControlFlowOpcode.kAlloc =>
        let instr :=
          ParseControlFlowAlloc cf cf_index
            (bool_decide (type_ (shader st) = ShaderType.kVertex))
            ParsedAllocInstruction.init in
        let st := emit (Disassemble (PAlloc instr)) st in
        (UINT32_MAX,
         if bool_decide (ParsedAllocInstruction.type instr = AllocType.kMemory)
         then set_memexport_alloc_count (u32 (memexport_alloc_count st + 1)) st
         else st)
    | ControlFlowOpcode.kMarkVsFetchDone => (UINT32_MAX, st)
    end in
  on_shader (mark_bool_constant bool_constant_index) st.

Definition analyze_pair (st : AnalysisState) (i : Z) : AnalysisState :=
  let '(cf_a, cf_b) :=
    UnpackControlFlowInstructions (dwords_at (ucode_data_ (shader st)) i) in
  analyze_cf i 1 cf_b (analyze_cf i 0 cf_a st).

(** *** After the walk *)

Definition finish_float_constants (s : Shader) : Shader :=
  let map := constant_register_map_ s in
  if ConstantRegisterMap.float_dynamic_addressing map then
    (* All potentially can be referenced. *)
    set_constant_register_map_
      (ConstantRegisterMap.set_float_bitmap
         (fmap (fun _ => 2 ^ 64 - 1) (ConstantRegisterMap.float_bitmap map))
         (ConstantRegisterMap.set_float_count 256 map)) s
  else
    set_constant_register_map_
      (ConstantRegisterMap.set_float_count
         (foldl (fun count i =>
                   u32 (count + bit_count (arr_get 0 (ConstantRegisterMap.float_bitmap map) i)))
            0 [0; 1; 2; 3])
         map) s.

(** One round of the cleanup of invalid or unneeded memexport allocs, on
    the pair of the local [memexport_eA_written] and the member array. *)
Definition cleanup_memexport_slot (acc : Z * list Z) (i : Z) : Z * list Z :=
  let '(memexport_eA_written, memexport_eM_written) := acc in
  if negb (nonzero (Z.land memexport_eA_written (u32 (Z.shiftl 1 i)))) then
    (memexport_eA_written, arr_upd 0 memexport_eM_written i (fun _ => 0))
  else if negb (nonzero (arr_get 0 memexport_eM_written i)) then
    (Z.land memexport_eA_written (u32 (Z.lnot (u32 (Z.shiftl 1 i)))),
     memexport_eM_written)
  else acc.

Definition cleanup_memexport (st : AnalysisState) : AnalysisState :=
  let '(memexport_eA_written, memexport_eM_written) :=
    foldl cleanup_memexport_slot
      (memexport_eA_written st, memexport_eM_written_ (shader st))
      (seqZ 0 kMaxMemExports) in
  let st := set_memexport_eA_written memexport_eA_written st in
  let st := on_shader (set_memexport_eM_written_ memexport_eM_written) st in
  if memexport_eA_written =? 0
  then on_shader (set_memexport_stream_constants_ ∅) st
  else st.

(** Everything [AnalyzeUcode] does after its guard.  The result still
    holds the locals, with the values they have when the function returns. *)
Definition AnalyzeUcode_body (s : Shader) (evs : list Event) : AnalysisState :=
  let s := fst (scan_control_flow s) in
  (* Disassemble and gather information. *)
  let st := mkAnalysisState s (0, 0, 0) 0 0 0 [] evs in
  let st := foldl analyze_pair st (seqZ 0 (cf_pair_index_bound_ s)) in
  let st := on_shader (set_ucode_disassembly_ (ucode_disasm_buffer st)) st in
  let st := on_shader finish_float_constants st in
  let st := cleanup_memexport st in
  let st := on_shader (set_is_ucode_analyzed_ true) st in
  (* An empty shader can be created internally by shader translators as a
     dummy, don't dump it. *)
  if negb (String.eqb cvars_dump_shaders EmptyString)
     && negb (bool_decide (ucode_data_ (shader st) = []))
  then log_events [DumpUcode cvars_dump_shaders] st
  else st.

(** [Shader::AnalyzeUcode(StringBuffer& ucode_disasm_buffer)], on the
    shader, the caller's buffer and the events emitted so far. *)
Definition AnalyzeUcode (s : Shader) (ucode_disasm_buffer0 : StringBuffer)
    (evs : list Event) : Shader * StringBuffer * list Event :=
  if is_ucode_analyzed_ s then (s, ucode_disasm_buffer0, evs)
  else
    let st := AnalyzeUcode_body s evs in
    (shader st, ucode_disasm_buffer st, events st).

End Analysis.

(** ** The translation driver *)

Module ShaderError.
Record t := mk { message : string; is_fatal : bool }.
End ShaderError.

Module Translation.
Record t := mk {
  shader : Shader;
  errors_ : list ShaderError.t;
  translated_binary_ : list Z;
  is_translated_ : bool;
  is_valid_ : bool
}.
Definition set_errors_ v (tr : t) : t :=
  mk (shader tr) v (translated_binary_ tr) (is_translated_ tr) (is_valid_ tr).
Definition set_translated_binary_ v (tr : t) : t :=
  mk (shader tr) (errors_ tr) v (is_translated_ tr) (is_valid_ tr).
Definition set_is_translated_ v (tr : t) : t :=
  mk (shader tr) (errors_ tr) (translated_binary_ tr) v (is_valid_ tr).
Definition set_is_valid_ v (tr : t) : t :=
  mk (shader tr) (errors_ tr) (translated_binary_ tr) (is_translated_ tr) v.
End Translation.

(** A [ShaderTranslator] at work: the members of the base class, the
    members of the backend ([backend], of a type the backend chooses), the
    [Shader::Translation] the call received (reached in C++ through the
    reference and through the member pointer [translation_]), and the
    events emitted so far. *)
#[projections(primitive)]
Record Translator (B : Type) := mkTranslator {
  backend : B;
  errors_ : list ShaderError.t;
  previous_vfetch_full_ : Dwords3;
  register_count_ : Z;
  cf_index_ : Z;
  translation : Translation.t;
  translator_events : list Event
}.
Arguments mkTranslator {B}.
Arguments backend {B}.
Arguments errors_ {B}.
Arguments previous_vfetch_full_ {B}.
Arguments register_count_ {B}.
Arguments cf_index_ {B}.
Arguments translation {B}.
Arguments translator_events {B}.

Section Translator.
Context `{SD : ShaderDecl} `{ER : ExportRegisterDecl} `{ALU : AluInstructionDecl}
        `{VF : VertexFetchInstructionDecl} `{TF : TextureFetchInstructionDecl}
        `{CF : ControlFlowInstructionDecl}.
Context {B : Type}.

(** The virtual methods a backend implements. *)
Class BackendDecl := {
  GetModificationRegisterCount : Translator B -> Z;
  StartTranslation : Translator B -> Translator B;
  CompleteTranslation : Translator B -> list Z * Translator B;
  PostTranslation : Translator B -> Translator B;
  PreProcessControlFlowInstructions :
    list ControlFlowInstruction -> Translator B -> Translator B;
  ProcessLabel : Z -> Translator B -> Translator B;
  ProcessControlFlowInstructionBegin : Z -> Translator B -> Translator B;
  ProcessControlFlowInstructionEnd : Z -> Translator B -> Translator B;
  ProcessControlFlowNopInstruction : Z -> Translator B -> Translator B;
  ProcessExecInstructionBegin : ParsedExecInstruction.t -> Translator B -> Translator B;
  ProcessExecInstructionEnd : ParsedExecInstruction.t -> Translator B -> Translator B;
  ProcessLoopStartInstruction :
    ParsedLoopStartInstruction.t -> Translator B -> Translator B;
  ProcessLoopEndInstruction : ParsedLoopEndInstruction.t -> Translator B -> Translator B;
  ProcessCallInstruction : ParsedCallInstruction.t -> Translator B -> Translator B;
  ProcessReturnInstruction : ParsedReturnInstruction.t -> Translator B -> Translator B;
  ProcessJumpInstruction : ParsedJumpInstruction.t -> Translator B -> Translator B;
  ProcessAllocInstruction : ParsedAllocInstruction.t -> Translator B -> Translator B;
  ProcessVertexFetchInstruction :
    ParsedVertexFetchInstruction.t -> Translator B -> Translator B;
  ProcessTextureFetchInstruction :
    ParsedTextureFetchInstruction.t -> Translator B -> Translator B;
  ProcessAluInstruction : ParsedAluInstruction.t -> Translator B -> Translator B
}.
Context `{BE : BackendDecl}.

Definition set_errors_ (v : list ShaderError.t) (t : Translator B) : Translator B :=
  let '(mkTranslator a _ c d e f g) := t in mkTranslator a v c d e f g.
Definition set_previous_vfetch_full_ (v : Dwords3) (t : Translator B) : Translator B :=
  let '(mkTranslator a b _ d e f g) := t in mkTranslator a b v d e f g.
Definition set_register_count_ (v : Z) (t : Translator B) : Translator B :=
  let '(mkTranslator a b c _ e f g) := t in mkTranslator a b c v e f g.
Definition set_cf_index_ (v : Z) (t : Translator B) : Translator B :=
  let '(mkTranslator a b c d _ f g) := t in mkTranslator a b c d v f g.
Definition set_translation (v : Translation.t) (t : Translator B) : Translator B :=
  let '(mkTranslator a b c d e _ g) := t in mkTranslator a b c d e v g.
Definition translator_log (evs : list Event) (t : Translator B) : Translator B :=
  let '(mkTranslator a b c d e f g) := t in mkTranslator a b c d e f (g ++ evs).

Definition current_shader (t : Translator B) : Shader :=
  Translation.shader (translation t).

Definition Reset (t : Translator B) : Translator B :=
  set_previous_vfetch_full_ (0, 0, 0) (set_errors_ [] t).

Definition EmitTranslationError (message : string) (is_fatal : bool)
    (t : Translator B) : Translator B :=
  let t := set_errors_ (errors_ t ++ [ShaderError.mk message is_fatal]) t in
  translator_log
    [XELOGE "Shader translation {}error: {}"
       [ArgStr (if is_fatal then "fatal " else EmptyString); ArgStr message]] t.

Definition translate_exec_slot (instr_offset sequence : Z) (t : Translator B)
    : Translator B :=
  let ucode_dwords := ucode_data_ (current_shader t) in
  let op := dwords_at ucode_dwords instr_offset in
  if nonzero (Z.land sequence 1) then
    let fetch_opcode :=
      FetchOpcode_of (Z.land (arr_get 0 ucode_dwords (u32 (instr_offset * 3))) 31) in
    if bool_decide (fetch_opcode = FetchOpcode.kVertexFetch) then
      let '(update, vfetch_instr) :=
        ParseVertexFetchInstruction op (previous_vfetch_full_ t)
          ParsedVertexFetchInstruction.init in
      let t := if update then set_previous_vfetch_full_ op t else t in
      ProcessVertexFetchInstruction vfetch_instr t
    else
      ProcessTextureFetchInstruction
        (ParseTextureFetchInstruction op ParsedTextureFetchInstruction.init) t
  else
    let '(alu_instr, logged) :=
      ParseAluInstruction op (type_ (current_shader t)) ParsedAluInstruction.init in
    ProcessAluInstruction alu_instr (translator_log logged t).

Fixpoint translate_exec_loop (fuel : nat) (bound instr_offset sequence : Z)
    (t : Translator B) : Translator B :=
  match fuel with
  | O => t
  | S fuel' =>
      if instr_offset <? bound then
        translate_exec_loop fuel' bound (u32 (instr_offset + 1)) (Z.shiftr sequence 2)
          (translate_exec_slot instr_offset sequence t)
      else t
  end.

Definition TranslateExecInstructions (instr : ParsedExecInstruction.t)
    (t : Translator B) : Translator B :=
  let t := ProcessExecInstructionBegin instr t in
  let t :=
    translate_exec_loop (Z.to_nat (ParsedExecInstruction.instruction_count instr))
      (u32 (ParsedExecInstruction.instruction_address instr
            + ParsedExecInstruction.instruction_count instr))
      (ParsedExecInstruction.instruction_address instr)
      (ParsedExecInstruction.sequence instr) t in
  ProcessExecInstructionEnd instr t.

Definition TranslateControlFlowInstruction (cf : ControlFlowInstruction)
    (t : Translator B) : Translator B :=
  match cf_opcode cf with
  | ControlFlowOpcode.kNop => ProcessControlFlowNopInstruction (cf_index_ t) t
  | ControlFlowOpcode.kExec | ControlFlowOpcode.kExecEnd =>
      TranslateExecInstructions
        (ParseControlFlowExec cf (cf_index_ t) ParsedExecInstruction.init) t
  | ControlFlowOpcode.kCondExec | ControlFlowOpcode.kCondExecEnd
  | ControlFlowOpcode.kCondExecPredClean | ControlFlowOpcode.kCondExecPredCleanEnd =>
      TranslateExecInstructions
        (ParseControlFlowCondExec cf (cf_index_ t) ParsedExecInstruction.init) t
  | ControlFlowOpcode.kCondExecPred | ControlFlowOpcode.kCondExecPredEnd =>
      TranslateExecInstructions
        (ParseControlFlowCondExecPred cf (cf_index_ t) ParsedExecInstruction.init) t
  | ControlFlowOpcode.kLoopStart =>
      ProcessLoopStartInstruction
        (ParseControlFlowLoopStart cf (cf_index_ t) ParsedLoopStartInstruction.init) t
  | ControlFlowOpcode.kLoopEnd =>
      ProcessLoopEndInstruction
        (ParseControlFlowLoopEnd cf (cf_index_ t) ParsedLoopEndInstruction.init) t
  | ControlFlowOpcode.kCondCall =>
      ProcessCallInstruction
        (ParseControlFlowCondCall cf (cf_index_ t) ParsedCallInstruction.init) t
  | ControlFlowOpcode.kReturn =>
      ProcessReturnInstruction
        (ParseControlFlowReturn cf (cf_index_ t) ParsedReturnInstruction.init) t
  | ControlFlowOpcode.kCondJmp =>
      ProcessJumpInstruction
        (ParseControlFlowCondJmp cf (cf_index_ t) ParsedJumpInstruction.init) t
  | ControlFlowOpcode.kAlloc =>
      ProcessAllocInstruction
        (ParseControlFlowAlloc cf (cf_index_ t)
           (bool_decide (type_ (current_shader t) = ShaderType.kVertex))
           ParsedAllocInstruction.init) t
  | ControlFlowOpcode.kMarkVsFetchDone => t
  end.

Definition translate_cf (label_addresses : gset Z) (i j : Z)
    (cf : ControlFlowInstruction) (t : Translator B) : Translator B :=
  let cf_index := u32 (i * 2 + j) in
  let t := set_cf_index_ cf_index t in
  let t :=
    if bool_decide (cf_index ∈ label_addresses) then ProcessLabel cf_index t else t in
  let t := ProcessControlFlowInstructionBegin cf_index t in
  let t := TranslateControlFlowInstruction cf t in
  ProcessControlFlowInstructionEnd cf_index t.

Definition translate_pair (ucode_dwords : list Z) (label_addresses : gset Z)
    (t : Translator B) (i : Z) : Translator B :=
  let '(cf_a, cf_b) := UnpackControlFlowInstructions (dwords_at ucode_dwords i) in
  translate_cf label_addresses i 1 cf_b (translate_cf label_addresses i 0 cf_a t).

Definition msg_not_analyzed : string :=
  "AnalyzeUcode must be done on the shader before translation".

(** [bool ShaderTranslator::TranslateAnalyzedShader(Shader::Translation&)],
    called on the translator whose [translation] is the argument. *)
Definition TranslateAnalyzedShader (t : Translator B) : bool * Translator B :=
  let shader := Translation.shader (translation t) in
  if negb (is_ucode_analyzed_ shader) then
    (false, translator_log [XELOGE msg_not_analyzed []] t)
  else
    let t := Reset t in
    let t := set_register_count_ (register_static_address_bound_ shader) t in
    let t :=
      if uses_register_dynamic_addressing_ shader then
        set_register_count_
          (Z.max (register_count_ t) (GetModificationRegisterCount t)) t
      else t in
    let t := StartTranslation t in
    let ucode_dwords := ucode_data_ shader in
    let cf_pair_index_bound := cf_pair_index_bound_ shader in
    let cf_instructions :=
      flat_map
        (fun i =>
           let '(cf_a, cf_b) :=
             UnpackControlFlowInstructions (dwords_at ucode_dwords i) in
           [cf_a; cf_b])
        (seqZ 0 cf_pair_index_bound) in
    let t := PreProcessControlFlowInstructions cf_instructions t in
    (* Translate all instructions. *)
    let t :=
      foldl (translate_pair ucode_dwords (label_addresses_ shader)) t
        (seqZ 0 cf_pair_index_bound) in
    (* translation.errors_ = std::move(errors_), which leaves errors_ empty *)
    let t := set_translation (Translation.set_errors_ (errors_ t) (translation t)) t in
    let t := set_errors_ [] t in
    let '(binary, t) := CompleteTranslation t in
    let t :=
      set_translation (Translation.set_translated_binary_ binary (translation t)) t in
    let t := set_translation (Translation.set_is_translated_ true (translation t)) t in
    let is_valid :=
      forallb (fun error => negb (ShaderError.is_fatal error))
        (Translation.errors_ (translation t)) in
    let t := set_translation (Translation.set_is_valid_ is_valid (translation t)) t in
    let t := PostTranslation t in
    (* In case is_valid_ is modified by PostTranslation, reload. *)
    (Translation.is_valid_ (translation t), t).

End Translator.

(** ** An instance of the missing declarations *)

(** Modelled from the spec: the bit-field declarations of [ucode.h] and the
    inline helpers of [shader.h] and [xenos.h] are missing from the sources.
    The spec fixes that three words hold one pair of control-flow
    instructions or one fetch or ALU instruction, that the fetch opcode is
    the low five bits of the first word, and that all decoding is mask and
    shift.  The bit positions are those of the A2XX instruction set, to
    which the header comment of the source refers.  The general results
    below do not depend on this instance; it serves to run the definitions
    on concrete microcode. *)
Module Xenos.

(** [n] bits of [w] from bit [lo]. *)
Definition bits (w lo n : Z) : Z := Z.land (Z.shiftr w lo) (Z.ones n).

Definition bit (w k : Z) : bool := Z.testbit w k.

(** A signed bit field of [n] bits. *)
Definition sbits (w lo n : Z) : Z :=
  let v := bits w lo n in
  if Z.testbit v (n - 1) then v - 2 ^ n else v.

Definition dw0 (op : Dwords3) : Z := fst (fst op).
Definition dw1 (op : Dwords3) : Z := snd (fst op).
Definition dw2 (op : Dwords3) : Z := snd op.

Lemma bits_range (w lo n : Z) : 0 <= n -> 0 <= bits w lo n < 2 ^ n.
Proof.
  intros Hn. unfold bits. rewrite Z.land_ones by exact Hn.
  apply Z.mod_pos_bound. apply Z.pow_pos_nonneg; lia.
Qed.

(** *** [shader.h] and [xenos.h] *)

Definition GetInstructionStorageTargetUsedComponentCount
    (target : InstructionStorageTarget.t) : Z :=
  match target with
  | InstructionStorageTarget.kNone => 0
  | InstructionStorageTarget.kPointSizeEdgeFlagKillVertex => 3
  | InstructionStorageTarget.kDepth => 1
  | _ => 4
  end.

Definition used_write_mask (r : InstructionResult.t) : Z :=
  Z.land (InstructionResult.original_write_mask r)
    (Z.shiftl 1 (GetInstructionStorageTargetUsedComponentCount
                   (InstructionResult.storage_target r)) - 1).

Definition is_xyzw (c : SwizzleSource.t) : bool :=
  match c with
  | SwizzleSource.kX | SwizzleSource.kY | SwizzleSource.kZ | SwizzleSource.kW => true
  | _ => false
  end.

Definition used_result_components (r : InstructionResult.t) : Z :=
  foldl
    (fun used i =>
       if Z.testbit (used_write_mask r) i
          && is_xyzw (arr_get SwizzleSource.kX (InstructionResult.components r) i)
       then Z.lor used (Z.shiftl 1 i) else used)
    0 [0; 1; 2; 3].

Definition is_standard_swizzle (o : InstructionOperand.t) : bool :=
  (InstructionOperand.component_count o =? 4)
  && bool_decide (InstructionOperand.components o
                  = [SwizzleSource.kX; SwizzleSource.kY; SwizzleSource.kZ;
                     SwizzleSource.kW]).

Fixpoint pos_bit_count (p : positive) : Z :=
  match p with
  | xH => 1
  | xO q => pos_bit_count q
  | xI q => 1 + pos_bit_count q
  end.

Definition popcount (z : Z) : Z :=
  match z with
  | Zpos p => pos_bit_count p
  | _ => 0
  end.

#[export] Instance shader_decl : ShaderDecl.
Proof.
  refine {|
    kMaxMemExports := 16;
    GetUsedWriteMask := used_write_mask;
    GetUsedResultComponents := used_result_components;
    IsStandardSwizzle := is_standard_swizzle;
    AluVectorOpcodeIsKill := fun v => (24 <=? v) && (v <=? 27);
    AluScalarOpcodeIsKill := fun v => (35 <=? v) && (v <=? 39);
    AluVectorOpHasSideEffects := fun v => ((20 <=? v) && (v <=? 27)) || (v =? 29);
    GetFetchOpDimensionComponentCount := fun d =>
      match d with
      | FetchOpDimension.k1D => 1
      | FetchOpDimension.k2D => 2
      | _ => 3
      end;
    bit_count := popcount
  |}.
  - lia.
  - intros r r' Ht Hm. unfold used_write_mask. rewrite Ht, Hm. reflexivity.
Defined.

#[export] Instance export_register_decl : ExportRegisterDecl :=
  {| kExportAddress := 32;
     kExportData0 := 33;
     kExportData4 := 37;
     kVSInterpolator0 := 0;
     kVSInterpolator15 := 15;
     kVSPosition := 62;
     kVSPointSizeEdgeFlagKillVertex := 63;
     kPSColor0 := 0;
     kPSColor3 := 3;
     kPSDepth := 61 |}.

(** *** ALU instructions *)

Definition is_export (op : Dwords3) : bool := bit (dw0 op) 15.
Definition vector_write_mask (op : Dwords3) : Z := bits (dw0 op) 16 4.
Definition scalar_write_mask (op : Dwords3) : Z := bits (dw0 op) 20 4.
Definition is_scalar_dest_relative (op : Dwords3) : bool := bit (dw0 op) 14.

#[export] Instance alu_decl : AluInstructionDecl :=
  {| alu_is_predicated := fun op => bit (dw1 op) 28;
     alu_predicate_condition := fun op => bit (dw1 op) 27;
     alu_is_export := is_export;
     alu_vector_opcode := fun op => bits (dw2 op) 24 5;
     alu_vector_dest := fun op => bits (dw0 op) 0 6;
     alu_is_vector_dest_relative := fun op => bit (dw0 op) 6;
     alu_vector_clamp := fun op => bit (dw0 op) 24;
     alu_scalar_opcode := fun op => bits (dw0 op) 26 6;
     alu_scalar_dest := fun op => bits (dw0 op) 8 6;
     alu_is_scalar_dest_relative := is_scalar_dest_relative;
     alu_scalar_clamp := fun op => bit (dw0 op) 25;
     alu_GetVectorOpResultWriteMask := fun op =>
       if is_export op
       then Z.land (vector_write_mask op) (Z.lxor (scalar_write_mask op) 15)
       else vector_write_mask op;
     alu_GetScalarOpResultWriteMask := fun op =>
       if is_export op
       then Z.land (scalar_write_mask op) (Z.lxor (vector_write_mask op) 15)
       else scalar_write_mask op;
     alu_GetConstant0WriteMask := fun op =>
       if negb (is_export op) || negb (is_scalar_dest_relative op) then 0
       else Z.lxor (Z.lor (vector_write_mask op) (scalar_write_mask op)) 15;
     alu_GetConstant1WriteMask := fun op =>
       if negb (is_export op) then 0
       else Z.land (vector_write_mask op) (scalar_write_mask op);
     alu_src_reg := fun op i => bits (dw2 op) (8 * (3 - i)) 8;
     alu_src_swizzle := fun op i => bits (dw1 op) (8 * (3 - i)) 8;
     alu_src_is_temp := fun op i => bit (dw2 op) (32 - i);
     alu_src_negate := fun op i => bit (dw1 op) (27 - i);
     alu_is_const_0_addressed := fun op => bit (dw1 op) 31;
     alu_is_const_1_addressed := fun op => bit (dw1 op) 30;
     alu_is_address_relative := fun op => bit (dw1 op) 29;
     alu_abs_constants := fun op => bit (dw0 op) 7 |}.

(** *** Fetch instructions *)

#[export] Instance vertex_fetch_decl : VertexFetchInstructionDecl :=
  {| vf_is_mini_fetch := fun op => bit (dw1 op) 30;
     vf_is_predicated := fun op => bit (dw1 op) 31;
     vf_predicate_condition := fun op => bit (dw2 op) 31;
     vf_dest := fun op => bits (dw0 op) 12 6;
     vf_dest_swizzle := fun op => bits (dw1 op) 0 12;
     vf_is_dest_relative := fun op => bit (dw0 op) 18;
     vf_src := fun op => bits (dw0 op) 5 6;
     vf_is_src_relative := fun op => bit (dw0 op) 11;
     vf_src_swizzle := fun op => bits (dw0 op) 30 2;
     vf_fetch_constant_index := fun op =>
       bits (dw0 op) 20 5 * 3 + bits (dw0 op) 25 2;
     vf_data_format := fun op => bits (dw1 op) 16 6;
     vf_offset := fun op => sbits (dw2 op) 8 23;
     vf_stride := fun op => bits (dw2 op) 0 8;
     vf_exp_adjust := fun op => sbits (dw1 op) 24 6;
     vf_prefetch_count := fun op => bits (dw0 op) 27 3;
     vf_is_index_rounded := fun op => bit (dw1 op) 15;
     vf_is_signed := fun op => bit (dw1 op) 12;
     vf_is_normalized := fun op => negb (bit (dw1 op) 13);
     vf_signed_rf_mode := fun op => bits (dw1 op) 14 1 |}.

Definition fetch_opcode_of (v : Z) : FetchOpcode.t :=
  if v =? 0 then FetchOpcode.kVertexFetch
  else if v =? 1 then FetchOpcode.kTextureFetch
  else if v =? 16 then FetchOpcode.kGetTextureBorderColorFrac
  else if v =? 17 then FetchOpcode.kGetTextureComputedLod
  else if v =? 18 then FetchOpcode.kGetTextureGradients
  else if v =? 19 then FetchOpcode.kGetTextureWeights
  else if v =? 24 then FetchOpcode.kSetTextureLod
  else if v =? 25 then FetchOpcode.kSetTextureGradientsHorz
  else if v =? 26 then FetchOpcode.kSetTextureGradientsVert
  else FetchOpcode.kOther v.

Definition dimension_of (v : Z) : FetchOpDimension.t :=
  if v =? 0 then FetchOpDimension.k1D
  else if v =? 1 then FetchOpDimension.k2D
  else if v =? 2 then FetchOpDimension.k3DOrStacked
  else FetchOpDimension.kCube.

#[export] Instance texture_fetch_decl : TextureFetchInstructionDecl.
Proof.
  refine {|
    tf_opcode := fun op => fetch_opcode_of (bits (dw0 op) 0 5);
    tf_dimension := fun op => dimension_of (bits (dw2 op) 14 2);
    tf_is_predicated := fun op => bit (dw1 op) 31;
    tf_predicate_condition := fun op => bit (dw2 op) 31;
    tf_dest := fun op => bits (dw0 op) 12 6;
    tf_dest_swizzle := fun op => bits (dw1 op) 0 12;
    tf_is_dest_relative := fun op => bit (dw0 op) 18;
    tf_src := fun op => bits (dw0 op) 5 6;
    tf_is_src_relative := fun op => bit (dw0 op) 11;
    tf_src_swizzle := fun op => bits (dw0 op) 26 6;
    tf_fetch_constant_index := fun op => bits (dw0 op) 20 5;
    tf_fetch_valid_only := fun op => bit (dw0 op) 19;
    tf_unnormalized_coordinates := fun op => bit (dw0 op) 25;
    tf_mag_filter := fun op => bits (dw1 op) 12 2;
    tf_min_filter := fun op => bits (dw1 op) 14 2;
    tf_mip_filter := fun op => bits (dw1 op) 16 2;
    tf_aniso_filter := fun op => bits (dw1 op) 18 3;
    tf_vol_mag_filter := fun op => bits (dw1 op) 24 2;
    tf_vol_min_filter := fun op => bits (dw1 op) 26 2;
    tf_use_computed_lod := fun op => bit (dw1 op) 28;
    tf_use_register_lod := fun op => bit (dw1 op) 29;
    tf_use_register_gradients := fun op => bit (dw2 op) 0;
    tf_lod_bias := fun op => sbits (dw2 op) 2 7;
    tf_offset_x := fun op => sbits (dw2 op) 16 5;
    tf_offset_y := fun op => sbits (dw2 op) 21 5;
    tf_offset_z := fun op => sbits (dw2 op) 26 5
  |}.
  intros op. apply (bits_range (dw0 op) 20 5). lia.
Defined.

#[export] Instance texture_filter_decl : TextureFilter.Decl :=
  {| TextureFilter.kBaseMap := 2; TextureFilter.kPoint := 0 |}.

(** *** Control-flow instructions *)

(** Forty-eight bits: a 32-bit word and a 16-bit word. *)
Definition Cf : Type := Z * Z.

Definition unpack (dwords : Dwords3) : Cf * Cf :=
  let '(dword_0, dword_1, dword_2) := dwords in
  ((dword_0, Z.land dword_1 65535),
   (Z.lor (Z.shiftr dword_1 16) (u32 (Z.shiftl dword_2 16)), Z.shiftr dword_2 16)).

Definition opcode_of (v : Z) : ControlFlowOpcode.t :=
  default ControlFlowOpcode.kMarkVsFetchDone
    ([ ControlFlowOpcode.kNop; ControlFlowOpcode.kExec; ControlFlowOpcode.kExecEnd;
       ControlFlowOpcode.kCondExec; ControlFlowOpcode.kCondExecEnd;
       ControlFlowOpcode.kCondExecPred; ControlFlowOpcode.kCondExecPredEnd;
       ControlFlowOpcode.kLoopStart; ControlFlowOpcode.kLoopEnd;
       ControlFlowOpcode.kCondCall; ControlFlowOpcode.kReturn;
       ControlFlowOpcode.kCondJmp; ControlFlowOpcode.kAlloc;
       ControlFlowOpcode.kCondExecPredClean;
       ControlFlowOpcode.kCondExecPredCleanEnd;
       ControlFlowOpcode.kMarkVsFetchDone ] !! Z.to_nat v).

Definition alloc_type_of (v : Z) : AllocType.t :=
  if v =? 0 then AllocType.kNone
  else if v =? 1 then AllocType.kVsPosition
  else if v =? 2 then AllocType.kVsInterpolators
  else AllocType.kMemory.

Definition is_exec_opcode (opcode : ControlFlowOpcode.t) : bool :=
  match opcode with
  | ControlFlowOpcode.kExec | ControlFlowOpcode.kExecEnd
  | ControlFlowOpcode.kCondExec | ControlFlowOpcode.kCondExecEnd
  | ControlFlowOpcode.kCondExecPred | ControlFlowOpcode.kCondExecPredEnd
  | ControlFlowOpcode.kCondExecPredClean
  | ControlFlowOpcode.kCondExecPredCleanEnd => true
  | _ => false
  end.

#[export] Instance control_flow_decl : ControlFlowInstructionDecl :=
  {| ControlFlowInstruction := Cf;
     UnpackControlFlowInstructions := unpack;
     cf_opcode := fun cf => opcode_of (bits (snd cf) 12 4);
     exec_address := fun cf => bits (fst cf) 0 12;
     exec_count := fun cf => bits (fst cf) 12 3;
     exec_sequence := fun cf => bits (fst cf) 16 12;
     exec_is_yield := fun cf => bit (fst cf) 15;
     exec_clean := fun cf => bit (snd cf) 9;
     cond_exec_address := fun cf => bits (fst cf) 0 12;
     cond_exec_count := fun cf => bits (fst cf) 12 3;
     cond_exec_sequence := fun cf => bits (fst cf) 16 12;
     cond_exec_bool_address := fun cf => bits (snd cf) 2 8;
     cond_exec_condition := fun cf => bit (snd cf) 10;
     cond_exec_is_yield := fun cf => bit (fst cf) 15;
     cond_exec_pred_address := fun cf => bits (fst cf) 0 12;
     cond_exec_pred_count := fun cf => bits (fst cf) 12 3;
     cond_exec_pred_sequence := fun cf => bits (fst cf) 16 12;
     cond_exec_pred_condition := fun cf => bit (snd cf) 10;
     cond_exec_pred_clean := fun cf => bit (snd cf) 9;
     cond_exec_pred_is_yield := fun cf => bit (fst cf) 15;
     loop_start_address := fun cf => bits (fst cf) 0 13;
     loop_start_loop_id := fun cf => bits (fst cf) 16 5;
     loop_start_is_repeat := fun cf => bit (fst cf) 13;
     loop_end_address := fun cf => bits (fst cf) 0 13;
     loop_end_loop_id := fun cf => bits (fst cf) 16 5;
     loop_end_is_predicated_break := fun cf => bit (fst cf) 21;
     loop_end_condition := fun cf => bit (snd cf) 10;
     cond_call_address := fun cf => bits (fst cf) 0 13;
     cond_call_is_unconditional := fun cf => bit (fst cf) 13;
     cond_call_is_predicated := fun cf => bit (fst cf) 14;
     cond_call_bool_address := fun cf => bits (snd cf) 2 8;
     cond_call_condition := fun cf => bit (snd cf) 10;
     cond_jmp_address := fun cf => bits (fst cf) 0 13;
     cond_jmp_is_unconditional := fun cf => bit (fst cf) 13;
     cond_jmp_is_predicated := fun cf => bit (fst cf) 14;
     cond_jmp_bool_address := fun cf => bits (snd cf) 2 8;
     cond_jmp_condition := fun cf => bit (snd cf) 10;
     alloc_alloc_type := fun cf => alloc_type_of (bits (snd cf) 9 2);
     alloc_size := fun cf => bits (fst cf) 0 3;
     IsControlFlowOpcodeExec := is_exec_opcode;
     FetchOpcode_of := fetch_opcode_of |}.

(** A shader as its constructor leaves it, for the given type and
    microcode: nothing analyzed, every table empty. *)
Definition new_shader (shader_type : ShaderType.t) (ucode : list Z) : Shader :=
  {| ucode_data_ := ucode;
     type_ := shader_type;
     is_ucode_analyzed_ := false;
     cf_pair_index_bound_ := 0;
     label_addresses_ := ∅;
     ucode_disassembly_ := [];
     constant_register_map_ := ConstantRegisterMap.init;
     vertex_bindings_ := [];
     texture_bindings_ := [];
     kills_pixels_ := false;
     writes_color_targets_ := 0;
     writes_depth_ := false;
     register_static_address_bound_ := 0;
     uses_register_dynamic_addressing_ := false;
     memexport_eM_written_ := replicate 16 0;
     memexport_stream_constants_ := ∅ |}.

End Xenos.

(** ** Concrete microcode *)

Module Sample.
Import Xenos.

(** [max eA, r0, r0] with nothing written, co-issued with [retain_prev]:
    an export whose vector and scalar halves both match the nop pattern.
    Word 0: vector_dest 32, export bit 15, scalar opcode 50.
    Word 2: vector opcode 2, the three source-select bits set. *)
Definition alu_export_nop : Dwords3 :=
  (32 + 2 ^ 15 + 50 * 2 ^ 26, 0, 2 * 2 ^ 24 + 2 ^ 29 + 2 ^ 30 + 2 ^ 31).

Definition parsed_export_nop : ParsedAluInstruction.t :=
  fst (ParseAluInstruction alu_export_nop ShaderType.kVertex ParsedAluInstruction.init).

(** [add_sat r1._, c5, c0] with [retain_prev]: nothing is written, but the
    vector half is not the default nop (opcode add, clamped, constant
    operands, destination r1). *)
Definition alu_add_nothing : Dwords3 :=
  (1 + 2 ^ 24 + 50 * 2 ^ 26, 0, 5 * 2 ^ 16).

Definition parsed_add_nothing : ParsedAluInstruction.t :=
  fst (ParseAluInstruction alu_add_nothing ShaderType.kVertex ParsedAluInstruction.init).

(** The same with other operands (r7 and r9), destination and no clamp. *)
Definition alu_add_nothing' : Dwords3 :=
  (3 + 50 * 2 ^ 26, 0, 7 * 2 ^ 16 + 9 * 2 ^ 8 + 2 ^ 31 + 2 ^ 30).

Definition parsed_add_nothing' : ParsedAluInstruction.t :=
  fst (ParseAluInstruction alu_add_nothing' ShaderType.kVertex ParsedAluInstruction.init).

End Sample.

Module SampleFetch.
Import Xenos.

(** [vfetch_full] reading through r5 with fetch constant 3 and stride 8.
    Word 0: src_reg 5, must-be-one bit 19, const_index 1.
    Word 1: destination swizzle xyzw.  Word 2: stride 8. *)
Definition vfetch_full : Dwords3 :=
  (5 * 2 ^ 5 + 2 ^ 19 + 1 * 2 ^ 20, 0 + 1 * 2 ^ 3 + 2 * 2 ^ 6 + 3 * 2 ^ 9, 8).

(** [vfetch_mini] into r1 at offset 4; source register and stride fields
    are zero.  Word 1 has the mini-fetch bit 30. *)
Definition vfetch_mini : Dwords3 :=
  (1 * 2 ^ 12 + 2 ^ 19 + 1 * 2 ^ 20,
   0 + 1 * 2 ^ 3 + 2 * 2 ^ 6 + 3 * 2 ^ 9 + 2 ^ 30, 4 * 2 ^ 8).

Definition state0 : AnalysisState :=
  mkAnalysisState (new_shader ShaderType.kVertex []) (0, 0, 0) 0 0 0 [] [].

End SampleFetch.

Module SampleProgram.
Import Xenos.

(** Two control-flow pairs.
    Pair 0: [exec] with address 1 and count 0, then [cnop].
    Pair 1: an unconditional [jmp] to address 5, then [cnop]. *)
Definition two_pairs : list Z :=
  [1; 1 * 2 ^ 12; 0;
   5 + 2 ^ 13; 11 * 2 ^ 12; 0].

Definition two_pairs_shader : Shader := new_shader ShaderType.kVertex two_pairs.

(** A backend that does nothing. *)
#[export] Instance null_backend : BackendDecl (B := unit) :=
  {| GetModificationRegisterCount := fun _ => 0;
     StartTranslation := fun t => t;
     CompleteTranslation := fun t => ([], t);
     PostTranslation := fun t => t;
     PreProcessControlFlowInstructions := fun _ t => t;
     ProcessLabel := fun _ t => t;
     ProcessControlFlowInstructionBegin := fun _ t => t;
     ProcessControlFlowInstructionEnd := fun _ t => t;
     ProcessControlFlowNopInstruction := fun _ t => t;
     ProcessExecInstructionBegin := fun _ t => t;
     ProcessExecInstructionEnd := fun _ t => t;
     ProcessLoopStartInstruction := fun _ t => t;
     ProcessLoopEndInstruction := fun _ t => t;
     ProcessCallInstruction := fun _ t => t;
     ProcessReturnInstruction := fun _ t => t;
     ProcessJumpInstruction := fun _ t => t;
     ProcessAllocInstruction := fun _ t => t;
     ProcessVertexFetchInstruction := fun _ t => t;
     ProcessTextureFetchInstruction := fun _ t => t;
     ProcessAluInstruction := fun _ t => t |}.

(** A translator about to translate the shader above, not yet analyzed. *)
Definition fresh_translator : Translator unit :=
  mkTranslator tt [] (0, 0, 0) 0 0
    (Translation.mk two_pairs_shader [] [] false false) [].

End SampleProgram.

Module SampleMemExport.
Import Xenos.

(** [mad eA, r0, c1, c12]: export to the export address (vector_dest 32
    with the export bit), all four components written, third operand the
    float constant 12, static, unmodified, identity swizzle. *)
Definition alu_mad_eA : Dwords3 :=
  (32 + 2 ^ 15 + 15 * 2 ^ 16 + 50 * 2 ^ 26, 0,
   12 + 1 * 2 ^ 8 + 11 * 2 ^ 24 + 2 ^ 31).

(** [add eA, r0, r0]: an export to the export address that is not a mad. *)
Definition alu_add_eA : Dwords3 :=
  (32 + 2 ^ 15 + 15 * 2 ^ 16 + 50 * 2 ^ 26, 0,
   0 * 2 ^ 24 + 2 ^ 29 + 2 ^ 30 + 2 ^ 31).

(** [mad_sat eA, r0, c1, c12]: the mad above with the vector clamp bit. *)
Definition alu_mad_sat_eA : Dwords3 :=
  (32 + 2 ^ 15 + 15 * 2 ^ 16 + 2 ^ 24 + 50 * 2 ^ 26, 0,
   12 + 1 * 2 ^ 8 + 11 * 2 ^ 24 + 2 ^ 31).

(** [max eM0, r0, r0]: export data 0 (vector_dest 33). *)
Definition alu_max_eM0 : Dwords3 :=
  (33 + 2 ^ 15 + 15 * 2 ^ 16 + 50 * 2 ^ 26, 0,
   2 * 2 ^ 24 + 2 ^ 29 + 2 ^ 30 + 2 ^ 31).

(** One control-flow pair, [alloc] of memory then [exece] of the two ALU
    instructions at address 1, followed by those instructions. *)
Definition program : list Z :=
  [0; (12 * 2 ^ 12 + 3 * 2 ^ 9) + (1 + 2 * 2 ^ 12) * 2 ^ 16; (2 * 2 ^ 12) * 2 ^ 16;
   alu_mad_eA.1.1; alu_mad_eA.1.2; alu_mad_eA.2;
   alu_max_eM0.1.1; alu_max_eM0.1.2; alu_max_eM0.2].

Definition program_shader : Shader := new_shader ShaderType.kVertex program.

(** The state in which the first export of a shader is gathered: one
    memory alloc seen, nothing written yet. *)
Definition after_alloc : AnalysisState :=
  mkAnalysisState (new_shader ShaderType.kVertex []) (0, 0, 0) 0 1 0 [] [].

End SampleMemExport.

Module SampleFetchUsage.
Import Xenos.

(** [vfetch_full] through r5 with fetch constant 3 and stride 8 whose
    destination swizzle masks all four components ([0xFFF]). *)
Definition vfetch_nothing : Dwords3 :=
  (5 * 2 ^ 5 + 2 ^ 19 + 1 * 2 ^ 20, 4095, 8).

(** [tfetch2D] through r5 with fetch constant 1, all components masked. *)
Definition tfetch_nothing : Dwords3 :=
  (1 + 5 * 2 ^ 5 + 1 * 2 ^ 20, 4095, 1 * 2 ^ 14).

(** One control-flow pair, [exec] of one fetch instruction at address 1
    then [cnop], followed by the instruction. *)
Definition program (op : Dwords3) : list Z :=
  [1 + 1 * 2 ^ 12 + 1 * 2 ^ 16; 1 * 2 ^ 12; 0; op.1.1; op.1.2; op.2].

Definition analyzed (op : Dwords3) : AnalysisState :=
  AnalyzeUcode_body EmptyString (new_shader ShaderType.kVertex (program op)) [].

Definition parsed_vfetch_nothing : ParsedVertexFetchInstruction.t :=
  (ParseVertexFetchInstruction vfetch_nothing (0, 0, 0)
     ParsedVertexFetchInstruction.init).2.

End SampleFetchUsage.

Module SampleTexture.
Import Xenos.

Definition tfetch2D (src dst fetch_constant : Z) : Dwords3 :=
  (1 + src * 2 ^ 5 + dst * 2 ^ 12 + fetch_constant * 2 ^ 20,
   0 + 1 * 2 ^ 3 + 2 * 2 ^ 6 + 3 * 2 ^ 9, 1 * 2 ^ 14).

Definition setTexLOD (src : Z) : Dwords3 := (24 + src * 2 ^ 5, 0, 0).

Definition words (op : Dwords3) : list Z := [op.1.1; op.1.2; op.2].

(** One control-flow pair, [exec] of four fetch instructions at address 1
    then [cnop], followed by: a fetch from slot 2, a [setTexLOD], a second
    fetch from slot 2, a fetch from slot 5. *)
Definition program : list Z :=
  [1 + 4 * 2 ^ 12 + 85 * 2 ^ 16; 1 * 2 ^ 12; 0]
  ++ words (tfetch2D 0 1 2) ++ words (setTexLOD 1)
  ++ words (tfetch2D 0 2 2) ++ words (tfetch2D 0 3 5).

Definition program_shader : Shader := new_shader ShaderType.kPixel program.

Definition analyzed : AnalysisState :=
  AnalyzeUcode_body EmptyString program_shader [].

End SampleTexture.

(** * Properties *)

(** ** The nop predicates *)

Section NopProperties.
Context `{SD : ShaderDecl}.

Lemma nonzero_false_iff (x : Z) : nonzero x = false <-> x = 0.
Proof. unfold nonzero. rewrite negb_false_iff. apply Z.eqb_eq. Qed.

Lemma nonzero_true_iff (x : Z) : nonzero x = true <-> x <> 0.
Proof. unfold nonzero. rewrite negb_true_iff. apply Z.eqb_neq. Qed.

(** The four conditions of [IsNop], as a proposition. *)
Definition nop_conditions (instr : ParsedAluInstruction.t) : Prop :=
  ParsedAluInstruction.scalar_opcode instr = AluScalarOpcode.kRetainPrev
  /\ GetUsedWriteMask (ParsedAluInstruction.scalar_result instr) = 0
  /\ GetUsedWriteMask (ParsedAluInstruction.vector_and_constant_result instr) = 0
  /\ AluVectorOpHasSideEffects (ParsedAluInstruction.vector_opcode instr) = false.

(** Two instructions agree on what [IsNop] reads: the two opcodes and, of
    each result, the storage target and the original write mask.  Their
    operands, storage indices, addressing modes, clamp flags, predication
    and names are unconstrained. *)
Definition same_nop_inputs (a b : ParsedAluInstruction.t) : Prop :=
  ParsedAluInstruction.scalar_opcode a = ParsedAluInstruction.scalar_opcode b
  /\ ParsedAluInstruction.vector_opcode a = ParsedAluInstruction.vector_opcode b
  /\ InstructionResult.storage_target (ParsedAluInstruction.scalar_result a)
     = InstructionResult.storage_target (ParsedAluInstruction.scalar_result b)
  /\ InstructionResult.original_write_mask (ParsedAluInstruction.scalar_result a)
     = InstructionResult.original_write_mask (ParsedAluInstruction.scalar_result b)
  /\ InstructionResult.storage_target (ParsedAluInstruction.vector_and_constant_result a)
     = InstructionResult.storage_target (ParsedAluInstruction.vector_and_constant_result b)
  /\ InstructionResult.original_write_mask (ParsedAluInstruction.vector_and_constant_result a)
     = InstructionResult.original_write_mask (ParsedAluInstruction.vector_and_constant_result b).

Lemma IsNop_true_iff (instr : ParsedAluInstruction.t) :
  IsNop instr = true <-> nop_conditions instr.
Proof.
  unfold IsNop, nop_conditions.
  rewrite !andb_true_iff, !negb_true_iff, !nonzero_false_iff, Z.eqb_eq.
  tauto.
Qed.

Lemma IsNop_same_inputs (a b : ParsedAluInstruction.t) :
  same_nop_inputs a b -> IsNop a = IsNop b.
Proof.
  intros (Hs & Hv & Hst & Hsm & Hvt & Hvm). unfold IsNop.
  rewrite Hs, Hv.
  rewrite (GetUsedWriteMask_reads _ _ Hst Hsm).
  rewrite (GetUsedWriteMask_reads _ _ Hvt Hvm).
  reflexivity.
Qed.

(** C10.  [IsNop] returns true exactly when the scalar opcode is
    retain_prev, the used write masks of the scalar result and of the
    vector-and-constant result are empty, and the vector opcode has no
    side effects.  Its value is the same for any two instructions that
    agree on the opcodes and on the storage targets and original write
    masks of the two results, so it does not depend on the operands, the
    storage indices or the clamp flags; whenever the four conditions hold
    it is true, whatever the two default-nop predicates answer. *)
Theorem IsNop_exactly_four_conditions (instr : ParsedAluInstruction.t) :
  (IsNop instr = true <-> nop_conditions instr)
  /\ (forall other, same_nop_inputs other instr -> IsNop other = IsNop instr)
  /\ (forall v s, nop_conditions instr ->
        IsVectorOpDefaultNop instr = v -> IsScalarOpDefaultNop instr = s ->
        IsNop instr = true).
Proof.
  split; [apply IsNop_true_iff|]. split.
  - intros other H. apply IsNop_same_inputs. exact H.
  - intros v s H _ _. apply IsNop_true_iff. exact H.
Qed.

(** The first condition of [IsVectorOpDefaultNop]: max, nothing written,
    not clamped, both operands plain r0. *)
Definition vector_nop_pattern (instr : ParsedAluInstruction.t) : Prop :=
  ParsedAluInstruction.vector_opcode instr = AluVectorOpcode.kMax
  /\ InstructionResult.original_write_mask
       (ParsedAluInstruction.vector_and_constant_result instr) = 0
  /\ InstructionResult.is_clamped
       (ParsedAluInstruction.vector_and_constant_result instr) = false
  /\ operand_is_plain_r0
       (arr_get InstructionOperand.init (ParsedAluInstruction.vector_operands instr) 0)
     = true
  /\ operand_is_plain_r0
       (arr_get InstructionOperand.init (ParsedAluInstruction.vector_operands instr) 1)
     = true.

(** The default-nop condition in the words of the specification: the
    pattern, and either a register target or a scalar default nop. *)
Definition spec_vector_default_nop (instr : ParsedAluInstruction.t) : Prop :=
  vector_nop_pattern instr
  /\ (InstructionResult.storage_target
        (ParsedAluInstruction.vector_and_constant_result instr)
      = InstructionStorageTarget.kRegister
      \/ IsScalarOpDefaultNop instr = true).

(** What the source does after the pattern. *)
Definition vector_nop_target (instr : ParsedAluInstruction.t) : Prop :=
  let vresult := ParsedAluInstruction.vector_and_constant_result instr in
  (InstructionResult.storage_target vresult = InstructionStorageTarget.kRegister
   /\ InstructionResult.storage_index vresult = 0
   /\ InstructionResult.storage_addressing_mode vresult
      = InstructionStorageAddressingMode.kStatic)
  \/ (InstructionResult.storage_target vresult <> InstructionStorageTarget.kRegister
      /\ IsScalarOpDefaultNop instr = false).

Lemma vector_nop_pattern_dec (instr : ParsedAluInstruction.t) :
  (negb (ParsedAluInstruction.vector_opcode instr =? AluVectorOpcode.kMax)
   || nonzero (InstructionResult.original_write_mask
                 (ParsedAluInstruction.vector_and_constant_result instr))
   || InstructionResult.is_clamped
        (ParsedAluInstruction.vector_and_constant_result instr)
   || negb (operand_is_plain_r0
              (arr_get InstructionOperand.init
                 (ParsedAluInstruction.vector_operands instr) 0))
   || negb (operand_is_plain_r0
              (arr_get InstructionOperand.init
                 (ParsedAluInstruction.vector_operands instr) 1))) = false
  <-> vector_nop_pattern instr.
Proof.
  unfold vector_nop_pattern.
  rewrite !orb_false_iff, !negb_false_iff, nonzero_false_iff, Z.eqb_eq.
  tauto.
Qed.

(** C4, as the source has it.  [IsVectorOpDefaultNop] returns true exactly
    when the vector op is max with nothing written, unclamped, both
    operands the unmodified, standard-swizzle, statically addressed
    register 0, and either the result targets register 0 with static
    addressing, or the result does not target a register and the scalar
    op is not a default nop. *)
Theorem IsVectorOpDefaultNop_true_iff (instr : ParsedAluInstruction.t) :
  IsVectorOpDefaultNop instr = true
  <-> vector_nop_pattern instr /\ vector_nop_target instr.
Proof.
  unfold IsVectorOpDefaultNop, vector_nop_target.
  pose proof (vector_nop_pattern_dec instr) as Hpat.
  destruct (negb _ || _ || _ || _ || _) eqn:Hc.
  - split; [discriminate|]. intros [Hp _]. apply Hpat in Hp. discriminate.
  - assert (Hp : vector_nop_pattern instr) by (apply Hpat; reflexivity).
    destruct (bool_decide _) eqn:Ht.
    + apply bool_decide_eq_true in Ht.
      destruct (negb _ || negb _) eqn:Hi.
      * split; [discriminate|]. intros [_ [(_ & Hx & Hm) | (Hn & _)]].
        -- apply orb_true_iff in Hi. destruct Hi as [Hi | Hi].
           ++ apply negb_true_iff, Z.eqb_neq in Hi. contradiction.
           ++ apply negb_true_iff, bool_decide_eq_false in Hi. contradiction.
        -- contradiction.
      * apply orb_false_iff in Hi. destruct Hi as [Hx Hm].
        apply negb_false_iff, Z.eqb_eq in Hx.
        apply negb_false_iff, bool_decide_eq_true in Hm.
        split; [|reflexivity]. intros _. split; [exact Hp|]. left. auto.
    + apply bool_decide_eq_false in Ht.
      destruct (IsScalarOpDefaultNop instr) eqn:Hs.
      * split; [discriminate|]. intros [_ [(Hr & _) | (_ & Hf)]];
          [contradiction | discriminate].
      * split; [|reflexivity]. intros _. split; [exact Hp|]. right. auto.
Qed.

End NopProperties.

Lemma IsNop_exactly_four_conditions_witness :
  IsNop (SD := Xenos.shader_decl) Sample.parsed_add_nothing = true
  /\ IsVectorOpDefaultNop (SD := Xenos.shader_decl) Sample.parsed_add_nothing = false
  /\ IsNop (SD := Xenos.shader_decl) Sample.parsed_add_nothing'
     = IsNop (SD := Xenos.shader_decl) Sample.parsed_add_nothing.
Proof.
  destruct (IsNop_exactly_four_conditions (SD := Xenos.shader_decl)
              Sample.parsed_add_nothing) as (_ & Hsame & Hany).
  split; [|split].
  - apply (Hany false true);
      [repeat split; vm_compute; reflexivity | vm_compute; reflexivity
       | vm_compute; reflexivity].
  - vm_compute. reflexivity.
  - apply Hsame. repeat split; vm_compute; reflexivity.
Defined.

(** C4, as the specification words it, fails on the export whose halves
    both match the nop pattern: the scalar op is a default nop, so the
    specification's condition holds, and the source returns false. *)
Lemma IsVectorOpDefaultNop_spec_counterexample :
  spec_vector_default_nop (SD := Xenos.shader_decl) Sample.parsed_export_nop
  /\ IsVectorOpDefaultNop (SD := Xenos.shader_decl) Sample.parsed_export_nop = false
  /\ ~ (IsVectorOpDefaultNop (SD := Xenos.shader_decl) Sample.parsed_export_nop = true
        <-> spec_vector_default_nop (SD := Xenos.shader_decl) Sample.parsed_export_nop).
Proof.
  assert (Hspec : spec_vector_default_nop (SD := Xenos.shader_decl)
                    Sample.parsed_export_nop).
  { split; [repeat split; vm_compute; reflexivity|].
    right. vm_compute. reflexivity. }
  assert (Hcode : IsVectorOpDefaultNop (SD := Xenos.shader_decl)
                    Sample.parsed_export_nop = false)
    by (vm_compute; reflexivity).
  split; [exact Hspec|]. split; [exact Hcode|].
  intros [_ H]. specialize (H Hspec). rewrite Hcode in H. discriminate.
Qed.

(** ** Vertex mini fetches *)

Section VertexFetchProperties.
Context `{SD : ShaderDecl} `{VF : VertexFetchInstructionDecl}.

Lemma ParseVertexFetchInstruction_flag (op previous_full_op : Dwords3)
    (instr : ParsedVertexFetchInstruction.t) :
  fst (ParseVertexFetchInstruction op previous_full_op instr)
  = negb (vf_is_mini_fetch op).
Proof. reflexivity. Qed.

Lemma GatherVertexFetchInformation_previous (op : Dwords3) (st : AnalysisState) :
  previous_vfetch_full (GatherVertexFetchInformation op st)
  = if vf_is_mini_fetch op then previous_vfetch_full st else op.
Proof.
  unfold GatherVertexFetchInformation.
  destruct (ParseVertexFetchInstruction op (previous_vfetch_full st)
              ParsedVertexFetchInstruction.init) as [update fetch_instr] eqn:Hp.
  assert (Hu : update = negb (vf_is_mini_fetch op)).
  { rewrite <- (ParseVertexFetchInstruction_flag op (previous_vfetch_full st)
                  ParsedVertexFetchInstruction.init), Hp. reflexivity. }
  subst update.
  destruct (vf_is_mini_fetch op); cbn [negb];
    destruct (negb (nonzero _)); reflexivity.
Qed.

(** C5.  A mini fetch [op], parsed with the full fetch [previous_full_op]
    as context, gets the operands of that full fetch (source register,
    source addressing mode, source swizzle, and the fetch constant) and
    its stride: they are those which parsing the full fetch itself yields,
    and for a fresh instruction the source operand is read from the fields
    of the full fetch.  The returned flag is true exactly when the parsed
    fetch is not a mini fetch, and [GatherVertexFetchInformation] replaces
    its cached full fetch exactly then. *)
Theorem mini_fetch_reuses_full_fetch
    (op previous_full_op older : Dwords3) (instr : ParsedVertexFetchInstruction.t)
    (st : AnalysisState) :
  vf_is_mini_fetch op = true ->
  vf_is_mini_fetch previous_full_op = false ->
  let mini := snd (ParseVertexFetchInstruction op previous_full_op instr) in
  let full := snd (ParseVertexFetchInstruction previous_full_op older instr) in
  let fresh :=
    snd (ParseVertexFetchInstruction op previous_full_op
           ParsedVertexFetchInstruction.init) in
  let src_op :=
    arr_get InstructionOperand.init (ParsedVertexFetchInstruction.operands fresh) 0 in
  ParsedVertexFetchInstruction.operands mini = ParsedVertexFetchInstruction.operands full
  /\ VertexFetchAttributes.stride (ParsedVertexFetchInstruction.attributes mini)
     = VertexFetchAttributes.stride (ParsedVertexFetchInstruction.attributes full)
  /\ VertexFetchAttributes.stride (ParsedVertexFetchInstruction.attributes mini)
     = vf_stride previous_full_op
  /\ InstructionOperand.storage_source src_op = InstructionStorageSource.kRegister
  /\ InstructionOperand.storage_index src_op = vf_src previous_full_op
  /\ InstructionOperand.storage_addressing_mode src_op
     = (if vf_is_src_relative previous_full_op
        then InstructionStorageAddressingMode.kAddressRelative
        else InstructionStorageAddressingMode.kStatic)
  /\ InstructionOperand.component_count src_op = 1
  /\ arr_get SwizzleSource.kX (InstructionOperand.components src_op) 0
     = GetSwizzleFromComponentIndex (Z.land (vf_src_swizzle previous_full_op) 3)
  /\ fst (ParseVertexFetchInstruction op previous_full_op instr) = false
  /\ fst (ParseVertexFetchInstruction previous_full_op older instr) = true
  /\ previous_vfetch_full
       (GatherVertexFetchInformation op
          (GatherVertexFetchInformation previous_full_op st))
     = previous_full_op.
Proof.
  intros Hmini Hfull mini full fresh src_op.
  subst mini full fresh src_op.
  rewrite !GatherVertexFetchInformation_previous, !ParseVertexFetchInstruction_flag.
  unfold ParseVertexFetchInstruction. rewrite Hmini, Hfull. cbn.
  repeat split.
Qed.

End VertexFetchProperties.

Lemma mini_fetch_reuses_full_fetch_witness :
  let mini :=
    snd (ParseVertexFetchInstruction (VF := Xenos.vertex_fetch_decl)
           SampleFetch.vfetch_mini SampleFetch.vfetch_full
           ParsedVertexFetchInstruction.init) in
  VertexFetchAttributes.stride (ParsedVertexFetchInstruction.attributes mini) = 8
  /\ InstructionOperand.storage_index
       (arr_get InstructionOperand.init (ParsedVertexFetchInstruction.operands mini) 0)
     = 5.
Proof.
  pose proof (mini_fetch_reuses_full_fetch (SD := Xenos.shader_decl)
                (VF := Xenos.vertex_fetch_decl)
                SampleFetch.vfetch_mini SampleFetch.vfetch_full (0, 0, 0)
                ParsedVertexFetchInstruction.init SampleFetch.state0
                eq_refl eq_refl) as H.
  cbv zeta in H. destruct H as (_ & _ & Hstride & _ & Hsrc & _).
  cbv zeta. split.
  - rewrite Hstride. vm_compute. reflexivity.
  - rewrite Hsrc. vm_compute. reflexivity.
Defined.

(** ** Idempotence of the analysis *)

Section AnalysisGuard.
Context `{SD : ShaderDecl} `{ER : ExportRegisterDecl} `{ALU : AluInstructionDecl}
        `{VF : VertexFetchInstructionDecl} `{TF : TextureFetchInstructionDecl}
        `{CF : ControlFlowInstructionDecl}.
Variable cvars_dump_shaders : string.

Lemma AnalyzeUcode_body_analyzed (s : Shader) (evs : list Event) :
  is_ucode_analyzed_ (shader (AnalyzeUcode_body cvars_dump_shaders s evs)) = true.
Proof.
  unfold AnalyzeUcode_body.
  destruct (negb _ && negb _); reflexivity.
Qed.

Lemma AnalyzeUcode_analyzed (s : Shader) (buf : StringBuffer) (evs : list Event) :
  is_ucode_analyzed_ (AnalyzeUcode cvars_dump_shaders s buf evs).1.1 = true.
Proof.
  unfold AnalyzeUcode. destruct (is_ucode_analyzed_ s) eqn:Ha.
  - exact Ha.
  - apply AnalyzeUcode_body_analyzed.
Qed.

(** C9.  On a shader that is already analyzed, [AnalyzeUcode] returns the
    shader, the caller's buffer and the event log as they were.  After any
    call the shader is analyzed, so a second call changes nothing:
    analyzing twice equals analyzing once. *)
Theorem AnalyzeUcode_idempotent (s : Shader) (buf : StringBuffer) (evs : list Event) :
  (is_ucode_analyzed_ s = true ->
   AnalyzeUcode cvars_dump_shaders s buf evs = (s, buf, evs))
  /\ (let once := AnalyzeUcode cvars_dump_shaders s buf evs in
      AnalyzeUcode cvars_dump_shaders once.1.1 once.1.2 once.2 = once).
Proof.
  split.
  - intros Ha. unfold AnalyzeUcode. rewrite Ha. reflexivity.
  - cbv zeta.
    pose proof (AnalyzeUcode_analyzed s buf evs) as Ha.
    destruct (AnalyzeUcode cvars_dump_shaders s buf evs) as [[s1 buf1] evs1].
    cbn in *. unfold AnalyzeUcode. rewrite Ha. reflexivity.
Qed.

End AnalysisGuard.

(** ** Translation before analysis *)

Section TranslatorGuard.
Context `{SD : ShaderDecl} `{ER : ExportRegisterDecl} `{ALU : AluInstructionDecl}
        `{VF : VertexFetchInstructionDecl} `{TF : TextureFetchInstructionDecl}
        `{CF : ControlFlowInstructionDecl}.
Context {B : Type} `{BE : !BackendDecl (B := B)}.

(** C8.  When the shader of the translation has not been analyzed,
    [TranslateAnalyzedShader] returns false at once: the only effect is one
    logged error, the translation object, the error list and the backend
    are untouched, and no backend method has run.  The model has no
    exceptions: the function is total and returns normally. *)
Theorem TranslateAnalyzedShader_requires_analysis (t : Translator B) :
  is_ucode_analyzed_ (Translation.shader (translation t)) = false ->
  TranslateAnalyzedShader t
  = (false, translator_log [XELOGE msg_not_analyzed []] t)
  /\ translation (TranslateAnalyzedShader t).2 = translation t
  /\ backend (TranslateAnalyzedShader t).2 = backend t
  /\ errors_ (TranslateAnalyzedShader t).2 = errors_ t
  /\ translator_events (TranslateAnalyzedShader t).2
     = translator_events t ++ [XELOGE msg_not_analyzed []].
Proof.
  intros Ha. unfold TranslateAnalyzedShader. rewrite Ha. cbn.
  repeat split.
Qed.

End TranslatorGuard.

Lemma AnalyzeUcode_idempotent_witness :
  let once :=
    AnalyzeUcode (SD := Xenos.shader_decl) (ER := Xenos.export_register_decl)
      (ALU := Xenos.alu_decl) (VF := Xenos.vertex_fetch_decl)
      (TF := Xenos.texture_fetch_decl) (CF := Xenos.control_flow_decl)
      "dump" SampleProgram.two_pairs_shader [Append "stale"] [] in
  is_ucode_analyzed_ once.1.1 = true
  /\ AnalyzeUcode (SD := Xenos.shader_decl) (ER := Xenos.export_register_decl)
       (ALU := Xenos.alu_decl) (VF := Xenos.vertex_fetch_decl)
       (TF := Xenos.texture_fetch_decl) (CF := Xenos.control_flow_decl)
       "dump" once.1.1 [Append "kept"] once.2
     = (once.1.1, [Append "kept"], once.2).
Proof.
  cbv zeta. split.
  - vm_compute. reflexivity.
  - apply (proj1 (AnalyzeUcode_idempotent (SD := Xenos.shader_decl)
                    (ER := Xenos.export_register_decl) (ALU := Xenos.alu_decl)
                    (VF := Xenos.vertex_fetch_decl) (TF := Xenos.texture_fetch_decl)
                    (CF := Xenos.control_flow_decl) "dump" _ _ _)).
    vm_compute. reflexivity.
Defined.

Lemma TranslateAnalyzedShader_requires_analysis_witness :
  (TranslateAnalyzedShader (SD := Xenos.shader_decl)
     (ER := Xenos.export_register_decl) (ALU := Xenos.alu_decl)
     (VF := Xenos.vertex_fetch_decl) (TF := Xenos.texture_fetch_decl)
     (CF := Xenos.control_flow_decl) (BE := SampleProgram.null_backend)
     SampleProgram.fresh_translator).1 = false.
Proof.
  destruct (TranslateAnalyzedShader_requires_analysis (SD := Xenos.shader_decl)
              (ER := Xenos.export_register_decl) (ALU := Xenos.alu_decl)
              (VF := Xenos.vertex_fetch_decl) (TF := Xenos.texture_fetch_decl)
              (CF := Xenos.control_flow_decl) (BE := SampleProgram.null_backend)
              SampleProgram.fresh_translator eq_refl) as [H _].
  rewrite H. reflexivity.
Defined.

(** ** Bit masks and arrays *)

Lemma u32_shiftl_1 (i : Z) : 0 <= i < 32 -> u32 (Z.shiftl 1 i) = 2 ^ i.
Proof.
  intros Hi. rewrite Z.shiftl_1_l. apply u32_small. split.
  - apply Z.pow_nonneg. lia.
  - apply Z.pow_lt_mono_r; lia.
Qed.

Lemma land_pow2_eqb_0 (a i : Z) :
  0 <= i -> (Z.land a (2 ^ i) =? 0) = negb (Z.testbit a i).
Proof.
  intros Hi. destruct (Z.testbit a i) eqn:Hb; cbn.
  - apply Z.eqb_neq. intros H0.
    assert (Hc : Z.testbit (Z.land a (2 ^ i)) i = true).
    { rewrite Z.land_spec, Hb, Z.pow2_bits_true by lia. reflexivity. }
    rewrite H0, Z.bits_0 in Hc. discriminate.
  - apply Z.eqb_eq. apply Z.bits_inj'. intros n Hn.
    rewrite Z.land_spec, Z.bits_0, Z.pow2_bits_eqb by lia.
    destruct (Z.eqb_spec i n) as [->|]; [rewrite Hb; reflexivity|].
    apply andb_false_r.
Qed.

Lemma testbit_u32 (x j : Z) :
  0 <= j -> Z.testbit (u32 x) j = (j <? 32) && Z.testbit x j.
Proof.
  intros Hj. unfold u32. destruct (Z.ltb_spec j 32).
  - rewrite Z.mod_pow2_bits_low by lia. reflexivity.
  - rewrite Z.mod_pow2_bits_high by lia. reflexivity.
Qed.

(** Clearing bit [i] with [a & ~(1 << i)] in 32 bits. *)
Lemma testbit_clear (a i j : Z) :
  0 <= i < 32 -> 0 <= j < 32 ->
  Z.testbit (Z.land a (u32 (Z.lnot (2 ^ i)))) j
  = Z.testbit a j && negb (i =? j).
Proof.
  intros Hi Hj.
  rewrite Z.land_spec, testbit_u32 by lia.
  rewrite Z.lnot_spec, Z.pow2_bits_eqb by lia.
  destruct (Z.ltb_spec j 32); [|lia]. reflexivity.
Qed.

Lemma testbit_set (a i : Z) :
  0 <= i < 32 -> Z.testbit (Z.lor a (u32 (Z.shiftl 1 i))) i = true.
Proof.
  intros Hi. rewrite u32_shiftl_1 by lia.
  rewrite Z.lor_spec, Z.pow2_bits_true by lia. apply orb_true_r.
Qed.

Lemma arr_get_upd_ne {A : Type} (d : A) (l : list A) (k i : Z) (f : A -> A) :
  0 <= i -> i <> k -> arr_get d (arr_upd d l k f) i = arr_get d l i.
Proof.
  intros Hi Hne. unfold arr_upd, arr_get at 1 3.
  destruct (Z.ltb_spec k 0); [reflexivity|].
  destruct (Z.ltb_spec i 0); [reflexivity|].
  rewrite list_lookup_insert_ne by lia. reflexivity.
Qed.

Lemma arr_get_upd_const {A : Type} (d : A) (l : list A) (k : Z) :
  arr_get d (arr_upd d l k (fun _ => d)) k = d.
Proof.
  unfold arr_upd, arr_get.
  destruct (Z.ltb_spec k 0); [reflexivity|].
  destruct (decide (Z.to_nat k < length l)%nat).
  - rewrite list_lookup_insert_eq by lia. reflexivity.
  - rewrite (lookup_ge_None_2 _ (Z.to_nat k)); [reflexivity|].
    rewrite length_insert. lia.
Qed.

(** ** The memexport bookkeeping *)

Section MemExportProperties.
Context `{SD : ShaderDecl} `{ER : ExportRegisterDecl} `{ALU : AluInstructionDecl}
        `{VF : VertexFetchInstructionDecl} `{TF : TextureFetchInstructionDecl}
        `{CF : ControlFlowInstructionDecl}.
Variable cvars_dump_shaders : string.

(** Slot [i] is consistent: eM bits were written iff the eA bit is set. *)
Definition memexport_slot_consistent (acc : Z * list Z) (i : Z) : Prop :=
  arr_get 0 acc.2 i <> 0 <-> Z.testbit acc.1 i = true.

Lemma cleanup_memexport_slot_at (acc : Z * list Z) (k : Z) :
  0 <= k < 32 -> memexport_slot_consistent (cleanup_memexport_slot acc k) k.
Proof.
  intros Hk. destruct acc as [eA eM].
  unfold cleanup_memexport_slot, memexport_slot_consistent.
  rewrite u32_shiftl_1 by lia.
  assert (Hc : negb (nonzero (Z.land eA (2 ^ k))) = negb (Z.testbit eA k)).
  { unfold nonzero. rewrite negb_involutive. apply land_pow2_eqb_0. lia. }
  rewrite !Hc. clear Hc.
  destruct (Z.testbit eA k) eqn:Hb; cbn [negb].
  - destruct (nonzero (arr_get 0 eM k)) eqn:Hnz; cbn [negb fst snd].
    + apply nonzero_true_iff in Hnz. rewrite Hb. tauto.
    + apply nonzero_false_iff in Hnz.
      rewrite testbit_clear, Z.eqb_refl, andb_false_r by lia.
      rewrite Hnz. split; [congruence|discriminate].
  - cbn [fst snd]. rewrite arr_get_upd_const, Hb.
    split; [congruence|discriminate].
Qed.

Lemma cleanup_memexport_slot_other (acc : Z * list Z) (k i : Z) :
  0 <= k < 32 -> 0 <= i < 32 -> i <> k ->
  memexport_slot_consistent (cleanup_memexport_slot acc k) i
  <-> memexport_slot_consistent acc i.
Proof.
  intros Hk Hi Hne. destruct acc as [eA eM].
  unfold cleanup_memexport_slot, memexport_slot_consistent.
  rewrite u32_shiftl_1 by lia.
  destruct (negb (nonzero (Z.land eA _))); cbn [fst snd].
  - rewrite arr_get_upd_ne by lia. reflexivity.
  - destruct (negb (nonzero (arr_get 0 eM k))); cbn [fst snd]; [|reflexivity].
    rewrite testbit_clear by lia.
    destruct (Z.eqb_spec k i); [lia|]. rewrite andb_true_r. reflexivity.
Qed.

Lemma cleanup_memexport_slots (n : nat) (acc : Z * list Z) (i : Z) :
  Z.of_nat n <= 32 -> 0 <= i < Z.of_nat n ->
  memexport_slot_consistent
    (foldl cleanup_memexport_slot acc (seqZ 0 (Z.of_nat n))) i.
Proof.
  induction n as [|n IH]; intros Hn Hi; [lia|].
  rewrite seqZ_S, foldl_app. cbn [foldl]. rewrite Z.add_0_l.
  destruct (decide (i = Z.of_nat n)) as [->|Hne].
  - apply cleanup_memexport_slot_at. lia.
  - apply cleanup_memexport_slot_other; [lia|lia|exact Hne|].
    apply IH; lia.
Qed.

Lemma cleanup_memexport_spec (st : AnalysisState) :
  let st' := cleanup_memexport st in
  (forall i, 0 <= i < kMaxMemExports ->
     arr_get 0 (memexport_eM_written_ (shader st')) i <> 0
     <-> Z.testbit (memexport_eA_written st') i = true)
  /\ (memexport_eA_written st' = 0 ->
      memexport_stream_constants_ (shader st') = ∅).
Proof.
  cbv zeta. unfold cleanup_memexport.
  pose proof kMaxMemExports_range as Hr.
  pose proof (fun i => cleanup_memexport_slots (Z.to_nat kMaxMemExports)
                         (memexport_eA_written st, memexport_eM_written_ (shader st)) i)
    as Hall.
  rewrite Z2Nat.id in Hall by lia.
  destruct (foldl cleanup_memexport_slot _ _) as [eA eM].
  split.
  - intros i Hi. specialize (Hall i ltac:(lia) Hi).
    unfold memexport_slot_consistent in Hall. cbn [fst snd] in Hall.
    destruct (eA =? 0); exact Hall.
  - destruct (Z.eqb_spec eA 0) as [H0|H0]; cbn; [reflexivity|].
    intros Hz. contradiction.
Qed.

(** C2.  When the body of [AnalyzeUcode] has run, for every memexport
    slot [i] below [kMaxMemExports] the eM-written mask of the slot is
    nonzero if and only if bit [i] of the eA-written mask (the local, with
    its final value) is set; and if that mask is zero, the set of
    memexport stream constants is empty. *)
Theorem memexport_invariant_after_analysis (s : Shader) (evs : list Event) :
  let st := AnalyzeUcode_body cvars_dump_shaders s evs in
  (forall i, 0 <= i < kMaxMemExports ->
     arr_get 0 (memexport_eM_written_ (shader st)) i <> 0
     <-> Z.testbit (memexport_eA_written st) i = true)
  /\ (memexport_eA_written st = 0 ->
      memexport_stream_constants_ (shader st) = ∅).
Proof.
  cbv zeta. unfold AnalyzeUcode_body.
  match goal with
  | |- context [cleanup_memexport ?x] =>
      pose proof (cleanup_memexport_spec x) as Hc; cbv zeta in Hc;
      set (pre := cleanup_memexport x) in *
  end.
  destruct (negb _ && negb _); exact Hc.
Qed.

End MemExportProperties.

Lemma memexport_invariant_after_analysis_witness :
  let st :=
    AnalyzeUcode_body (SD := Xenos.shader_decl) (ER := Xenos.export_register_decl)
      (ALU := Xenos.alu_decl) (VF := Xenos.vertex_fetch_decl)
      (TF := Xenos.texture_fetch_decl) (CF := Xenos.control_flow_decl)
      EmptyString SampleMemExport.program_shader [] in
  Z.testbit (memexport_eA_written st) 0 = true
  /\ arr_get 0 (memexport_eM_written_ (shader st)) 0 = 1
  /\ elements (memexport_stream_constants_ (shader st)) = [12].
Proof.
  cbv zeta.
  destruct (memexport_invariant_after_analysis (SD := Xenos.shader_decl)
              (ER := Xenos.export_register_decl) (ALU := Xenos.alu_decl)
              (VF := Xenos.vertex_fetch_decl) (TF := Xenos.texture_fetch_decl)
              (CF := Xenos.control_flow_decl) EmptyString
              SampleMemExport.program_shader []) as [Hslots _].
  cbv zeta in Hslots.
  assert (HeM : arr_get 0
                  (memexport_eM_written_
                     (shader
                        (AnalyzeUcode_body (SD := Xenos.shader_decl)
                           (ER := Xenos.export_register_decl) (ALU := Xenos.alu_decl)
                           (VF := Xenos.vertex_fetch_decl)
                           (TF := Xenos.texture_fetch_decl)
                           (CF := Xenos.control_flow_decl) EmptyString
                           SampleMemExport.program_shader []))) 0 = 1)
    by (vm_compute; reflexivity).
  split; [|split].
  - apply (Hslots 0); [vm_compute; split; congruence|].
    rewrite HeM. discriminate.
  - exact HeM.
  - vm_compute. reflexivity.
Defined.

(** ** What the usage-gathering helpers leave alone *)

Section Frames.
Context `{SD : ShaderDecl}.

(** The texture bindings, the memexport stream constants and the program
    bound of [s'] are those of [s]. *)
Definition keeps_tables (s s' : Shader) : Prop :=
  texture_bindings_ s' = texture_bindings_ s
  /\ memexport_stream_constants_ s' = memexport_stream_constants_ s
  /\ cf_pair_index_bound_ s' = cf_pair_index_bound_ s.

Lemma keeps_tables_refl (s : Shader) : keeps_tables s s.
Proof. repeat split; reflexivity. Qed.

Lemma keeps_tables_trans (s1 s2 s3 : Shader) :
  keeps_tables s1 s2 -> keeps_tables s2 s3 -> keeps_tables s1 s3.
Proof. intros (H1 & H2 & H3) (H4 & H5 & H6). repeat split; congruence. Qed.

Lemma gather_register_use_keeps mode index (s : Shader) :
  keeps_tables s (gather_register_use mode index s).
Proof. unfold gather_register_use. destruct (bool_decide _); repeat split; reflexivity. Qed.

Lemma GatherOperandInformation_keeps operand (s : Shader) :
  keeps_tables s (GatherOperandInformation operand s).
Proof.
  unfold GatherOperandInformation.
  destruct (InstructionOperand.storage_source operand);
    try apply keeps_tables_refl.
  - apply gather_register_use_keeps.
  - destruct (bool_decide _); repeat split; reflexivity.
Qed.

Lemma gather_operands_keeps count operands (s : Shader) :
  keeps_tables s (gather_operands count operands s).
Proof.
  unfold gather_operands. generalize (seqZ 0 count). intros l. revert s.
  induction l as [|i l IH]; intros s; cbn [foldl].
  - apply keeps_tables_refl.
  - eapply keeps_tables_trans; [|apply IH]. apply GatherOperandInformation_keeps.
Qed.

Lemma GatherFetchResultInformation_keeps result (s : Shader) :
  keeps_tables s (GatherFetchResultInformation result s).
Proof.
  unfold GatherFetchResultInformation. destruct (negb _).
  - apply keeps_tables_refl.
  - apply gather_register_use_keeps.
Qed.

Lemma GatherAluResultInformation_keeps result count (s : Shader) :
  keeps_tables s (GatherAluResultInformation result count s).
Proof.
  unfold GatherAluResultInformation. destruct (negb _).
  - apply keeps_tables_refl.
  - destruct (InstructionResult.storage_target result);
      try apply keeps_tables_refl; try (repeat split; reflexivity).
    + apply gather_register_use_keeps.
    + destruct (memexport_count_valid count); repeat split; reflexivity.
Qed.

End Frames.

(** ** Writes to the export address *)

Section ExportAddressProperties.
Context `{SD : ShaderDecl} `{ER : ExportRegisterDecl} `{ALU : AluInstructionDecl}.

(** When [GetMemExportStreamConstant] delivers an index. *)
Definition stream_constant_pattern (instr : ParsedAluInstruction.t) : Prop :=
  let vresult := ParsedAluInstruction.vector_and_constant_result instr in
  let operand2 :=
    arr_get InstructionOperand.init (ParsedAluInstruction.vector_operands instr) 2 in
  InstructionResult.storage_target vresult = InstructionStorageTarget.kExportAddress
  /\ ParsedAluInstruction.vector_opcode instr = AluVectorOpcode.kMad
  /\ GetUsedResultComponents vresult = 15
  /\ InstructionResult.is_clamped vresult = false
  /\ InstructionOperand.storage_source operand2 = InstructionStorageSource.kConstantFloat
  /\ InstructionOperand.storage_addressing_mode operand2
     = InstructionStorageAddressingMode.kStatic
  /\ IsStandardSwizzle operand2 = true
  /\ InstructionOperand.is_negated operand2 = false
  /\ InstructionOperand.is_absolute_value operand2 = false.

Lemma GetMemExportStreamConstant_cases (instr : ParsedAluInstruction.t) :
  (stream_constant_pattern instr
   /\ GetMemExportStreamConstant instr
      = InstructionOperand.storage_index
          (arr_get InstructionOperand.init
             (ParsedAluInstruction.vector_operands instr) 2))
  \/ (~ stream_constant_pattern instr
      /\ GetMemExportStreamConstant instr = UINT32_MAX).
Proof.
  unfold GetMemExportStreamConstant, stream_constant_pattern. cbv zeta.
  destruct (bool_decide _ && _ && _ && _ && _ && _ && _ && _ && _) eqn:Hc.
  - left. split; [|reflexivity].
    rewrite !andb_true_iff, !negb_true_iff, !bool_decide_eq_true, !Z.eqb_eq in Hc.
    tauto.
  - right. split; [|reflexivity]. intros Hp.
    assert (Ht : bool_decide
                   (InstructionResult.storage_target
                      (ParsedAluInstruction.vector_and_constant_result instr)
                    = InstructionStorageTarget.kExportAddress)
                 && (ParsedAluInstruction.vector_opcode instr =? AluVectorOpcode.kMad)
                 && (GetUsedResultComponents
                       (ParsedAluInstruction.vector_and_constant_result instr) =? 15)
                 && negb (InstructionResult.is_clamped
                            (ParsedAluInstruction.vector_and_constant_result instr))
                 && bool_decide
                      (InstructionOperand.storage_source
                         (arr_get InstructionOperand.init
                            (ParsedAluInstruction.vector_operands instr) 2)
                       = InstructionStorageSource.kConstantFloat)
                 && bool_decide
                      (InstructionOperand.storage_addressing_mode
                         (arr_get InstructionOperand.init
                            (ParsedAluInstruction.vector_operands instr) 2)
                       = InstructionStorageAddressingMode.kStatic)
                 && IsStandardSwizzle
                      (arr_get InstructionOperand.init
                         (ParsedAluInstruction.vector_operands instr) 2)
                 && negb (InstructionOperand.is_negated
                            (arr_get InstructionOperand.init
                               (ParsedAluInstruction.vector_operands instr) 2))
                 && negb (InstructionOperand.is_absolute_value
                            (arr_get InstructionOperand.init
                               (ParsedAluInstruction.vector_operands instr) 2))
                 = true).
    { rewrite !andb_true_iff, !negb_true_iff, !bool_decide_eq_true, !Z.eqb_eq.
      tauto. }
    rewrite Ht in Hc. discriminate.
Qed.

(** The shader after the usage gathering of [GatherAluInstructionInformation]
    keeps its stream constants. *)
Lemma alu_usage_keeps instr op count (s : Shader) :
  keeps_tables s
    (gather_operands (ParsedAluInstruction.scalar_operand_count instr)
       (ParsedAluInstruction.scalar_operands instr)
       (gather_operands (ParsedAluInstruction.vector_operand_count instr)
          (ParsedAluInstruction.vector_operands instr)
          (GatherAluResultInformation (ParsedAluInstruction.scalar_result instr) count
             (GatherAluResultInformation
                (ParsedAluInstruction.vector_and_constant_result instr) count
                (set_kills_pixels_
                   (kills_pixels_ s
                    || AluVectorOpcodeIsKill (alu_vector_opcode op)
                    || AluScalarOpcodeIsKill (alu_scalar_opcode op)) s))))).
Proof.
  eapply keeps_tables_trans; [|apply gather_operands_keeps].
  eapply keeps_tables_trans; [|apply gather_operands_keeps].
  eapply keeps_tables_trans; [|apply GatherAluResultInformation_keeps].
  eapply keeps_tables_trans; [|apply GatherAluResultInformation_keeps].
  repeat split; reflexivity.
Qed.

(** C3, as the source has it.  For an ALU instruction whose vector result
    targets the export address, gathered while the memexport allocation
    count is between 1 and [kMaxMemExports]:
    - if [GetMemExportStreamConstant] delivers an index (the vector op is
      mad, all four result components are used, the result is not
      clamped, and the third operand is a static float constant with the
      standard swizzle, not negated, no absolute value), bit [count - 1]
      of the eA-written mask is set and the index joins the stream
      constants;
    - otherwise neither the mask nor the stream constants change, and the
      only trace is one logged diagnostic; the instruction is gathered
      like any other. *)
Theorem export_address_write_gathered (op : Dwords3) (count : Z) (st : AnalysisState) :
  let parsed := ParseAluInstruction op (type_ (shader st)) ParsedAluInstruction.init in
  let instr := parsed.1 in
  let st' := GatherAluInstructionInformation op count st in
  InstructionResult.storage_target (ParsedAluInstruction.vector_and_constant_result instr)
  = InstructionStorageTarget.kExportAddress ->
  1 <= count <= kMaxMemExports ->
  (GetMemExportStreamConstant instr <> UINT32_MAX ->
     stream_constant_pattern instr
     /\ GetMemExportStreamConstant instr
        = InstructionOperand.storage_index
            (arr_get InstructionOperand.init
               (ParsedAluInstruction.vector_operands instr) 2)
     /\ memexport_eA_written st'
        = Z.lor (memexport_eA_written st) (2 ^ (count - 1))
     /\ Z.testbit (memexport_eA_written st') (count - 1) = true
     /\ memexport_stream_constants_ (shader st')
        = {[GetMemExportStreamConstant instr]}
          ∪ memexport_stream_constants_ (shader st)
     /\ events st' = events st ++ parsed.2)
  /\ (GetMemExportStreamConstant instr = UINT32_MAX ->
      memexport_eA_written st' = memexport_eA_written st
      /\ memexport_stream_constants_ (shader st')
         = memexport_stream_constants_ (shader st)
      /\ events st' = events st ++ parsed.2 ++ [XELOGE fmt_no_stream_constant []])
  /\ (stream_constant_pattern instr ->
      GetMemExportStreamConstant instr
      = InstructionOperand.storage_index
          (arr_get InstructionOperand.init
             (ParsedAluInstruction.vector_operands instr) 2)).
Proof.
  cbv zeta. intros Htarget Hcount.
  pose proof kMaxMemExports_range as Hmax.
  unfold GatherAluInstructionInformation.
  destruct (ParseAluInstruction op (type_ (shader st)) ParsedAluInstruction.init)
    as [instr logged].
  cbn [fst snd] in *.
  rewrite (bool_decide_eq_true_2 _ Htarget).
  assert (Hvalid : memexport_count_valid count = true).
  { unfold memexport_count_valid. apply andb_true_iff. split.
    - apply Z.ltb_lt. lia.
    - apply Z.leb_le. lia. }
  rewrite Hvalid. cbn [andb].
  pose proof (alu_usage_keeps instr op count (shader st)) as (_ & Hstream & _).
  split; [|split].
  - intros Hne.
    destruct (GetMemExportStreamConstant_cases instr) as [[Hp Hi] | [_ Hmaxed]];
      [|contradiction].
    apply Z.eqb_neq in Hne. rewrite Hne. cbn [negb].
    split; [exact Hp|]. split; [exact Hi|].
    cbn. rewrite u32_shiftl_1 by lia.
    split; [reflexivity|]. split.
    + rewrite <- (u32_shiftl_1 (count - 1)) by lia. apply testbit_set. lia.
    + split; [|reflexivity]. f_equal. exact Hstream.
  - intros Heq. rewrite Heq. cbn.
    split; [reflexivity|]. split; [exact Hstream|].
    exact (eq_sym (app_assoc _ _ _)).
  - intros Hp.
    destruct (GetMemExportStreamConstant_cases instr) as [[_ Hi] | [Hn _]];
      [exact Hi|contradiction].
Qed.

End ExportAddressProperties.

Lemma export_address_write_gathered_witness :
  let st' :=
    GatherAluInstructionInformation (SD := Xenos.shader_decl)
      (ER := Xenos.export_register_decl) (ALU := Xenos.alu_decl)
      SampleMemExport.alu_mad_eA 1 SampleMemExport.after_alloc in
  Z.testbit (memexport_eA_written st') 0 = true
  /\ elements (memexport_stream_constants_ (shader st')) = [12].
Proof.
  cbv zeta.
  assert (Hrange : 1 <= 1 <= kMaxMemExports (ShaderDecl := Xenos.shader_decl))
    by (vm_compute; split; congruence).
  destruct (export_address_write_gathered (SD := Xenos.shader_decl)
              (ER := Xenos.export_register_decl) (ALU := Xenos.alu_decl)
              SampleMemExport.alu_mad_eA 1 SampleMemExport.after_alloc
              eq_refl Hrange) as (Hfound & _ & _).
  destruct Hfound as (_ & _ & _ & Hbit & Hset & _);
    [vm_compute; congruence|].
  split.
  - exact Hbit.
  - rewrite Hset. vm_compute. reflexivity.
Defined.

(** C3 as the specification words it fails.  An [add] into the export
    address, gathered at allocation count 1, leaves bit 0 of the
    eA-written mask clear; and a clamped [mad] whose third operand is the
    unmodified static float constant 12 records no stream constant. *)
Lemma export_address_claim_counterexample :
  let add_st :=
    GatherAluInstructionInformation (SD := Xenos.shader_decl)
      (ER := Xenos.export_register_decl) (ALU := Xenos.alu_decl)
      SampleMemExport.alu_add_eA 1 SampleMemExport.after_alloc in
  let add_instr :=
    (ParseAluInstruction (ER := Xenos.export_register_decl)
       (ALU := Xenos.alu_decl) SampleMemExport.alu_add_eA ShaderType.kVertex
       ParsedAluInstruction.init).1 in
  let mad_st :=
    GatherAluInstructionInformation (SD := Xenos.shader_decl)
      (ER := Xenos.export_register_decl) (ALU := Xenos.alu_decl)
      SampleMemExport.alu_mad_sat_eA 1 SampleMemExport.after_alloc in
  let mad_instr :=
    (ParseAluInstruction (ER := Xenos.export_register_decl)
       (ALU := Xenos.alu_decl) SampleMemExport.alu_mad_sat_eA ShaderType.kVertex
       ParsedAluInstruction.init).1 in
  let mad_operand2 :=
    arr_get InstructionOperand.init (ParsedAluInstruction.vector_operands mad_instr) 2 in
  (InstructionResult.storage_target
     (ParsedAluInstruction.vector_and_constant_result add_instr)
   = InstructionStorageTarget.kExportAddress
   /\ 1 <= 1 <= kMaxMemExports (ShaderDecl := Xenos.shader_decl)
   /\ Z.testbit (memexport_eA_written add_st) (1 - 1) = false)
  /\ (InstructionResult.storage_target
        (ParsedAluInstruction.vector_and_constant_result mad_instr)
      = InstructionStorageTarget.kExportAddress
      /\ ParsedAluInstruction.vector_opcode mad_instr = AluVectorOpcode.kMad
      /\ mad_operand2
         = InstructionOperand.mk InstructionStorageSource.kConstantFloat 12
             InstructionStorageAddressingMode.kStatic false false 4
             [SwizzleSource.kX; SwizzleSource.kY; SwizzleSource.kZ; SwizzleSource.kW]
      /\ memexport_stream_constants_ (shader mad_st) = ∅
      /\ Z.testbit (memexport_eA_written mad_st) (1 - 1) = false).
Proof.
  cbv zeta. split.
  - split; [vm_compute; reflexivity|]. split; [vm_compute; split; congruence|].
    vm_compute. reflexivity.
  - repeat split; vm_compute; reflexivity.
Qed.

(** ** Operand usage of fetch instructions *)

Section FetchUsageProperties.
Context `{SD : ShaderDecl} `{VF : VertexFetchInstructionDecl}.

(** A vertex fetch none of whose result components is used leaves
    [GatherVertexFetchInformation] before its operands are gathered: the
    shader only sees [GatherFetchResultInformation]. *)
Lemma GatherVertexFetchInformation_nothing_fetched (op : Dwords3) (st : AnalysisState) :
  let fetch_instr :=
    (ParseVertexFetchInstruction op (previous_vfetch_full st)
       ParsedVertexFetchInstruction.init).2 in
  GetUsedResultComponents (ParsedVertexFetchInstruction.result fetch_instr) = 0 ->
  shader (GatherVertexFetchInformation op st)
  = GatherFetchResultInformation (ParsedVertexFetchInstruction.result fetch_instr)
      (shader st).
Proof.
  cbv zeta. intros H0. unfold GatherVertexFetchInformation.
  destruct (ParseVertexFetchInstruction op (previous_vfetch_full st)
              ParsedVertexFetchInstruction.init) as [update fetch_instr].
  cbn [fst snd] in *. rewrite H0. cbn [nonzero Z.eqb negb].
  destruct update; reflexivity.
Qed.

End FetchUsageProperties.

(** ** Invariants of the walk *)

(** The control-flow rows of a disassembly: the arguments [(i, j)] of the
    chunks written with the format of the pair-and-slot prefix. *)
Definition chunk_cf_row (c : Chunk) : option (Z * Z) :=
  match c with
  | AppendFormat f [i; j] => if String.eqb f fmt_cf_index then Some (i, j) else None
  | _ => None
  end.

Definition cf_rows (buffer : StringBuffer) : list (Z * Z) := omap chunk_cf_row buffer.

Lemma keeps_tables_textures `{SD : ShaderDecl} (s s' : Shader) :
  keeps_tables s s' -> texture_bindings_ s' = texture_bindings_ s.
Proof. intros (H & _ & _). exact H. Qed.

Lemma keeps_tables_bound `{SD : ShaderDecl} (s s' : Shader) :
  keeps_tables s s' -> cf_pair_index_bound_ s' = cf_pair_index_bound_ s.
Proof. intros (_ & _ & H). exact H. Qed.

Create HintDb keeps.
#[global] Hint Resolve gather_register_use_keeps GatherOperandInformation_keeps
  gather_operands_keeps GatherFetchResultInformation_keeps
  GatherAluResultInformation_keeps keeps_tables_refl : keeps.

Section WalkPreservation.
Context `{SD : ShaderDecl} `{ER : ExportRegisterDecl} `{ALU : AluInstructionDecl}
        `{VF : VertexFetchInstructionDecl} `{TF : TextureFetchInstructionDecl}
        `{CF : ControlFlowInstructionDecl}.

(** A property of the analysis state that survives every step of the walk
    which emits no control-flow row and does not touch the texture
    bindings or the program bound, and that survives the gathering of a
    texture fetch. *)
Variable P : AnalysisState -> Prop.
Hypothesis P_emit :
  forall c st, chunk_cf_row c = None -> P st -> P (emit c st).
Hypothesis P_on_shader :
  forall f st,
    texture_bindings_ (f (shader st)) = texture_bindings_ (shader st) ->
    cf_pair_index_bound_ (f (shader st)) = cf_pair_index_bound_ (shader st) ->
    P st -> P (on_shader f st).
Hypothesis P_log_events : forall evs st, P st -> P (log_events evs st).
Hypothesis P_set_previous_vfetch_full :
  forall v st, P st -> P (set_previous_vfetch_full v st).
Hypothesis P_set_memexport_alloc_count :
  forall v st, P st -> P (set_memexport_alloc_count v st).
Hypothesis P_set_memexport_eA_written :
  forall v st, P st -> P (set_memexport_eA_written v st).
Hypothesis P_texture :
  forall op st, P st -> P (GatherTextureFetchInformation op st).

Ltac kept :=
  first
    [ reflexivity
    | apply keeps_tables_textures; auto with keeps
    | apply keeps_tables_bound; auto with keeps ].

Ltac walk :=
  repeat
    first
      [ assumption
      | apply P_emit; [reflexivity|]
      | apply P_log_events
      | apply P_set_previous_vfetch_full
      | apply P_set_memexport_alloc_count
      | apply P_set_memexport_eA_written
      | apply P_on_shader; [kept | kept |] ].

Lemma walk_GatherVertexFetchInformation (op : Dwords3) (st : AnalysisState) :
  P st -> P (GatherVertexFetchInformation op st).
Proof.
  intros HP. unfold GatherVertexFetchInformation.
  destruct (ParseVertexFetchInstruction _ _ _) as [update fetch_instr].
  destruct (negb (nonzero _)).
  - destruct update; walk.
  - apply P_on_shader.
    + cbn beta. destruct (add_vertex_attribute _ _ _); reflexivity.
    + cbn beta. destruct (add_vertex_attribute _ _ _); reflexivity.
    + destruct update; walk.
Qed.

Lemma walk_GatherAluInstructionInformation (op : Dwords3) (count : Z)
    (st : AnalysisState) :
  P st -> P (GatherAluInstructionInformation op count st).
Proof.
  intros HP. unfold GatherAluInstructionInformation.
  destruct (ParseAluInstruction _ _ _) as [instr logged].
  destruct (bool_decide _ && memexport_count_valid count).
  - destruct (negb (_ =? UINT32_MAX)); walk.
  - walk.
Qed.

Lemma walk_gather_exec_slot (count instr_offset sequence : Z) (st : AnalysisState) :
  P st -> P (gather_exec_slot count instr_offset sequence st).
Proof.
  intros HP. unfold gather_exec_slot.
  assert (HP' : P (if nonzero (Z.land sequence 2)
                   then emit (Append "         serialize\n             ")
                          (emit (AppendFormat fmt_instr_offset [instr_offset]) st)
                   else emit (AppendFormat fmt_instr_offset [instr_offset]) st)).
  { destruct (nonzero (Z.land sequence 2)); walk. }
  revert HP'. generalize (if nonzero (Z.land sequence 2)
                          then emit (Append "         serialize\n             ")
                                 (emit (AppendFormat fmt_instr_offset [instr_offset]) st)
                          else emit (AppendFormat fmt_instr_offset [instr_offset]) st).
  intros st1 HP1. cbv zeta.
  destruct (nonzero (Z.land sequence 1)).
  - destruct (bool_decide _).
    + apply walk_GatherVertexFetchInformation. exact HP1.
    + apply P_texture. exact HP1.
  - apply walk_GatherAluInstructionInformation. exact HP1.
Qed.

Lemma walk_gather_exec_loop (fuel : nat) (bound count instr_offset sequence : Z)
    (st : AnalysisState) :
  P st -> P (gather_exec_loop fuel bound count instr_offset sequence st).
Proof.
  revert instr_offset sequence st.
  induction fuel as [|fuel IH]; intros instr_offset sequence st HP; cbn [gather_exec_loop].
  - exact HP.
  - destruct (instr_offset <? bound); [|exact HP].
    apply IH. apply walk_gather_exec_slot. exact HP.
Qed.

Lemma walk_GatherExecInformation (instr : ParsedExecInstruction.t) (count : Z)
    (st : AnalysisState) :
  P st -> P (GatherExecInformation instr count st).
Proof.
  intros HP. unfold GatherExecInformation. apply walk_gather_exec_loop. walk.
Qed.

Lemma mark_bool_constant_keeps (index : Z) (s : Shader) :
  keeps_tables s (mark_bool_constant index s).
Proof. unfold mark_bool_constant. destruct (negb _); repeat split; reflexivity. Qed.

Lemma mark_loop_constant_keeps (index : Z) (s : Shader) :
  keeps_tables s (mark_loop_constant index s).
Proof. repeat split; reflexivity. Qed.

(** The rest of [analyze_cf], once the label row and the control-flow row
    are in the buffer. *)
Lemma walk_analyze_cf (i j : Z) (cf : ControlFlowInstruction) (st : AnalysisState) :
  P (emit (AppendFormat fmt_cf_index [i; j])
       (if bool_decide (u32 (i * 2 + j) ∈ label_addresses_ (shader st))
        then emit (AppendFormat fmt_label [u32 (i * 2 + j)]) st
        else st)) ->
  P (analyze_cf i j cf st).
Proof.
  unfold analyze_cf. cbv zeta.
  generalize (emit (AppendFormat fmt_cf_index [i; j])
                (if bool_decide (u32 (i * 2 + j) ∈ label_addresses_ (shader st))
                 then emit (AppendFormat fmt_label [u32 (i * 2 + j)]) st
                 else st)).
  intros st2 HP.
  assert (Hmark : forall b st3, P st3 -> P (on_shader (mark_bool_constant b) st3)).
  { intros b st3 H3. apply P_on_shader; [| |exact H3].
    - apply keeps_tables_textures, mark_bool_constant_keeps.
    - apply keeps_tables_bound, mark_bool_constant_keeps. }
  assert (Hloop : forall b st3, P st3 -> P (on_shader (mark_loop_constant b) st3)).
  { intros b st3 H3. apply P_on_shader; [| |exact H3].
    - apply keeps_tables_textures, mark_loop_constant_keeps.
    - apply keeps_tables_bound, mark_loop_constant_keeps. }
  destruct (cf_opcode cf); apply Hmark;
    try (apply walk_GatherExecInformation; exact HP);
    try (apply Hloop); walk.
  destruct (bool_decide _); walk.
Qed.

End WalkPreservation.

(** ** Fuel of the exec loop *)

Section ExecLoopFuel.
Context `{SD : ShaderDecl} `{ER : ExportRegisterDecl} `{ALU : AluInstructionDecl}
        `{VF : VertexFetchInstructionDecl} `{TF : TextureFetchInstructionDecl}
        `{CF : ControlFlowInstructionDecl}.

(** Once the fuel reaches the bound, more fuel changes nothing: the loop
    ends because its condition fails. *)
Lemma gather_exec_loop_fuel (fuel extra : nat) (bound count instr_offset sequence : Z)
    (st : AnalysisState) :
  0 <= instr_offset ->
  bound <= instr_offset + Z.of_nat fuel ->
  bound < 2 ^ 32 ->
  gather_exec_loop (fuel + extra) bound count instr_offset sequence st
  = gather_exec_loop fuel bound count instr_offset sequence st.
Proof.
  revert instr_offset sequence st.
  induction fuel as [|fuel IH]; intros instr_offset sequence st Hpos Hfuel Hlt.
  - cbn [Nat.add gather_exec_loop]. destruct extra as [|extra]; [reflexivity|].
    cbn [gather_exec_loop].
    destruct (Z.ltb_spec instr_offset bound); [lia|reflexivity].
  - cbn [Nat.add gather_exec_loop].
    destruct (Z.ltb_spec instr_offset bound) as [Hin|Hout]; [|reflexivity].
    rewrite u32_small by lia. apply IH; lia.
Qed.

(** The fuel that [GatherExecInformation] passes is enough. *)
Lemma GatherExecInformation_fuel (instr : ParsedExecInstruction.t) (count : Z)
    (extra : nat) (st : AnalysisState) :
  0 <= ParsedExecInstruction.instruction_address instr ->
  0 <= ParsedExecInstruction.instruction_count instr ->
  gather_exec_loop
    (Z.to_nat (ParsedExecInstruction.instruction_count instr) + extra)
    (u32 (ParsedExecInstruction.instruction_address instr
          + ParsedExecInstruction.instruction_count instr))
    count (ParsedExecInstruction.instruction_address instr)
    (ParsedExecInstruction.sequence instr)
    (emit (Disassemble (PExec instr)) st)
  = GatherExecInformation instr count st.
Proof.
  intros Ha Hc. unfold GatherExecInformation.
  pose proof (u32_range (ParsedExecInstruction.instruction_address instr
                         + ParsedExecInstruction.instruction_count instr)) as Hr.
  assert (Hle : u32 (ParsedExecInstruction.instruction_address instr
                     + ParsedExecInstruction.instruction_count instr)
                <= ParsedExecInstruction.instruction_address instr
                   + ParsedExecInstruction.instruction_count instr).
  { unfold u32. apply Z.mod_le; lia. }
  apply gather_exec_loop_fuel; lia.
Qed.

End ExecLoopFuel.

(** ** The program bound *)

Section ProgramBound.
Context `{SD : ShaderDecl} `{ER : ExportRegisterDecl} `{ALU : AluInstructionDecl}
        `{VF : VertexFetchInstructionDecl} `{TF : TextureFetchInstructionDecl}
        `{CF : ControlFlowInstructionDecl}.
Variable cvars_dump_shaders : string.

Lemma scan_cf_bound (cf : ControlFlowInstruction) (s : Shader) :
  cf_pair_index_bound_ (scan_cf cf s) <= cf_pair_index_bound_ s.
Proof.
  unfold scan_cf.
  destruct (IsControlFlowOpcodeExec (cf_opcode cf));
    destruct (cf_opcode cf); cbn -[Z.min];
    first [apply Z.le_min_l | apply Z.le_refl].
Qed.

Lemma scan_cf_tables (cf : ControlFlowInstruction) (s : Shader) :
  texture_bindings_ (scan_cf cf s) = texture_bindings_ s
  /\ ucode_data_ (scan_cf cf s) = ucode_data_ s.
Proof.
  unfold scan_cf.
  destruct (IsControlFlowOpcodeExec (cf_opcode cf));
    destruct (cf_opcode cf); split; reflexivity.
Qed.

Lemma scan_pair_bound (i : Z) (s : Shader) :
  cf_pair_index_bound_ (scan_pair i s) <= cf_pair_index_bound_ s.
Proof.
  unfold scan_pair.
  destruct (UnpackControlFlowInstructions _) as [cf_a cf_b].
  pose proof (scan_cf_bound cf_a s).
  pose proof (scan_cf_bound cf_b (scan_cf cf_a s)). lia.
Qed.

Lemma scan_pair_tables (i : Z) (s : Shader) :
  texture_bindings_ (scan_pair i s) = texture_bindings_ s
  /\ ucode_data_ (scan_pair i s) = ucode_data_ s.
Proof.
  unfold scan_pair.
  destruct (UnpackControlFlowInstructions _) as [cf_a cf_b].
  destruct (scan_cf_tables cf_a s) as [H1 H2].
  destruct (scan_cf_tables cf_b (scan_cf cf_a s)) as [H3 H4].
  split; congruence.
Qed.

(** The first loop, from index [i] with enough fuel to reach the bound:
    it unpacks the pairs [i, i+1, ..., i+k-1] and stops at [i+k], which is
    not below the bound it ends with; it never passes the bound it
    started with. *)
Lemma scan_loop_spec (fuel : nat) (i : Z) (s : Shader) (unpacked : list Z) :
  0 <= i ->
  cf_pair_index_bound_ s <= i + Z.of_nat fuel ->
  cf_pair_index_bound_ s < 2 ^ 32 ->
  exists k : nat,
    (scan_loop fuel i s unpacked).2 = unpacked ++ seqZ i (Z.of_nat k)
    /\ i + Z.of_nat k <= Z.max i (cf_pair_index_bound_ s)
    /\ cf_pair_index_bound_ (scan_loop fuel i s unpacked).1 <= i + Z.of_nat k
    /\ cf_pair_index_bound_ (scan_loop fuel i s unpacked).1 <= cf_pair_index_bound_ s
    /\ texture_bindings_ (scan_loop fuel i s unpacked).1 = texture_bindings_ s
    /\ ucode_data_ (scan_loop fuel i s unpacked).1 = ucode_data_ s.
Proof.
  revert i s unpacked.
  induction fuel as [|fuel IH]; intros i s unpacked Hi Hfuel Hlt; cbn [scan_loop].
  - exists 0%nat. cbn [fst snd]. rewrite app_nil_r.
    repeat split; try reflexivity; lia.
  - destruct (Z.ltb_spec i (cf_pair_index_bound_ s)) as [Hin|Hout].
    + pose proof (scan_pair_bound i s) as Hb.
      destruct (scan_pair_tables i s) as [Ht Hu].
      assert (Hw : u32 (i + 1) = i + 1) by (apply u32_small; lia).
      rewrite Hw.
      destruct (IH (i + 1) (scan_pair i s) (unpacked ++ [i])) as
        (k & Hk1 & Hk2 & Hk3 & Hk4 & Hk5 & Hk6); [lia|lia|lia|].
      exists (S k). rewrite Hk1, Hk5, Hk6.
      split.
      { rewrite <- app_assoc. f_equal.
        rewrite (seqZ_cons i (Z.of_nat (S k))) by lia.
        cbn [app]. do 2 f_equal; lia. }
      repeat split; try assumption; lia.
    + exists 0%nat. cbn [fst snd]. rewrite app_nil_r.
      repeat split; try reflexivity; lia.
Qed.

Lemma scan_control_flow_spec (s : Shader) :
  let word_bound := u32 (Z.of_nat (length (ucode_data_ s)) / 3) in
  exists k : nat,
    (scan_control_flow s).2 = seqZ 0 (Z.of_nat k)
    /\ Z.of_nat k <= word_bound
    /\ cf_pair_index_bound_ (scan_control_flow s).1 <= Z.of_nat k
    /\ cf_pair_index_bound_ (scan_control_flow s).1 <= word_bound
    /\ texture_bindings_ (scan_control_flow s).1 = texture_bindings_ s
    /\ ucode_data_ (scan_control_flow s).1 = ucode_data_ s.
Proof.
  cbv zeta. unfold scan_control_flow.
  pose proof (u32_range (Z.of_nat (length (ucode_data_ s)) / 3)) as Hr.
  set (s0 := set_cf_pair_index_bound_ _ s).
  assert (Hb0 : cf_pair_index_bound_ s0
                = u32 (Z.of_nat (length (ucode_data_ s)) / 3)) by reflexivity.
  destruct (scan_loop_spec (Z.to_nat (cf_pair_index_bound_ s0)) 0 s0 [])
    as (k & Hk1 & Hk2 & Hk3 & Hk4 & Hk5 & Hk6); [lia|lia|lia|].
  exists k. rewrite Hk1, Hk5, Hk6. rewrite Hb0 in *.
  repeat split; try reflexivity; lia.
Qed.

(** The rows that the second loop writes for the pairs of [l]. *)
Definition rows_of_pairs (l : list Z) : list (Z * Z) :=
  flat_map (fun i => [(i, 0); (i, 1)]) l.

Lemma GatherTextureFetchInformation_walk (op : Dwords3) (st : AnalysisState) :
  cf_rows (ucode_disasm_buffer (GatherTextureFetchInformation op st))
  = cf_rows (ucode_disasm_buffer st) ++ []
  /\ cf_pair_index_bound_ (shader (GatherTextureFetchInformation op st))
     = cf_pair_index_bound_ (shader st).
Proof.
  unfold GatherTextureFetchInformation. cbv zeta.
  assert (Hk : forall fetch_instr s,
             keeps_tables s
               (gather_operands
                  (ParsedTextureFetchInstruction.operand_count fetch_instr)
                  (ParsedTextureFetchInstruction.operands fetch_instr)
                  (GatherFetchResultInformation
                     (ParsedTextureFetchInstruction.result fetch_instr) s))).
  { intros fetch_instr s.
    eapply keeps_tables_trans;
      [apply GatherFetchResultInformation_keeps | apply gather_operands_keeps]. }
  pose proof (keeps_tables_bound _ _
                (Hk (ParseTextureFetchInstruction op ParsedTextureFetchInstruction.init)
                    (shader st))) as Hbound.
  destruct (texture_opcode_sets_state (tf_opcode op)).
  - split; [|exact Hbound]. unfold cf_rows. cbn. rewrite omap_app. reflexivity.
  - destruct (find_texture_binding_index _ _ _ =? -1);
      (split; [|exact Hbound]); unfold cf_rows; cbn; rewrite omap_app; reflexivity.
Qed.

(** The rows and the program bound, as a walk invariant. *)
Definition rows_and_bound (rows : list (Z * Z)) (bound : Z) (st : AnalysisState)
    : Prop :=
  cf_rows (ucode_disasm_buffer st) = rows
  /\ cf_pair_index_bound_ (shader st) = bound.

Lemma cf_rows_emit (c : Chunk) (st : AnalysisState) :
  cf_rows (ucode_disasm_buffer (emit c st))
  = cf_rows (ucode_disasm_buffer st)
    ++ match chunk_cf_row c with Some row => [row] | None => [] end.
Proof.
  unfold cf_rows.
  change (ucode_disasm_buffer (emit c st)) with (ucode_disasm_buffer st ++ [c]).
  rewrite omap_app. reflexivity.
Qed.

Lemma analyze_cf_rows (i j : Z) (cf : ControlFlowInstruction) (st : AnalysisState)
    (rows : list (Z * Z)) (bound : Z) :
  rows_and_bound rows bound st ->
  rows_and_bound (rows ++ [(i, j)]) bound (analyze_cf i j cf st).
Proof.
  intros [Hrows Hbound].
  apply (walk_analyze_cf (rows_and_bound (rows ++ [(i, j)]) bound)).
  - intros c st0 Hc [H1 H2]. split; [|exact H2].
    rewrite cf_rows_emit, Hc, app_nil_r. exact H1.
  - intros f st0 _ Hb [H1 H2]. split; [exact H1|].
    exact (eq_trans Hb H2).
  - intros evs st0 H. exact H.
  - intros v st0 H. exact H.
  - intros v st0 H. exact H.
  - intros v st0 H. exact H.
  - intros op st0 [H1 H2].
    destruct (GatherTextureFetchInformation_walk op st0) as [H3 H4].
    split; [|exact (eq_trans H4 H2)].
    rewrite H3, app_nil_r. exact H1.
  - split.
    + rewrite cf_rows_emit.
      change (chunk_cf_row (AppendFormat fmt_cf_index [i; j])) with (Some (i, j)).
      f_equal. destruct (bool_decide _); [|exact Hrows].
      rewrite cf_rows_emit.
      change (chunk_cf_row (AppendFormat fmt_label [u32 (i * 2 + j)]))
        with (@None (Z * Z)).
      rewrite app_nil_r. exact Hrows.
    + destruct (bool_decide _); exact Hbound.
Qed.

Lemma analyze_pairs_rows (l : list Z) (st : AnalysisState)
    (rows : list (Z * Z)) (bound : Z) :
  rows_and_bound rows bound st ->
  rows_and_bound (rows ++ rows_of_pairs l) bound (foldl analyze_pair st l).
Proof.
  revert st rows. induction l as [|i l IH]; intros st rows H; cbn [foldl].
  - unfold rows_of_pairs. cbn. rewrite app_nil_r. exact H.
  - unfold rows_of_pairs. cbn [flat_map].
    replace (rows ++ ([(i, 0); (i, 1)] ++ flat_map (fun i0 => [(i0, 0); (i0, 1)]) l))
      with (((rows ++ [(i, 0)]) ++ [(i, 1)]) ++ rows_of_pairs l)
      by (unfold rows_of_pairs; rewrite <- !app_assoc; reflexivity).
    apply IH. unfold analyze_pair.
    destruct (UnpackControlFlowInstructions _) as [cf_a cf_b].
    apply analyze_cf_rows, analyze_cf_rows. exact H.
Qed.

Lemma cleanup_memexport_rows (st : AnalysisState) :
  ucode_disasm_buffer (cleanup_memexport st) = ucode_disasm_buffer st
  /\ cf_pair_index_bound_ (shader (cleanup_memexport st))
     = cf_pair_index_bound_ (shader st)
  /\ texture_bindings_ (shader (cleanup_memexport st)) = texture_bindings_ (shader st).
Proof.
  unfold cleanup_memexport.
  destruct (foldl cleanup_memexport_slot _ _) as [eA eM].
  destruct (eA =? 0); repeat split; reflexivity.
Qed.

Lemma finish_float_constants_keeps (s : Shader) :
  keeps_tables s (finish_float_constants s).
Proof.
  unfold finish_float_constants.
  destruct (ConstantRegisterMap.float_dynamic_addressing _); repeat split; reflexivity.
Qed.

(** The bodies of the first loop for the pairs of [l], in order. *)
Definition scan_pairs (l : list Z) (s : Shader) : Shader :=
  foldl (fun s i => scan_pair i s) s l.

(** The bound that the first loop compares the index [i] with: the pair
    count [word count / 3] as lowered by the bodies of the pairs
    [0 .. i-1]. *)
Definition bound_when_tested (s : Shader) (i : Z) : Z :=
  cf_pair_index_bound_
    (scan_pairs (seqZ 0 i)
       (set_cf_pair_index_bound_ (u32 (Z.of_nat (length (ucode_data_ s)) / 3)) s)).

Lemma scan_pairs_bound (l : list Z) (s : Shader) :
  cf_pair_index_bound_ (scan_pairs l s) <= cf_pair_index_bound_ s.
Proof.
  unfold scan_pairs. revert s. induction l as [|i l IH]; intros s; cbn [foldl].
  - apply Z.le_refl.
  - pose proof (IH (scan_pair i s)). pose proof (scan_pair_bound i s). lia.
Qed.

(** The first loop, exactly: from index [i] with enough fuel to reach the
    bound it runs the bodies of the pairs [i, ..., i+k-1] and nothing
    else; each of these indices was below the bound as lowered by the
    bodies before it, and [i+k] is not. *)
Lemma scan_loop_exact (fuel : nat) (i : Z) (s : Shader) (unpacked : list Z) :
  0 <= i ->
  cf_pair_index_bound_ s <= i + Z.of_nat fuel ->
  cf_pair_index_bound_ s < 2 ^ 32 ->
  exists k : nat,
    scan_loop fuel i s unpacked
    = (scan_pairs (seqZ i (Z.of_nat k)) s, unpacked ++ seqZ i (Z.of_nat k))
    /\ (forall j, 0 <= j < Z.of_nat k ->
          i + j < cf_pair_index_bound_ (scan_pairs (seqZ i j) s))
    /\ cf_pair_index_bound_ (scan_pairs (seqZ i (Z.of_nat k)) s) <= i + Z.of_nat k.
Proof.
  revert i s unpacked.
  induction fuel as [|fuel IH]; intros i s unpacked Hi Hfuel Hlt; cbn [scan_loop].
  - exists 0%nat. change (seqZ i (Z.of_nat 0)) with (@nil Z).
    rewrite app_nil_r. split; [reflexivity|]. split; [intros j Hj; lia|].
    cbn. lia.
  - destruct (Z.ltb_spec i (cf_pair_index_bound_ s)) as [Hin|Hout].
    + pose proof (scan_pair_bound i s) as Hb.
      assert (Hw : u32 (i + 1) = i + 1) by (apply u32_small; lia).
      rewrite Hw.
      destruct (IH (i + 1) (scan_pair i s) (unpacked ++ [i])) as (k & Hk1 & Hk2 & Hk3);
        [lia|lia|lia|].
      exists (S k).
      assert (Hseq : forall n, 0 < n -> seqZ i n = i :: seqZ (i + 1) (n - 1)).
      { intros n Hn. rewrite (seqZ_cons i n) by lia. do 2 f_equal; lia. }
      rewrite (Hseq (Z.of_nat (S k))) by lia.
      replace (Z.of_nat (S k) - 1) with (Z.of_nat k) by lia.
      split.
      { rewrite Hk1. rewrite <- app_assoc. reflexivity. }
      split.
      * intros j Hj. destruct (Z.eq_dec j 0) as [->|Hne].
        -- change (seqZ i 0) with (@nil Z). cbn. lia.
        -- rewrite (Hseq j) by lia. cbn [scan_pairs foldl].
           specialize (Hk2 (j - 1) ltac:(lia)).
           unfold scan_pairs in Hk2. lia.
      * cbn [scan_pairs foldl]. unfold scan_pairs in Hk3. lia.
    + exists 0%nat. change (seqZ i (Z.of_nat 0)) with (@nil Z).
      rewrite app_nil_r. split; [reflexivity|]. split; [intros j Hj; lia|].
      cbn. lia.
Qed.

(** C1, as the source has it.  The scan for the program bound starts from
    the pair count [word count / 3] and tests, before each pair, that its
    index is below the bound as lowered so far.  It runs the bodies of the
    pairs [0 .. k-1], each once and in order, and of no other pair: the
    scanned shader is the result of exactly these bodies.  Every index
    below [k] was below the bound when it was tested, and [k] is not: the
    scan stops at the first index that is not below the current bound,
    which fixes [k].  [k] does not exceed the pair count, the settled
    bound is the bound that [k] was tested against and does not exceed
    [k] nor the pair count, so every pair below the settled bound has
    been examined and no pair from [k] on is.  The loop that analyzes the
    instructions then visits exactly the pairs below the settled bound,
    both slots of each, and the bound is still the settled one when the
    analysis ends. *)
Theorem program_bound_scan (s : Shader) (evs : list Event) :
  let word_bound := u32 (Z.of_nat (length (ucode_data_ s)) / 3) in
  let scanned := scan_control_flow s in
  let bound := cf_pair_index_bound_ scanned.1 in
  let st := AnalyzeUcode_body cvars_dump_shaders s evs in
  exists k : nat,
    scanned.2 = seqZ 0 (Z.of_nat k)
    /\ scanned.1
       = scan_pairs (seqZ 0 (Z.of_nat k)) (set_cf_pair_index_bound_ word_bound s)
    /\ (forall i, 0 <= i < Z.of_nat k -> i < bound_when_tested s i)
    /\ bound_when_tested s (Z.of_nat k) <= Z.of_nat k
    /\ (forall j : nat,
          (forall i, 0 <= i < Z.of_nat j -> i < bound_when_tested s i) ->
          bound_when_tested s (Z.of_nat j) <= Z.of_nat j ->
          j = k)
    /\ bound = bound_when_tested s (Z.of_nat k)
    /\ Z.of_nat k <= word_bound
    /\ bound <= Z.of_nat k
    /\ bound <= word_bound
    /\ cf_rows (ucode_disasm_buffer st) = rows_of_pairs (seqZ 0 bound)
    /\ cf_pair_index_bound_ (shader st) = bound.
Proof.
  cbv zeta.
  pose proof (u32_range (Z.of_nat (length (ucode_data_ s)) / 3)) as Hr.
  set (s0 := set_cf_pair_index_bound_ (u32 (Z.of_nat (length (ucode_data_ s)) / 3)) s).
  assert (Hb0 : cf_pair_index_bound_ s0
                = u32 (Z.of_nat (length (ucode_data_ s)) / 3)) by reflexivity.
  destruct (scan_loop_exact (Z.to_nat (cf_pair_index_bound_ s0)) 0 s0 [])
    as (k & Hk1 & Hk2 & Hk3); [lia|lia|lia|].
  assert (Hscan : scan_control_flow s
                  = (scan_pairs (seqZ 0 (Z.of_nat k)) s0, seqZ 0 (Z.of_nat k)))
    by exact Hk1.
  assert (Hbelow : forall i, 0 <= i < Z.of_nat k -> i < bound_when_tested s i).
  { intros i Hi. exact (Hk2 i Hi). }
  assert (Hstop : bound_when_tested s (Z.of_nat k) <= Z.of_nat k) by exact Hk3.
  assert (Hmono : forall n, bound_when_tested s n
                            <= u32 (Z.of_nat (length (ucode_data_ s)) / 3)).
  { intros n. unfold bound_when_tested. fold s0. rewrite <- Hb0.
    apply scan_pairs_bound. }
  assert (Hk : Z.of_nat k <= u32 (Z.of_nat (length (ucode_data_ s)) / 3)).
  { destruct k as [|k']; [lia|].
    pose proof (Hbelow (Z.of_nat k') ltac:(lia)).
    pose proof (Hmono (Z.of_nat k')). lia. }
  exists k. rewrite Hscan. cbn [fst snd].
  split; [reflexivity|]. split; [reflexivity|].
  split; [exact Hbelow|]. split; [exact Hstop|].
  split.
  { intros j Hj1 Hj2.
    destruct (Nat.lt_trichotomy j k) as [Hlt|[Heq|Hgt]]; [|exact Heq|].
    - pose proof (Hbelow (Z.of_nat j) ltac:(lia)). lia.
    - pose proof (Hj1 (Z.of_nat k) ltac:(lia)). lia. }
  split; [reflexivity|]. split; [exact Hk|].
  split; [exact Hstop|]. split; [apply Hmono|].
  unfold AnalyzeUcode_body. rewrite Hscan. cbn [fst].
  set (s1 := scan_pairs (seqZ 0 (Z.of_nat k)) s0) in *.
  pose proof (analyze_pairs_rows (seqZ 0 (cf_pair_index_bound_ s1))
                (mkAnalysisState s1 (0, 0, 0) 0 0 0 [] evs) []
                (cf_pair_index_bound_ s1)) as Hwalk.
  destruct Hwalk as [Hrows Hbound]; [split; reflexivity|].
  set (st1 := foldl analyze_pair _ _) in *.
  cbn [app] in Hrows.
  set (st2 := on_shader finish_float_constants
                (on_shader (set_ucode_disassembly_ (ucode_disasm_buffer st1)) st1)).
  assert (H2 : ucode_disasm_buffer st2 = ucode_disasm_buffer st1
               /\ cf_pair_index_bound_ (shader st2) = cf_pair_index_bound_ (shader st1)).
  { split; [reflexivity|].
    exact (keeps_tables_bound _ _ (finish_float_constants_keeps _)). }
  destruct H2 as [H2a H2b].
  destruct (cleanup_memexport_rows st2) as (H3a & H3b & _).
  assert (Hfinal : cf_rows (ucode_disasm_buffer (cleanup_memexport st2))
                   = rows_of_pairs (seqZ 0 (cf_pair_index_bound_ s1))
                   /\ cf_pair_index_bound_ (shader (cleanup_memexport st2))
                      = cf_pair_index_bound_ s1).
  { split; congruence. }
  destruct (negb _ && negb _); exact Hfinal.
Qed.

End ProgramBound.

(** C1 as the specification words it fails.  The microcode has two pairs,
    so the original range is [0; 1]; the [exec] in pair 0 lowers the bound
    to 1 and the scan stops after pair 0.  Pair 1, whose first instruction
    is a jump to address 5, is never unpacked: its label is missing from
    the label set. *)
Lemma full_range_scan_counterexample :
  let s := SampleProgram.two_pairs_shader in
  let scanned := scan_control_flow (CF := Xenos.control_flow_decl) s in
  let pair_1 :=
    UnpackControlFlowInstructions (ControlFlowInstructionDecl := Xenos.control_flow_decl)
      (dwords_at (ucode_data_ s) 1) in
  u32 (Z.of_nat (length (ucode_data_ s)) / 3) = 2
  /\ scanned.2 = [0]
  /\ scanned.2 <> seqZ 0 (u32 (Z.of_nat (length (ucode_data_ s)) / 3))
  /\ cf_pair_index_bound_ scanned.1 = 1
  /\ cf_opcode (ControlFlowInstructionDecl := Xenos.control_flow_decl) pair_1.1
     = ControlFlowOpcode.kCondJmp
  /\ cond_jmp_address (ControlFlowInstructionDecl := Xenos.control_flow_decl) pair_1.1 = 5
  /\ 5 ∉ label_addresses_ scanned.1.
Proof.
  cbv zeta.
  split; [vm_compute; reflexivity|].
  split; [vm_compute; reflexivity|].
  split; [vm_compute; discriminate|].
  split; [vm_compute; reflexivity|].
  split; [vm_compute; reflexivity|].
  split; [vm_compute; reflexivity|].
  refine (bool_decide_eq_false_1 _ _). vm_compute. reflexivity.
Qed.

(** On the same microcode the stopping index of the scan is 1: index 0
    was below the bound 2 it was tested against, index 1 is not below the
    bound 1 that the [exec] of pair 0 left, and no other index has both
    properties. *)
Lemma program_bound_scan_witness :
  let s := SampleProgram.two_pairs_shader in
  exists k : nat,
    k = 1%nat
    /\ (scan_control_flow (CF := Xenos.control_flow_decl) s).2 = seqZ 0 (Z.of_nat k)
    /\ (forall i, 0 <= i < Z.of_nat k ->
          i < bound_when_tested (CF := Xenos.control_flow_decl) s i)
    /\ bound_when_tested (CF := Xenos.control_flow_decl) s (Z.of_nat k) <= Z.of_nat k.
Proof.
  cbv zeta.
  destruct (program_bound_scan (SD := Xenos.shader_decl)
              (ER := Xenos.export_register_decl) (ALU := Xenos.alu_decl)
              (VF := Xenos.vertex_fetch_decl) (TF := Xenos.texture_fetch_decl)
              (CF := Xenos.control_flow_decl) EmptyString
              SampleProgram.two_pairs_shader [])
    as (k & Hlist & _ & Hbelow & Hstop & Hfirst & _).
  exists k. split; [|split; [exact Hlist|split; [exact Hbelow|exact Hstop]]].
  symmetry. apply (Hfirst 1%nat).
  - intros i Hi. assert (i = 0) as -> by lia. vm_compute. reflexivity.
  - vm_compute. discriminate.
Defined.

(** ** Texture bindings *)

(** What [GatherTextureFetchInformation] does to the binding table and to
    the counter of unique bindings when the opcode uses a binding. *)
Definition texture_step (fetch_constant : Z) (fetch_instr : ParsedTextureFetchInstruction.t)
    (bindings : list TextureBinding.t) (unique : Z) : list TextureBinding.t * Z :=
  let found := find_texture_binding_index fetch_constant (-1) bindings in
  if found =? -1 then
    (bindings ++ [TextureBinding.mk unique fetch_constant fetch_instr], u32 (unique + 1))
  else
    (bindings ++ [TextureBinding.mk found fetch_constant fetch_instr], unique).

(** [slots] lists the fetch-constant slots in the order of their binding
    indices: binding index [k] stands for slot [slots !! k], every listed
    slot has a binding, and the counter is the number of slots. *)
Definition texture_slots_ok (slots : list Z) (bindings : list TextureBinding.t)
    (unique : Z) : Prop :=
  NoDup slots
  /\ (forall x, x ∈ slots -> 0 <= x < 32)
  /\ unique = Z.of_nat (length slots)
  /\ (forall b, b ∈ bindings ->
        0 <= TextureBinding.binding_index b
        /\ slots !! Z.to_nat (TextureBinding.binding_index b)
           = Some (TextureBinding.fetch_constant b))
  /\ (forall x, x ∈ slots ->
        exists b, b ∈ bindings /\ TextureBinding.fetch_constant b = x).

Definition texture_invariant (st : AnalysisState) : Prop :=
  exists slots,
    texture_slots_ok slots (texture_bindings_ (shader st)) (unique_texture_bindings st).

Lemma find_texture_binding_index_spec (fetch_constant : Z)
    (bindings : list TextureBinding.t) :
  (find_texture_binding_index fetch_constant (-1) bindings = -1
   /\ forall b, b ∈ bindings ->
        TextureBinding.binding_index b = -1
        \/ TextureBinding.fetch_constant b <> fetch_constant)
  \/ (exists b, b ∈ bindings
        /\ TextureBinding.fetch_constant b = fetch_constant
        /\ find_texture_binding_index fetch_constant (-1) bindings
           = TextureBinding.binding_index b).
Proof.
  induction bindings as [|b0 rest IH]; cbn [find_texture_binding_index].
  - left. split; [reflexivity|]. intros b Hb. inversion Hb.
  - destruct (Z.eqb_spec (TextureBinding.fetch_constant b0) fetch_constant) as [He|Hn].
    + right. exists b0. split; [left|]. split; [exact He|reflexivity].
    + destruct IH as [[Hm Hall] | (b & Hb & Hs & Hf)].
      * left. split; [exact Hm|]. intros b Hb.
        apply elem_of_cons in Hb. destruct Hb as [->|Hb]; [right; exact Hn|].
        apply Hall. exact Hb.
      * right. exists b. split; [right; exact Hb|]. split; assumption.
Qed.

Lemma texture_slots_length (slots : list Z) :
  NoDup slots -> (forall x, x ∈ slots -> 0 <= x < 32) -> (length slots <= 32)%nat.
Proof.
  intros Hnd Hr.
  assert (Hsub : slots ⊆+ seqZ 0 32).
  { apply NoDup_submseteq; [exact Hnd|]. intros x Hx.
    apply elem_of_seqZ. specialize (Hr x Hx). lia. }
  apply submseteq_length in Hsub. rewrite length_seqZ in Hsub. exact Hsub.
Qed.

Lemma texture_step_ok (slots : list Z) (bindings : list TextureBinding.t)
    (unique fetch_constant : Z) (fetch_instr : ParsedTextureFetchInstruction.t) :
  texture_slots_ok slots bindings unique ->
  0 <= fetch_constant < 32 ->
  exists slots',
    texture_slots_ok slots'
      (texture_step fetch_constant fetch_instr bindings unique).1
      (texture_step fetch_constant fetch_instr bindings unique).2.
Proof.
  intros (Hnd & Hrange & Hunique & Hbind & Hcover) Hfc.
  unfold texture_step.
  destruct (find_texture_binding_index_spec fetch_constant bindings)
    as [[Hmiss Hall] | (b0 & Hb0 & Hs0 & Hfound)].
  - rewrite Hmiss. cbn [Z.eqb Pos.eqb fst snd].
    assert (Hfresh : fetch_constant ∉ slots).
    { intros Hin. destruct (Hcover _ Hin) as (b & Hb & Hs).
      destruct (Hall b Hb) as [Hneg | Hne]; [|contradiction].
      destruct (Hbind b Hb) as [Hpos _]. lia. }
    pose proof (texture_slots_length slots Hnd Hrange) as Hlen.
    exists (slots ++ [fetch_constant]).
    split; [|split; [|split; [|split]]].
    + apply NoDup_app. split; [exact Hnd|]. split.
      * intros x Hx Hx'. apply list_elem_of_singleton in Hx'. subst x. contradiction.
      * apply NoDup_singleton.
    + intros x Hx. apply elem_of_app in Hx. destruct Hx as [Hx|Hx].
      * apply Hrange. exact Hx.
      * apply list_elem_of_singleton in Hx. subst x. exact Hfc.
    + rewrite length_app. cbn [length]. rewrite u32_small; lia.
    + intros b Hb. apply elem_of_app in Hb. destruct Hb as [Hb|Hb].
      * destruct (Hbind b Hb) as [Hp Hl]. split; [exact Hp|].
        apply lookup_app_l_Some. exact Hl.
      * apply list_elem_of_singleton in Hb. subst b. cbn. split; [lia|].
        rewrite Hunique, Nat2Z.id. apply list_lookup_middle. reflexivity.
    + intros x Hx. apply elem_of_app in Hx. destruct Hx as [Hx|Hx].
      * destruct (Hcover x Hx) as (b & Hb & Hs). exists b.
        split; [apply elem_of_app; left; exact Hb|exact Hs].
      * apply list_elem_of_singleton in Hx. subst x.
        eexists. split; [apply elem_of_app; right; apply list_elem_of_singleton;
                         reflexivity|reflexivity].
  - destruct (Hbind b0 Hb0) as [Hpos Hlook].
    rewrite Hfound.
    destruct (Z.eqb_spec (TextureBinding.binding_index b0) (-1)) as [Hneg|_]; [lia|].
    cbn [fst snd]. exists slots.
    split; [exact Hnd|]. split; [exact Hrange|]. split; [exact Hunique|]. split.
    + intros b Hb. apply elem_of_app in Hb. destruct Hb as [Hb|Hb].
      * apply Hbind. exact Hb.
      * apply list_elem_of_singleton in Hb. subst b. cbn. split; [exact Hpos|].
        rewrite Hlook, Hs0. reflexivity.
    + intros x Hx. destruct (Hcover x Hx) as (b & Hb & Hs). exists b.
      split; [apply elem_of_app; left; exact Hb|exact Hs].
Qed.

(** Same slot, same index; different slots, different indices. *)
Lemma texture_slots_ok_dedup (slots : list Z) (bindings : list TextureBinding.t)
    (unique : Z) (b1 b2 : TextureBinding.t) :
  texture_slots_ok slots bindings unique ->
  b1 ∈ bindings -> b2 ∈ bindings ->
  (TextureBinding.fetch_constant b1 = TextureBinding.fetch_constant b2
   <-> TextureBinding.binding_index b1 = TextureBinding.binding_index b2)
  /\ 0 <= TextureBinding.binding_index b1 < unique.
Proof.
  intros (Hnd & _ & Hunique & Hbind & _) H1 H2.
  destruct (Hbind b1 H1) as [Hp1 Hl1]. destruct (Hbind b2 H2) as [Hp2 Hl2].
  split; [split|].
  - intros He. rewrite He in Hl1.
    pose proof (NoDup_lookup _ _ _ _ Hnd Hl1 Hl2) as Hn. lia.
  - intros He. rewrite He in Hl1. congruence.
  - apply lookup_lt_Some in Hl1. lia.
Qed.

Section TextureBindingProperties.
Context `{SD : ShaderDecl} `{ER : ExportRegisterDecl} `{ALU : AluInstructionDecl}
        `{VF : VertexFetchInstructionDecl} `{TF : TextureFetchInstructionDecl}
        `{CF : ControlFlowInstructionDecl}.
Variable cvars_dump_shaders : string.

(** The fetch constant of a binding: operand 1 of the parsed instruction. *)
Definition binding_fetch_constant (op : Dwords3) : Z :=
  InstructionOperand.storage_index
    (arr_get InstructionOperand.init
       (ParsedTextureFetchInstruction.operands
          (ParseTextureFetchInstruction op ParsedTextureFetchInstruction.init)) 1).

Lemma binding_fetch_constant_cases (op : Dwords3) :
  texture_opcode_sets_state (tf_opcode op) = false ->
  binding_fetch_constant op = tf_fetch_constant_index op
  \/ binding_fetch_constant op = 0.
Proof.
  unfold binding_fetch_constant, ParseTextureFetchInstruction.
  destruct (tf_opcode op); cbn; intros Hs; try discriminate; auto.
Qed.

Lemma binding_fetch_constant_range (op : Dwords3) :
  texture_opcode_sets_state (tf_opcode op) = false ->
  0 <= binding_fetch_constant op < 32.
Proof.
  intros Hs. destruct (binding_fetch_constant_cases op Hs) as [-> | ->].
  - apply tf_fetch_constant_index_range.
  - lia.
Qed.

(** The effect of [GatherTextureFetchInformation] on the binding table and
    on the counter. *)
Lemma GatherTextureFetchInformation_bindings (op : Dwords3) (st : AnalysisState) :
  let st' := GatherTextureFetchInformation op st in
  (texture_opcode_sets_state (tf_opcode op) = true ->
   texture_bindings_ (shader st') = texture_bindings_ (shader st)
   /\ unique_texture_bindings st' = unique_texture_bindings st)
  /\ (texture_opcode_sets_state (tf_opcode op) = false ->
      (texture_bindings_ (shader st'), unique_texture_bindings st')
      = texture_step (binding_fetch_constant op)
          (ParseTextureFetchInstruction op ParsedTextureFetchInstruction.init)
          (texture_bindings_ (shader st)) (unique_texture_bindings st)).
Proof.
  cbv zeta. unfold GatherTextureFetchInformation. cbv zeta.
  fold (binding_fetch_constant op).
  set (fetch_instr := ParseTextureFetchInstruction op ParsedTextureFetchInstruction.init).
  set (st1 := on_shader (gather_operands _ _) (on_shader _ (emit _ st))).
  assert (Ht : texture_bindings_ (shader st1) = texture_bindings_ (shader st)).
  { apply keeps_tables_textures.
    eapply keeps_tables_trans;
      [apply GatherFetchResultInformation_keeps | apply gather_operands_keeps]. }
  assert (Hu : unique_texture_bindings st1 = unique_texture_bindings st)
    by reflexivity.
  clearbody st1.
  destruct (texture_opcode_sets_state (tf_opcode op)).
  - split; [intros _; split; assumption | discriminate].
  - split; [discriminate|]. intros _. unfold texture_step.
    rewrite <- Ht, <- Hu.
    destruct (find_texture_binding_index _ _ _ =? -1); reflexivity.
Qed.

Lemma GatherTextureFetchInformation_invariant (op : Dwords3) (st : AnalysisState) :
  texture_invariant st -> texture_invariant (GatherTextureFetchInformation op st).
Proof.
  intros [slots Hok]. unfold texture_invariant.
  destruct (GatherTextureFetchInformation_bindings op st) as [Hset Huse].
  cbv zeta in *.
  destruct (texture_opcode_sets_state (tf_opcode op)) eqn:Hs.
  - destruct (Hset eq_refl) as [Ht Hu]. exists slots. rewrite Ht, Hu. exact Hok.
  - specialize (Huse eq_refl).
    destruct (texture_step_ok slots _ _ (binding_fetch_constant op)
                (ParseTextureFetchInstruction op ParsedTextureFetchInstruction.init)
                Hok (binding_fetch_constant_range op Hs)) as [slots' Hok'].
    exists slots'. rewrite <- Huse in Hok'. exact Hok'.
Qed.

Lemma analyze_cf_texture_invariant (i j : Z) (cf : ControlFlowInstruction)
    (st : AnalysisState) :
  texture_invariant st -> texture_invariant (analyze_cf i j cf st).
Proof.
  intros Hinv.
  apply (walk_analyze_cf texture_invariant).
  - intros c st0 _ H. exact H.
  - intros f st0 Ht _ [slots Hok]. exists slots.
    change (texture_bindings_ (shader (on_shader f st0)))
      with (texture_bindings_ (f (shader st0))).
    rewrite Ht. exact Hok.
  - intros evs st0 H. exact H.
  - intros v st0 H. exact H.
  - intros v st0 H. exact H.
  - intros v st0 H. exact H.
  - apply GatherTextureFetchInformation_invariant.
  - destruct (bool_decide _); exact Hinv.
Qed.

Lemma analyze_pairs_texture_invariant (l : list Z) (st : AnalysisState) :
  texture_invariant st -> texture_invariant (foldl analyze_pair st l).
Proof.
  revert st. induction l as [|i l IH]; intros st H; cbn [foldl]; [exact H|].
  apply IH. unfold analyze_pair.
  destruct (UnpackControlFlowInstructions _) as [cf_a cf_b].
  apply analyze_cf_texture_invariant, analyze_cf_texture_invariant. exact H.
Qed.

Lemma AnalyzeUcode_body_texture_invariant (s : Shader) (evs : list Event) :
  texture_bindings_ s = [] ->
  texture_invariant (AnalyzeUcode_body cvars_dump_shaders s evs).
Proof.
  intros Hempty. unfold AnalyzeUcode_body.
  destruct (scan_control_flow_spec s) as (k & _ & _ & _ & _ & Htex & _).
  cbv zeta in Htex.
  set (s1 := (scan_control_flow s).1) in *.
  assert (H0 : texture_invariant (mkAnalysisState s1 (0, 0, 0) 0 0 0 [] evs)).
  { exists []. unfold texture_slots_ok.
    change (texture_bindings_ (shader (mkAnalysisState s1 (0, 0, 0) 0 0 0 [] evs)))
      with (texture_bindings_ s1).
    rewrite Htex, Hempty.
    split; [apply NoDup_nil_2|]. split; [intros x Hx; inversion Hx|].
    split; [reflexivity|]. split; intros x Hx; inversion Hx. }
  apply (analyze_pairs_texture_invariant (seqZ 0 (cf_pair_index_bound_ s1))) in H0.
  set (st1 := foldl analyze_pair _ _) in *.
  set (st2 := on_shader finish_float_constants
                (on_shader (set_ucode_disassembly_ (ucode_disasm_buffer st1)) st1)).
  assert (H2 : texture_invariant st2).
  { destruct H0 as [slots Hok]. exists slots.
    replace (texture_bindings_ (shader st2)) with (texture_bindings_ (shader st1));
      [exact Hok|].
    symmetry.
    exact (keeps_tables_textures _ _ (finish_float_constants_keeps _)). }
  assert (H3 : texture_invariant (cleanup_memexport st2)).
  { destruct H2 as [slots Hok]. exists slots.
    destruct (cleanup_memexport_rows st2) as (_ & _ & Ht).
    rewrite Ht.
    replace (unique_texture_bindings (cleanup_memexport st2))
      with (unique_texture_bindings st2); [exact Hok|].
    unfold cleanup_memexport.
    destruct (foldl cleanup_memexport_slot _ _) as [eA eM].
    destruct (eA =? 0); reflexivity. }
  destruct (negb _ && negb _); exact H3.
Qed.

(** C6.  After the analysis of a shader whose binding table was empty,
    any two texture bindings have the same binding index if and only if
    they have the same fetch-constant slot, and every binding index is
    below the counter of unique bindings.  Gathering an instruction that
    only sets the texture LOD or gradients leaves the table and the
    counter as they were; gathering any other texture fetch appends one
    binding for the slot of its operand 1, with the index of the first
    earlier binding of that slot if there is one and with the counter's
    value, which is then incremented, if there is none. *)
Theorem texture_bindings_deduplicated (s : Shader) (evs : list Event) :
  texture_bindings_ s = [] ->
  let st := AnalyzeUcode_body cvars_dump_shaders s evs in
  (forall b1 b2,
     b1 ∈ texture_bindings_ (shader st) -> b2 ∈ texture_bindings_ (shader st) ->
     (TextureBinding.fetch_constant b1 = TextureBinding.fetch_constant b2
      <-> TextureBinding.binding_index b1 = TextureBinding.binding_index b2)
     /\ 0 <= TextureBinding.binding_index b1 < unique_texture_bindings st)
  /\ (forall op st0,
        let st1 := GatherTextureFetchInformation op st0 in
        (texture_opcode_sets_state (tf_opcode op) = true ->
         texture_bindings_ (shader st1) = texture_bindings_ (shader st0)
         /\ unique_texture_bindings st1 = unique_texture_bindings st0)
        /\ (texture_opcode_sets_state (tf_opcode op) = false ->
            (texture_bindings_ (shader st1), unique_texture_bindings st1)
            = texture_step (binding_fetch_constant op)
                (ParseTextureFetchInstruction op ParsedTextureFetchInstruction.init)
                (texture_bindings_ (shader st0)) (unique_texture_bindings st0))).
Proof.
  intros Hempty. cbv zeta. split.
  - destruct (AnalyzeUcode_body_texture_invariant s evs Hempty) as [slots Hok].
    intros b1 b2 H1 H2. exact (texture_slots_ok_dedup _ _ _ b1 b2 Hok H1 H2).
  - intros op st0. apply GatherTextureFetchInformation_bindings.
Qed.

End TextureBindingProperties.

Lemma texture_bindings_deduplicated_witness :
  map (fun b => (TextureBinding.binding_index b, TextureBinding.fetch_constant b))
    (texture_bindings_ (shader SampleTexture.analyzed))
  = [(0, 2); (0, 2); (1, 5)]
  /\ forall b1 b2,
       b1 ∈ texture_bindings_ (shader SampleTexture.analyzed) ->
       b2 ∈ texture_bindings_ (shader SampleTexture.analyzed) ->
       (TextureBinding.fetch_constant b1 = TextureBinding.fetch_constant b2
        <-> TextureBinding.binding_index b1 = TextureBinding.binding_index b2)
       /\ 0 <= TextureBinding.binding_index b1
          < unique_texture_bindings SampleTexture.analyzed.
Proof.
  split.
  - vm_compute. reflexivity.
  - exact (proj1 (texture_bindings_deduplicated (SD := Xenos.shader_decl)
                    (ER := Xenos.export_register_decl) (ALU := Xenos.alu_decl)
                    (VF := Xenos.vertex_fetch_decl) (TF := Xenos.texture_fetch_decl)
                    (CF := Xenos.control_flow_decl) EmptyString
                    SampleTexture.program_shader [] eq_refl)).
Defined.

(** ** Usage accumulation *)

(** The usage tables of [s] account for [operand]: what
    [GatherOperandInformation] records for an operand of its kind is
    there.  For a static float constant this is the bit of its index in
    the bitmap, provided the word of that index exists in the array. *)
Definition operand_accounted (operand : InstructionOperand.t) (s : Shader) : Prop :=
  let index := InstructionOperand.storage_index operand in
  let static :=
    InstructionOperand.storage_addressing_mode operand
    = InstructionStorageAddressingMode.kStatic in
  let map := constant_register_map_ s in
  match InstructionOperand.storage_source operand with
  | InstructionStorageSource.kRegister =>
      (static -> u32 (index + 1) <= register_static_address_bound_ s)
      /\ (~ static -> uses_register_dynamic_addressing_ s = true)
  | InstructionStorageSource.kConstantFloat =>
      (static ->
       0 <= Z.shiftr index 6 ->
       (Z.to_nat (Z.shiftr index 6) < length (ConstantRegisterMap.float_bitmap map))%nat ->
       Z.testbit (arr_get 0 (ConstantRegisterMap.float_bitmap map) (Z.shiftr index 6))
         (Z.land index 63) = true)
      /\ (~ static -> ConstantRegisterMap.float_dynamic_addressing map = true)
  | _ => True
  end.

(** The usage tables only grow from [s] to [s']. *)
Definition usage_le (s s' : Shader) : Prop :=
  register_static_address_bound_ s <= register_static_address_bound_ s'
  /\ (uses_register_dynamic_addressing_ s = true ->
      uses_register_dynamic_addressing_ s' = true)
  /\ (ConstantRegisterMap.float_dynamic_addressing (constant_register_map_ s) = true ->
      ConstantRegisterMap.float_dynamic_addressing (constant_register_map_ s') = true)
  /\ length (ConstantRegisterMap.float_bitmap (constant_register_map_ s'))
     = length (ConstantRegisterMap.float_bitmap (constant_register_map_ s))
  /\ (forall k j,
        Z.testbit (arr_get 0 (ConstantRegisterMap.float_bitmap (constant_register_map_ s)) k) j
        = true ->
        Z.testbit (arr_get 0 (ConstantRegisterMap.float_bitmap (constant_register_map_ s')) k) j
        = true).

Lemma usage_le_refl (s : Shader) : usage_le s s.
Proof. unfold usage_le. repeat split; auto. apply Z.le_refl. Qed.

Lemma usage_le_trans (s1 s2 s3 : Shader) :
  usage_le s1 s2 -> usage_le s2 s3 -> usage_le s1 s3.
Proof.
  intros (A1 & A2 & A3 & A4 & A5) (B1 & B2 & B3 & B4 & B5).
  unfold usage_le. repeat split; auto.
  - eapply Z.le_trans; eassumption.
  - congruence.
Qed.

Lemma operand_accounted_mono (operand : InstructionOperand.t) (s s' : Shader) :
  usage_le s s' -> operand_accounted operand s -> operand_accounted operand s'.
Proof.
  intros (A1 & A2 & A3 & A4 & A5). unfold operand_accounted. cbv zeta.
  destruct (InstructionOperand.storage_source operand); auto.
  - intros [H1 H2]. split.
    + intros Hs. eapply Z.le_trans; [apply H1; exact Hs | exact A1].
    + intros Hs. apply A2, H2, Hs.
  - intros [H1 H2]. split.
    + intros Hs Hk Hlen. apply A5, H1; [exact Hs | exact Hk |].
      rewrite <- A4. exact Hlen.
    + intros Hs. apply A3, H2, Hs.
Qed.

Lemma arr_get_upd_same {A : Type} (d : A) (l : list A) (k : Z) (f : A -> A) :
  0 <= k -> (Z.to_nat k < length l)%nat ->
  arr_get d (arr_upd d l k f) k = f (arr_get d l k).
Proof.
  intros Hk Hlen. unfold arr_upd, arr_get at 1.
  destruct (Z.ltb_spec k 0); [lia|].
  rewrite list_lookup_insert_eq by exact Hlen. reflexivity.
Qed.

Lemma arr_get_upd_lor (l : list Z) (k m i j : Z) :
  Z.testbit (arr_get 0 l i) j = true ->
  Z.testbit (arr_get 0 (arr_upd 0 l k (fun w => Z.lor w m)) i) j = true.
Proof.
  intros Hb.
  destruct (Z.ltb_spec k 0) as [Hneg|Hk].
  { unfold arr_upd. destruct (Z.ltb_spec k 0); [exact Hb|lia]. }
  destruct (Z.ltb_spec i 0) as [Hi|Hi].
  { unfold arr_get in *. destruct (Z.ltb_spec i 0); [exact Hb|lia]. }
  destruct (decide (i = k)) as [->|Hne].
  - destruct (decide (Z.to_nat k < length l)%nat) as [Hin|Hout].
    + rewrite arr_get_upd_same by assumption.
      rewrite Z.lor_spec, Hb. reflexivity.
    + unfold arr_upd. destruct (Z.ltb_spec k 0); [lia|].
      rewrite list_insert_ge by lia. exact Hb.
  - rewrite arr_get_upd_ne by assumption. exact Hb.
Qed.

Section UsageProperties.
Context `{SD : ShaderDecl} `{ER : ExportRegisterDecl} `{ALU : AluInstructionDecl}
        `{VF : VertexFetchInstructionDecl} `{TF : TextureFetchInstructionDecl}.

Lemma gather_register_use_le mode index (s : Shader) :
  usage_le s (gather_register_use mode index s).
Proof.
  unfold gather_register_use, usage_le.
  destruct (bool_decide _); repeat split; auto; try apply Z.le_refl.
  apply Z.le_max_l.
Qed.

Lemma GatherOperandInformation_le operand (s : Shader) :
  usage_le s (GatherOperandInformation operand s).
Proof.
  unfold GatherOperandInformation.
  destruct (InstructionOperand.storage_source operand);
    try apply usage_le_refl.
  - apply gather_register_use_le.
  - destruct (bool_decide _); unfold usage_le; repeat split; auto;
      try apply Z.le_refl.
    + unfold arr_upd. destruct (_ <? 0); [reflexivity|]. apply length_insert.
    + intros k j. apply arr_get_upd_lor.
Qed.

Lemma gather_operands_fold_le (operands : list InstructionOperand.t) (l : list Z)
    (s : Shader) :
  usage_le s
    (foldl (fun s i =>
              GatherOperandInformation (arr_get InstructionOperand.init operands i) s)
       s l).
Proof.
  revert s. induction l as [|i l IH]; intros s; cbn [foldl].
  - apply usage_le_refl.
  - eapply usage_le_trans; [|apply IH]. apply GatherOperandInformation_le.
Qed.

Lemma gather_operands_le count operands (s : Shader) :
  usage_le s (gather_operands count operands s).
Proof. apply gather_operands_fold_le. Qed.

Lemma GatherOperandInformation_accounts operand (s : Shader) :
  operand_accounted operand (GatherOperandInformation operand s).
Proof.
  unfold operand_accounted, GatherOperandInformation, gather_register_use. cbv zeta.
  destruct (InstructionOperand.storage_source operand); auto.
  - destruct (bool_decide _) eqn:Hd.
    + apply bool_decide_eq_true in Hd. split; [|intros Hn; contradiction].
      intros _. apply Z.le_max_r.
    + apply bool_decide_eq_false in Hd. split; [intros Hs; contradiction|].
      intros _. reflexivity.
  - destruct (bool_decide _) eqn:Hd.
    + apply bool_decide_eq_true in Hd. split; [|intros Hn; contradiction].
      intros _ Hk Hlen.
      change (ConstantRegisterMap.float_bitmap
                (constant_register_map_
                   (set_constant_register_map_
                      (ConstantRegisterMap.set_float_bitmap
                         (arr_upd 0
                            (ConstantRegisterMap.float_bitmap (constant_register_map_ s))
                            (Z.shiftr (InstructionOperand.storage_index operand) 6)
                            (fun w =>
                               Z.lor w
                                 (Z.shiftl 1
                                    (Z.land (InstructionOperand.storage_index operand) 63))))
                         (constant_register_map_ s)) s)))
        with (arr_upd 0
                (ConstantRegisterMap.float_bitmap (constant_register_map_ s))
                (Z.shiftr (InstructionOperand.storage_index operand) 6)
                (fun w =>
                   Z.lor w
                     (Z.shiftl 1 (Z.land (InstructionOperand.storage_index operand) 63))))
        in *.
      unfold arr_upd in Hlen.
      destruct (Z.ltb_spec (Z.shiftr (InstructionOperand.storage_index operand) 6) 0);
        [lia|].
      rewrite length_insert in Hlen.
      rewrite arr_get_upd_same by assumption.
      assert (Hnn : 0 <= Z.land (InstructionOperand.storage_index operand) 63)
        by (apply Z.land_nonneg; right; lia).
      rewrite Z.lor_spec, Z.shiftl_1_l, Z.pow2_bits_true by exact Hnn.
      apply orb_true_r.
    + apply bool_decide_eq_false in Hd. split; [intros Hs; contradiction|].
      intros _. reflexivity.
Qed.

(** After the loop over the operands, each of them is accounted for. *)
Lemma gather_operands_accounts (count : Z) (operands : list InstructionOperand.t)
    (s : Shader) (i : Z) :
  0 <= i < count ->
  operand_accounted (arr_get InstructionOperand.init operands i)
    (gather_operands count operands s).
Proof.
  intros Hi. unfold gather_operands.
  assert (Hin : i ∈ seqZ 0 count) by (apply elem_of_seqZ; lia).
  revert Hin. generalize (seqZ 0 count). intros l. revert s.
  induction l as [|a l IH]; intros s Hin; [inversion Hin|].
  cbn [foldl]. apply elem_of_cons in Hin. destruct Hin as [->|Hin].
  - eapply operand_accounted_mono.
    + apply gather_operands_fold_le.
    + apply GatherOperandInformation_accounts.
  - apply IH. exact Hin.
Qed.

End UsageProperties.

Section GatheredOperands.
Context `{SD : ShaderDecl} `{ER : ExportRegisterDecl} `{ALU : AluInstructionDecl}
        `{VF : VertexFetchInstructionDecl} `{TF : TextureFetchInstructionDecl}.

(** The shader after [GatherAluInstructionInformation]: kill flag, the two
    results, the vector operands, the scalar operands, and then possibly
    one more stream constant. *)
Lemma GatherAluInstructionInformation_shader (op : Dwords3) (count : Z)
    (st : AnalysisState) :
  let instr :=
    (ParseAluInstruction op (type_ (shader st)) ParsedAluInstruction.init).1 in
  let gathered :=
    gather_operands (ParsedAluInstruction.scalar_operand_count instr)
      (ParsedAluInstruction.scalar_operands instr)
      (gather_operands (ParsedAluInstruction.vector_operand_count instr)
         (ParsedAluInstruction.vector_operands instr)
         (GatherAluResultInformation (ParsedAluInstruction.scalar_result instr) count
            (GatherAluResultInformation
               (ParsedAluInstruction.vector_and_constant_result instr) count
               (set_kills_pixels_
                  (kills_pixels_ (shader st)
                   || AluVectorOpcodeIsKill (alu_vector_opcode op)
                   || AluScalarOpcodeIsKill (alu_scalar_opcode op)) (shader st))))) in
  shader (GatherAluInstructionInformation op count st) = gathered
  \/ exists constants,
       shader (GatherAluInstructionInformation op count st)
       = set_memexport_stream_constants_ constants gathered.
Proof.
  cbv zeta. unfold GatherAluInstructionInformation.
  destruct (ParseAluInstruction op (type_ (shader st)) ParsedAluInstruction.init)
    as [instr logged].
  cbn [fst].
  destruct (bool_decide _ && memexport_count_valid count); [|left; reflexivity].
  destruct (negb (_ =? UINT32_MAX)); [|left; reflexivity].
  right. eexists. reflexivity.
Qed.

Lemma GatherTextureFetchInformation_shader (op : Dwords3) (st : AnalysisState) :
  let fetch_instr := ParseTextureFetchInstruction op ParsedTextureFetchInstruction.init in
  let gathered :=
    gather_operands (ParsedTextureFetchInstruction.operand_count fetch_instr)
      (ParsedTextureFetchInstruction.operands fetch_instr)
      (GatherFetchResultInformation (ParsedTextureFetchInstruction.result fetch_instr)
         (shader st)) in
  shader (GatherTextureFetchInformation op st) = gathered
  \/ exists bindings,
       shader (GatherTextureFetchInformation op st)
       = set_texture_bindings_ bindings gathered.
Proof.
  cbv zeta. unfold GatherTextureFetchInformation. cbv zeta.
  destruct (texture_opcode_sets_state (tf_opcode op)); [left; reflexivity|].
  right. destruct (find_texture_binding_index _ _ _ =? -1); eexists; reflexivity.
Qed.

Lemma GatherVertexFetchInformation_shader (op : Dwords3) (st : AnalysisState) :
  let fetch_instr :=
    (ParseVertexFetchInstruction op (previous_vfetch_full st)
       ParsedVertexFetchInstruction.init).2 in
  GetUsedResultComponents (ParsedVertexFetchInstruction.result fetch_instr) <> 0 ->
  exists bindings,
    shader (GatherVertexFetchInformation op st)
    = set_vertex_bindings_ bindings
        (gather_operands (ParsedVertexFetchInstruction.operand_count fetch_instr)
           (ParsedVertexFetchInstruction.operands fetch_instr)
           (GatherFetchResultInformation
              (ParsedVertexFetchInstruction.result fetch_instr) (shader st))).
Proof.
  cbv zeta. intros Hused. unfold GatherVertexFetchInformation.
  destruct (ParseVertexFetchInstruction op (previous_vfetch_full st)
              ParsedVertexFetchInstruction.init) as [update fetch_instr].
  cbn [fst snd] in *.
  apply nonzero_true_iff in Hused. rewrite Hused. cbn [negb].
  destruct update; cbn;
    destruct (add_vertex_attribute _ _ _); eexists; reflexivity.
Qed.

Lemma set_memexport_stream_constants_le constants (s : Shader) :
  usage_le s (set_memexport_stream_constants_ constants s).
Proof. exact (usage_le_refl s). Qed.

Lemma set_texture_bindings_le bindings (s : Shader) :
  usage_le s (set_texture_bindings_ bindings s).
Proof. exact (usage_le_refl s). Qed.

Lemma set_vertex_bindings_le bindings (s : Shader) :
  usage_le s (set_vertex_bindings_ bindings s).
Proof. exact (usage_le_refl s). Qed.

(** C7, as the source has it.  Every ALU instruction and every texture
    fetch gathered during the analysis leaves each of its operands
    accounted for in the usage tables: the static register bound, the
    dynamic-register flag, the float-constant bitmap or the
    dynamic-float flag.  A vertex fetch does so when its result has used
    components; a vertex fetch that fetches nothing returns after its
    result information is gathered, and its operands are not fed. *)
Theorem operands_feed_usage (op : Dwords3) (count : Z) (st : AnalysisState) (i : Z) :
  let alu := (ParseAluInstruction op (type_ (shader st)) ParsedAluInstruction.init).1 in
  let tfetch := ParseTextureFetchInstruction op ParsedTextureFetchInstruction.init in
  let vfetch :=
    (ParseVertexFetchInstruction op (previous_vfetch_full st)
       ParsedVertexFetchInstruction.init).2 in
  (0 <= i < ParsedAluInstruction.vector_operand_count alu ->
   operand_accounted
     (arr_get InstructionOperand.init (ParsedAluInstruction.vector_operands alu) i)
     (shader (GatherAluInstructionInformation op count st)))
  /\ (0 <= i < ParsedAluInstruction.scalar_operand_count alu ->
      operand_accounted
        (arr_get InstructionOperand.init (ParsedAluInstruction.scalar_operands alu) i)
        (shader (GatherAluInstructionInformation op count st)))
  /\ (0 <= i < ParsedTextureFetchInstruction.operand_count tfetch ->
      operand_accounted
        (arr_get InstructionOperand.init (ParsedTextureFetchInstruction.operands tfetch) i)
        (shader (GatherTextureFetchInformation op st)))
  /\ (GetUsedResultComponents (ParsedVertexFetchInstruction.result vfetch) <> 0 ->
      0 <= i < ParsedVertexFetchInstruction.operand_count vfetch ->
      operand_accounted
        (arr_get InstructionOperand.init (ParsedVertexFetchInstruction.operands vfetch) i)
        (shader (GatherVertexFetchInformation op st)))
  /\ (GetUsedResultComponents (ParsedVertexFetchInstruction.result vfetch) = 0 ->
      shader (GatherVertexFetchInformation op st)
      = GatherFetchResultInformation (ParsedVertexFetchInstruction.result vfetch)
          (shader st)).
Proof.
  cbv zeta. split; [|split; [|split; [|split]]].
  - intros Hi.
    pose proof (GatherAluInstructionInformation_shader op count st) as Hs.
    cbv zeta in Hs.
    eapply operand_accounted_mono;
      [|eapply operand_accounted_mono;
         [apply gather_operands_le | apply gather_operands_accounts; exact Hi]].
    destruct Hs as [-> | [constants ->]];
      [apply usage_le_refl | apply set_memexport_stream_constants_le].
  - intros Hi.
    pose proof (GatherAluInstructionInformation_shader op count st) as Hs.
    cbv zeta in Hs.
    eapply operand_accounted_mono;
      [|apply gather_operands_accounts; exact Hi].
    destruct Hs as [-> | [constants ->]];
      [apply usage_le_refl | apply set_memexport_stream_constants_le].
  - intros Hi.
    pose proof (GatherTextureFetchInformation_shader op st) as Hs. cbv zeta in Hs.
    eapply operand_accounted_mono;
      [|apply gather_operands_accounts; exact Hi].
    destruct Hs as [-> | [bindings ->]];
      [apply usage_le_refl | apply set_texture_bindings_le].
  - intros Hused Hi.
    destruct (GatherVertexFetchInformation_shader op st Hused) as [bindings ->].
    eapply operand_accounted_mono;
      [apply set_vertex_bindings_le | apply gather_operands_accounts; exact Hi].
  - apply GatherVertexFetchInformation_nothing_fetched.
Qed.

End GatheredOperands.

Lemma operands_feed_usage_witness :
  operand_accounted
    (arr_get InstructionOperand.init
       (ParsedVertexFetchInstruction.operands
          (ParseVertexFetchInstruction (VF := Xenos.vertex_fetch_decl)
             SampleFetch.vfetch_full (0, 0, 0) ParsedVertexFetchInstruction.init).2) 0)
    (shader
       (GatherVertexFetchInformation (SD := Xenos.shader_decl)
          (VF := Xenos.vertex_fetch_decl) SampleFetch.vfetch_full SampleFetch.state0))
  /\ register_static_address_bound_
       (shader
          (GatherVertexFetchInformation (SD := Xenos.shader_decl)
             (VF := Xenos.vertex_fetch_decl) SampleFetch.vfetch_full
             SampleFetch.state0)) = 6.
Proof.
  split.
  - destruct (operands_feed_usage (SD := Xenos.shader_decl)
                (ER := Xenos.export_register_decl) (ALU := Xenos.alu_decl)
                (VF := Xenos.vertex_fetch_decl) (TF := Xenos.texture_fetch_decl)
                SampleFetch.vfetch_full 0 SampleFetch.state0 0)
      as (_ & _ & _ & Hvertex & _).
    apply Hvertex; [vm_compute; discriminate | vm_compute; split; congruence].
  - vm_compute. reflexivity.
Defined.

(** C7 as the specification words it fails.  The analysis of the sample
    program decodes the vertex fetch (its disassembly is in the buffer);
    the decoded source operand is the static register r5; it is not
    accounted for: the register bound after the analysis is 0, where
    gathering the operand would make it 6.  The same program with a
    texture fetch in place of the vertex fetch ends with the bound at 6. *)
Lemma vertex_fetch_operands_counterexample :
  let st := SampleFetchUsage.analyzed SampleFetchUsage.vfetch_nothing in
  let src_op :=
    arr_get InstructionOperand.init
      (ParsedVertexFetchInstruction.operands SampleFetchUsage.parsed_vfetch_nothing) 0 in
  Disassemble (PVertexFetch SampleFetchUsage.parsed_vfetch_nothing)
    ∈ ucode_disasm_buffer st
  /\ src_op
     = InstructionOperand.mk InstructionStorageSource.kRegister 5
         InstructionStorageAddressingMode.kStatic false false 1
         [SwizzleSource.kX; SwizzleSource.kY; SwizzleSource.kZ; SwizzleSource.kW]
  /\ ~ operand_accounted src_op (shader st)
  /\ register_static_address_bound_ (shader st) = 0
  /\ register_static_address_bound_
       (GatherOperandInformation src_op (shader st)) = 6
  /\ register_static_address_bound_
       (shader (SampleFetchUsage.analyzed SampleFetchUsage.tfetch_nothing)) = 6.
Proof.
  cbv zeta. split.
  - apply list_elem_of_lookup. exists 3%nat. vm_compute. reflexivity.
  - split; [vm_compute; reflexivity|]. split.
    + intros Hacc. vm_compute in Hacc.
      destruct Hacc as [Hbound _]. exact (Hbound eq_refl eq_refl).
    + repeat split; vm_compute; reflexivity.
Qed.


(** * More of the translator *)

(** ** Fetch results *)

(** What one three-bit field of a fetch destination swizzle selects for
    its component: constant 0, constant 1, nothing (the component keeps
    what it had and leaves the write mask), or one of x, y, z, w. *)
Definition fetch_component_of (sel : Z) (old : SwizzleSource.t) : SwizzleSource.t :=
  if (sel =? 4) || (sel =? 6) then SwizzleSource.k0
  else if sel =? 5 then SwizzleSource.k1
  else if sel =? 7 then old
  else GetSwizzleFromComponentIndex (Z.land sel 3).

Definition fetch_swizzle_field (swizzle i : Z) : Z :=
  Z.land (Z.shiftr swizzle (3 * i)) 7.

Lemma land_7_3 (x : Z) : Z.land (Z.land x 7) 3 = Z.land x 3.
Proof. rewrite <- Z.land_assoc. reflexivity. Qed.

Lemma arr_upd_length {A : Type} (d : A) (l : list A) (k : Z) (f : A -> A) :
  length (arr_upd d l k f) = length l.
Proof. unfold arr_upd. destruct (k <? 0); [reflexivity|]. apply length_insert. Qed.

Lemma arr_get_upd_cases {A : Type} (d : A) (l : list A) (k i : Z) (f : A -> A) :
  0 <= k -> (Z.to_nat k < length l)%nat -> 0 <= i ->
  arr_get d (arr_upd d l k f) i = if k =? i then f (arr_get d l i) else arr_get d l i.
Proof.
  intros Hk Hlen Hi. destruct (Z.eqb_spec k i) as [->|Hne].
  - apply arr_get_upd_same; assumption.
  - apply arr_get_upd_ne; [assumption|]. intros ->. apply Hne. reflexivity.
Qed.

Lemma fetch_result_component_step (swizzle : Z) (result : InstructionResult.t) (i : Z) :
  0 <= i < 32 ->
  (Z.to_nat i < length (InstructionResult.components result))%nat ->
  let sel := Z.land swizzle 7 in
  let next := fetch_result_component (swizzle, result) i in
  next.1 = Z.shiftr swizzle 3
  /\ InstructionResult.storage_target next.2 = InstructionResult.storage_target result
  /\ InstructionResult.storage_index next.2 = InstructionResult.storage_index result
  /\ InstructionResult.storage_addressing_mode next.2
     = InstructionResult.storage_addressing_mode result
  /\ InstructionResult.is_clamped next.2 = InstructionResult.is_clamped result
  /\ length (InstructionResult.components next.2)
     = length (InstructionResult.components result)
  /\ (forall j, 0 <= j < 32 ->
        Z.testbit (InstructionResult.original_write_mask next.2) j
        = Z.testbit (InstructionResult.original_write_mask result) j
          && negb ((i =? j) && (sel =? 7)))
  /\ (forall j, 0 <= j ->
        arr_get SwizzleSource.kX (InstructionResult.components next.2) j
        = if i =? j
          then fetch_component_of sel
                 (arr_get SwizzleSource.kX (InstructionResult.components result) j)
          else arr_get SwizzleSource.kX (InstructionResult.components result) j).
Proof.
  intros Hi Hlen. cbv zeta. unfold fetch_result_component, fetch_component_of.
  rewrite land_7_3.
  destruct ((Z.land swizzle 7 =? 4) || (Z.land swizzle 7 =? 6)) eqn:H46.
  { cbn. repeat split; try reflexivity.
    - apply arr_upd_length.
    - intros j Hj. assert ((Z.land swizzle 7 =? 7) = false) as ->.
      { apply Z.eqb_neq. intros H7. rewrite H7 in H46. discriminate. }
      rewrite andb_false_r, andb_true_r. reflexivity.
    - intros j Hj. apply arr_get_upd_cases; lia. }
  destruct (Z.land swizzle 7 =? 5) eqn:H5.
  { cbn. repeat split; try reflexivity.
    - apply arr_upd_length.
    - intros j Hj. assert ((Z.land swizzle 7 =? 7) = false) as ->.
      { apply Z.eqb_neq. intros H7. rewrite H7 in H5. discriminate. }
      rewrite andb_false_r, andb_true_r. reflexivity.
    - intros j Hj. apply arr_get_upd_cases; lia. }
  destruct (Z.land swizzle 7 =? 7) eqn:H7.
  { cbn. repeat split; try reflexivity.
    - intros j Hj. rewrite u32_shiftl_1 by lia.
      rewrite testbit_clear by lia. rewrite andb_true_r. reflexivity.
    - intros j Hj. destruct (i =? j); reflexivity. }
  cbn. repeat split; try reflexivity.
  - apply arr_upd_length.
  - intros j Hj. rewrite andb_false_r, andb_true_r. reflexivity.
  - intros j Hj. apply arr_get_upd_cases; lia.
Qed.

Lemma fetch_result_component_fold (n : nat) (a swizzle : Z) (result : InstructionResult.t) :
  0 <= a -> a + Z.of_nat n <= 32 ->
  (Z.to_nat (a + Z.of_nat n) <= length (InstructionResult.components result))%nat ->
  let final :=
    (foldl fetch_result_component (Z.shiftr swizzle (3 * a), result)
       (seqZ a (Z.of_nat n))).2 in
  InstructionResult.storage_target final = InstructionResult.storage_target result
  /\ InstructionResult.storage_index final = InstructionResult.storage_index result
  /\ InstructionResult.storage_addressing_mode final
     = InstructionResult.storage_addressing_mode result
  /\ InstructionResult.is_clamped final = InstructionResult.is_clamped result
  /\ (forall j, 0 <= j < 32 ->
        Z.testbit (InstructionResult.original_write_mask final) j
        = Z.testbit (InstructionResult.original_write_mask result) j
          && negb ((a <=? j) && (j <? a + Z.of_nat n)
                   && (fetch_swizzle_field swizzle j =? 7)))
  /\ (forall j, 0 <= j ->
        arr_get SwizzleSource.kX (InstructionResult.components final) j
        = if (a <=? j) && (j <? a + Z.of_nat n)
          then fetch_component_of (fetch_swizzle_field swizzle j)
                 (arr_get SwizzleSource.kX (InstructionResult.components result) j)
          else arr_get SwizzleSource.kX (InstructionResult.components result) j).
Proof.
  revert a result. induction n as [|n IH]; intros a result Ha Hn Hlen; cbv zeta.
  - cbn [foldl snd]. change (seqZ a (Z.of_nat 0)) with (@nil Z). cbn [foldl snd].
    repeat split; try reflexivity.
    + intros j Hj. replace (j <? a + Z.of_nat 0) with (j <? a) by (f_equal; lia).
      destruct (Z.leb_spec a j), (Z.ltb_spec j a); try lia;
        cbn; rewrite andb_true_r; reflexivity.
    + intros j Hj. replace (j <? a + Z.of_nat 0) with (j <? a) by (f_equal; lia).
      destruct (Z.leb_spec a j), (Z.ltb_spec j a); try lia; reflexivity.
  - rewrite (seqZ_cons a (Z.of_nat (S n))) by lia. cbn [foldl].
    destruct (fetch_result_component_step (Z.shiftr swizzle (3 * a)) result a)
      as (S1 & S2 & S3 & S4 & S5 & S6 & S7 & S8); [lia|lia|].
    destruct (fetch_result_component (Z.shiftr swizzle (3 * a), result) a)
      as [sw1 r1] eqn:Hstep.
    cbn [fst snd] in *.
    assert (Hsw : sw1 = Z.shiftr swizzle (3 * Z.succ a)).
    { rewrite S1, Z.shiftr_shiftr by lia. f_equal. lia. }
    rewrite Hsw.
    replace (Z.pred (Z.of_nat (S n))) with (Z.of_nat n) by lia.
    destruct (IH (Z.succ a) r1) as (I2 & I3 & I4 & I5 & I7 & I8); [lia|lia|lia|].
    cbv zeta in *.
    rewrite I2, I3, I4, I5.
    do 4 (split; [assumption|]).
    split.
    + intros j Hj. rewrite I7, S7 by lia.
      fold (fetch_swizzle_field swizzle a).
      replace (Z.succ a + Z.of_nat n) with (a + Z.of_nat (S n)) by lia.
      destruct (Z.eqb_spec a j) as [->|Hne].
      * destruct (Z.leb_spec (Z.succ j) j); [lia|].
        destruct (Z.leb_spec j j); [|lia].
        destruct (Z.ltb_spec j (j + Z.of_nat (S n))); [|lia].
        cbn. rewrite andb_true_r. reflexivity.
      * cbn [andb negb]. rewrite andb_true_r.
        destruct (Z.leb_spec (Z.succ a) j), (Z.leb_spec a j); try lia; reflexivity.
    + intros j Hj. rewrite I8, S8 by lia.
      fold (fetch_swizzle_field swizzle a).
      replace (Z.succ a + Z.of_nat n) with (a + Z.of_nat (S n)) by lia.
      destruct (Z.eqb_spec a j) as [->|Hne].
      * destruct (Z.leb_spec (Z.succ j) j); [lia|].
        destruct (Z.leb_spec j j); [|lia].
        destruct (Z.ltb_spec j (j + Z.of_nat (S n))); [|lia].
        reflexivity.
      * destruct (Z.leb_spec (Z.succ a) j), (Z.leb_spec a j); try lia; reflexivity.
Qed.

(** X1.  ParseFetchInstructionResult makes the result of a fetch a register
    result at index dest, not clamped, addressed relative to the address
    register exactly when is_relative. With a four-entry component array,
    component i (0 to 3) follows the three-bit field i of the destination
    swizzle: 4 and 6 give the constant 0, 5 the constant 1, 7 keeps the
    component as it was and clears bit i of the write mask, the others
    select x, y, z or w by their two low bits; no mask bit above 3 is set. *)
Theorem ParseFetchInstructionResult_decodes (dest swizzle : Z) (is_relative : bool)
    (result : InstructionResult.t) :
  length (InstructionResult.components result) = 4%nat ->
  let parsed := ParseFetchInstructionResult dest swizzle is_relative result in
  InstructionResult.storage_target parsed = InstructionStorageTarget.kRegister
  /\ InstructionResult.storage_index parsed = dest
  /\ InstructionResult.is_clamped parsed = false
  /\ InstructionResult.storage_addressing_mode parsed
     = (if is_relative then InstructionStorageAddressingMode.kAddressRelative
        else InstructionStorageAddressingMode.kStatic)
  /\ (forall i, 0 <= i < 4 ->
        Z.testbit (InstructionResult.original_write_mask parsed) i
        = negb (fetch_swizzle_field swizzle i =? 7)
        /\ arr_get SwizzleSource.kX (InstructionResult.components parsed) i
           = fetch_component_of (fetch_swizzle_field swizzle i)
               (arr_get SwizzleSource.kX (InstructionResult.components result) i))
  /\ (forall i, 4 <= i < 32 ->
        Z.testbit (InstructionResult.original_write_mask parsed) i = false).
Proof.
  intros Hlen. cbv zeta. unfold ParseFetchInstructionResult.
  change [0; 1; 2; 3] with (seqZ 0 (Z.of_nat 4)).
  set (r0 := InstructionResult.set_original_write_mask 15 _).
  change swizzle with (Z.shiftr swizzle (3 * 0)) at 1 2 3 4 5 6.
  destruct (fetch_result_component_fold 4 0 swizzle r0)
    as (F1 & F2 & F3 & F4 & F5 & F6); [lia|lia|cbn; rewrite Hlen; lia|].
  cbv zeta in *. rewrite F1, F2, F3, F4.
  do 4 (split; [reflexivity|]).
  split.
  - intros i Hi. split.
    + rewrite F5 by lia.
      destruct (Z.leb_spec 0 i); [|lia].
      destruct (Z.ltb_spec i (0 + Z.of_nat 4)); [|lia].
      cbn [andb].
      assert (Hm : Z.testbit (InstructionResult.original_write_mask r0) i = true).
      { assert (i = 0 \/ i = 1 \/ i = 2 \/ i = 3) as [->|[->|[->| ->]]] by lia;
          reflexivity. }
      rewrite Hm. reflexivity.
    + rewrite F6 by lia.
      destruct (Z.leb_spec 0 i); [|lia].
      destruct (Z.ltb_spec i (0 + Z.of_nat 4)); [|lia].
      reflexivity.
  - intros i Hi. rewrite F5 by lia.
    assert (Hm : Z.testbit (InstructionResult.original_write_mask r0) i = false).
    { change (InstructionResult.original_write_mask r0) with (Z.ones 4).
      apply Z.ones_spec_high. lia. }
    rewrite Hm. reflexivity.
Qed.

(** ** The ALU parser *)

(** What the opcode tables hold, for every index: an entry past the
    initialisers is zero. *)
Definition vector_info_ok (e : AluOpcodeInfo) : Prop :=
  0 <= argument_count e <= 3
  /\ (0 < argument_count e -> src_swizzle_component_count e = 4).

Definition scalar_info_ok (e : AluOpcodeInfo) : Prop :=
  argument_count e = 0
  \/ (argument_count e = 1
      /\ (src_swizzle_component_count e = 1 \/ src_swizzle_component_count e = 2))
  \/ argument_count e = 2.

Lemma arr_get_Forall {A : Type} (P : A -> Prop) (d : A) (l : list A) (i : Z) :
  P d -> Forall P l -> P (arr_get d l i).
Proof.
  intros Hd Hl. unfold arr_get. destruct (i <? 0); [exact Hd|].
  destruct (l !! Z.to_nat i) as [x|] eqn:Hx; cbn; [|exact Hd].
  exact (proj1 (Forall_lookup P l) Hl _ _ Hx).
Qed.

Lemma alu_vector_opcode_infos_ok (opcode : Z) :
  vector_info_ok (arr_get alu_info_zero alu_vector_opcode_infos opcode).
Proof.
  apply arr_get_Forall.
  - split; cbn; lia.
  - unfold alu_vector_opcode_infos.
    repeat (apply Forall_cons_2; [split; cbn; [lia|reflexivity]|]).
    apply Forall_nil_2.
Qed.

Lemma alu_scalar_opcode_infos_ok (opcode : Z) :
  scalar_info_ok (arr_get alu_info_zero alu_scalar_opcode_infos opcode).
Proof.
  apply arr_get_Forall.
  - left. reflexivity.
  - unfold alu_scalar_opcode_infos, scalar_info_ok.
    repeat (apply Forall_cons_2;
            [cbn; first [left; reflexivity
                        | right; left; split; [reflexivity|];
                          first [left; reflexivity | right; reflexivity]
                        | right; right; reflexivity]|]).
    apply Forall_nil_2.
Qed.

Section AluParserProperties.
Context `{SD : ShaderDecl} `{ER : ExportRegisterDecl} `{ALU : AluInstructionDecl}.

Lemma ParseAluInstructionOperand_component_count (op : Dwords3) (i swz : Z)
    (out_op : InstructionOperand.t) :
  InstructionOperand.component_count (ParseAluInstructionOperand op i swz out_op) = swz.
Proof.
  unfold ParseAluInstructionOperand. cbv zeta.
  destruct (alu_src_is_temp op i);
    destruct (swz =? 1); [reflexivity| |reflexivity|];
    destruct (swz =? 2); [reflexivity| |reflexivity|];
    destruct (swz =? 3); [reflexivity| |reflexivity|];
    destruct (swz =? 4); reflexivity.
Qed.

Lemma parse_vector_operands_spec (n : nat) (i : Z) (op : Dwords3) (swz : Z)
    (operands : list InstructionOperand.t) :
  0 <= i ->
  (Z.to_nat (i + Z.of_nat n) <= length operands)%nat ->
  length (parse_vector_operands n i op swz operands) = length operands
  /\ forall k, 0 <= k ->
       arr_get InstructionOperand.init (parse_vector_operands n i op swz operands) k
       = if (i <=? k) && (k <? i + Z.of_nat n)
         then ParseAluInstructionOperand op (k + 1) swz
                (arr_get InstructionOperand.init operands k)
         else arr_get InstructionOperand.init operands k.
Proof.
  revert i operands. induction n as [|n IH]; intros i operands Hi Hlen;
    cbn [parse_vector_operands].
  - split; [reflexivity|]. intros k Hk.
    destruct (Z.leb_spec i k), (Z.ltb_spec k (i + Z.of_nat 0)); try lia; reflexivity.
  - destruct (IH (i + 1)
                (arr_upd InstructionOperand.init operands i
                   (ParseAluInstructionOperand op (i + 1) swz))) as [L G].
    { lia. }
    { rewrite arr_upd_length. lia. }
    rewrite arr_upd_length in L. split; [exact L|].
    intros k Hk. rewrite G by exact Hk.
    rewrite arr_get_upd_cases by lia.
    destruct (Z.eqb_spec i k) as [->|Hne].
    + destruct (Z.leb_spec (k + 1) k); [lia|].
      destruct (Z.leb_spec k k); [|lia].
      destruct (Z.ltb_spec k (k + Z.of_nat (S n))); [|lia]. reflexivity.
    + destruct (Z.leb_spec (i + 1) k), (Z.leb_spec i k); try lia; cbn [andb];
        [|reflexivity].
      destruct (Z.ltb_spec k (i + 1 + Z.of_nat n)),
               (Z.ltb_spec k (i + Z.of_nat (S n))); try lia; reflexivity.
Qed.

(** X2.  ParseAluInstruction on an instruction with three vector and two
    scalar operand slots leaves between 0 and 3 vector operands and between
    0 and 2 scalar operands and keeps both arrays at their size, so no
    operand is written outside them. Every counted vector operand has four
    components, every counted scalar operand one or two. *)
Theorem ParseAluInstruction_operands_fit (op : Dwords3) (shader_type : ShaderType.t)
    (instr : ParsedAluInstruction.t) :
  length (ParsedAluInstruction.vector_operands instr) = 3%nat ->
  length (ParsedAluInstruction.scalar_operands instr) = 2%nat ->
  let parsed := (ParseAluInstruction op shader_type instr).1 in
  0 <= ParsedAluInstruction.vector_operand_count parsed <= 3
  /\ 0 <= ParsedAluInstruction.scalar_operand_count parsed <= 2
  /\ length (ParsedAluInstruction.vector_operands parsed) = 3%nat
  /\ length (ParsedAluInstruction.scalar_operands parsed) = 2%nat
  /\ (forall i, 0 <= i < ParsedAluInstruction.vector_operand_count parsed ->
        InstructionOperand.component_count
          (arr_get InstructionOperand.init
             (ParsedAluInstruction.vector_operands parsed) i) = 4)
  /\ (forall i, 0 <= i < ParsedAluInstruction.scalar_operand_count parsed ->
        let count :=
          InstructionOperand.component_count
            (arr_get InstructionOperand.init
               (ParsedAluInstruction.scalar_operands parsed) i) in
        count = 1 \/ count = 2).
Proof.
  intros Hv Hs. cbv zeta. unfold ParseAluInstruction. cbv zeta.
  destruct (if alu_is_export op then _ else _) as [storage_target storage_index_export].
  cbn [fst ParsedAluInstruction.vector_operand_count
       ParsedAluInstruction.scalar_operand_count
       ParsedAluInstruction.vector_operands ParsedAluInstruction.scalar_operands].
  destruct (alu_vector_opcode_infos_ok (alu_vector_opcode op)) as [Vr Vs].
  pose proof (alu_scalar_opcode_infos_ok (alu_scalar_opcode op)) as Sr.
  set (vinfo := arr_get alu_info_zero alu_vector_opcode_infos (alu_vector_opcode op)) in *.
  set (sinfo := arr_get alu_info_zero alu_scalar_opcode_infos (alu_scalar_opcode op)) in *.
  destruct (parse_vector_operands_spec (Z.to_nat (argument_count vinfo)) 0 op
              (src_swizzle_component_count vinfo)
              (ParsedAluInstruction.vector_operands instr)) as [VL VG].
  { lia. }
  { rewrite Hv. lia. }
  split; [exact Vr|].
  split; [destruct Sr as [->|[[-> _]| ->]]; lia|].
  split; [rewrite VL; exact Hv|].
  split.
  { destruct (nonzero (argument_count sinfo)); [|exact Hs].
    destruct (argument_count sinfo =? 1); rewrite ?arr_upd_length; exact Hs. }
  split.
  - intros i Hi. rewrite VG by lia.
    destruct (Z.leb_spec 0 i); [|lia].
    destruct (Z.ltb_spec i (0 + Z.of_nat (Z.to_nat (argument_count vinfo)))); [|lia].
    cbn [andb]. rewrite ParseAluInstructionOperand_component_count.
    apply Vs. lia.
  - intros i Hi.
    destruct Sr as [S0|[[S1 Sw]|S2]].
    + lia.
    + rewrite S1 in *. assert (i = 0) as -> by lia.
      change (nonzero 1) with true. change (1 =? 1) with true. cbv iota.
      rewrite arr_get_upd_same by (rewrite ?Hs; lia).
      rewrite ParseAluInstructionOperand_component_count. exact Sw.
    + rewrite S2 in *.
      change (nonzero 2) with true. change (2 =? 1) with false. cbv iota.
      assert (i = 0 \/ i = 1) as [->| ->] by lia.
      * rewrite arr_get_upd_ne by lia.
        rewrite arr_get_upd_same by (rewrite ?Hs; lia).
        left. reflexivity.
      * rewrite arr_get_upd_same by (rewrite ?arr_upd_length, ?Hs; lia).
        left. reflexivity.
Qed.

Lemma parse_export_target_not_register (export_register : Z)
    (shader_type : ShaderType.t) :
  (parse_export_target export_register shader_type).1
  <> InstructionStorageTarget.kRegister.
Proof.
  unfold parse_export_target.
  repeat (match goal with
          | |- context [if ?b then _ else _] => destruct b
          end); cbn; discriminate.
Qed.

(** X3.  ParseAluInstruction gives the vector and the scalar result the same
    storage target. For an export it is the target of the export register,
    never a general register, both results carry the same index and are
    statically addressed, and an error is logged exactly when that target is
    kNone. Otherwise both results go to registers, at the vector and the
    scalar destination, and nothing is logged. *)
Theorem ParseAluInstruction_results_share_target (op : Dwords3)
    (shader_type : ShaderType.t) (instr : ParsedAluInstruction.t) :
  let parsed := (ParseAluInstruction op shader_type instr).1 in
  let logged := (ParseAluInstruction op shader_type instr).2 in
  let vresult := ParsedAluInstruction.vector_and_constant_result parsed in
  let sresult := ParsedAluInstruction.scalar_result parsed in
  InstructionResult.storage_target vresult = InstructionResult.storage_target sresult
  /\ if alu_is_export op then
       InstructionResult.storage_target vresult
       = (parse_export_target (alu_vector_dest op) shader_type).1
       /\ InstructionResult.storage_target vresult <> InstructionStorageTarget.kRegister
       /\ InstructionResult.storage_index vresult = InstructionResult.storage_index sresult
       /\ InstructionResult.storage_addressing_mode vresult
          = InstructionStorageAddressingMode.kStatic
       /\ InstructionResult.storage_addressing_mode sresult
          = InstructionStorageAddressingMode.kStatic
       /\ (logged = [] <->
           InstructionResult.storage_target vresult <> InstructionStorageTarget.kNone)
     else
       InstructionResult.storage_target vresult = InstructionStorageTarget.kRegister
       /\ InstructionResult.storage_index vresult = alu_vector_dest op
       /\ InstructionResult.storage_index sresult = alu_scalar_dest op
       /\ logged = [].
Proof.
  cbv zeta. unfold ParseAluInstruction. cbv zeta.
  pose proof (parse_export_target_not_register (alu_vector_dest op) shader_type) as Hnr.
  destruct (alu_is_export op).
  - destruct (parse_export_target (alu_vector_dest op) shader_type)
      as [storage_target storage_index_export].
    cbn [fst snd] in *. cbn.
    split; [reflexivity|].
    split; [reflexivity|].
    split; [exact Hnr|].
    split; [reflexivity|].
    split; [reflexivity|].
    split; [reflexivity|].
    destruct (bool_decide_reflect (storage_target = InstructionStorageTarget.kNone))
      as [Hn|Hn].
    + split; [discriminate|]. intros H. contradiction.
    + split; [intros _; exact Hn|reflexivity].
  - cbn.
    destruct (alu_is_vector_dest_relative op), (alu_is_scalar_dest_relative op);
      repeat split; reflexivity.
Qed.

(** X4.  The storage target that ParseAluInstruction chooses respects the
    shader type: a vertex shader never gets a color or depth target, a pixel
    shader never gets an interpolator, position or point-size/edge-
    flag/kill-vertex target. *)
Theorem ParseAluInstruction_target_by_shader_type (op : Dwords3)
    (shader_type : ShaderType.t) (instr : ParsedAluInstruction.t) :
  let target :=
    InstructionResult.storage_target
      (ParsedAluInstruction.vector_and_constant_result
         (ParseAluInstruction op shader_type instr).1) in
  match shader_type with
  | ShaderType.kVertex =>
      target <> InstructionStorageTarget.kColor
      /\ target <> InstructionStorageTarget.kDepth
  | ShaderType.kPixel =>
      target <> InstructionStorageTarget.kInterpolator
      /\ target <> InstructionStorageTarget.kPosition
      /\ target <> InstructionStorageTarget.kPointSizeEdgeFlagKillVertex
  end.
Proof.
  cbv zeta. unfold ParseAluInstruction. cbv zeta.
  destruct (alu_is_export op).
  - unfold parse_export_target.
    destruct shader_type;
      rewrite ?(bool_decide_eq_true_2 _ (eq_refl ShaderType.kVertex)),
              ?(bool_decide_eq_true_2 _ (eq_refl ShaderType.kPixel));
      try (rewrite (bool_decide_eq_false_2 (ShaderType.kPixel = ShaderType.kVertex))
             by discriminate);
      repeat (match goal with
              | |- context [if ?b then _ else _] => destruct b
              end);
      cbn; repeat split; discriminate.
  - cbn. destruct shader_type, (alu_is_vector_dest_relative op);
      cbn; repeat split; discriminate.
Qed.

(** X5.  For a four-component operand, ParseAluInstructionOperand decodes
    component j as the two-bit field j of the source swizzle plus j, modulo
    4: the encoded swizzle is relative to the component's own position. A
    swizzle byte of zero therefore gives the identity swizzle xyzw. *)
Theorem ParseAluInstructionOperand_swizzle4 (op : Dwords3) (i : Z)
    (out_op : InstructionOperand.t) :
  length (InstructionOperand.components out_op) = 4%nat ->
  let operand := ParseAluInstructionOperand op i 4 out_op in
  let swizzle := alu_src_swizzle op i in
  InstructionOperand.components operand
  = map (fun j => GetSwizzleFromComponentIndex
                    (Z.land (Z.shiftr swizzle (2 * j) + j) 3)) [0; 1; 2; 3]
  /\ (Z.land swizzle 255 = 0 ->
      InstructionOperand.components operand
      = [SwizzleSource.kX; SwizzleSource.kY; SwizzleSource.kZ; SwizzleSource.kW]).
Proof.
  intros Hlen. cbv zeta.
  assert (Hmain :
    InstructionOperand.components (ParseAluInstructionOperand op i 4 out_op)
    = map (fun j => GetSwizzleFromComponentIndex
                      (Z.land (Z.shiftr (alu_src_swizzle op i) (2 * j) + j) 3))
        [0; 1; 2; 3]).
  { unfold ParseAluInstructionOperand. cbv zeta.
    change (4 =? 1) with false. change (4 =? 2) with false.
    change (4 =? 3) with false. change (4 =? 4) with true. cbv iota.
    destruct out_op as [src idx mode neg abs cnt comps]. cbn in Hlen.
    destruct comps as [|c0 [|c1 [|c2 [|c3 [|c4 comps]]]]]; try discriminate.
    destruct (alu_src_is_temp op i); cbn;
      rewrite !Z.shiftr_shiftr by lia; cbn; rewrite Z.shiftr_0_r; reflexivity. }
  split; [exact Hmain|].
  intros Hz. rewrite Hmain. cbn [map].
  assert (Hf : forall j, 0 <= j < 4 ->
             Z.land (Z.shiftr (alu_src_swizzle op i) (2 * j) + j) 3 = j).
  { intros j Hj.
    assert (Hbits : forall k, 0 <= k < 8 -> Z.testbit (alu_src_swizzle op i) k = false).
    { intros k Hk.
      assert (Hk' : Z.testbit (Z.land (alu_src_swizzle op i) 255) k = false)
        by (rewrite Hz; apply Z.bits_0).
      rewrite Z.land_spec in Hk'.
      change 255 with (Z.ones 8) in Hk'. rewrite Z.ones_spec_low in Hk' by lia.
      rewrite andb_true_r in Hk'. exact Hk'. }
    assert (Hlow : Z.land (Z.shiftr (alu_src_swizzle op i) (2 * j)) 3 = 0).
    { apply Z.bits_inj'. intros n Hn. rewrite Z.land_spec, Z.bits_0.
      change 3 with (Z.ones 2).
      destruct (Z.ltb_spec n 2).
      - rewrite Z.shiftr_spec by lia. rewrite Hbits by lia. reflexivity.
      - rewrite Z.ones_spec_high by lia. apply andb_false_r. }
    change 3 with (Z.ones 2) in Hlow |- *.
    rewrite Z.land_ones in Hlow |- * by lia.
    rewrite Z.add_mod, Hlow by lia.
    rewrite Z.add_0_l, Z.mod_mod by lia. apply Z.mod_small. lia. }
  rewrite (Hf 0), (Hf 1), (Hf 2), (Hf 3) by lia. reflexivity.
Qed.

(** X6.  When both IsVectorOpDefaultNop and IsScalarOpDefaultNop hold, the
    vector result is the statically addressed register r0: for an export at
    most one of the two halves is a default nop, so an export is never
    reduced to nothing. *)
Theorem default_nops_leave_exports (instr : ParsedAluInstruction.t) :
  IsVectorOpDefaultNop instr = true ->
  IsScalarOpDefaultNop instr = true ->
  let vresult := ParsedAluInstruction.vector_and_constant_result instr in
  InstructionResult.storage_target vresult = InstructionStorageTarget.kRegister
  /\ InstructionResult.storage_index vresult = 0
  /\ InstructionResult.storage_addressing_mode vresult
     = InstructionStorageAddressingMode.kStatic.
Proof.
  intros Hv Hs. cbv zeta. unfold IsVectorOpDefaultNop in Hv. cbv zeta in Hv.
  rewrite Hs in Hv.
  destruct (negb _ || _ || _ || _ || _); [discriminate|].
  destruct (bool_decide_reflect
              (InstructionResult.storage_target
                 (ParsedAluInstruction.vector_and_constant_result instr)
               = InstructionStorageTarget.kRegister)) as [Ht|Ht]; [|discriminate].
  split; [exact Ht|].
  destruct (Z.eqb_spec (InstructionResult.storage_index
                          (ParsedAluInstruction.vector_and_constant_result instr)) 0)
    as [Hi|Hi]; [|discriminate].
  split; [exact Hi|].
  destruct (bool_decide_reflect
              (InstructionResult.storage_addressing_mode
                 (ParsedAluInstruction.vector_and_constant_result instr)
               = InstructionStorageAddressingMode.kStatic)) as [Hm|Hm];
    [exact Hm|discriminate].
Qed.

End AluParserProperties.

Section TextureFetchResultProperties.
Context `{SD : ShaderDecl} `{TFL : TextureFilter.Decl}.

Lemma land_subset_bound (used components bound : Z) :
  Z.land components bound = components ->
  Z.land (Z.land used components) bound = Z.land used components.
Proof. intros Hc. rewrite <- Z.land_assoc, Hc. reflexivity. Qed.

Lemma land_subset_used (used components : Z) :
  Z.land (Z.land used components) used = Z.land used components.
Proof.
  rewrite (Z.land_comm used components), <- Z.land_assoc, Z.land_diag. reflexivity.
Qed.

(** X7.  GetNonZeroResultComponents returns a four-bit mask that is a subset
    of the used result components. It is all used components for tfetch and
    getGradients, only x for getBCF and getCompTexLOD, nothing for the set*
    opcodes and unknown opcodes; for getWeights it never has w under the
    base-map or point mip filter, and otherwise keeps x and w as used. *)
Theorem GetNonZeroResultComponents_within_used (instr : ParsedTextureFetchInstruction.t) :
  let used := GetUsedResultComponents (ParsedTextureFetchInstruction.result instr) in
  let non_zero := GetNonZeroResultComponents instr in
  Z.land non_zero 15 = non_zero
  /\ Z.land non_zero used = non_zero
  /\ match ParsedTextureFetchInstruction.opcode instr with
     | FetchOpcode.kTextureFetch | FetchOpcode.kGetTextureGradients =>
         non_zero = Z.land used 15
     | FetchOpcode.kGetTextureBorderColorFrac | FetchOpcode.kGetTextureComputedLod =>
         non_zero = Z.land used 1
     | FetchOpcode.kGetTextureWeights =>
         let mip_filter :=
           TextureFetchAttributes.mip_filter
             (ParsedTextureFetchInstruction.attributes instr) in
         if (mip_filter =? TextureFilter.kBaseMap) || (mip_filter =? TextureFilter.kPoint)
         then Z.testbit non_zero 3 = false
         else Z.testbit non_zero 0 = Z.testbit used 0
              /\ Z.testbit non_zero 3 = Z.testbit used 3
     | _ => non_zero = 0
     end.
Proof.
  cbv zeta. unfold GetNonZeroResultComponents. cbv zeta.
  set (used := GetUsedResultComponents (ParsedTextureFetchInstruction.result instr)).
  destruct (ParsedTextureFetchInstruction.opcode instr); cbv beta iota;
    try (split; [apply land_subset_bound; reflexivity|];
         split; [apply land_subset_used|];
         first [reflexivity | apply Z.land_0_r]).
  destruct ((_ =? TextureFilter.kBaseMap) || (_ =? TextureFilter.kPoint));
    destruct (ParsedTextureFetchInstruction.dimension instr);
    change (Z.land 9 (u32 (Z.lnot 8))) with 1;
    change (Z.land 11 (u32 (Z.lnot 8))) with 3;
    change (Z.land 15 (u32 (Z.lnot 8))) with 7;
    (split; [apply land_subset_bound; reflexivity|]);
    (split; [apply land_subset_used|]);
    rewrite ?Z.land_spec;
    first [apply andb_false_r | split; apply andb_true_r].
Qed.

End TextureFetchResultProperties.

(** ** The loops over an exec block *)

Section ExecLoopUnrolled.
Context `{SD : ShaderDecl} `{ER : ExportRegisterDecl} `{ALU : AluInstructionDecl}
        `{VF : VertexFetchInstructionDecl} `{TF : TextureFetchInstructionDecl}
        `{CF : ControlFlowInstructionDecl}.
Context {B : Type} `{BE : !BackendDecl (B := B)}.

Lemma gather_exec_loop_unrolled (n : nat) (count address sequence k : Z)
    (st : AnalysisState) :
  0 <= address -> 0 <= k -> address + k + Z.of_nat n < 2 ^ 32 ->
  gather_exec_loop n (address + k + Z.of_nat n) count (address + k)
    (Z.shiftr sequence (2 * k)) st
  = foldl (fun st k => gather_exec_slot count (address + k) (Z.shiftr sequence (2 * k)) st)
      st (seqZ k (Z.of_nat n)).
Proof.
  revert k st. induction n as [|n IH]; intros k st Ha Hk Hlt.
  - reflexivity.
  - cbn [gather_exec_loop].
    destruct (Z.ltb_spec (address + k) (address + k + Z.of_nat (S n))); [|lia].
    rewrite (seqZ_cons k (Z.of_nat (S n))) by lia. cbn [foldl].
    rewrite u32_small by lia.
    rewrite Z.shiftr_shiftr by lia.
    replace (Z.pred (Z.of_nat (S n))) with (Z.of_nat n) by lia.
    replace (address + k + Z.of_nat (S n)) with (address + Z.succ k + Z.of_nat n) by lia.
    replace (address + k + 1) with (address + Z.succ k) by lia.
    replace (2 * k + 2) with (2 * Z.succ k) by lia.
    apply IH; lia.
Qed.

Lemma translate_exec_loop_unrolled (n : nat) (address sequence k : Z)
    (t : Translator B) :
  0 <= address -> 0 <= k -> address + k + Z.of_nat n < 2 ^ 32 ->
  translate_exec_loop n (address + k + Z.of_nat n) (address + k)
    (Z.shiftr sequence (2 * k)) t
  = foldl (fun t k => translate_exec_slot (address + k) (Z.shiftr sequence (2 * k)) t)
      t (seqZ k (Z.of_nat n)).
Proof.
  revert k t. induction n as [|n IH]; intros k t Ha Hk Hlt.
  - reflexivity.
  - cbn [translate_exec_loop].
    destruct (Z.ltb_spec (address + k) (address + k + Z.of_nat (S n))); [|lia].
    rewrite (seqZ_cons k (Z.of_nat (S n))) by lia. cbn [foldl].
    rewrite u32_small by lia.
    rewrite Z.shiftr_shiftr by lia.
    replace (Z.pred (Z.of_nat (S n))) with (Z.of_nat n) by lia.
    replace (address + k + Z.of_nat (S n)) with (address + Z.succ k + Z.of_nat n) by lia.
    replace (address + k + 1) with (address + Z.succ k) by lia.
    replace (2 * k + 2) with (2 * Z.succ k) by lia.
    apply IH; lia.
Qed.

(** X8.  For an exec block whose address and count are non-negative and
    whose end does not wrap around 32 bits, GatherExecInformation and
    TranslateExecInstructions both visit the instructions address,
    address+1, ..., address+count-1 once each and in order, instruction k
    with the sequence bits shifted right by 2k; the analysis first appends
    the exec's disassembly, the translation brackets the visit with
    ProcessExecInstructionBegin and ProcessExecInstructionEnd. *)
Theorem exec_block_visits_each_instruction_once (instr : ParsedExecInstruction.t) :
  let address := ParsedExecInstruction.instruction_address instr in
  let count := ParsedExecInstruction.instruction_count instr in
  let sequence := ParsedExecInstruction.sequence instr in
  0 <= address -> 0 <= count -> address + count < 2 ^ 32 ->
  (forall memexport_alloc_current_count st,
     GatherExecInformation instr memexport_alloc_current_count st
     = foldl (fun st k =>
                gather_exec_slot memexport_alloc_current_count (address + k)
                  (Z.shiftr sequence (2 * k)) st)
         (emit (Disassemble (PExec instr)) st) (seqZ 0 count))
  /\ (forall t,
        TranslateExecInstructions instr t
        = ProcessExecInstructionEnd instr
            (foldl (fun t k =>
                      translate_exec_slot (address + k) (Z.shiftr sequence (2 * k)) t)
               (ProcessExecInstructionBegin instr t) (seqZ 0 count))).
Proof.
  cbv zeta. intros Ha Hc Hlt.
  assert (Hn : Z.of_nat (Z.to_nat (ParsedExecInstruction.instruction_count instr))
               = ParsedExecInstruction.instruction_count instr) by lia.
  split.
  - intros c st. unfold GatherExecInformation.
    rewrite u32_small by lia.
    pose proof (gather_exec_loop_unrolled
                  (Z.to_nat (ParsedExecInstruction.instruction_count instr)) c
                  (ParsedExecInstruction.instruction_address instr)
                  (ParsedExecInstruction.sequence instr) 0
                  (emit (Disassemble (PExec instr)) st)) as H.
    rewrite Hn, Z.add_0_r, Z.mul_0_r, Z.shiftr_0_r in H. apply H; lia.
  - intros t. unfold TranslateExecInstructions.
    rewrite u32_small by lia. f_equal.
    pose proof (translate_exec_loop_unrolled
                  (Z.to_nat (ParsedExecInstruction.instruction_count instr))
                  (ParsedExecInstruction.instruction_address instr)
                  (ParsedExecInstruction.sequence instr) 0
                  (ProcessExecInstructionBegin instr t)) as H.
    rewrite Hn, Z.add_0_r, Z.mul_0_r, Z.shiftr_0_r in H. apply H; lia.
Qed.

End ExecLoopUnrolled.

(** ** The scan for the program bound and the labels *)

Section ScanExact.
Context `{CF : ControlFlowInstructionDecl}.

(** The address that the scan adds to the label set for [cf]. *)
Definition cf_label_target (cf : ControlFlowInstruction) : option Z :=
  match cf_opcode cf with
  | ControlFlowOpcode.kCondCall => Some (cond_call_address cf)
  | ControlFlowOpcode.kCondJmp => Some (cond_jmp_address cf)
  | ControlFlowOpcode.kLoopStart => Some (loop_start_address cf)
  | ControlFlowOpcode.kLoopEnd => Some (loop_end_address cf)
  | _ => None
  end.

(** The address with which the scan lowers the program bound for [cf]. *)
Definition cf_exec_address (cf : ControlFlowInstruction) : option Z :=
  if IsControlFlowOpcodeExec (cf_opcode cf) then Some (exec_address cf) else None.

(** The control-flow instructions of the pairs [pairs], in order. *)
Definition cf_of_pairs (ucode : list Z) (pairs : list Z) : list ControlFlowInstruction :=
  flat_map
    (fun i =>
       let '(cf_a, cf_b) := UnpackControlFlowInstructions (dwords_at ucode i) in
       [cf_a; cf_b])
    pairs.

Definition scan_cfs (cfs : list ControlFlowInstruction) (s : Shader) : Shader :=
  foldl (fun s cf => scan_cf cf s) s cfs.

Lemma scan_cf_exact (cf : ControlFlowInstruction) (s : Shader) :
  cf_pair_index_bound_ (scan_cf cf s)
  = match cf_exec_address cf with
    | Some address => Z.min (cf_pair_index_bound_ s) address
    | None => cf_pair_index_bound_ s
    end
  /\ label_addresses_ (scan_cf cf s)
     = match cf_label_target cf with
       | Some address => {[address]} ∪ label_addresses_ s
       | None => label_addresses_ s
       end
  /\ ucode_data_ (scan_cf cf s) = ucode_data_ s.
Proof.
  unfold scan_cf, cf_exec_address, cf_label_target.
  destruct (IsControlFlowOpcodeExec (cf_opcode cf));
    destruct (cf_opcode cf); repeat split; reflexivity.
Qed.

Lemma scan_cfs_exact (cfs : list ControlFlowInstruction) (s : Shader) :
  cf_pair_index_bound_ (scan_cfs cfs s)
  = foldl Z.min (cf_pair_index_bound_ s) (omap cf_exec_address cfs)
  /\ label_addresses_ (scan_cfs cfs s)
     = list_to_set (omap cf_label_target cfs) ∪ label_addresses_ s
  /\ ucode_data_ (scan_cfs cfs s) = ucode_data_ s.
Proof.
  unfold scan_cfs. revert s. induction cfs as [|cf cfs IH]; intros s.
  - cbn. split; [reflexivity|]. split; [|reflexivity].
    rewrite union_empty_l_L. reflexivity.
  - cbn [foldl].
    destruct (IH (scan_cf cf s)) as (I1 & I2 & I3).
    destruct (scan_cf_exact cf s) as (S1 & S2 & S3).
    rewrite I1, I2, I3, S1, S2, S3.
    change (omap cf_exec_address (cf :: cfs))
      with (match cf_exec_address cf with
            | Some y => y :: omap cf_exec_address cfs
            | None => omap cf_exec_address cfs
            end).
    change (omap cf_label_target (cf :: cfs))
      with (match cf_label_target cf with
            | Some y => y :: omap cf_label_target cfs
            | None => omap cf_label_target cfs
            end).
    split; [|split; [|reflexivity]].
    + destruct (cf_exec_address cf); reflexivity.
    + destruct (cf_label_target cf) as [address|]; [|reflexivity].
      cbn [list_to_set].
      rewrite (union_comm_L {[address]} (list_to_set _)), <- (assoc_L (∪)).
      reflexivity.
Qed.

Lemma scan_cfs_app (cfs1 cfs2 : list ControlFlowInstruction) (s : Shader) :
  scan_cfs (cfs1 ++ cfs2) s = scan_cfs cfs2 (scan_cfs cfs1 s).
Proof. unfold scan_cfs. apply foldl_app. Qed.

Lemma scan_pair_cfs (i : Z) (s : Shader) :
  scan_pair i s = scan_cfs (cf_of_pairs (ucode_data_ s) [i]) s.
Proof.
  unfold scan_pair, cf_of_pairs, scan_cfs. cbn [flat_map].
  destruct (UnpackControlFlowInstructions _) as [cf_a cf_b]. reflexivity.
Qed.

(** The first loop as a fold over the instructions of the pairs it
    unpacks. *)
Lemma scan_loop_cfs (fuel : nat) (i : Z) (s : Shader) (unpacked : list Z) :
  exists examined,
    (scan_loop fuel i s unpacked).2 = unpacked ++ examined
    /\ (scan_loop fuel i s unpacked).1
       = scan_cfs (cf_of_pairs (ucode_data_ s) examined) s.
Proof.
  revert i s unpacked. induction fuel as [|fuel IH]; intros i s unpacked;
    cbn [scan_loop].
  - exists []. rewrite app_nil_r. split; reflexivity.
  - destruct (i <? cf_pair_index_bound_ s).
    + destruct (IH (u32 (i + 1)) (scan_pair i s) (unpacked ++ [i]))
        as (examined & E1 & E2).
      exists (i :: examined). rewrite E1, E2. split.
      * rewrite <- app_assoc. reflexivity.
      * rewrite scan_pair_cfs.
        destruct (scan_cfs_exact (cf_of_pairs (ucode_data_ s) [i]) s) as (_ & _ & Hu).
        rewrite Hu.
        change (i :: examined) with ([i] ++ examined).
        unfold cf_of_pairs at 3. rewrite flat_map_app.
        rewrite scan_cfs_app. reflexivity.
    + exists []. rewrite app_nil_r. split; reflexivity.
Qed.

Lemma scan_control_flow_cfs (s : Shader) :
  let scanned := scan_control_flow s in
  let cfs := cf_of_pairs (ucode_data_ s) scanned.2 in
  cf_pair_index_bound_ scanned.1
  = foldl Z.min (u32 (Z.of_nat (length (ucode_data_ s)) / 3)) (omap cf_exec_address cfs)
  /\ label_addresses_ scanned.1
     = list_to_set (omap cf_label_target cfs) ∪ label_addresses_ s
  /\ ucode_data_ scanned.1 = ucode_data_ s.
Proof.
  cbv zeta. unfold scan_control_flow.
  set (s0 := set_cf_pair_index_bound_ _ s).
  destruct (scan_loop_cfs (Z.to_nat (cf_pair_index_bound_ s0)) 0 s0 [])
    as (examined & E1 & E2).
  rewrite E1, E2. cbn [app].
  destruct (scan_cfs_exact (cf_of_pairs (ucode_data_ s0) examined) s0) as (X1 & X2 & X3).
  rewrite X1, X2, X3. repeat split; reflexivity.
Qed.

End ScanExact.

(** ** What each step of the walk does to the state *)

(** The members that the usage-gathering helpers never write are the same
    in [s'] as in [s]. *)
Record untouched (s s' : Shader) : Prop := mk_untouched {
  untouched_ucode_data : ucode_data_ s' = ucode_data_ s;
  untouched_type : type_ s' = type_ s;
  untouched_is_ucode_analyzed : is_ucode_analyzed_ s' = is_ucode_analyzed_ s;
  untouched_cf_pair_index_bound : cf_pair_index_bound_ s' = cf_pair_index_bound_ s;
  untouched_label_addresses : label_addresses_ s' = label_addresses_ s;
  untouched_ucode_disassembly : ucode_disassembly_ s' = ucode_disassembly_ s;
  untouched_vertex_bindings : vertex_bindings_ s' = vertex_bindings_ s;
  untouched_texture_bindings : texture_bindings_ s' = texture_bindings_ s;
  untouched_kills_pixels : kills_pixels_ s' = kills_pixels_ s;
  untouched_stream_constants :
    memexport_stream_constants_ s' = memexport_stream_constants_ s;
  untouched_bool_bitmap :
    ConstantRegisterMap.bool_bitmap (constant_register_map_ s')
    = ConstantRegisterMap.bool_bitmap (constant_register_map_ s);
  untouched_loop_bitmap :
    ConstantRegisterMap.loop_bitmap (constant_register_map_ s')
    = ConstantRegisterMap.loop_bitmap (constant_register_map_ s);
  untouched_float_count :
    ConstantRegisterMap.float_count (constant_register_map_ s')
    = ConstantRegisterMap.float_count (constant_register_map_ s)
}.

Lemma untouched_refl (s : Shader) : untouched s s.
Proof. constructor; reflexivity. Qed.

Lemma untouched_trans (s1 s2 s3 : Shader) :
  untouched s1 s2 -> untouched s2 s3 -> untouched s1 s3.
Proof. intros [] []. constructor; congruence. Qed.

Section Untouched.
Context `{SD : ShaderDecl}.

Lemma gather_register_use_untouched mode index (s : Shader) :
  untouched s (gather_register_use mode index s).
Proof. unfold gather_register_use. destruct (bool_decide _); constructor; reflexivity. Qed.

Lemma GatherOperandInformation_untouched operand (s : Shader) :
  untouched s (GatherOperandInformation operand s).
Proof.
  unfold GatherOperandInformation.
  destruct (InstructionOperand.storage_source operand);
    try apply untouched_refl.
  - apply gather_register_use_untouched.
  - destruct (bool_decide _); constructor; reflexivity.
Qed.

Lemma gather_operands_untouched count operands (s : Shader) :
  untouched s (gather_operands count operands s).
Proof.
  unfold gather_operands. generalize (seqZ 0 count). intros l. revert s.
  induction l as [|i l IH]; intros s; cbn [foldl].
  - apply untouched_refl.
  - eapply untouched_trans; [|apply IH]. apply GatherOperandInformation_untouched.
Qed.

Lemma GatherFetchResultInformation_untouched result (s : Shader) :
  untouched s (GatherFetchResultInformation result s).
Proof.
  unfold GatherFetchResultInformation. destruct (negb _).
  - apply untouched_refl.
  - apply gather_register_use_untouched.
Qed.

Lemma GatherAluResultInformation_untouched result count (s : Shader) :
  untouched s (GatherAluResultInformation result count s).
Proof.
  unfold GatherAluResultInformation. destruct (negb _).
  - apply untouched_refl.
  - destruct (InstructionResult.storage_target result);
      try apply untouched_refl; try (constructor; reflexivity).
    + apply gather_register_use_untouched.
    + destruct (memexport_count_valid count); constructor; reflexivity.
Qed.

End Untouched.

(** The vertex bindings after a vertex fetch that uses the fetch constant
    [fetch_constant]: one more attribute on the binding of that constant,
    or a new binding at the end. *)
Definition vertex_fetch_bindings (fetch_constant : Z)
    (fetch_instr : ParsedVertexFetchInstruction.t) (bindings : list VertexBinding.t)
    : list VertexBinding.t :=
  match add_vertex_attribute fetch_constant (VertexBinding.mkAttribute fetch_instr)
          bindings with
  | Some bindings' => bindings'
  | None =>
      bindings ++
        [VertexBinding.mk (Z.of_nat (length bindings)) fetch_constant
           (VertexFetchAttributes.stride
              (ParsedVertexFetchInstruction.attributes fetch_instr))
           [VertexBinding.mkAttribute fetch_instr]]
  end.

Section Effects.
Context `{SD : ShaderDecl} `{ER : ExportRegisterDecl} `{ALU : AluInstructionDecl}
        `{VF : VertexFetchInstructionDecl} `{TF : TextureFetchInstructionDecl}
        `{CF : ControlFlowInstructionDecl}.

Definition vertex_fetch_shader (op : Dwords3)
    (fetch_instr : ParsedVertexFetchInstruction.t) (s : Shader) : Shader :=
  let s := GatherFetchResultInformation (ParsedVertexFetchInstruction.result fetch_instr) s in
  if negb (nonzero (GetUsedResultComponents
                      (ParsedVertexFetchInstruction.result fetch_instr)))
  then s
  else
    let s :=
      gather_operands (ParsedVertexFetchInstruction.operand_count fetch_instr)
        (ParsedVertexFetchInstruction.operands fetch_instr) s in
    set_vertex_bindings_
      (vertex_fetch_bindings (vf_fetch_constant_index op) fetch_instr (vertex_bindings_ s))
      s.

Lemma GatherVertexFetchInformation_effect (op : Dwords3) (st : AnalysisState) :
  let fetch_instr :=
    (ParseVertexFetchInstruction op (previous_vfetch_full st)
       ParsedVertexFetchInstruction.init).2 in
  GatherVertexFetchInformation op st
  = {| shader := vertex_fetch_shader op fetch_instr (shader st);
       previous_vfetch_full :=
         if vf_is_mini_fetch op then previous_vfetch_full st else op;
       unique_texture_bindings := unique_texture_bindings st;
       memexport_alloc_count := memexport_alloc_count st;
       memexport_eA_written := memexport_eA_written st;
       ucode_disasm_buffer :=
         ucode_disasm_buffer st ++ [Disassemble (PVertexFetch fetch_instr)];
       events := events st |}.
Proof.
  cbv zeta. unfold GatherVertexFetchInformation, vertex_fetch_shader,
    vertex_fetch_bindings.
  pose proof (ParseVertexFetchInstruction_flag op (previous_vfetch_full st)
                ParsedVertexFetchInstruction.init) as Hflag.
  destruct (ParseVertexFetchInstruction op (previous_vfetch_full st)
              ParsedVertexFetchInstruction.init) as [update fetch_instr].
  cbn [fst snd] in *. subst update. cbv zeta.
  destruct (vf_is_mini_fetch op); cbn [negb];
    destruct (negb (nonzero _)); try reflexivity;
    unfold on_shader, emit, set_previous_vfetch_full; cbn;
    destruct (add_vertex_attribute _ _ _); reflexivity.
Qed.

Definition texture_fetch_state (op : Dwords3)
    (fetch_instr : ParsedTextureFetchInstruction.t) (st : AnalysisState)
    : Shader * Z :=
  let s :=
    gather_operands (ParsedTextureFetchInstruction.operand_count fetch_instr)
      (ParsedTextureFetchInstruction.operands fetch_instr)
      (GatherFetchResultInformation (ParsedTextureFetchInstruction.result fetch_instr)
         (shader st)) in
  if texture_opcode_sets_state (tf_opcode op) then (s, unique_texture_bindings st)
  else
    let fetch_constant :=
      InstructionOperand.storage_index
        (arr_get InstructionOperand.init
           (ParsedTextureFetchInstruction.operands fetch_instr) 1) in
    let found := find_texture_binding_index fetch_constant (-1) (texture_bindings_ s) in
    if found =? -1 then
      (set_texture_bindings_
         (texture_bindings_ s ++
            [TextureBinding.mk (unique_texture_bindings st) fetch_constant fetch_instr]) s,
       u32 (unique_texture_bindings st + 1))
    else
      (set_texture_bindings_
         (texture_bindings_ s ++ [TextureBinding.mk found fetch_constant fetch_instr]) s,
       unique_texture_bindings st).

Lemma GatherTextureFetchInformation_effect (op : Dwords3) (st : AnalysisState) :
  let fetch_instr := ParseTextureFetchInstruction op ParsedTextureFetchInstruction.init in
  GatherTextureFetchInformation op st
  = {| shader := (texture_fetch_state op fetch_instr st).1;
       previous_vfetch_full := previous_vfetch_full st;
       unique_texture_bindings := (texture_fetch_state op fetch_instr st).2;
       memexport_alloc_count := memexport_alloc_count st;
       memexport_eA_written := memexport_eA_written st;
       ucode_disasm_buffer :=
         ucode_disasm_buffer st ++ [Disassemble (PTextureFetch fetch_instr)];
       events := events st |}.
Proof.
  cbv zeta. unfold GatherTextureFetchInformation, texture_fetch_state. cbv zeta.
  destruct (texture_opcode_sets_state (tf_opcode op)); [reflexivity|].
  cbn.
  destruct (find_texture_binding_index _ _ _ =? -1); reflexivity.
Qed.

(** The shader after the usage of an ALU instruction is gathered, before
    the memexport stream constant is looked at. *)
Definition alu_usage_shader (op : Dwords3) (instr : ParsedAluInstruction.t)
    (memexport_alloc_current_count : Z) (s : Shader) : Shader :=
  gather_operands (ParsedAluInstruction.scalar_operand_count instr)
    (ParsedAluInstruction.scalar_operands instr)
    (gather_operands (ParsedAluInstruction.vector_operand_count instr)
       (ParsedAluInstruction.vector_operands instr)
       (GatherAluResultInformation (ParsedAluInstruction.scalar_result instr)
          memexport_alloc_current_count
          (GatherAluResultInformation
             (ParsedAluInstruction.vector_and_constant_result instr)
             memexport_alloc_current_count
             (set_kills_pixels_
                (kills_pixels_ s
                 || AluVectorOpcodeIsKill (alu_vector_opcode op)
                 || AluScalarOpcodeIsKill (alu_scalar_opcode op)) s)))).

Definition alu_writes_eA (instr : ParsedAluInstruction.t)
    (memexport_alloc_current_count : Z) : bool :=
  bool_decide (InstructionResult.storage_target
                 (ParsedAluInstruction.vector_and_constant_result instr)
               = InstructionStorageTarget.kExportAddress)
  && memexport_count_valid memexport_alloc_current_count.

Lemma GatherAluInstructionInformation_effect (op : Dwords3) (count : Z)
    (st : AnalysisState) :
  let parsed := ParseAluInstruction op (type_ (shader st)) ParsedAluInstruction.init in
  let instr := parsed.1 in
  let s := alu_usage_shader op instr count (shader st) in
  let found := negb (GetMemExportStreamConstant instr =? UINT32_MAX) in
  GatherAluInstructionInformation op count st
  = {| shader :=
         if alu_writes_eA instr count && found then
           set_memexport_stream_constants_
             ({[GetMemExportStreamConstant instr]} ∪ memexport_stream_constants_ s) s
         else s;
       previous_vfetch_full := previous_vfetch_full st;
       unique_texture_bindings := unique_texture_bindings st;
       memexport_alloc_count := memexport_alloc_count st;
       memexport_eA_written :=
         if alu_writes_eA instr count && found then
           Z.lor (memexport_eA_written st) (u32 (Z.shiftl 1 (count - 1)))
         else memexport_eA_written st;
       ucode_disasm_buffer := ucode_disasm_buffer st ++ [Disassemble (PAlu instr)];
       events :=
         (events st ++ parsed.2)
         ++ (if alu_writes_eA instr count && negb found
             then [XELOGE fmt_no_stream_constant []] else []) |}.
Proof.
  cbv zeta. unfold GatherAluInstructionInformation, alu_usage_shader, alu_writes_eA.
  destruct (ParseAluInstruction op (type_ (shader st)) ParsedAluInstruction.init)
    as [instr logged].
  cbn [fst snd].
  destruct (bool_decide _ && memexport_count_valid count); cbn [andb].
  - destruct (negb (_ =? UINT32_MAX)); cbn [negb andb];
      rewrite ?app_nil_r; reflexivity.
  - cbn [andb]. rewrite app_nil_r. reflexivity.
Qed.

Lemma vertex_fetch_shader_untouched_but_bindings (op : Dwords3)
    (fetch_instr : ParsedVertexFetchInstruction.t) (s : Shader) :
  exists s1,
    untouched s s1
    /\ (vertex_fetch_shader op fetch_instr s = s1
        \/ vertex_fetch_shader op fetch_instr s
           = set_vertex_bindings_
               (vertex_fetch_bindings (vf_fetch_constant_index op) fetch_instr
                  (vertex_bindings_ s)) s1).
Proof.
  unfold vertex_fetch_shader. cbv zeta.
  destruct (negb (nonzero _)).
  - eexists. split; [apply GatherFetchResultInformation_untouched|]. left. reflexivity.
  - eexists. split.
    + eapply untouched_trans;
        [apply GatherFetchResultInformation_untouched | apply gather_operands_untouched].
    + right. f_equal. f_equal.
      apply untouched_vertex_bindings.
      eapply untouched_trans;
        [apply GatherFetchResultInformation_untouched | apply gather_operands_untouched].
Qed.

Lemma texture_fetch_state_untouched_but_bindings (op : Dwords3)
    (fetch_instr : ParsedTextureFetchInstruction.t) (st : AnalysisState) :
  exists s1,
    untouched (shader st) s1
    /\ ((texture_fetch_state op fetch_instr st).1 = s1
        \/ exists bindings,
             (texture_fetch_state op fetch_instr st).1 = set_texture_bindings_ bindings s1).
Proof.
  unfold texture_fetch_state. cbv zeta.
  eexists. split.
  - eapply untouched_trans;
      [apply GatherFetchResultInformation_untouched | apply gather_operands_untouched].
  - destruct (texture_opcode_sets_state (tf_opcode op)); [left; reflexivity|].
    right. destruct (find_texture_binding_index _ _ _ =? -1); eexists; reflexivity.
Qed.

Lemma alu_usage_shader_untouched_but_kills (op : Dwords3)
    (instr : ParsedAluInstruction.t) (count : Z) (s : Shader) :
  untouched
    (set_kills_pixels_
       (kills_pixels_ s
        || AluVectorOpcodeIsKill (alu_vector_opcode op)
        || AluScalarOpcodeIsKill (alu_scalar_opcode op)) s)
    (alu_usage_shader op instr count s).
Proof.
  unfold alu_usage_shader.
  eapply untouched_trans; [|apply gather_operands_untouched].
  eapply untouched_trans; [|apply gather_operands_untouched].
  eapply untouched_trans; [|apply GatherAluResultInformation_untouched].
  apply GatherAluResultInformation_untouched.
Qed.

End Effects.

(** ** A walk invariant in terms of the gathering functions *)

Definition is_instruction_chunk (c : Chunk) : bool :=
  match c with
  | Disassemble (PVertexFetch _) | Disassemble (PTextureFetch _)
  | Disassemble (PAlu _) => true
  | _ => false
  end.

Section AnalysisWalk.
Context `{SD : ShaderDecl} `{ER : ExportRegisterDecl} `{ALU : AluInstructionDecl}
        `{VF : VertexFetchInstructionDecl} `{TF : TextureFetchInstructionDecl}
        `{CF : ControlFlowInstructionDecl}.

Variable P : AnalysisState -> Prop.
Hypothesis P_emit :
  forall c st, is_instruction_chunk c = false -> P st -> P (emit c st).
Hypothesis P_vertex : forall op st, P st -> P (GatherVertexFetchInformation op st).
Hypothesis P_texture : forall op st, P st -> P (GatherTextureFetchInformation op st).
Hypothesis P_alu :
  forall op count st, P st -> P (GatherAluInstructionInformation op count st).
Hypothesis P_loop :
  forall index st, P st -> P (on_shader (mark_loop_constant index) st).
Hypothesis P_bool :
  forall index st, P st -> P (on_shader (mark_bool_constant index) st).
Hypothesis P_alloc :
  forall v st, P st -> P (set_memexport_alloc_count v st).

Lemma step_gather_exec_slot (count instr_offset sequence : Z) (st : AnalysisState) :
  P st -> P (gather_exec_slot count instr_offset sequence st).
Proof.
  intros HP. unfold gather_exec_slot.
  assert (HP' : P (if nonzero (Z.land sequence 2)
                   then emit (Append "         serialize\n             ")
                          (emit (AppendFormat fmt_instr_offset [instr_offset]) st)
                   else emit (AppendFormat fmt_instr_offset [instr_offset]) st)).
  { destruct (nonzero (Z.land sequence 2)); repeat (apply P_emit; [reflexivity|]);
      exact HP. }
  revert HP'. generalize (if nonzero (Z.land sequence 2)
                          then emit (Append "         serialize\n             ")
                                 (emit (AppendFormat fmt_instr_offset [instr_offset]) st)
                          else emit (AppendFormat fmt_instr_offset [instr_offset]) st).
  intros st1 HP1. cbv zeta.
  destruct (nonzero (Z.land sequence 1)).
  - destruct (bool_decide _); [apply P_vertex | apply P_texture]; exact HP1.
  - apply P_alu. exact HP1.
Qed.

Lemma step_gather_exec_loop (fuel : nat) (bound count instr_offset sequence : Z)
    (st : AnalysisState) :
  P st -> P (gather_exec_loop fuel bound count instr_offset sequence st).
Proof.
  revert instr_offset sequence st.
  induction fuel as [|fuel IH]; intros instr_offset sequence st HP; cbn [gather_exec_loop].
  - exact HP.
  - destruct (instr_offset <? bound); [|exact HP].
    apply IH. apply step_gather_exec_slot. exact HP.
Qed.

Lemma step_GatherExecInformation (instr : ParsedExecInstruction.t) (count : Z)
    (st : AnalysisState) :
  P st -> P (GatherExecInformation instr count st).
Proof.
  intros HP. unfold GatherExecInformation. apply step_gather_exec_loop.
  apply P_emit; [reflexivity|exact HP].
Qed.

Lemma step_analyze_cf (i j : Z) (cf : ControlFlowInstruction) (st : AnalysisState) :
  P st -> P (analyze_cf i j cf st).
Proof.
  intros HP. unfold analyze_cf. cbv zeta.
  assert (HP2 : P (emit (AppendFormat fmt_cf_index [i; j])
                     (if bool_decide (u32 (i * 2 + j) ∈ label_addresses_ (shader st))
                      then emit (AppendFormat fmt_label [u32 (i * 2 + j)]) st
                      else st))).
  { apply P_emit; [reflexivity|].
    destruct (bool_decide _); [apply P_emit; [reflexivity|]|]; exact HP. }
  revert HP2.
  generalize (emit (AppendFormat fmt_cf_index [i; j])
                (if bool_decide (u32 (i * 2 + j) ∈ label_addresses_ (shader st))
                 then emit (AppendFormat fmt_label [u32 (i * 2 + j)]) st
                 else st)).
  intros st2 HP2.
  destruct (cf_opcode cf); apply P_bool;
    try (apply step_GatherExecInformation; exact HP2);
    try (apply P_loop);
    try (apply P_emit; [reflexivity|exact HP2]).
  - destruct (bool_decide _); [apply P_alloc|];
      (apply P_emit; [reflexivity|exact HP2]).
  - exact HP2.
Qed.

Lemma step_analyze_pairs (l : list Z) (st : AnalysisState) :
  P st -> P (foldl analyze_pair st l).
Proof.
  revert st. induction l as [|i l IH]; intros st HP; cbn [foldl]; [exact HP|].
  apply IH. unfold analyze_pair.
  destruct (UnpackControlFlowInstructions _) as [cf_a cf_b].
  apply step_analyze_cf, step_analyze_cf. exact HP.
Qed.

End AnalysisWalk.

(** ** The end of the analysis *)

Section AnalysisTail.
Context `{SD : ShaderDecl} `{ER : ExportRegisterDecl} `{ALU : AluInstructionDecl}
        `{VF : VertexFetchInstructionDecl} `{TF : TextureFetchInstructionDecl}
        `{CF : ControlFlowInstructionDecl}.
Variable cvars_dump_shaders : string.

(** The state in which the second loop of [AnalyzeUcode] ends. *)
Definition analysis_walk (s : Shader) (evs : list Event) : AnalysisState :=
  let s := (scan_control_flow s).1 in
  foldl analyze_pair (mkAnalysisState s (0, 0, 0) 0 0 0 [] evs)
    (seqZ 0 (cf_pair_index_bound_ s)).

Lemma cleanup_memexport_shader (st : AnalysisState) :
  exists memexport_eM_written stream_constants,
    shader (cleanup_memexport st)
    = set_memexport_stream_constants_ stream_constants
        (set_memexport_eM_written_ memexport_eM_written (shader st))
    /\ ucode_disasm_buffer (cleanup_memexport st) = ucode_disasm_buffer st
    /\ events (cleanup_memexport st) = events st.
Proof.
  unfold cleanup_memexport.
  destruct (foldl cleanup_memexport_slot _ _) as [eA eM].
  exists eM, (if eA =? 0 then ∅ else memexport_stream_constants_ (shader st)).
  destruct (eA =? 0); repeat split; reflexivity.
Qed.

Lemma finish_float_constants_shader (s : Shader) :
  exists float_bitmap float_count,
    finish_float_constants s
    = set_constant_register_map_
        (ConstantRegisterMap.set_float_bitmap float_bitmap
           (ConstantRegisterMap.set_float_count float_count (constant_register_map_ s)))
        s.
Proof.
  unfold finish_float_constants. cbv zeta.
  destruct (ConstantRegisterMap.float_dynamic_addressing (constant_register_map_ s)).
  - do 2 eexists. reflexivity.
  - exists (ConstantRegisterMap.float_bitmap (constant_register_map_ s)).
    eexists. reflexivity.
Qed.

Lemma AnalyzeUcode_body_tail (s : Shader) (evs : list Event) :
  let walked := analysis_walk s evs in
  let st := AnalyzeUcode_body cvars_dump_shaders s evs in
  exists memexport_eM_written stream_constants,
    shader st
    = set_is_ucode_analyzed_ true
        (set_memexport_stream_constants_ stream_constants
           (set_memexport_eM_written_ memexport_eM_written
              (finish_float_constants
                 (set_ucode_disassembly_ (ucode_disasm_buffer walked) (shader walked)))))
    /\ ucode_disasm_buffer st = ucode_disasm_buffer walked
    /\ events st
       = events walked
         ++ (if negb (String.eqb cvars_dump_shaders EmptyString)
                && negb (bool_decide (ucode_data_ (shader walked) = []))
             then [DumpUcode cvars_dump_shaders] else []).
Proof.
  cbv zeta. unfold AnalyzeUcode_body, analysis_walk.
  set (walked := foldl analyze_pair _ _).
  set (st2 := on_shader finish_float_constants
                (on_shader (set_ucode_disassembly_ (ucode_disasm_buffer walked)) walked)).
  destruct (cleanup_memexport_shader st2) as (eM & consts & Hs & Hb & He).
  exists eM, consts.
  assert (Hu : ucode_data_
                 (shader (on_shader (set_is_ucode_analyzed_ true) (cleanup_memexport st2)))
               = ucode_data_ (shader walked)).
  { change (ucode_data_ (shader (cleanup_memexport st2)) = ucode_data_ (shader walked)).
    rewrite Hs.
    change (ucode_data_
              (finish_float_constants
                 (set_ucode_disassembly_ (ucode_disasm_buffer walked) (shader walked)))
            = ucode_data_ (shader walked)).
    destruct (finish_float_constants_shader
                (set_ucode_disassembly_ (ucode_disasm_buffer walked) (shader walked)))
      as (fb & fc & ->).
    reflexivity. }
  match goal with
  | |- context [bool_decide (?u = [])] =>
      replace u with (ucode_data_ (shader walked)) by (symmetry; exact Hu)
  end.
  assert (Hshader :
    shader (on_shader (set_is_ucode_analyzed_ true) (cleanup_memexport st2))
    = set_is_ucode_analyzed_ true
        (set_memexport_stream_constants_ consts
           (set_memexport_eM_written_ eM
              (finish_float_constants
                 (set_ucode_disassembly_ (ucode_disasm_buffer walked) (shader walked)))))).
  { exact (f_equal (set_is_ucode_analyzed_ true) Hs). }
  destruct (negb _ && negb _).
  - split; [exact Hshader|]. split; [exact Hb|].
    change (events (cleanup_memexport st2) ++ [DumpUcode cvars_dump_shaders]
            = events walked ++ [DumpUcode cvars_dump_shaders]).
    rewrite He. reflexivity.
  - split; [exact Hshader|]. split; [exact Hb|].
    rewrite app_nil_r.
    change (events (cleanup_memexport st2) = events walked).
    rewrite He. reflexivity.
Qed.

End AnalysisTail.

(** ** What the analysis keeps *)

(** The program of [s'] is that of [s]: microcode, type, program bound,
    labels, and the analyzed flag and stored disassembly. *)
Record same_program (s s' : Shader) : Prop := mk_same_program {
  same_ucode_data : ucode_data_ s' = ucode_data_ s;
  same_type : type_ s' = type_ s;
  same_is_ucode_analyzed : is_ucode_analyzed_ s' = is_ucode_analyzed_ s;
  same_cf_pair_index_bound : cf_pair_index_bound_ s' = cf_pair_index_bound_ s;
  same_label_addresses : label_addresses_ s' = label_addresses_ s;
  same_ucode_disassembly : ucode_disassembly_ s' = ucode_disassembly_ s
}.

Lemma same_program_refl (s : Shader) : same_program s s.
Proof. constructor; reflexivity. Qed.

Lemma same_program_trans (s1 s2 s3 : Shader) :
  same_program s1 s2 -> same_program s2 s3 -> same_program s1 s3.
Proof. intros [] []. constructor; congruence. Qed.

Lemma untouched_same_program (s s' : Shader) : untouched s s' -> same_program s s'.
Proof. intros []. constructor; assumption. Qed.

Definition is_log_event (e : Event) : Prop :=
  match e with
  | XELOGE _ _ => True
  | DumpUcode _ => False
  end.

Section AnalysisFrame.
Context `{SD : ShaderDecl} `{ER : ExportRegisterDecl} `{ALU : AluInstructionDecl}
        `{VF : VertexFetchInstructionDecl} `{TF : TextureFetchInstructionDecl}
        `{CF : ControlFlowInstructionDecl}.
Variable cvars_dump_shaders : string.

Lemma GatherVertexFetchInformation_program (op : Dwords3) (st : AnalysisState) :
  same_program (shader st) (shader (GatherVertexFetchInformation op st)).
Proof.
  rewrite GatherVertexFetchInformation_effect.
  destruct (vertex_fetch_shader_untouched_but_bindings op
              (ParseVertexFetchInstruction op (previous_vfetch_full st)
                 ParsedVertexFetchInstruction.init).2 (shader st))
    as (s1 & Hu & [Hs|Hs]).
  - change (same_program (shader st)
              (vertex_fetch_shader op
                 (ParseVertexFetchInstruction op (previous_vfetch_full st)
                    ParsedVertexFetchInstruction.init).2 (shader st))).
    rewrite Hs. apply untouched_same_program, Hu.
  - change (same_program (shader st)
              (vertex_fetch_shader op
                 (ParseVertexFetchInstruction op (previous_vfetch_full st)
                    ParsedVertexFetchInstruction.init).2 (shader st))).
    rewrite Hs. destruct Hu. constructor; assumption.
Qed.

Lemma GatherTextureFetchInformation_program (op : Dwords3) (st : AnalysisState) :
  same_program (shader st) (shader (GatherTextureFetchInformation op st)).
Proof.
  rewrite GatherTextureFetchInformation_effect.
  destruct (texture_fetch_state_untouched_but_bindings op
              (ParseTextureFetchInstruction op ParsedTextureFetchInstruction.init) st)
    as (s1 & Hu & [Hs|[bindings Hs]]);
    change (same_program (shader st)
              (texture_fetch_state op
                 (ParseTextureFetchInstruction op ParsedTextureFetchInstruction.init)
                 st).1);
    rewrite Hs; destruct Hu; constructor; assumption.
Qed.

Lemma GatherAluInstructionInformation_program (op : Dwords3) (count : Z)
    (st : AnalysisState) :
  same_program (shader st) (shader (GatherAluInstructionInformation op count st)).
Proof.
  rewrite GatherAluInstructionInformation_effect.
  pose proof (alu_usage_shader_untouched_but_kills op
                (ParseAluInstruction op (type_ (shader st)) ParsedAluInstruction.init).1
                count (shader st)) as Hu.
  cbn [shader].
  destruct (alu_writes_eA _ count && negb _); destruct Hu; constructor; assumption.
Qed.

Lemma analysis_walk_program (s : Shader) (evs : list Event) :
  same_program (scan_control_flow s).1 (shader (analysis_walk s evs)).
Proof.
  unfold analysis_walk.
  apply (step_analyze_pairs (fun st => same_program (scan_control_flow s).1 (shader st))).
  - intros c st _ H. exact H.
  - intros op st H. eapply same_program_trans; [exact H|].
    apply GatherVertexFetchInformation_program.
  - intros op st H. eapply same_program_trans; [exact H|].
    apply GatherTextureFetchInformation_program.
  - intros op count st H. eapply same_program_trans; [exact H|].
    apply GatherAluInstructionInformation_program.
  - intros index st []. constructor; assumption.
  - intros index st H. eapply same_program_trans; [exact H|].
    unfold mark_bool_constant.
    change (shader (on_shader (mark_bool_constant index) st))
      with (mark_bool_constant index (shader st)).
    unfold mark_bool_constant. destruct (negb _); constructor; reflexivity.
  - intros v st H. exact H.
  - apply same_program_refl.
Qed.

Lemma scan_control_flow_type (s : Shader) : type_ (scan_control_flow s).1 = type_ s.
Proof.
  unfold scan_control_flow.
  destruct (scan_loop_cfs (Z.to_nat (cf_pair_index_bound_
               (set_cf_pair_index_bound_
                  (u32 (Z.of_nat (length (ucode_data_ s)) / 3)) s))) 0
              (set_cf_pair_index_bound_
                 (u32 (Z.of_nat (length (ucode_data_ s)) / 3)) s) [])
    as (examined & _ & ->).
  generalize (cf_of_pairs
                (ucode_data_ (set_cf_pair_index_bound_
                                (u32 (Z.of_nat (length (ucode_data_ s)) / 3)) s))
                examined).
  intros cfs.
  assert (Hgen : forall s0, type_ (scan_cfs cfs s0) = type_ s0).
  { unfold scan_cfs. induction cfs as [|cf cfs IH]; intros s0; [reflexivity|].
    cbn [foldl]. rewrite IH. unfold scan_cf.
    destruct (IsControlFlowOpcodeExec (cf_opcode cf));
      destruct (cf_opcode cf); reflexivity. }
  rewrite Hgen. reflexivity.
Qed.

Lemma AnalyzeUcode_body_program (s : Shader) (evs : list Event) :
  let st := AnalyzeUcode_body cvars_dump_shaders s evs in
  ucode_data_ (shader st) = ucode_data_ s
  /\ type_ (shader st) = type_ s
  /\ cf_pair_index_bound_ (shader st) = cf_pair_index_bound_ (scan_control_flow s).1
  /\ label_addresses_ (shader st) = label_addresses_ (scan_control_flow s).1
  /\ ucode_disassembly_ (shader st) = ucode_disasm_buffer st.
Proof.
  cbv zeta.
  destruct (AnalyzeUcode_body_tail cvars_dump_shaders s evs)
    as (eM & consts & Hs & Hb & _).
  cbv zeta in Hs, Hb. rewrite Hs, Hb.
  destruct (finish_float_constants_shader
              (set_ucode_disassembly_ (ucode_disasm_buffer (analysis_walk s evs))
                 (shader (analysis_walk s evs)))) as (fb & fc & ->).
  destruct (analysis_walk_program s evs) as [W1 W2 W3 W4 W5 W6].
  destruct (scan_control_flow_cfs s) as (_ & _ & Hu).
  cbv zeta in Hu.
  pose proof (scan_control_flow_type s) as Ht.
  repeat split.
  - exact (eq_trans W1 Hu).
  - exact (eq_trans W2 Ht).
  - exact W4.
  - exact W5.
Qed.

(** X9.  AnalyzeUcode never changes the microcode words or the type of the
    shader. On a shader not yet analyzed the stored disassembly is the
    returned buffer, and the result does not depend on what the caller's
    buffer held: the buffer is reset before use. *)
Theorem AnalyzeUcode_keeps_program (s : Shader) (buffer : StringBuffer)
    (evs : list Event) :
  let analyzed := AnalyzeUcode cvars_dump_shaders s buffer evs in
  ucode_data_ analyzed.1.1 = ucode_data_ s
  /\ type_ analyzed.1.1 = type_ s
  /\ if is_ucode_analyzed_ s then analyzed = (s, buffer, evs)
     else ucode_disassembly_ analyzed.1.1 = analyzed.1.2
          /\ analyzed = AnalyzeUcode cvars_dump_shaders s [] evs.
Proof.
  cbv zeta. unfold AnalyzeUcode.
  destruct (is_ucode_analyzed_ s).
  - repeat split.
  - destruct (AnalyzeUcode_body_program s evs) as (H1 & H2 & _ & _ & H5).
    cbn [fst snd]. repeat split; assumption.
Qed.

(** X10.  After the analysis the label addresses are exactly the addresses
    targeted by the call, jump, loop-start and loop-end instructions among
    the control-flow pairs the scan examined, together with the labels the
    shader already had. *)
Theorem labels_are_targets_of_scanned_pairs (s : Shader) (evs : list Event) :
  let cfs := cf_of_pairs (ucode_data_ s) (scan_control_flow s).2 in
  label_addresses_ (shader (AnalyzeUcode_body cvars_dump_shaders s evs))
  = list_to_set (omap cf_label_target cfs) ∪ label_addresses_ s.
Proof.
  cbv zeta.
  destruct (AnalyzeUcode_body_program s evs) as (_ & _ & _ & H4 & _).
  destruct (scan_control_flow_cfs s) as (_ & H & _).
  rewrite H4. exact H.
Qed.

(** X11.  After the analysis the control-flow pair bound is the minimum of
    the pair count (word count / 3) and the addresses of all exec-type
    instructions in the pairs the scan examined; in particular it does not
    exceed any of these addresses. *)
Theorem program_bound_is_least_exec_address (s : Shader) (evs : list Event) :
  let cfs := cf_of_pairs (ucode_data_ s) (scan_control_flow s).2 in
  let bound := cf_pair_index_bound_ (shader (AnalyzeUcode_body cvars_dump_shaders s evs)) in
  bound
  = foldl Z.min (u32 (Z.of_nat (length (ucode_data_ s)) / 3)) (omap cf_exec_address cfs)
  /\ Forall (fun address => bound <= address) (omap cf_exec_address cfs).
Proof.
  cbv zeta.
  destruct (AnalyzeUcode_body_program s evs) as (_ & _ & H3 & _ & _).
  destruct (scan_control_flow_cfs s) as (H & _ & _).
  rewrite H3, H. split; [reflexivity|].
  generalize (u32 (Z.of_nat (length (ucode_data_ s)) / 3)).
  generalize (omap cf_exec_address
                (cf_of_pairs (ucode_data_ s) (scan_control_flow s).2)).
  intros l. induction l as [|a l IH]; intros b; [apply Forall_nil_2|].
  cbn [foldl]. apply Forall_cons_2; [|apply IH].
  assert (Hle : forall l b, foldl Z.min b l <= b).
  { clear. intros l. induction l as [|a l IH]; intros b; cbn [foldl]; [lia|].
    specialize (IH (Z.min b a)). lia. }
  specialize (Hle l (Z.min b a)). lia.
Qed.

Lemma ParseAluInstruction_logged (op : Dwords3) (shader_type : ShaderType.t)
    (instr : ParsedAluInstruction.t) :
  Forall is_log_event (ParseAluInstruction op shader_type instr).2.
Proof.
  unfold ParseAluInstruction. cbv zeta.
  destruct (if alu_is_export op then _ else _) as [storage_target storage_index_export].
  cbn [snd].
  destruct (alu_is_export op && _);
    [apply Forall_cons_2; [exact I|]|]; apply Forall_nil_2.
Qed.

Lemma analysis_walk_events (s : Shader) (evs : list Event) :
  exists logged,
    events (analysis_walk s evs) = evs ++ logged /\ Forall is_log_event logged.
Proof.
  unfold analysis_walk.
  apply (step_analyze_pairs
           (fun st => exists logged,
                        events st = evs ++ logged /\ Forall is_log_event logged)).
  - intros c st _ H. exact H.
  - intros op st H. rewrite GatherVertexFetchInformation_effect. exact H.
  - intros op st H. rewrite GatherTextureFetchInformation_effect. exact H.
  - intros op count st (logged & He & Hl).
    rewrite GatherAluInstructionInformation_effect. cbn [events].
    eexists. split.
    + rewrite He, <- !app_assoc. reflexivity.
    + apply Forall_app. split; [exact Hl|].
      apply Forall_app. split; [apply ParseAluInstruction_logged|].
      destruct (alu_writes_eA _ count && negb _);
        [apply Forall_cons_2; [exact I|]|]; apply Forall_nil_2.
  - intros index st H. exact H.
  - intros index st H. exact H.
  - intros v st H. exact H.
  - exists []. rewrite app_nil_r. split; [reflexivity|apply Forall_nil_2].
Qed.

(** X12.  The analysis only appends to the event log: first error log lines,
    then at most one DumpUcode, which is present exactly when the
    dump_shaders path is not empty and the shader has microcode; the dump is
    the last event. *)
Theorem AnalyzeUcode_dumps_only_nonempty_ucode (s : Shader) (evs : list Event) :
  let st := AnalyzeUcode_body cvars_dump_shaders s evs in
  let dump :=
    negb (String.eqb cvars_dump_shaders EmptyString)
    && negb (bool_decide (ucode_data_ s = [])) in
  exists logged,
    Forall is_log_event logged
    /\ events st = evs ++ logged ++ (if dump then [DumpUcode cvars_dump_shaders] else []).
Proof.
  cbv zeta.
  destruct (AnalyzeUcode_body_tail cvars_dump_shaders s evs)
    as (eM & consts & _ & _ & He).
  cbv zeta in He.
  destruct (analysis_walk_events s evs) as (logged & Hw & Hl).
  destruct (analysis_walk_program s evs) as [W1 _ _ _ _ _].
  destruct (scan_control_flow_cfs s) as (_ & _ & Hu). cbv zeta in Hu.
  exists logged. split; [exact Hl|].
  rewrite He, Hw, W1, Hu, <- app_assoc. reflexivity.
Qed.

End AnalysisFrame.

(** The scan writes the program bound and the labels, nothing else. *)
Record scan_keeps (s s' : Shader) : Prop := mk_scan_keeps {
  scan_keeps_vertex_bindings : vertex_bindings_ s' = vertex_bindings_ s;
  scan_keeps_texture_bindings : texture_bindings_ s' = texture_bindings_ s;
  scan_keeps_kills_pixels : kills_pixels_ s' = kills_pixels_ s;
  scan_keeps_constant_register_map : constant_register_map_ s' = constant_register_map_ s;
  scan_keeps_register_bound :
    register_static_address_bound_ s' = register_static_address_bound_ s;
  scan_keeps_dynamic_addressing :
    uses_register_dynamic_addressing_ s' = uses_register_dynamic_addressing_ s;
  scan_keeps_color_targets : writes_color_targets_ s' = writes_color_targets_ s;
  scan_keeps_depth : writes_depth_ s' = writes_depth_ s;
  scan_keeps_eM : memexport_eM_written_ s' = memexport_eM_written_ s;
  scan_keeps_stream_constants :
    memexport_stream_constants_ s' = memexport_stream_constants_ s
}.

Section ScanKeeps.
Context `{CF : ControlFlowInstructionDecl}.

Lemma scan_cfs_keeps (cfs : list ControlFlowInstruction) (s : Shader) :
  scan_keeps s (scan_cfs cfs s).
Proof.
  unfold scan_cfs. revert s. induction cfs as [|cf cfs IH]; intros s; cbn [foldl].
  - constructor; reflexivity.
  - destruct (IH (scan_cf cf s)).
    assert (H : scan_keeps s (scan_cf cf s)).
    { unfold scan_cf.
      destruct (IsControlFlowOpcodeExec (cf_opcode cf));
        destruct (cf_opcode cf); constructor; reflexivity. }
    destruct H. constructor; congruence.
Qed.

Lemma scan_control_flow_keeps (s : Shader) : scan_keeps s (scan_control_flow s).1.
Proof.
  unfold scan_control_flow.
  destruct (scan_loop_cfs (Z.to_nat (cf_pair_index_bound_
               (set_cf_pair_index_bound_
                  (u32 (Z.of_nat (length (ucode_data_ s)) / 3)) s))) 0
              (set_cf_pair_index_bound_
                 (u32 (Z.of_nat (length (ucode_data_ s)) / 3)) s) [])
    as (examined & _ & ->).
  destruct (scan_cfs_keeps
              (cf_of_pairs
                 (ucode_data_ (set_cf_pair_index_bound_
                                 (u32 (Z.of_nat (length (ucode_data_ s)) / 3)) s))
                 examined)
              (set_cf_pair_index_bound_
                 (u32 (Z.of_nat (length (ucode_data_ s)) / 3)) s)).
  constructor; assumption.
Qed.

End ScanKeeps.

(** ** Vertex bindings *)

(** A binding in position [k] carries the index [k], has at least one
    attribute, and its stride is the stride of its first attribute. *)
Definition vertex_binding_ok (k : nat) (binding : VertexBinding.t) : Prop :=
  VertexBinding.binding_index binding = Z.of_nat k
  /\ exists first rest,
       VertexBinding.attributes binding = first :: rest
       /\ VertexBinding.stride_words binding
          = VertexFetchAttributes.stride
              (ParsedVertexFetchInstruction.attributes (VertexBinding.fetch_instr first)).

Definition vertex_bindings_ok (bindings : list VertexBinding.t) : Prop :=
  (forall k binding, bindings !! k = Some binding -> vertex_binding_ok k binding)
  /\ NoDup (map VertexBinding.fetch_constant bindings).

Lemma add_vertex_attribute_None (fetch_constant : Z) attrib
    (bindings : list VertexBinding.t) :
  add_vertex_attribute fetch_constant attrib bindings = None ->
  fetch_constant ∉ map VertexBinding.fetch_constant bindings.
Proof.
  induction bindings as [|b bindings IH]; cbn [add_vertex_attribute map].
  - intros _. apply not_elem_of_nil.
  - destruct (Z.eqb_spec (VertexBinding.fetch_constant b) fetch_constant) as [He|Hne];
      [discriminate|].
    destruct (add_vertex_attribute fetch_constant attrib bindings); [discriminate|].
    intros _. apply not_elem_of_cons. split; [congruence|]. apply IH. reflexivity.
Qed.

Lemma add_vertex_attribute_Some (fetch_constant : Z) attrib
    (bindings bindings' : list VertexBinding.t) :
  add_vertex_attribute fetch_constant attrib bindings = Some bindings' ->
  map VertexBinding.fetch_constant bindings' = map VertexBinding.fetch_constant bindings
  /\ forall k binding',
       bindings' !! k = Some binding' ->
       exists binding,
         bindings !! k = Some binding
         /\ VertexBinding.binding_index binding' = VertexBinding.binding_index binding
         /\ VertexBinding.stride_words binding' = VertexBinding.stride_words binding
         /\ (VertexBinding.attributes binding' = VertexBinding.attributes binding
             \/ VertexBinding.attributes binding'
                = VertexBinding.attributes binding ++ [attrib]).
Proof.
  revert bindings'.
  induction bindings as [|b bindings IH]; intros bindings';
    cbn [add_vertex_attribute]; [discriminate|].
  destruct (VertexBinding.fetch_constant b =? fetch_constant).
  - intros [= <-]. split; [reflexivity|].
    intros [|k] binding' Hk; cbn in Hk.
    + injection Hk as <-. exists b. cbn. repeat split. right. reflexivity.
    + exists binding'. cbn. repeat split; [exact Hk|]. left. reflexivity.
  - destruct (add_vertex_attribute fetch_constant attrib bindings) as [rest'|];
      [|discriminate].
    intros [= <-]. destruct (IH rest' eq_refl) as [Hmap Hrest].
    split; [cbn [map]; rewrite Hmap; reflexivity|].
    intros [|k] binding' Hk; cbn in Hk.
    + injection Hk as <-. exists b. cbn. repeat split. left. reflexivity.
    + apply Hrest. exact Hk.
Qed.

Lemma vertex_fetch_bindings_ok (fetch_constant : Z)
    (fetch_instr : ParsedVertexFetchInstruction.t) (bindings : list VertexBinding.t) :
  vertex_bindings_ok bindings ->
  vertex_bindings_ok (vertex_fetch_bindings fetch_constant fetch_instr bindings).
Proof.
  intros [Hk Hnd]. unfold vertex_fetch_bindings.
  destruct (add_vertex_attribute fetch_constant (VertexBinding.mkAttribute fetch_instr)
              bindings) as [bindings'|] eqn:Hadd.
  - destruct (add_vertex_attribute_Some _ _ _ _ Hadd) as [Hmap Hlook].
    split; [|rewrite Hmap; exact Hnd].
    intros k binding' Hb'.
    destruct (Hlook k binding' Hb') as (binding & Hb & Hi & Hs & Ha).
    destruct (Hk k binding Hb) as (Hi0 & first & rest & Hattr & Hstride).
    split; [congruence|].
    destruct Ha as [Ha|Ha].
    + exists first, rest. rewrite Ha, Hs. split; assumption.
    + exists first, (rest ++ [VertexBinding.mkAttribute fetch_instr]).
      rewrite Ha, Hs, Hattr. split; [reflexivity|exact Hstride].
  - pose proof (add_vertex_attribute_None _ _ _ Hadd) as Hfresh.
    split.
    + intros k binding Hb.
      apply lookup_app_Some in Hb. destruct Hb as [Hb|[Hlen Hb]].
      * apply Hk. exact Hb.
      * apply list_lookup_singleton_Some in Hb. destruct Hb as [Hz <-].
        assert (k = length bindings) as -> by lia.
        split; [reflexivity|].
        eexists _, []. split; reflexivity.
    + rewrite map_app. apply NoDup_app. split; [exact Hnd|]. split.
      * intros x Hx Hin. cbn in Hin. apply list_elem_of_singleton in Hin. subst x.
        exact (Hfresh Hx).
      * apply NoDup_singleton.
Qed.

(** The flag of an ALU parse for a kill: what [kills_pixels_] accumulates. *)
Definition chunk_kills `{SD : ShaderDecl} (c : Chunk) : bool :=
  match c with
  | Disassemble (PAlu instr) =>
      AluVectorOpcodeIsKill (ParsedAluInstruction.vector_opcode instr)
      || AluScalarOpcodeIsKill (ParsedAluInstruction.scalar_opcode instr)
  | _ => false
  end.

Section WalkInvariants.
Context `{SD : ShaderDecl} `{ER : ExportRegisterDecl} `{ALU : AluInstructionDecl}
        `{VF : VertexFetchInstructionDecl} `{TF : TextureFetchInstructionDecl}
        `{CF : ControlFlowInstructionDecl}.
Variable cvars_dump_shaders : string.

Lemma AnalyzeUcode_body_bindings (s : Shader) (evs : list Event) :
  let st := AnalyzeUcode_body cvars_dump_shaders s evs in
  vertex_bindings_ (shader st) = vertex_bindings_ (shader (analysis_walk s evs))
  /\ texture_bindings_ (shader st) = texture_bindings_ (shader (analysis_walk s evs))
  /\ kills_pixels_ (shader st) = kills_pixels_ (shader (analysis_walk s evs)).
Proof.
  cbv zeta.
  destruct (AnalyzeUcode_body_tail cvars_dump_shaders s evs)
    as (eM & consts & Hs & _ & _).
  cbv zeta in Hs. rewrite Hs.
  destruct (finish_float_constants_shader
              (set_ucode_disassembly_ (ucode_disasm_buffer (analysis_walk s evs))
                 (shader (analysis_walk s evs)))) as (fb & fc & ->).
  repeat split.
Qed.

Lemma vertex_fetch_shader_bindings_ok (op : Dwords3)
    (fetch_instr : ParsedVertexFetchInstruction.t) (s : Shader) :
  vertex_bindings_ok (vertex_bindings_ s) ->
  vertex_bindings_ok (vertex_bindings_ (vertex_fetch_shader op fetch_instr s)).
Proof.
  intros Hok.
  destruct (vertex_fetch_shader_untouched_but_bindings op fetch_instr s)
    as (s1 & Hu & [->| ->]).
  - rewrite (untouched_vertex_bindings _ _ Hu). exact Hok.
  - apply vertex_fetch_bindings_ok. exact Hok.
Qed.

(** X13.  The analysis keeps the vertex binding table well formed, as the
    empty table of a new shader is: binding k has binding_index k, at least
    one attribute, and the stride of its first attribute's fetch; no two
    bindings share a fetch constant. *)
Theorem vertex_bindings_stay_well_formed (s : Shader) (evs : list Event) :
  vertex_bindings_ok (vertex_bindings_ s) ->
  vertex_bindings_ok
    (vertex_bindings_ (shader (AnalyzeUcode_body cvars_dump_shaders s evs))).
Proof.
  intros Hok.
  destruct (AnalyzeUcode_body_bindings s evs) as (-> & _ & _).
  unfold analysis_walk.
  apply (step_analyze_pairs (fun st => vertex_bindings_ok (vertex_bindings_ (shader st)))).
  - intros c st _ H. exact H.
  - intros op st H. rewrite GatherVertexFetchInformation_effect.
    apply vertex_fetch_shader_bindings_ok. exact H.
  - intros op st H. rewrite GatherTextureFetchInformation_effect.
    destruct (texture_fetch_state_untouched_but_bindings op
                (ParseTextureFetchInstruction op ParsedTextureFetchInstruction.init) st)
      as (s1 & Hu & [Hs|[bindings Hs]]);
      change (vertex_bindings_ok
                (vertex_bindings_
                   (texture_fetch_state op
                      (ParseTextureFetchInstruction op ParsedTextureFetchInstruction.init)
                      st).1));
      rewrite Hs;
      [rewrite (untouched_vertex_bindings _ _ Hu)
      |change (vertex_bindings_ok (vertex_bindings_ s1));
       rewrite (untouched_vertex_bindings _ _ Hu)];
      exact H.
  - intros op count st H. rewrite GatherAluInstructionInformation_effect.
    pose proof (alu_usage_shader_untouched_but_kills op
                  (ParseAluInstruction op (type_ (shader st))
                     ParsedAluInstruction.init).1 count (shader st)) as Hu.
    cbn [shader].
    destruct (alu_writes_eA _ count && negb _);
      [change (vertex_bindings_ok
                 (vertex_bindings_
                    (alu_usage_shader op
                       (ParseAluInstruction op (type_ (shader st))
                          ParsedAluInstruction.init).1 count (shader st))))|];
      rewrite (untouched_vertex_bindings _ _ Hu); exact H.
  - intros index st H. exact H.
  - intros index st H.
    change (shader (on_shader (mark_bool_constant index) st))
      with (mark_bool_constant index (shader st)).
    unfold mark_bool_constant. destruct (negb _); exact H.
  - intros v st H. exact H.
  - change (vertex_bindings_ok (vertex_bindings_ (scan_control_flow s).1)).
    rewrite (scan_keeps_vertex_bindings _ _ (scan_control_flow_keeps s)). exact Hok.
Qed.

Lemma ParseAluInstruction_opcodes (op : Dwords3) (shader_type : ShaderType.t)
    (instr : ParsedAluInstruction.t) :
  ParsedAluInstruction.vector_opcode (ParseAluInstruction op shader_type instr).1
  = alu_vector_opcode op
  /\ ParsedAluInstruction.scalar_opcode (ParseAluInstruction op shader_type instr).1
     = alu_scalar_opcode op.
Proof.
  unfold ParseAluInstruction. cbv zeta.
  destruct (if alu_is_export op then _ else _) as [storage_target storage_index_export].
  split; reflexivity.
Qed.

Definition kills_recorded (kills0 : bool) (st : AnalysisState) : Prop :=
  kills_pixels_ (shader st) = kills0 || existsb chunk_kills (ucode_disasm_buffer st).

Lemma kills_recorded_emit (kills0 : bool) (c : Chunk) (st : AnalysisState) :
  chunk_kills c = false -> kills_recorded kills0 st -> kills_recorded kills0 (emit c st).
Proof.
  unfold kills_recorded. intros Hc H.
  change (ucode_disasm_buffer (emit c st)) with (ucode_disasm_buffer st ++ [c]).
  change (kills_pixels_ (shader (emit c st))) with (kills_pixels_ (shader st)).
  rewrite existsb_app. cbn [existsb]. rewrite Hc, !orb_false_r. exact H.
Qed.

(** X14.  After the analysis kills_pixels is set exactly when it was set
    before or some ALU instruction listed in the disassembly has a kill
    vector or scalar opcode. *)
Theorem kills_pixels_iff_kill_disassembled (s : Shader) (evs : list Event) :
  let analyzed := shader (AnalyzeUcode_body cvars_dump_shaders s evs) in
  kills_pixels_ analyzed
  = kills_pixels_ s || existsb chunk_kills (ucode_disassembly_ analyzed).
Proof.
  cbv zeta.
  destruct (AnalyzeUcode_body_program cvars_dump_shaders s evs) as (_ & _ & _ & _ & ->).
  destruct (AnalyzeUcode_body_bindings s evs) as (_ & _ & ->).
  destruct (AnalyzeUcode_body_tail cvars_dump_shaders s evs) as (_ & _ & _ & -> & _).
  change (kills_recorded (kills_pixels_ s) (analysis_walk s evs)).
  unfold analysis_walk.
  apply (step_analyze_pairs (kills_recorded (kills_pixels_ s))).
  - intros c st Hc H. apply kills_recorded_emit; [|exact H].
    destruct c as [| |[]]; try reflexivity; discriminate.
  - intros op st H. rewrite GatherVertexFetchInformation_effect.
    unfold kills_recorded in *. cbn [shader ucode_disasm_buffer].
    rewrite existsb_app. cbn [existsb chunk_kills]. rewrite !orb_false_r.
    destruct (vertex_fetch_shader_untouched_but_bindings op
                (ParseVertexFetchInstruction op (previous_vfetch_full st)
                   ParsedVertexFetchInstruction.init).2 (shader st))
      as (s1 & Hu & [->| ->]);
      [|change (kills_pixels_ s1 = kills_pixels_ s
                                   || existsb chunk_kills (ucode_disasm_buffer st))];
      rewrite (untouched_kills_pixels _ _ Hu); exact H.
  - intros op st H. rewrite GatherTextureFetchInformation_effect.
    unfold kills_recorded in *. cbn [shader ucode_disasm_buffer].
    rewrite existsb_app. cbn [existsb chunk_kills]. rewrite !orb_false_r.
    destruct (texture_fetch_state_untouched_but_bindings op
                (ParseTextureFetchInstruction op ParsedTextureFetchInstruction.init) st)
      as (s1 & Hu & [->|[bindings ->]]);
      [|change (kills_pixels_ s1 = kills_pixels_ s
                                   || existsb chunk_kills (ucode_disasm_buffer st))];
      rewrite (untouched_kills_pixels _ _ Hu); exact H.
  - intros op count st H. rewrite GatherAluInstructionInformation_effect.
    unfold kills_recorded in *. cbn [shader ucode_disasm_buffer].
    rewrite existsb_app. cbn [existsb chunk_kills].
    destruct (ParseAluInstruction_opcodes op (type_ (shader st))
                ParsedAluInstruction.init) as [-> ->].
    pose proof (alu_usage_shader_untouched_but_kills op
                  (ParseAluInstruction op (type_ (shader st))
                     ParsedAluInstruction.init).1 count (shader st)) as Hu.
    assert (Hk : kills_pixels_
                   (alu_usage_shader op
                      (ParseAluInstruction op (type_ (shader st))
                         ParsedAluInstruction.init).1 count (shader st))
                 = kills_pixels_ (shader st)
                   || AluVectorOpcodeIsKill (alu_vector_opcode op)
                   || AluScalarOpcodeIsKill (alu_scalar_opcode op))
      by exact (untouched_kills_pixels _ _ Hu).
    destruct (alu_writes_eA _ count && negb _);
      [change (kills_pixels_
                 (alu_usage_shader op
                    (ParseAluInstruction op (type_ (shader st))
                       ParsedAluInstruction.init).1 count (shader st))
               = kills_pixels_ s
                 || (existsb chunk_kills (ucode_disasm_buffer st)
                     || (AluVectorOpcodeIsKill (alu_vector_opcode op)
                         || AluScalarOpcodeIsKill (alu_scalar_opcode op) || false)))|];
      rewrite Hk, H;
      destruct (kills_pixels_ s), (existsb chunk_kills (ucode_disasm_buffer st)),
               (AluVectorOpcodeIsKill (alu_vector_opcode op)),
               (AluScalarOpcodeIsKill (alu_scalar_opcode op)); reflexivity.
  - intros index st H. exact H.
  - intros index st H. unfold kills_recorded in *.
    change (ucode_disasm_buffer (on_shader (mark_bool_constant index) st))
      with (ucode_disasm_buffer st).
    change (shader (on_shader (mark_bool_constant index) st))
      with (mark_bool_constant index (shader st)).
    unfold mark_bool_constant. destruct (negb _); exact H.
  - intros v st H. exact H.
  - unfold kills_recorded. cbn [shader ucode_disasm_buffer existsb].
    rewrite orb_false_r.
    exact (scan_keeps_kills_pixels _ _ (scan_control_flow_keeps s)).
Qed.

End WalkInvariants.

(** ** Constants that the control flow refers to *)

Definition bool_constant_marked (index : Z) (s : Shader) : Prop :=
  Z.testbit
    (arr_get 0 (ConstantRegisterMap.bool_bitmap (constant_register_map_ s)) (index / 32))
    (index mod 32) = true.

Definition loop_constant_marked (index : Z) (s : Shader) : Prop :=
  Z.testbit (ConstantRegisterMap.loop_bitmap (constant_register_map_ s)) index = true.

(** The bool and loop bitmaps only grow from [s] to [s']. *)
Definition marks_le (s s' : Shader) : Prop :=
  length (ConstantRegisterMap.bool_bitmap (constant_register_map_ s'))
  = length (ConstantRegisterMap.bool_bitmap (constant_register_map_ s))
  /\ (forall k j,
        Z.testbit
          (arr_get 0 (ConstantRegisterMap.bool_bitmap (constant_register_map_ s)) k) j
        = true ->
        Z.testbit
          (arr_get 0 (ConstantRegisterMap.bool_bitmap (constant_register_map_ s')) k) j
        = true)
  /\ (forall j,
        Z.testbit (ConstantRegisterMap.loop_bitmap (constant_register_map_ s)) j = true ->
        Z.testbit (ConstantRegisterMap.loop_bitmap (constant_register_map_ s')) j = true).

Lemma marks_le_refl (s : Shader) : marks_le s s.
Proof. repeat split; auto. Qed.

Lemma marks_le_trans (s1 s2 s3 : Shader) :
  marks_le s1 s2 -> marks_le s2 s3 -> marks_le s1 s3.
Proof.
  intros (A1 & A2 & A3) (B1 & B2 & B3). repeat split; auto. congruence.
Qed.

Lemma marks_le_same (s s' : Shader) :
  ConstantRegisterMap.bool_bitmap (constant_register_map_ s')
  = ConstantRegisterMap.bool_bitmap (constant_register_map_ s) ->
  ConstantRegisterMap.loop_bitmap (constant_register_map_ s')
  = ConstantRegisterMap.loop_bitmap (constant_register_map_ s) ->
  marks_le s s'.
Proof. intros Hb Hl. unfold marks_le. rewrite Hb, Hl. repeat split; auto. Qed.

Lemma untouched_marks_le (s s' : Shader) : untouched s s' -> marks_le s s'.
Proof.
  intros Hu. apply marks_le_same;
    [apply (untouched_bool_bitmap _ _ Hu) | apply (untouched_loop_bitmap _ _ Hu)].
Qed.

Lemma mark_bool_constant_le (index : Z) (s : Shader) :
  marks_le s (mark_bool_constant index s).
Proof.
  unfold mark_bool_constant. destruct (negb _); [|apply marks_le_refl].
  unfold marks_le. cbn. split; [|split].
  - unfold arr_upd. destruct (_ <? 0); [reflexivity|]. apply length_insert.
  - intros k j. apply arr_get_upd_lor.
  - auto.
Qed.

Lemma mark_loop_constant_le (index : Z) (s : Shader) :
  marks_le s (mark_loop_constant index s).
Proof.
  unfold mark_loop_constant, marks_le. cbn. split; [reflexivity|]. split; [auto|].
  intros j Hj. rewrite Z.lor_spec, Hj. reflexivity.
Qed.

Lemma mark_bool_constant_marks (index : Z) (s : Shader) :
  0 <= index < 256 ->
  length (ConstantRegisterMap.bool_bitmap (constant_register_map_ s)) = 8%nat ->
  bool_constant_marked index (mark_bool_constant index s).
Proof.
  intros Hi Hlen. unfold bool_constant_marked, mark_bool_constant.
  assert (Hne : negb (index =? UINT32_MAX) = true).
  { apply negb_true_iff, Z.eqb_neq. unfold UINT32_MAX. lia. }
  rewrite Hne. cbn.
  assert (Hq : 0 <= index / 32 < 8).
  { split; [apply Z.div_pos; lia|]. apply Z.div_lt_upper_bound; lia. }
  assert (Hr : 0 <= index mod 32 < 32) by (apply Z.mod_pos_bound; lia).
  rewrite arr_get_upd_same by (rewrite ?Hlen; lia).
  apply testbit_set. exact Hr.
Qed.

Lemma mark_loop_constant_marks (index : Z) (s : Shader) :
  0 <= index < 32 -> loop_constant_marked index (mark_loop_constant index s).
Proof.
  intros Hi. unfold loop_constant_marked, mark_loop_constant. cbn.
  apply testbit_set. exact Hi.
Qed.

Section ControlFlowConstants.
Context `{SD : ShaderDecl} `{ER : ExportRegisterDecl} `{ALU : AluInstructionDecl}
        `{VF : VertexFetchInstructionDecl} `{TF : TextureFetchInstructionDecl}
        `{CF : ControlFlowInstructionDecl}.
Variable cvars_dump_shaders : string.

(** What the second loop of the analysis marks for one control-flow
    instruction. *)
Definition cf_constants_marked (cf : ControlFlowInstruction) (s : Shader) : Prop :=
  match cf_opcode cf with
  | ControlFlowOpcode.kLoopStart =>
      0 <= loop_start_loop_id cf < 32 -> loop_constant_marked (loop_start_loop_id cf) s
  | ControlFlowOpcode.kLoopEnd =>
      0 <= loop_end_loop_id cf < 32 -> loop_constant_marked (loop_end_loop_id cf) s
  | ControlFlowOpcode.kCondExec | ControlFlowOpcode.kCondExecEnd
  | ControlFlowOpcode.kCondExecPredClean | ControlFlowOpcode.kCondExecPredCleanEnd =>
      0 <= cond_exec_bool_address cf < 256 ->
      bool_constant_marked (cond_exec_bool_address cf) s
  | ControlFlowOpcode.kCondCall =>
      cond_call_is_unconditional cf = false ->
      cond_call_is_predicated cf = false ->
      0 <= cond_call_bool_address cf < 256 ->
      bool_constant_marked (cond_call_bool_address cf) s
  | ControlFlowOpcode.kCondJmp =>
      cond_jmp_is_unconditional cf = false ->
      cond_jmp_is_predicated cf = false ->
      0 <= cond_jmp_bool_address cf < 256 ->
      bool_constant_marked (cond_jmp_bool_address cf) s
  | _ => True
  end.

Lemma cf_constants_marked_mono (cf : ControlFlowInstruction) (s s' : Shader) :
  marks_le s s' -> cf_constants_marked cf s -> cf_constants_marked cf s'.
Proof.
  intros (_ & Hb & Hl). unfold cf_constants_marked, bool_constant_marked,
    loop_constant_marked.
  destruct (cf_opcode cf); auto.
Qed.

Lemma GatherVertexFetchInformation_marks (op : Dwords3) (st : AnalysisState) :
  marks_le (shader st) (shader (GatherVertexFetchInformation op st)).
Proof.
  rewrite GatherVertexFetchInformation_effect.
  destruct (vertex_fetch_shader_untouched_but_bindings op
              (ParseVertexFetchInstruction op (previous_vfetch_full st)
                 ParsedVertexFetchInstruction.init).2 (shader st))
    as (s1 & Hu & [Hs|Hs]);
    change (marks_le (shader st)
              (vertex_fetch_shader op
                 (ParseVertexFetchInstruction op (previous_vfetch_full st)
                    ParsedVertexFetchInstruction.init).2 (shader st)));
    rewrite Hs; destruct Hu; apply marks_le_same; assumption.
Qed.

Lemma GatherTextureFetchInformation_marks (op : Dwords3) (st : AnalysisState) :
  marks_le (shader st) (shader (GatherTextureFetchInformation op st)).
Proof.
  rewrite GatherTextureFetchInformation_effect.
  destruct (texture_fetch_state_untouched_but_bindings op
              (ParseTextureFetchInstruction op ParsedTextureFetchInstruction.init) st)
    as (s1 & Hu & [Hs|[bindings Hs]]);
    change (marks_le (shader st)
              (texture_fetch_state op
                 (ParseTextureFetchInstruction op ParsedTextureFetchInstruction.init)
                 st).1);
    rewrite Hs; destruct Hu; apply marks_le_same; assumption.
Qed.

Lemma GatherAluInstructionInformation_marks (op : Dwords3) (count : Z)
    (st : AnalysisState) :
  marks_le (shader st) (shader (GatherAluInstructionInformation op count st)).
Proof.
  rewrite GatherAluInstructionInformation_effect.
  pose proof (alu_usage_shader_untouched_but_kills op
                (ParseAluInstruction op (type_ (shader st)) ParsedAluInstruction.init).1
                count (shader st)) as Hu.
  cbn [shader].
  destruct (alu_writes_eA _ count && negb _); destruct Hu;
    apply marks_le_same; assumption.
Qed.

Ltac marks_steps :=
  first
    [ apply marks_le_refl
    | intros ? ? _ H; exact H
    | intros ? ? H; exact H
    | intros ? ? H; eapply marks_le_trans;
      [exact H | apply GatherVertexFetchInformation_marks]
    | intros ? ? H; eapply marks_le_trans;
      [exact H | apply GatherTextureFetchInformation_marks]
    | intros ? ? ? H; eapply marks_le_trans;
      [exact H | apply GatherAluInstructionInformation_marks]
    | intros ? ? H; eapply marks_le_trans;
      [exact H | apply mark_loop_constant_le]
    | intros ? ? H; eapply marks_le_trans;
      [exact H | apply mark_bool_constant_le] ].

Lemma GatherExecInformation_marks (instr : ParsedExecInstruction.t) (count : Z)
    (st : AnalysisState) :
  marks_le (shader st) (shader (GatherExecInformation instr count st)).
Proof.
  apply (step_GatherExecInformation (fun st' => marks_le (shader st) (shader st')));
    marks_steps.
Qed.

Lemma analyze_cf_marks (i j : Z) (cf : ControlFlowInstruction) (st : AnalysisState) :
  marks_le (shader st) (shader (analyze_cf i j cf st)).
Proof.
  apply (step_analyze_cf (fun st' => marks_le (shader st) (shader st')));
    marks_steps.
Qed.

Lemma analyze_pairs_marks (l : list Z) (st : AnalysisState) :
  marks_le (shader st) (shader (foldl analyze_pair st l)).
Proof.
  apply (step_analyze_pairs (fun st' => marks_le (shader st) (shader st')));
    marks_steps.
Qed.

Ltac program_steps :=
  first
    [ apply same_program_refl
    | intros ? ? _ H; exact H
    | intros ? ? H; exact H
    | intros ? ? H; eapply same_program_trans;
      [exact H | apply GatherVertexFetchInformation_program]
    | intros ? ? H; eapply same_program_trans;
      [exact H | apply GatherTextureFetchInformation_program]
    | intros ? ? ? H; eapply same_program_trans;
      [exact H | apply GatherAluInstructionInformation_program]
    | intros ? ? []; constructor; assumption
    | intros index st' H; eapply same_program_trans; [exact H|];
      change (shader (on_shader (mark_bool_constant index) st'))
        with (mark_bool_constant index (shader st'));
      unfold mark_bool_constant; destruct (negb _); constructor; reflexivity ].

Lemma analyze_cf_program (i j : Z) (cf : ControlFlowInstruction) (st : AnalysisState) :
  same_program (shader st) (shader (analyze_cf i j cf st)).
Proof.
  apply (step_analyze_cf (fun st' => same_program (shader st) (shader st')));
    program_steps.
Qed.

(** One control-flow instruction marks its own constants. *)
Lemma analyze_cf_marked (i j : Z) (cf : ControlFlowInstruction) (st : AnalysisState) :
  length (ConstantRegisterMap.bool_bitmap (constant_register_map_ (shader st))) = 8%nat ->
  cf_constants_marked cf (shader (analyze_cf i j cf st)).
Proof.
  intros Hlen. unfold analyze_cf, cf_constants_marked. cbv zeta.
  set (st2 := emit (AppendFormat fmt_cf_index [i; j])
                (if bool_decide (u32 (i * 2 + j) ∈ label_addresses_ (shader st))
                 then emit (AppendFormat fmt_label [u32 (i * 2 + j)]) st
                 else st)).
  assert (Hlen2 : length (ConstantRegisterMap.bool_bitmap
                            (constant_register_map_ (shader st2))) = 8%nat).
  { unfold st2. destruct (bool_decide _); exact Hlen. }
  clearbody st2.
  assert (Hexec : forall instr,
             length (ConstantRegisterMap.bool_bitmap
                       (constant_register_map_
                          (shader (GatherExecInformation instr
                                     (memexport_alloc_count st2) st2)))) = 8%nat).
  { intros instr.
    destruct (GatherExecInformation_marks instr (memexport_alloc_count st2) st2)
      as (Hl & _ & _).
    rewrite Hl. exact Hlen2. }
  destruct (cf_opcode cf); try exact I.
  - intros Hr.
    exact (mark_bool_constant_marks _ _ Hr (Hexec _)).
  - intros Hr.
    exact (mark_bool_constant_marks _ _ Hr (Hexec _)).
  - intros Hr. exact (mark_loop_constant_marks _ _ Hr).
  - intros Hr. exact (mark_loop_constant_marks _ _ Hr).
  - intros Hu Hp Hr. unfold ParseControlFlowCondCall. rewrite Hu, Hp. cbn.
    exact (mark_bool_constant_marks _ _ Hr Hlen2).
  - intros Hu Hp Hr. unfold ParseControlFlowCondJmp. rewrite Hu, Hp. cbn.
    exact (mark_bool_constant_marks _ _ Hr Hlen2).
  - intros Hr.
    exact (mark_bool_constant_marks _ _ Hr (Hexec _)).
  - intros Hr.
    exact (mark_bool_constant_marks _ _ Hr (Hexec _)).
Qed.

Lemma analyze_pairs_marked (ucode : list Z) (l : list Z) (st : AnalysisState) :
  ucode_data_ (shader st) = ucode ->
  length (ConstantRegisterMap.bool_bitmap (constant_register_map_ (shader st))) = 8%nat ->
  forall cf, cf ∈ cf_of_pairs ucode l ->
    cf_constants_marked cf (shader (foldl analyze_pair st l)).
Proof.
  revert st. induction l as [|i l IH]; intros st Hu Hlen cf Hin.
  - inversion Hin.
  - cbn [foldl]. unfold cf_of_pairs in Hin. cbn [flat_map] in Hin.
    change (analyze_pair st i)
      with (let '(cf_a, cf_b) :=
              UnpackControlFlowInstructions (dwords_at (ucode_data_ (shader st)) i) in
            analyze_cf i 1 cf_b (analyze_cf i 0 cf_a st)).
    rewrite Hu.
    destruct (UnpackControlFlowInstructions (dwords_at ucode i)) as [cf_a cf_b] eqn:Hp.
    set (st_a := analyze_cf i 0 cf_a st).
    set (st_b := analyze_cf i 1 cf_b st_a).
    assert (Hlen_a : length (ConstantRegisterMap.bool_bitmap
                               (constant_register_map_ (shader st_a))) = 8%nat).
    { destruct (analyze_cf_marks i 0 cf_a st) as (Hl & _ & _).
      unfold st_a. rewrite Hl. exact Hlen. }
    assert (Hlen_b : length (ConstantRegisterMap.bool_bitmap
                               (constant_register_map_ (shader st_b))) = 8%nat).
    { destruct (analyze_cf_marks i 1 cf_b st_a) as (Hl & _ & _).
      unfold st_b. rewrite Hl. exact Hlen_a. }
    assert (Hu_b : ucode_data_ (shader st_b) = ucode).
    { unfold st_b, st_a.
      rewrite (same_ucode_data _ _ (analyze_cf_program i 1 cf_b _)).
      rewrite (same_ucode_data _ _ (analyze_cf_program i 0 cf_a _)). exact Hu. }
    apply elem_of_app in Hin. destruct Hin as [Hin|Hin].
    + apply elem_of_cons in Hin. destruct Hin as [->|Hin].
      * eapply cf_constants_marked_mono; [apply analyze_pairs_marks|].
        eapply cf_constants_marked_mono; [apply analyze_cf_marks|].
        apply analyze_cf_marked. exact Hlen.
      * apply list_elem_of_singleton in Hin. subst cf.
        eapply cf_constants_marked_mono; [apply analyze_pairs_marks|].
        apply analyze_cf_marked. exact Hlen_a.
    + apply IH; assumption.
Qed.

(** X15.  On a shader whose bool bitmap has its eight words, after the
    analysis, for every control-flow instruction below the pair bound: the
    loop constant of a loop start or loop end (index below 32) is set in the
    loop bitmap, and the bool constant (index below 256) of a cond-exec,
    cond-exec-pred-clean, or bool-conditional call or jump is set in the
    bool bitmap. Later steps never clear these bits. *)
Theorem control_flow_constants_marked (s : Shader) (evs : list Event) :
  length (ConstantRegisterMap.bool_bitmap (constant_register_map_ s)) = 8%nat ->
  let analyzed := shader (AnalyzeUcode_body cvars_dump_shaders s evs) in
  forall cf,
    cf ∈ cf_of_pairs (ucode_data_ s) (seqZ 0 (cf_pair_index_bound_ analyzed)) ->
    cf_constants_marked cf analyzed.
Proof.
  intros Hlen. cbv zeta. intros cf Hin.
  destruct (AnalyzeUcode_body_program cvars_dump_shaders s evs)
    as (_ & _ & Hb & _ & _).
  cbv zeta in Hb. rewrite Hb in Hin.
  destruct (AnalyzeUcode_body_tail cvars_dump_shaders s evs)
    as (eM & consts & Hs & _ & _).
  cbv zeta in Hs. rewrite Hs.
  destruct (finish_float_constants_shader
              (set_ucode_disassembly_ (ucode_disasm_buffer (analysis_walk s evs))
                 (shader (analysis_walk s evs)))) as (fb & fc & ->).
  apply (cf_constants_marked_mono cf (shader (analysis_walk s evs)));
    [apply marks_le_same; reflexivity|].
  destruct (scan_control_flow_cfs s) as (_ & _ & Hu). cbv zeta in Hu.
  unfold analysis_walk.
  apply (analyze_pairs_marked (ucode_data_ s)); [exact Hu| |exact Hin].
  cbn [shader].
  rewrite (scan_keeps_constant_register_map _ _ (scan_control_flow_keeps s)).
  exact Hlen.
Qed.

End ControlFlowConstants.

(** ** The float constant count *)

Definition is_uint64 (w : Z) : Prop := 0 <= w < 2 ^ 64.

Definition float_words_ok (s : Shader) : Prop :=
  Forall is_uint64 (ConstantRegisterMap.float_bitmap (constant_register_map_ s)).

Lemma lor_uint64 (a b : Z) : is_uint64 a -> is_uint64 b -> is_uint64 (Z.lor a b).
Proof.
  unfold is_uint64. intros [Ha Ha'] [Hb Hb']. split; [apply Z.lor_nonneg; lia|].
  destruct (Z.eq_dec a 0) as [->|Hna]; [rewrite Z.lor_0_l; exact Hb'|].
  destruct (Z.eq_dec b 0) as [->|Hnb]; [rewrite Z.lor_0_r; exact Ha'|].
  apply Z.log2_lt_pow2.
  - assert (0 <= Z.lor a b) by (apply Z.lor_nonneg; lia).
    assert (Z.lor a b <> 0) by (intros H0; apply Z.lor_eq_0_iff in H0; lia).
    lia.
  - rewrite Z.log2_lor by lia.
    apply Z.max_lub_lt; apply Z.log2_lt_pow2; lia.
Qed.

Lemma float_bit_uint64 (index : Z) : is_uint64 (Z.shiftl 1 (Z.land index 63)).
Proof.
  assert (Hr : 0 <= Z.land index 63 < 64).
  { change 63 with (Z.ones 6). rewrite Z.land_ones by lia.
    apply Z.mod_pos_bound. lia. }
  unfold is_uint64. rewrite Z.shiftl_1_l. split.
  - apply Z.pow_nonneg. lia.
  - apply Z.pow_lt_mono_r; lia.
Qed.

Section FloatConstantCount.
Context `{SD : ShaderDecl} `{ER : ExportRegisterDecl} `{ALU : AluInstructionDecl}
        `{VF : VertexFetchInstructionDecl} `{TF : TextureFetchInstructionDecl}
        `{CF : ControlFlowInstructionDecl}.
Variable cvars_dump_shaders : string.

Lemma gather_register_use_map mode index (s : Shader) :
  constant_register_map_ (gather_register_use mode index s) = constant_register_map_ s.
Proof. unfold gather_register_use. destruct (bool_decide _); reflexivity. Qed.

Lemma GatherFetchResultInformation_map result (s : Shader) :
  constant_register_map_ (GatherFetchResultInformation result s)
  = constant_register_map_ s.
Proof.
  unfold GatherFetchResultInformation. destruct (negb _); [reflexivity|].
  apply gather_register_use_map.
Qed.

Lemma GatherAluResultInformation_map result count (s : Shader) :
  constant_register_map_ (GatherAluResultInformation result count s)
  = constant_register_map_ s.
Proof.
  unfold GatherAluResultInformation. destruct (negb _); [reflexivity|].
  destruct (InstructionResult.storage_target result); try reflexivity.
  - apply gather_register_use_map.
  - destruct (memexport_count_valid count); reflexivity.
Qed.

Lemma GatherOperandInformation_float_words operand (s : Shader) :
  float_words_ok s -> float_words_ok (GatherOperandInformation operand s).
Proof.
  intros Hok. unfold GatherOperandInformation, float_words_ok in *.
  destruct (InstructionOperand.storage_source operand); try exact Hok.
  - rewrite gather_register_use_map. exact Hok.
  - destruct (bool_decide _); [|exact Hok].
    cbn. unfold arr_upd. destruct (_ <? 0); [exact Hok|].
    apply Forall_insert; [exact Hok|].
    apply lor_uint64; [|apply float_bit_uint64].
    apply arr_get_Forall; [unfold is_uint64; lia|exact Hok].
Qed.

Lemma gather_operands_float_words count operands (s : Shader) :
  float_words_ok s -> float_words_ok (gather_operands count operands s).
Proof.
  unfold gather_operands. generalize (seqZ 0 count). intros l. revert s.
  induction l as [|i l IH]; intros s Hok; cbn [foldl]; [exact Hok|].
  apply IH, GatherOperandInformation_float_words, Hok.
Qed.

Lemma float_words_ok_map (s s' : Shader) :
  constant_register_map_ s' = constant_register_map_ s ->
  float_words_ok s -> float_words_ok s'.
Proof. unfold float_words_ok. intros ->. auto. Qed.

Lemma analysis_walk_float_words (s : Shader) (evs : list Event) :
  float_words_ok s -> float_words_ok (shader (analysis_walk s evs)).
Proof.
  intros Hok. unfold analysis_walk.
  apply (step_analyze_pairs (fun st => float_words_ok (shader st))).
  - intros c st _ H. exact H.
  - intros op st H. rewrite GatherVertexFetchInformation_effect.
    cbn [shader]. unfold vertex_fetch_shader. cbv zeta.
    assert (H1 : float_words_ok
                   (GatherFetchResultInformation
                      (ParsedVertexFetchInstruction.result
                         (ParseVertexFetchInstruction op (previous_vfetch_full st)
                            ParsedVertexFetchInstruction.init).2) (shader st))).
    { eapply float_words_ok_map; [apply GatherFetchResultInformation_map|exact H]. }
    destruct (negb (nonzero _)); [exact H1|].
    exact (gather_operands_float_words _ _ _ H1).
  - intros op st H. rewrite GatherTextureFetchInformation_effect.
    cbn [shader]. unfold texture_fetch_state. cbv zeta.
    assert (H1 : float_words_ok
                   (gather_operands
                      (ParsedTextureFetchInstruction.operand_count
                         (ParseTextureFetchInstruction op
                            ParsedTextureFetchInstruction.init))
                      (ParsedTextureFetchInstruction.operands
                         (ParseTextureFetchInstruction op
                            ParsedTextureFetchInstruction.init))
                      (GatherFetchResultInformation
                         (ParsedTextureFetchInstruction.result
                            (ParseTextureFetchInstruction op
                               ParsedTextureFetchInstruction.init)) (shader st)))).
    { apply gather_operands_float_words.
      eapply float_words_ok_map; [apply GatherFetchResultInformation_map|exact H]. }
    destruct (texture_opcode_sets_state (tf_opcode op)); [exact H1|].
    destruct (find_texture_binding_index _ _ _ =? -1); exact H1.
  - intros op count st H. rewrite GatherAluInstructionInformation_effect.
    cbn [shader].
    assert (H1 : float_words_ok
                   (alu_usage_shader op
                      (ParseAluInstruction op (type_ (shader st))
                         ParsedAluInstruction.init).1 count (shader st))).
    { unfold alu_usage_shader.
      do 2 apply gather_operands_float_words.
      eapply float_words_ok_map; [apply GatherAluResultInformation_map|].
      eapply float_words_ok_map; [apply GatherAluResultInformation_map|].
      exact H. }
    destruct (alu_writes_eA _ count && negb _); exact H1.
  - intros index st H. exact H.
  - intros index st H.
    change (shader (on_shader (mark_bool_constant index) st))
      with (mark_bool_constant index (shader st)).
    unfold mark_bool_constant. destruct (negb _); exact H.
  - intros v st H. exact H.
  - cbn [shader]. eapply float_words_ok_map; [|exact Hok].
    exact (scan_keeps_constant_register_map _ _ (scan_control_flow_keeps s)).
Qed.

(** X16.  If bit_count of a 64-bit word is between 0 and 64 and the four
    float bitmap words of the shader are 64-bit values, then after the
    analysis float_count is between 0 and 256; with dynamic float addressing
    it is exactly 256 and every bitmap word is all ones. *)
Theorem float_count_at_most_256 (s : Shader) (evs : list Event) :
  (forall w, is_uint64 w -> 0 <= bit_count w <= 64) ->
  float_words_ok s ->
  let map :=
    constant_register_map_ (shader (AnalyzeUcode_body cvars_dump_shaders s evs)) in
  0 <= ConstantRegisterMap.float_count map <= 256
  /\ (ConstantRegisterMap.float_dynamic_addressing map = true ->
      ConstantRegisterMap.float_count map = 256
      /\ Forall (fun w => w = 2 ^ 64 - 1) (ConstantRegisterMap.float_bitmap map)).
Proof.
  intros Hbits Hok. cbv zeta.
  destruct (AnalyzeUcode_body_tail cvars_dump_shaders s evs)
    as (eM & consts & Hs & _ & _).
  cbv zeta in Hs. rewrite Hs.
  pose proof (analysis_walk_float_words s evs Hok) as Hwords.
  set (walked := shader (analysis_walk s evs)) in *.
  change (constant_register_map_
            (set_is_ucode_analyzed_ true
               (set_memexport_stream_constants_ consts
                  (set_memexport_eM_written_ eM
                     (finish_float_constants
                        (set_ucode_disassembly_
                           (ucode_disasm_buffer (analysis_walk s evs)) walked))))))
    with (constant_register_map_
            (finish_float_constants
               (set_ucode_disassembly_
                  (ucode_disasm_buffer (analysis_walk s evs)) walked))).
  unfold finish_float_constants. cbv zeta.
  change (constant_register_map_
            (set_ucode_disassembly_ (ucode_disasm_buffer (analysis_walk s evs)) walked))
    with (constant_register_map_ walked).
  unfold float_words_ok in Hwords.
  destruct (ConstantRegisterMap.float_dynamic_addressing (constant_register_map_ walked))
    eqn:Hdyn.
  - cbn. split; [lia|]. intros _. split; [reflexivity|].
    apply Forall_fmap. apply Forall_true. intros w. reflexivity.
  - cbn -[arr_get u32 Z.add]. rewrite Hdyn. split; [|discriminate].
    assert (Hw : forall i,
               0 <= bit_count
                      (arr_get 0 (ConstantRegisterMap.float_bitmap
                                    (constant_register_map_ walked)) i) <= 64).
    { intros i. apply Hbits. apply arr_get_Forall; [unfold is_uint64; lia|exact Hwords]. }
    pose proof (Hw 0) as H0. pose proof (Hw 1) as H1.
    pose proof (Hw 2) as H2. pose proof (Hw 3) as H3.
    rewrite Z.add_0_l.
    rewrite (u32_small (bit_count _)) by lia.
    rewrite (u32_small (bit_count _ + bit_count _)) by lia.
    rewrite (u32_small (bit_count _ + bit_count _ + bit_count _)) by lia.
    rewrite u32_small by lia. lia.
Qed.

End FloatConstantCount.

(** ** Results *)

(** The usage tables of [s] account for a result that an ALU instruction
    writes while [count] memexport allocs have been seen. *)
Definition result_accounted `{SD : ShaderDecl} (result : InstructionResult.t)
    (count : Z) (s : Shader) : Prop :=
  let index := InstructionResult.storage_index result in
  match InstructionResult.storage_target result with
  | InstructionStorageTarget.kRegister =>
      if bool_decide (InstructionResult.storage_addressing_mode result
                      = InstructionStorageAddressingMode.kStatic)
      then u32 (index + 1) <= register_static_address_bound_ s
      else uses_register_dynamic_addressing_ s = true
  | InstructionStorageTarget.kExportData =>
      memexport_count_valid count = true ->
      0 <= index < 32 ->
      (Z.to_nat (count - 1) < length (memexport_eM_written_ s))%nat ->
      Z.testbit (arr_get 0 (memexport_eM_written_ s) (count - 1)) index = true
  | InstructionStorageTarget.kColor =>
      0 <= index < 32 -> Z.testbit (writes_color_targets_ s) index = true
  | InstructionStorageTarget.kDepth => writes_depth_ s = true
  | _ => True
  end.

(** The output tables only grow from [s] to [s']. *)
Definition outputs_le (s s' : Shader) : Prop :=
  register_static_address_bound_ s <= register_static_address_bound_ s'
  /\ (uses_register_dynamic_addressing_ s = true ->
      uses_register_dynamic_addressing_ s' = true)
  /\ (forall j, Z.testbit (writes_color_targets_ s) j = true ->
                Z.testbit (writes_color_targets_ s') j = true)
  /\ (writes_depth_ s = true -> writes_depth_ s' = true)
  /\ length (memexport_eM_written_ s') = length (memexport_eM_written_ s)
  /\ (forall k j, Z.testbit (arr_get 0 (memexport_eM_written_ s) k) j = true ->
                  Z.testbit (arr_get 0 (memexport_eM_written_ s') k) j = true).

Lemma outputs_le_refl (s : Shader) : outputs_le s s.
Proof. unfold outputs_le. repeat split; auto. apply Z.le_refl. Qed.

Lemma outputs_le_trans (s1 s2 s3 : Shader) :
  outputs_le s1 s2 -> outputs_le s2 s3 -> outputs_le s1 s3.
Proof.
  intros (A1 & A2 & A3 & A4 & A5 & A6) (B1 & B2 & B3 & B4 & B5 & B6).
  unfold outputs_le. repeat split; auto.
  - eapply Z.le_trans; eassumption.
  - congruence.
Qed.

Section ResultProperties.
Context `{SD : ShaderDecl} `{ER : ExportRegisterDecl} `{ALU : AluInstructionDecl}
        `{VF : VertexFetchInstructionDecl} `{TF : TextureFetchInstructionDecl}.

Lemma result_accounted_mono (result : InstructionResult.t) (count : Z) (s s' : Shader) :
  outputs_le s s' -> result_accounted result count s -> result_accounted result count s'.
Proof.
  intros (A1 & A2 & A3 & A4 & A5 & A6). unfold result_accounted. cbv zeta.
  destruct (InstructionResult.storage_target result); auto.
  - destruct (bool_decide _); [|auto]. intros H. eapply Z.le_trans; eassumption.
  - intros H Hv Hi Hlen. apply A6, H; [assumption..|]. rewrite <- A5. exact Hlen.
Qed.

Lemma gather_register_use_outputs mode index (s : Shader) :
  outputs_le s (gather_register_use mode index s).
Proof.
  unfold gather_register_use, outputs_le.
  destruct (bool_decide _); repeat split; auto; try apply Z.le_refl.
  apply Z.le_max_l.
Qed.

Lemma GatherOperandInformation_outputs operand (s : Shader) :
  outputs_le s (GatherOperandInformation operand s).
Proof.
  unfold GatherOperandInformation.
  destruct (InstructionOperand.storage_source operand);
    try apply outputs_le_refl.
  - apply gather_register_use_outputs.
  - destruct (bool_decide _); unfold outputs_le; repeat split; auto; apply Z.le_refl.
Qed.

Lemma gather_operands_outputs count operands (s : Shader) :
  outputs_le s (gather_operands count operands s).
Proof.
  unfold gather_operands. generalize (seqZ 0 count). intros l. revert s.
  induction l as [|i l IH]; intros s; cbn [foldl].
  - apply outputs_le_refl.
  - eapply outputs_le_trans; [|apply IH]. apply GatherOperandInformation_outputs.
Qed.

Lemma GatherAluResultInformation_outputs result count (s : Shader) :
  outputs_le s (GatherAluResultInformation result count s).
Proof.
  unfold GatherAluResultInformation. destruct (negb _); [apply outputs_le_refl|].
  destruct (InstructionResult.storage_target result); try apply outputs_le_refl.
  - apply gather_register_use_outputs.
  - destruct (memexport_count_valid count); [|apply outputs_le_refl].
    unfold outputs_le. cbn. repeat split; auto; try apply Z.le_refl.
    + unfold arr_upd. destruct (_ <? 0); [reflexivity|]. apply length_insert.
    + intros k j. apply arr_get_upd_lor.
  - unfold outputs_le. cbn. repeat split; auto; try apply Z.le_refl.
    intros j Hj. rewrite Z.lor_spec, Hj. reflexivity.
  - unfold outputs_le. cbn. repeat split; auto; apply Z.le_refl.
Qed.

Lemma GatherAluResultInformation_accounts result count (s : Shader) :
  nonzero (GetUsedWriteMask result) = true ->
  result_accounted result count (GatherAluResultInformation result count s).
Proof.
  intros Hused. unfold GatherAluResultInformation, result_accounted. cbv zeta.
  rewrite Hused. cbn [negb].
  destruct (InstructionResult.storage_target result); try exact I.
  - unfold gather_register_use. destruct (bool_decide _); cbn.
    + apply Z.le_max_r.
    + reflexivity.
  - intros Hv Hi Hlen. rewrite Hv in *. cbn in *.
    unfold arr_upd in Hlen. unfold memexport_count_valid in Hv.
    apply andb_true_iff in Hv. destruct Hv as [Hv1 Hv2].
    apply Z.ltb_lt in Hv1.
    destruct (Z.ltb_spec (count - 1) 0); [lia|].
    rewrite length_insert in Hlen.
    rewrite arr_get_upd_same by (assumption || lia).
    apply testbit_set. exact Hi.
  - intros Hi. cbn. apply testbit_set. exact Hi.
  - reflexivity.
Qed.

(** The register tables of [s] account for the destination register of a
    fetch: [GatherFetchResultInformation] does not look at the target. *)
Definition fetch_result_accounted (result : InstructionResult.t) (s : Shader) : Prop :=
  if bool_decide (InstructionResult.storage_addressing_mode result
                  = InstructionStorageAddressingMode.kStatic)
  then u32 (InstructionResult.storage_index result + 1) <= register_static_address_bound_ s
  else uses_register_dynamic_addressing_ s = true.

Lemma fetch_result_accounted_mono (result : InstructionResult.t) (s s' : Shader) :
  outputs_le s s' -> fetch_result_accounted result s -> fetch_result_accounted result s'.
Proof.
  intros (A1 & A2 & _). unfold fetch_result_accounted.
  destruct (bool_decide _); [|auto]. intros H. eapply Z.le_trans; eassumption.
Qed.

Lemma GatherFetchResultInformation_accounts result (s : Shader) :
  nonzero (GetUsedWriteMask result) = true ->
  fetch_result_accounted result (GatherFetchResultInformation result s).
Proof.
  intros Hused. unfold GatherFetchResultInformation, fetch_result_accounted.
  rewrite Hused. cbn [negb]. unfold gather_register_use.
  destruct (bool_decide _); cbn; [apply Z.le_max_r|reflexivity].
Qed.

(** X17.  A result with a non-empty used write mask is accounted for by the
    gathering functions: a register result raises the static register bound
    above its index or sets the dynamic-addressing flag; for ALU results an
    export data write sets its bit in memexport_eM_written of the current
    alloc when the alloc count is between 1 and kMaxMemExports, a color
    write its bit in writes_color_targets, a depth write writes_depth. This
    holds for the vector and scalar results of an ALU instruction and for
    the result of a texture or vertex fetch. *)
Theorem results_feed_usage (op : Dwords3) (count : Z) (st : AnalysisState) :
  let alu := (ParseAluInstruction op (type_ (shader st)) ParsedAluInstruction.init).1 in
  let vresult := ParsedAluInstruction.vector_and_constant_result alu in
  let sresult := ParsedAluInstruction.scalar_result alu in
  let tfetch := ParseTextureFetchInstruction op ParsedTextureFetchInstruction.init in
  let vfetch :=
    (ParseVertexFetchInstruction op (previous_vfetch_full st)
       ParsedVertexFetchInstruction.init).2 in
  (nonzero (GetUsedWriteMask vresult) = true ->
   result_accounted vresult count (shader (GatherAluInstructionInformation op count st)))
  /\ (nonzero (GetUsedWriteMask sresult) = true ->
      result_accounted sresult count
        (shader (GatherAluInstructionInformation op count st)))
  /\ (nonzero (GetUsedWriteMask (ParsedTextureFetchInstruction.result tfetch)) = true ->
      fetch_result_accounted (ParsedTextureFetchInstruction.result tfetch)
        (shader (GatherTextureFetchInformation op st)))
  /\ (nonzero (GetUsedWriteMask (ParsedVertexFetchInstruction.result vfetch)) = true ->
      fetch_result_accounted (ParsedVertexFetchInstruction.result vfetch)
        (shader (GatherVertexFetchInformation op st))).
Proof.
  cbv zeta. split; [|split; [|split]].
  - intros Hused. rewrite GatherAluInstructionInformation_effect. cbn [shader].
    set (alu := (ParseAluInstruction op (type_ (shader st)) ParsedAluInstruction.init).1)
      in *.
    assert (H : result_accounted (ParsedAluInstruction.vector_and_constant_result alu)
                  count (alu_usage_shader op alu count (shader st))).
    { unfold alu_usage_shader.
      eapply result_accounted_mono; [apply gather_operands_outputs|].
      eapply result_accounted_mono; [apply gather_operands_outputs|].
      eapply result_accounted_mono; [apply GatherAluResultInformation_outputs|].
      apply GatherAluResultInformation_accounts. exact Hused. }
    destruct (alu_writes_eA alu count && negb _); exact H.
  - intros Hused. rewrite GatherAluInstructionInformation_effect. cbn [shader].
    set (alu := (ParseAluInstruction op (type_ (shader st)) ParsedAluInstruction.init).1)
      in *.
    assert (H : result_accounted (ParsedAluInstruction.scalar_result alu)
                  count (alu_usage_shader op alu count (shader st))).
    { unfold alu_usage_shader.
      eapply result_accounted_mono; [apply gather_operands_outputs|].
      eapply result_accounted_mono; [apply gather_operands_outputs|].
      apply GatherAluResultInformation_accounts. exact Hused. }
    destruct (alu_writes_eA alu count && negb _); exact H.
  - intros Hused. rewrite GatherTextureFetchInformation_effect. cbn [shader].
    unfold texture_fetch_state. cbv zeta.
    set (tfetch := ParseTextureFetchInstruction op ParsedTextureFetchInstruction.init)
      in *.
    assert (H : fetch_result_accounted (ParsedTextureFetchInstruction.result tfetch)
                  (gather_operands (ParsedTextureFetchInstruction.operand_count tfetch)
                     (ParsedTextureFetchInstruction.operands tfetch)
                     (GatherFetchResultInformation
                        (ParsedTextureFetchInstruction.result tfetch) (shader st)))).
    { eapply fetch_result_accounted_mono; [apply gather_operands_outputs|].
      apply GatherFetchResultInformation_accounts. exact Hused. }
    destruct (texture_opcode_sets_state (tf_opcode op)); [exact H|].
    destruct (find_texture_binding_index _ _ _ =? -1); exact H.
  - intros Hused. rewrite GatherVertexFetchInformation_effect. cbn [shader].
    unfold vertex_fetch_shader. cbv zeta.
    set (vfetch := (ParseVertexFetchInstruction op (previous_vfetch_full st)
                      ParsedVertexFetchInstruction.init).2) in *.
    pose proof (GatherFetchResultInformation_accounts
                  (ParsedVertexFetchInstruction.result vfetch) (shader st) Hused) as H.
    destruct (negb (nonzero (GetUsedResultComponents _))); [exact H|].
    exact (fetch_result_accounted_mono _ _ _ (gather_operands_outputs _ _ _) H).
Qed.

End ResultProperties.

(** ** The translation walks what the analysis disassembled *)

(** The parsed instruction that a chunk of the disassembly stands for. *)
Definition chunk_instruction (c : Chunk) : option ParsedInstruction :=
  match c with
  | Disassemble instr => Some instr
  | _ => None
  end.

Definition disassembled (buffer : StringBuffer) : list ParsedInstruction :=
  omap chunk_instruction buffer.

(** A backend whose state is the list of the parsed instructions it has
    been given, in the order of the calls. *)
Definition record (instr : ParsedInstruction) (t : Translator (list ParsedInstruction))
    : Translator (list ParsedInstruction) :=
  let '(mkTranslator a b c d e f g) := t in mkTranslator (a ++ [instr]) b c d e f g.

Section Recorder.
Context `{SD : ShaderDecl} `{ER : ExportRegisterDecl} `{ALU : AluInstructionDecl}
        `{VF : VertexFetchInstructionDecl} `{TF : TextureFetchInstructionDecl}
        `{CF : ControlFlowInstructionDecl}.
Variable cvars_dump_shaders : string.

Definition recording_backend : BackendDecl (B := list ParsedInstruction) :=
  {| GetModificationRegisterCount := fun _ => 0;
     StartTranslation := fun t => t;
     CompleteTranslation := fun t => ([], t);
     PostTranslation := fun t => t;
     PreProcessControlFlowInstructions := fun _ t => t;
     ProcessLabel := fun _ t => t;
     ProcessControlFlowInstructionBegin := fun _ t => t;
     ProcessControlFlowInstructionEnd := fun _ t => t;
     ProcessControlFlowNopInstruction := fun _ t => t;
     ProcessExecInstructionBegin := fun instr => record (PExec instr);
     ProcessExecInstructionEnd := fun _ t => t;
     ProcessLoopStartInstruction := fun instr => record (PLoopStart instr);
     ProcessLoopEndInstruction := fun instr => record (PLoopEnd instr);
     ProcessCallInstruction := fun instr => record (PCall instr);
     ProcessReturnInstruction := fun instr => record (PReturn instr);
     ProcessJumpInstruction := fun instr => record (PJump instr);
     ProcessAllocInstruction := fun instr => record (PAlloc instr);
     ProcessVertexFetchInstruction := fun instr => record (PVertexFetch instr);
     ProcessTextureFetchInstruction := fun instr => record (PTextureFetch instr);
     ProcessAluInstruction := fun instr => record (PAlu instr) |}.

(** [s'] has the microcode and the type of [s]. *)
Record same_code (s s' : Shader) : Prop := mk_same_code {
  code_ucode_data : ucode_data_ s' = ucode_data_ s;
  code_type : type_ s' = type_ s
}.

Lemma same_code_program (s1 s2 s3 : Shader) :
  same_code s1 s2 -> same_program s2 s3 -> same_code s1 s3.
Proof.
  intros [Hu Ht] H. constructor.
  - rewrite (same_ucode_data _ _ H). exact Hu.
  - rewrite (same_type _ _ H). exact Ht.
Qed.

(** The analysis state [st] and the translator [t] are at the same point
    of the walk: the backend has recorded what the buffer lists, both
    remember the same full vertex fetch, no translation error has been
    emitted, and the shader under translation has the microcode of the
    one under analysis. *)
Record in_step (recorded0 : list ParsedInstruction) (translation0 : Translation.t)
    (st : AnalysisState) (t : Translator (list ParsedInstruction)) : Prop := mk_in_step {
  step_backend : backend t = recorded0 ++ disassembled (ucode_disasm_buffer st);
  step_previous : previous_vfetch_full_ t = previous_vfetch_full st;
  step_translation : translation t = translation0;
  step_errors : errors_ t = [];
  step_program : same_code (Translation.shader translation0) (shader st)
}.

Lemma disassembled_emit (c : Chunk) (st : AnalysisState) :
  disassembled (ucode_disasm_buffer (emit c st))
  = disassembled (ucode_disasm_buffer st)
    ++ match chunk_instruction c with Some instr => [instr] | None => [] end.
Proof.
  unfold disassembled.
  change (ucode_disasm_buffer (emit c st)) with (ucode_disasm_buffer st ++ [c]).
  rewrite omap_app. reflexivity.
Qed.

Lemma in_step_emit recorded0 translation0 (c : Chunk) st t :
  chunk_instruction c = None ->
  in_step recorded0 translation0 st t -> in_step recorded0 translation0 (emit c st) t.
Proof.
  intros Hc [Hb Hp Ht He Hs].
  constructor; [|exact Hp|exact Ht|exact He|exact Hs].
  rewrite disassembled_emit, Hc, app_nil_r. exact Hb.
Qed.

Lemma in_step_record recorded0 translation0 (instr : ParsedInstruction) st t :
  in_step recorded0 translation0 st t ->
  in_step recorded0 translation0 (emit (Disassemble instr) st) (record instr t).
Proof.
  intros [Hb Hp Ht He Hs].
  constructor; [|exact Hp|exact Ht|exact He|exact Hs].
  rewrite disassembled_emit. cbn [chunk_instruction].
  change (backend (record instr t)) with (backend t ++ [instr]).
  rewrite Hb, app_assoc. reflexivity.
Qed.

Lemma in_step_vertex recorded0 translation0 (op : Dwords3) st t :
  in_step recorded0 translation0 st t ->
  in_step recorded0 translation0 (GatherVertexFetchInformation op st)
    (let '(update, vfetch_instr) :=
       ParseVertexFetchInstruction op (previous_vfetch_full_ t)
         ParsedVertexFetchInstruction.init in
     record (PVertexFetch vfetch_instr)
       (if update then set_previous_vfetch_full_ op t else t)).
Proof.
  intros [Hb Hp Ht He Hs].
  pose proof (same_code_program _ _ _ Hs (GatherVertexFetchInformation_program op st))
    as Hs'.
  revert Hs'. rewrite GatherVertexFetchInformation_effect. intros Hs'.
  rewrite Hp.
  pose proof (ParseVertexFetchInstruction_flag op (previous_vfetch_full st)
                ParsedVertexFetchInstruction.init) as Hflag.
  destruct (ParseVertexFetchInstruction op (previous_vfetch_full st)
              ParsedVertexFetchInstruction.init) as [update vfetch_instr].
  cbn [fst snd] in *. subst update.
  constructor; [| | | |exact Hs'].
  - cbn [ucode_disasm_buffer]. unfold disassembled. rewrite omap_app.
    fold (disassembled (ucode_disasm_buffer st)).
    change (omap chunk_instruction [Disassemble (PVertexFetch vfetch_instr)])
      with [PVertexFetch vfetch_instr].
    rewrite app_assoc, <- Hb. destruct (vf_is_mini_fetch op); reflexivity.
  - cbn [previous_vfetch_full]. destruct (vf_is_mini_fetch op); [exact Hp|reflexivity].
  - destruct (vf_is_mini_fetch op); exact Ht.
  - destruct (vf_is_mini_fetch op); exact He.
Qed.

Lemma in_step_texture recorded0 translation0 (op : Dwords3) st t :
  in_step recorded0 translation0 st t ->
  in_step recorded0 translation0 (GatherTextureFetchInformation op st)
    (record (PTextureFetch
               (ParseTextureFetchInstruction op ParsedTextureFetchInstruction.init)) t).
Proof.
  intros [Hb Hp Ht He Hs].
  pose proof (same_code_program _ _ _ Hs (GatherTextureFetchInformation_program op st))
    as Hs'.
  revert Hs'. rewrite GatherTextureFetchInformation_effect. intros Hs'.
  constructor; [|exact Hp|exact Ht|exact He|exact Hs'].
  cbn [ucode_disasm_buffer]. unfold disassembled. rewrite omap_app.
  fold (disassembled (ucode_disasm_buffer st)).
  rewrite app_assoc, <- Hb. reflexivity.
Qed.

Lemma in_step_alu recorded0 translation0 (op : Dwords3) (count : Z) st t :
  in_step recorded0 translation0 st t ->
  in_step recorded0 translation0 (GatherAluInstructionInformation op count st)
    (let '(alu_instr, logged) :=
       ParseAluInstruction op (type_ (shader st)) ParsedAluInstruction.init in
     record (PAlu alu_instr)
       (translator_log logged t)).
Proof.
  intros [Hb Hp Ht He Hs].
  pose proof (same_code_program _ _ _ Hs
                (GatherAluInstructionInformation_program op count st)) as Hs'.
  revert Hs'. rewrite GatherAluInstructionInformation_effect. intros Hs'.
  destruct (ParseAluInstruction op (type_ (shader st)) ParsedAluInstruction.init)
    as [alu_instr logged].
  cbn [fst snd] in *.
  constructor; [|exact Hp|exact Ht|exact He|exact Hs'].
  cbn [ucode_disasm_buffer]. unfold disassembled. rewrite omap_app.
  fold (disassembled (ucode_disasm_buffer st)).
  rewrite app_assoc, <- Hb. reflexivity.
Qed.

Lemma in_step_slot recorded0 translation0 (count instr_offset sequence : Z) st t :
  in_step recorded0 translation0 st t ->
  in_step recorded0 translation0
    (gather_exec_slot count instr_offset sequence st)
    (translate_exec_slot (BE := recording_backend) instr_offset sequence t).
Proof.
  intros HR. unfold gather_exec_slot.
  assert (HR1 : in_step recorded0 translation0
                  (if nonzero (Z.land sequence 2)
                   then emit (Append "         serialize\n             ")
                          (emit (AppendFormat fmt_instr_offset [instr_offset]) st)
                   else emit (AppendFormat fmt_instr_offset [instr_offset]) st) t).
  { destruct (nonzero (Z.land sequence 2));
      repeat (apply in_step_emit; [reflexivity|]); exact HR. }
  revert HR1. generalize (if nonzero (Z.land sequence 2)
                          then emit (Append "         serialize\n             ")
                                 (emit (AppendFormat fmt_instr_offset [instr_offset]) st)
                          else emit (AppendFormat fmt_instr_offset [instr_offset]) st).
  clear HR st. intros st HR. pose proof HR as [Hb Hp Ht He Hs]. cbv zeta.
  unfold translate_exec_slot, current_shader. cbv zeta.
  rewrite Ht, <- (code_ucode_data _ _ Hs), <- (code_type _ _ Hs).
  destruct (nonzero (Z.land sequence 1)).
  - destruct (bool_decide _).
    + apply in_step_vertex. exact HR.
    + apply in_step_texture. exact HR.
  - apply in_step_alu. exact HR.
Qed.

Lemma in_step_loop recorded0 translation0 (fuel : nat)
    (bound count instr_offset sequence : Z) st t :
  in_step recorded0 translation0 st t ->
  in_step recorded0 translation0
    (gather_exec_loop fuel bound count instr_offset sequence st)
    (translate_exec_loop (BE := recording_backend) fuel bound instr_offset sequence t).
Proof.
  revert instr_offset sequence st t.
  induction fuel as [|fuel IH]; intros instr_offset sequence st t HR;
    cbn [gather_exec_loop translate_exec_loop]; [exact HR|].
  destruct (instr_offset <? bound); [|exact HR].
  apply IH, in_step_slot, HR.
Qed.

Lemma in_step_exec recorded0 translation0 (instr : ParsedExecInstruction.t)
    (count : Z) st t :
  in_step recorded0 translation0 st t ->
  in_step recorded0 translation0 (GatherExecInformation instr count st)
    (TranslateExecInstructions (BE := recording_backend) instr t).
Proof.
  intros HR. unfold GatherExecInformation, TranslateExecInstructions.
  apply (in_step_loop recorded0 translation0). apply in_step_record. exact HR.
Qed.

Lemma in_step_frame recorded0 translation0 (f : Shader -> Shader) st t :
  (forall s, same_program s (f s)) ->
  in_step recorded0 translation0 st t ->
  in_step recorded0 translation0 (on_shader f st) t.
Proof.
  intros Hf [Hb Hp Ht He Hs].
  constructor; [exact Hb|exact Hp|exact Ht|exact He|].
  exact (same_code_program _ _ _ Hs (Hf (shader st))).
Qed.

Lemma mark_bool_constant_program (index : Z) (s : Shader) :
  same_program s (mark_bool_constant index s).
Proof. unfold mark_bool_constant. destruct (negb _); constructor; reflexivity. Qed.

Lemma mark_loop_constant_program (index : Z) (s : Shader) :
  same_program s (mark_loop_constant index s).
Proof. constructor; reflexivity. Qed.

Lemma in_step_cf recorded0 translation0 (i j : Z) (cf : ControlFlowInstruction) st t :
  in_step recorded0 translation0 st t ->
  in_step recorded0 translation0 (analyze_cf i j cf st)
    (translate_cf (BE := recording_backend)
       (label_addresses_ (Translation.shader translation0)) i j cf t).
Proof.
  intros HR. unfold analyze_cf, translate_cf. cbv zeta.
  set (st2 := emit (AppendFormat fmt_cf_index [i; j])
                (if bool_decide (u32 (i * 2 + j) ∈ label_addresses_ (shader st))
                 then emit (AppendFormat fmt_label [u32 (i * 2 + j)]) st
                 else st)).
  set (t2 := set_cf_index_ (u32 (i * 2 + j)) t).
  assert (HR2 : in_step recorded0 translation0 st2 t2).
  { assert (HRt : in_step recorded0 translation0 st t2).
    { destruct HR as [Hb Hp Ht He Hs].
      constructor; [exact Hb|exact Hp|exact Ht|exact He|exact Hs]. }
    unfold st2. apply in_step_emit; [reflexivity|].
    destruct (bool_decide _); [apply in_step_emit; [reflexivity|]|]; exact HRt. }
  assert (Hidx : cf_index_ t2 = u32 (i * 2 + j)) by reflexivity.
  assert (Hty : type_ (current_shader t2) = type_ (shader st2)).
  { destruct HR2 as [_ _ Ht _ Hs]. unfold current_shader. rewrite Ht.
    symmetry. exact (code_type _ _ Hs). }
  clearbody st2 t2.
  assert (Hmark : forall index st3 t3,
             in_step recorded0 translation0 st3 t3 ->
             in_step recorded0 translation0
               (on_shader (mark_bool_constant index) st3) t3).
  { intros index st3 t3. apply in_step_frame. apply mark_bool_constant_program. }
  assert (Hloop : forall index st3 t3,
             in_step recorded0 translation0 st3 t3 ->
             in_step recorded0 translation0
               (on_shader (mark_loop_constant index) st3) t3).
  { intros index st3 t3. apply in_step_frame. apply mark_loop_constant_program. }
  assert (Hgoal :
    in_step recorded0 translation0
      (let '(bool_constant_index, st0) :=
         match cf_opcode cf with
         | ControlFlowOpcode.kNop => (UINT32_MAX, emit (Append "      cnop\n") st2)
         | ControlFlowOpcode.kExec | ControlFlowOpcode.kExecEnd =>
             let instr :=
               ParseControlFlowExec cf (u32 (i * 2 + j)) ParsedExecInstruction.init in
             (UINT32_MAX, GatherExecInformation instr (memexport_alloc_count st2) st2)
         | ControlFlowOpcode.kCondExec | ControlFlowOpcode.kCondExecEnd
         | ControlFlowOpcode.kCondExecPredClean
         | ControlFlowOpcode.kCondExecPredCleanEnd =>
             let instr :=
               ParseControlFlowCondExec cf (u32 (i * 2 + j))
                 ParsedExecInstruction.init in
             (cond_exec_bool_address cf,
              GatherExecInformation instr (memexport_alloc_count st2) st2)
         | ControlFlowOpcode.kCondExecPred | ControlFlowOpcode.kCondExecPredEnd =>
             let instr :=
               ParseControlFlowCondExecPred cf (u32 (i * 2 + j))
                 ParsedExecInstruction.init in
             (UINT32_MAX, GatherExecInformation instr (memexport_alloc_count st2) st2)
         | ControlFlowOpcode.kLoopStart =>
             let instr :=
               ParseControlFlowLoopStart cf (u32 (i * 2 + j))
                 ParsedLoopStartInstruction.init in
             (UINT32_MAX,
              on_shader (mark_loop_constant
                           (ParsedLoopStartInstruction.loop_constant_index instr))
                (emit (Disassemble (PLoopStart instr)) st2))
         | ControlFlowOpcode.kLoopEnd =>
             let instr :=
               ParseControlFlowLoopEnd cf (u32 (i * 2 + j))
                 ParsedLoopEndInstruction.init in
             (UINT32_MAX,
              on_shader (mark_loop_constant
                           (ParsedLoopEndInstruction.loop_constant_index instr))
                (emit (Disassemble (PLoopEnd instr)) st2))
         | ControlFlowOpcode.kCondCall =>
             let instr :=
               ParseControlFlowCondCall cf (u32 (i * 2 + j))
                 ParsedCallInstruction.init in
             (if bool_decide (ParsedCallInstruction.type instr = CfType.kConditional)
              then ParsedCallInstruction.bool_constant_index instr else UINT32_MAX,
              emit (Disassemble (PCall instr)) st2)
         | ControlFlowOpcode.kReturn =>
             let instr :=
               ParseControlFlowReturn cf (u32 (i * 2 + j))
                 ParsedReturnInstruction.init in
             (UINT32_MAX, emit (Disassemble (PReturn instr)) st2)
         | ControlFlowOpcode.kCondJmp =>
             let instr :=
               ParseControlFlowCondJmp cf (u32 (i * 2 + j))
                 ParsedJumpInstruction.init in
             (if bool_decide (ParsedJumpInstruction.type instr = CfType.kConditional)
              then ParsedJumpInstruction.bool_constant_index instr else UINT32_MAX,
              emit (Disassemble (PJump instr)) st2)
         | ControlFlowOpcode.kAlloc =>
             let instr :=
               ParseControlFlowAlloc cf (u32 (i * 2 + j))
                 (bool_decide (type_ (shader st2) = ShaderType.kVertex))
                 ParsedAllocInstruction.init in
             let st := emit (Disassemble (PAlloc instr)) st2 in
             (UINT32_MAX,
              if bool_decide (ParsedAllocInstruction.type instr = AllocType.kMemory)
              then set_memexport_alloc_count (u32 (memexport_alloc_count st + 1)) st
              else st)
         | ControlFlowOpcode.kMarkVsFetchDone => (UINT32_MAX, st2)
         end in
       on_shader (mark_bool_constant bool_constant_index) st0)
      (TranslateControlFlowInstruction (BE := recording_backend) cf t2)).
  { unfold TranslateControlFlowInstruction. rewrite Hidx, Hty.
    destruct (cf_opcode cf); cbv zeta; apply Hmark;
      try (apply in_step_exec; exact HR2);
      try (apply Hloop);
      try (apply in_step_record; exact HR2);
      try (apply in_step_emit; [reflexivity|exact HR2]);
      try exact HR2.
    destruct (bool_decide _).
    - pose proof (in_step_record recorded0 translation0
                    (PAlloc (ParseControlFlowAlloc cf (u32 (i * 2 + j))
                               (bool_decide (type_ (shader st2) = ShaderType.kVertex))
                               ParsedAllocInstruction.init)) st2 t2 HR2)
        as [Hb Hp Ht He Hs].
      constructor; [exact Hb|exact Hp|exact Ht|exact He|exact Hs].
    - apply in_step_record. exact HR2. }
  destruct (bool_decide (u32 (i * 2 + j)
                         ∈ label_addresses_ (Translation.shader translation0)));
    exact Hgoal.
Qed.

Lemma in_step_pairs recorded0 translation0 (l : list Z) st t :
  in_step recorded0 translation0 st t ->
  in_step recorded0 translation0 (foldl analyze_pair st l)
    (foldl (translate_pair (BE := recording_backend)
              (ucode_data_ (Translation.shader translation0))
              (label_addresses_ (Translation.shader translation0))) t l).
Proof.
  revert st t. induction l as [|i l IH]; intros st t HR; cbn [foldl]; [exact HR|].
  apply IH. unfold analyze_pair, translate_pair.
  pose proof HR as [_ _ _ _ Hs].
  rewrite (code_ucode_data _ _ Hs).
  destruct (UnpackControlFlowInstructions _) as [cf_a cf_b].
  apply in_step_cf, in_step_cf. exact HR.
Qed.

(** X19.  Translation and analysis agree on the instruction stream.
    Translating the analyzed shader with a backend that only records the
    parsed instruction of each Process*Instruction call (exec begin, loop
    start and end, call, return, jump, alloc, vertex fetch, texture fetch,
    ALU) records exactly the instructions that the analysis disassembled, in
    the same order, and succeeds without an error. *)
Theorem translation_visits_disassembled_instructions (s : Shader) (evs : list Event)
    (t : Translator (list ParsedInstruction)) :
  Translation.shader (translation t)
  = shader (AnalyzeUcode_body cvars_dump_shaders s evs) ->
  let translated := TranslateAnalyzedShader (BE := recording_backend) t in
  translated.1 = true
  /\ backend translated.2
     = backend t
       ++ disassembled (ucode_disassembly_ (Translation.shader (translation t))).
Proof.
  intros Hshader. cbv zeta.
  pose proof (AnalyzeUcode_body_analyzed cvars_dump_shaders s evs) as Ha.
  destruct (AnalyzeUcode_body_program cvars_dump_shaders s evs)
    as (P1 & P2 & P3 & P4 & P5).
  cbv zeta in P1, P2, P3, P4, P5.
  destruct (AnalyzeUcode_body_tail cvars_dump_shaders s evs)
    as (_ & _ & _ & Hbuf & _).
  cbv zeta in Hbuf.
  rewrite <- Hshader in Ha, P1, P2, P3, P4, P5.
  unfold TranslateAnalyzedShader. cbv zeta. rewrite Ha. cbn [negb].
  cbn [CompleteTranslation PostTranslation StartTranslation
       PreProcessControlFlowInstructions GetModificationRegisterCount
       recording_backend].
  match goal with
  | |- context [foldl (translate_pair ?u ?l) ?t0 ?xs] =>
      assert (HR : in_step (backend t) (translation t) (analysis_walk s evs)
                     (foldl (translate_pair (BE := recording_backend) u l) t0 xs));
      [ | set (T := foldl (translate_pair u l) t0 xs) in * ]
  end.
  { unfold analysis_walk. cbv zeta. rewrite P3.
    apply in_step_pairs.
    assert (H0 : in_step (backend t) (translation t)
                   (mkAnalysisState (scan_control_flow s).1 (0, 0, 0) 0 0 0 [] evs)
                   (Reset t)).
    { constructor; cbn.
      - rewrite app_nil_r. reflexivity.
      - reflexivity.
      - reflexivity.
      - reflexivity.
      - constructor.
        + rewrite P1. destruct (scan_control_flow_cfs s) as (_ & _ & Hu). exact Hu.
        + rewrite P2. exact (scan_control_flow_type s). }
    destruct (uses_register_dynamic_addressing_ _);
      destruct H0 as [Hb Hp Ht He Hs]; constructor; assumption. }
  destruct HR as [Hb _ _ He _].
  split.
  - cbn. replace (errors_ T) with (@nil ShaderError.t) by (symmetry; exact He).
    reflexivity.
  - cbn. rewrite P5, Hbuf. exact Hb.
Qed.


End Recorder.

(** ** The properties on concrete microcode *)

Lemma ParseFetchInstructionResult_decodes_witness :
  length (InstructionResult.components InstructionResult.init) = 4%nat
  /\ Z.testbit
       (InstructionResult.original_write_mask
          (ParseFetchInstructionResult 3 3937 true InstructionResult.init)) 3 = false
  /\ arr_get SwizzleSource.kX
       (InstructionResult.components
          (ParseFetchInstructionResult 3 3937 true InstructionResult.init)) 2
     = SwizzleSource.k1.
Proof.
  split; [reflexivity|].
  destruct (ParseFetchInstructionResult_decodes 3 3937 true InstructionResult.init eq_refl)
    as (_ & _ & _ & _ & Hfields & _).
  split.
  - exact (proj1 (Hfields 3 ltac:(lia))).
  - exact (proj2 (Hfields 2 ltac:(lia))).
Defined.

Lemma ParseAluInstruction_operands_fit_witness :
  length (ParsedAluInstruction.vector_operands ParsedAluInstruction.init) = 3%nat
  /\ length (ParsedAluInstruction.scalar_operands ParsedAluInstruction.init) = 2%nat
  /\ 0 <= ParsedAluInstruction.vector_operand_count Sample.parsed_export_nop <= 3.
Proof.
  split; [reflexivity|]. split; [reflexivity|].
  exact (proj1 (ParseAluInstruction_operands_fit
                  (ER := Xenos.export_register_decl) (ALU := Xenos.alu_decl)
                  Sample.alu_export_nop ShaderType.kVertex ParsedAluInstruction.init
                  eq_refl eq_refl)).
Defined.

Lemma ParseAluInstructionOperand_swizzle4_witness :
  length (InstructionOperand.components InstructionOperand.init) = 4%nat
  /\ Z.land (alu_src_swizzle (AluInstructionDecl := Xenos.alu_decl)
               Sample.alu_export_nop 1) 255 = 0
  /\ InstructionOperand.components
       (ParseAluInstructionOperand (ALU := Xenos.alu_decl) Sample.alu_export_nop 1 4
          InstructionOperand.init)
     = [SwizzleSource.kX; SwizzleSource.kY; SwizzleSource.kZ; SwizzleSource.kW].
Proof.
  split; [reflexivity|]. split; [reflexivity|].
  exact (proj2 (ParseAluInstructionOperand_swizzle4 (ALU := Xenos.alu_decl)
                  Sample.alu_export_nop 1 InstructionOperand.init eq_refl) eq_refl).
Defined.

(** [max r0._, r0, r0] with [retain_prev]: the instruction that stands for
    no operation at all. *)
Definition parsed_register_nop : ParsedAluInstruction.t :=
  (ParseAluInstruction (ER := Xenos.export_register_decl) (ALU := Xenos.alu_decl)
     (50 * 2 ^ 26, 0, 2 * 2 ^ 24 + 2 ^ 29 + 2 ^ 30 + 2 ^ 31)
     ShaderType.kVertex ParsedAluInstruction.init).1.

Lemma default_nops_leave_exports_witness :
  IsVectorOpDefaultNop (SD := Xenos.shader_decl) parsed_register_nop = true
  /\ IsScalarOpDefaultNop parsed_register_nop = true
  /\ InstructionResult.storage_target
       (ParsedAluInstruction.vector_and_constant_result parsed_register_nop)
     = InstructionStorageTarget.kRegister.
Proof.
  split; [vm_compute; reflexivity|]. split; [vm_compute; reflexivity|].
  exact (proj1 (default_nops_leave_exports (SD := Xenos.shader_decl) parsed_register_nop
                  eq_refl eq_refl)).
Defined.

Definition exec_two_instructions : ParsedExecInstruction.t :=
  ParsedExecInstruction.mk 0 ControlFlowOpcode.kExec None 1 2 CfType.kUnconditional
    0 false false true false 4.

Lemma exec_block_visits_each_instruction_once_witness :
  0 <= ParsedExecInstruction.instruction_address exec_two_instructions
  /\ 0 <= ParsedExecInstruction.instruction_count exec_two_instructions
  /\ ParsedExecInstruction.instruction_address exec_two_instructions
     + ParsedExecInstruction.instruction_count exec_two_instructions < 2 ^ 32
  /\ GatherExecInformation (SD := Xenos.shader_decl) (ER := Xenos.export_register_decl)
       (ALU := Xenos.alu_decl) (VF := Xenos.vertex_fetch_decl)
       (TF := Xenos.texture_fetch_decl) (CF := Xenos.control_flow_decl)
       exec_two_instructions 0 SampleFetch.state0
     = foldl (fun st k =>
                gather_exec_slot (SD := Xenos.shader_decl)
                  (ER := Xenos.export_register_decl) (ALU := Xenos.alu_decl)
                  (VF := Xenos.vertex_fetch_decl) (TF := Xenos.texture_fetch_decl)
                  (CF := Xenos.control_flow_decl) 0 (1 + k) (Z.shiftr 4 (2 * k)) st)
         (emit (Disassemble (PExec exec_two_instructions)) SampleFetch.state0)
         [0; 1].
Proof.
  split; [vm_compute; discriminate|]. split; [vm_compute; discriminate|].
  split; [vm_compute; reflexivity|].
  exact (proj1 (exec_block_visits_each_instruction_once (SD := Xenos.shader_decl)
                  (ER := Xenos.export_register_decl) (ALU := Xenos.alu_decl)
                  (VF := Xenos.vertex_fetch_decl) (TF := Xenos.texture_fetch_decl)
                  (CF := Xenos.control_flow_decl) (BE := SampleProgram.null_backend)
                  exec_two_instructions
                  ltac:(vm_compute; discriminate) ltac:(vm_compute; discriminate)
                  ltac:(vm_compute; reflexivity))
           0 SampleFetch.state0).
Defined.

Lemma vertex_bindings_stay_well_formed_witness :
  vertex_bindings_ok
    (vertex_bindings_
       (Xenos.new_shader ShaderType.kVertex
          (SampleFetchUsage.program SampleFetch.vfetch_full)))
  /\ vertex_bindings_ok
       (vertex_bindings_ (shader (SampleFetchUsage.analyzed SampleFetch.vfetch_full))).
Proof.
  assert (Hnone : vertex_bindings_ok
                    (vertex_bindings_
                       (Xenos.new_shader ShaderType.kVertex
                          (SampleFetchUsage.program SampleFetch.vfetch_full)))).
  { split; [intros k binding Hk; destruct k; discriminate Hk | constructor]. }
  split; [exact Hnone|].
  exact (vertex_bindings_stay_well_formed (SD := Xenos.shader_decl)
           (ER := Xenos.export_register_decl) (ALU := Xenos.alu_decl)
           (VF := Xenos.vertex_fetch_decl) (TF := Xenos.texture_fetch_decl)
           (CF := Xenos.control_flow_decl) EmptyString _ [] Hnone).
Defined.

(** One control-flow pair: [cexec] of nothing at address 1 on the bool
    constant 37, then [cnop]. *)
Definition cond_exec_program : list Z := [1; 37 * 2 ^ 2 + 3 * 2 ^ 12; 0].

Lemma control_flow_constants_marked_witness :
  length (ConstantRegisterMap.bool_bitmap
            (constant_register_map_
               (Xenos.new_shader ShaderType.kVertex cond_exec_program))) = 8%nat
  /\ bool_constant_marked 37
       (shader
          (AnalyzeUcode_body (SD := Xenos.shader_decl) (ER := Xenos.export_register_decl)
             (ALU := Xenos.alu_decl) (VF := Xenos.vertex_fetch_decl)
             (TF := Xenos.texture_fetch_decl) (CF := Xenos.control_flow_decl)
             EmptyString (Xenos.new_shader ShaderType.kVertex cond_exec_program) [])).
Proof.
  split; [reflexivity|].
  refine (control_flow_constants_marked (SD := Xenos.shader_decl)
            (ER := Xenos.export_register_decl) (ALU := Xenos.alu_decl)
            (VF := Xenos.vertex_fetch_decl) (TF := Xenos.texture_fetch_decl)
            (CF := Xenos.control_flow_decl) EmptyString
            (Xenos.new_shader ShaderType.kVertex cond_exec_program) [] eq_refl
            (1, 37 * 2 ^ 2 + 3 * 2 ^ 12) _ _).
  - vm_compute. constructor.
  - vm_compute. split; [discriminate|reflexivity].
Defined.

Lemma pos_bit_count_size (p : positive) :
  0 <= Xenos.pos_bit_count p <= Z.pos (Pos.size p).
Proof.
  induction p as [p IH|p IH|]; cbn [Xenos.pos_bit_count Pos.size]; lia.
Qed.

Lemma popcount_uint64 (w : Z) : is_uint64 w -> 0 <= Xenos.popcount w <= 64.
Proof.
  intros [Hlo Hhi]. destruct w as [|p|p]; cbn [Xenos.popcount]; [lia| |lia].
  pose proof (pos_bit_count_size p) as Hs.
  assert (Hsize : Z.pos (Pos.size p) <= 64).
  { pose proof (Pos.size_le p) as Hle.
    assert (Hz : 2 ^ Z.pos (Pos.size p) <= Z.pos p~0).
    { rewrite <- Pos2Z.inj_pow. exact Hle. }
    destruct (Z.le_gt_cases (Z.pos (Pos.size p)) 64) as [H|H]; [exact H|].
    assert (2 ^ 65 <= 2 ^ Z.pos (Pos.size p)) by (apply Z.pow_le_mono_r; lia).
    lia. }
  lia.
Qed.

Lemma float_count_at_most_256_witness :
  (forall w, is_uint64 w -> 0 <= bit_count (ShaderDecl := Xenos.shader_decl) w <= 64)
  /\ float_words_ok
       (Xenos.new_shader ShaderType.kVertex
          (SampleFetchUsage.program SampleFetch.vfetch_full))
  /\ 0 <= ConstantRegisterMap.float_count
            (constant_register_map_
               (shader (SampleFetchUsage.analyzed SampleFetch.vfetch_full))) <= 256.
Proof.
  assert (Hwords : float_words_ok
                     (Xenos.new_shader ShaderType.kVertex
                        (SampleFetchUsage.program SampleFetch.vfetch_full))).
  { repeat constructor; vm_compute; congruence. }
  split; [exact popcount_uint64|]. split; [exact Hwords|].
  exact (proj1 (float_count_at_most_256 (SD := Xenos.shader_decl)
                  (ER := Xenos.export_register_decl) (ALU := Xenos.alu_decl)
                  (VF := Xenos.vertex_fetch_decl) (TF := Xenos.texture_fetch_decl)
                  (CF := Xenos.control_flow_decl) EmptyString _ []
                  popcount_uint64 Hwords)).
Defined.

Lemma results_feed_usage_witness :
  nonzero
    (GetUsedWriteMask (ShaderDecl := Xenos.shader_decl)
       (ParsedVertexFetchInstruction.result
          (ParseVertexFetchInstruction (VF := Xenos.vertex_fetch_decl)
             SampleFetch.vfetch_mini (0, 0, 0) ParsedVertexFetchInstruction.init).2))
  = true
  /\ fetch_result_accounted
       (ParsedVertexFetchInstruction.result
          (ParseVertexFetchInstruction (VF := Xenos.vertex_fetch_decl)
             SampleFetch.vfetch_mini (0, 0, 0) ParsedVertexFetchInstruction.init).2)
       (shader
          (GatherVertexFetchInformation (SD := Xenos.shader_decl)
             (VF := Xenos.vertex_fetch_decl) SampleFetch.vfetch_mini SampleFetch.state0)).
Proof.
  split; [vm_compute; reflexivity|].
  destruct (results_feed_usage (SD := Xenos.shader_decl)
              (ER := Xenos.export_register_decl) (ALU := Xenos.alu_decl)
              (VF := Xenos.vertex_fetch_decl) (TF := Xenos.texture_fetch_decl)
              SampleFetch.vfetch_mini 0 SampleFetch.state0)
    as (_ & _ & _ & Hvertex).
  apply Hvertex. vm_compute. reflexivity.
Defined.

(** A translator with the recording backend on the analyzed program of one
    vertex fetch. *)
Definition recording_translator : Translator (list ParsedInstruction) :=
  mkTranslator [] [] (0, 0, 0) 0 0
    (Translation.mk (shader (SampleFetchUsage.analyzed SampleFetch.vfetch_full))
       [] [] false false) [].

Lemma translation_visits_disassembled_instructions_witness :
  Translation.shader (translation recording_translator)
  = shader
      (AnalyzeUcode_body (SD := Xenos.shader_decl) (ER := Xenos.export_register_decl)
         (ALU := Xenos.alu_decl) (VF := Xenos.vertex_fetch_decl)
         (TF := Xenos.texture_fetch_decl) (CF := Xenos.control_flow_decl)
         EmptyString
         (Xenos.new_shader ShaderType.kVertex
            (SampleFetchUsage.program SampleFetch.vfetch_full)) [])
  /\ backend
       (TranslateAnalyzedShader (SD := Xenos.shader_decl)
          (ER := Xenos.export_register_decl) (ALU := Xenos.alu_decl)
          (VF := Xenos.vertex_fetch_decl) (TF := Xenos.texture_fetch_decl)
          (CF := Xenos.control_flow_decl)
          (BE := recording_backend (CF := Xenos.control_flow_decl))
          recording_translator).2
     = backend recording_translator
       ++ disassembled
            (ucode_disassembly_ (Translation.shader (translation recording_translator))).
Proof.
  assert (Hshader :
    Translation.shader (translation recording_translator)
    = shader
        (AnalyzeUcode_body (SD := Xenos.shader_decl) (ER := Xenos.export_register_decl)
           (ALU := Xenos.alu_decl) (VF := Xenos.vertex_fetch_decl)
           (TF := Xenos.texture_fetch_decl) (CF := Xenos.control_flow_decl)
           EmptyString
           (Xenos.new_shader ShaderType.kVertex
              (SampleFetchUsage.program SampleFetch.vfetch_full)) []))
    by (vm_compute; reflexivity).
  split; [exact Hshader|].
  exact (proj2 (translation_visits_disassembled_instructions (SD := Xenos.shader_decl)
                  (ER := Xenos.export_register_decl) (ALU := Xenos.alu_decl)
                  (VF := Xenos.vertex_fetch_decl) (TF := Xenos.texture_fetch_decl)
                  (CF := Xenos.control_flow_decl) EmptyString
                  (Xenos.new_shader ShaderType.kVertex
                     (SampleFetchUsage.program SampleFetch.vfetch_full)) []
                  recording_translator Hshader)).
Defined.
